(** * FreeformStateManager: a shallow embedding of freeform_state_manager.js

    The development follows the class [FreeformStateManager]: the file-size
    formatter, the JSON payload kept in web storage, the form model read by
    [extractFormState] and written by [applyFormState], and the manager with
    its registry, storage and timers. *)

From Stdlib Require Import ZArith Lia Ascii String.
From stdpp Require Import gmap strings list pretty.

Set Warnings "-register-all".

Local Open Scope Z_scope.
Local Open Scope string_scope.
Local Open Scope list_scope.

(** ** File sizes: [formatFileSize]

    [bytes] is a JavaScript number holding an integer (a [File.size]).
    Dividing such a number by a power of 1024 is exact in binary floating
    point, and [toFixed(2)] rounds the exact value to the nearest hundredth,
    taking the larger candidate on a tie, so the numeric part is computed
    here on integers.  [Math.floor(Math.log(bytes) / Math.log(k))] is taken
    to be the exact integer logarithm to base 1024. *)
Module FileSize.

Definition k : Z := 1024.

Definition sizes : list string := ["Bytes"; "KB"; "MB"; "GB"].

(** [sizes[i]] followed by the string conversion of [+]: an index outside
    the array reads [undefined]. *)
Definition sizes_at (i : Z) : string :=
  if decide (0 <= i) then default "undefined" (sizes !! Z.to_nat i)
  else "undefined".

(** [Math.floor(Math.log(bytes) / Math.log(k))] for [bytes >= 1]. *)
Definition log_k_floor (bytes : Z) : Z := Z.log2 bytes / 10.

(** [(bytes / Math.pow(k, i)).toFixed(2)], as a number of hundredths. *)
Definition toFixed2 (bytes i : Z) : Z :=
  (200 * bytes + k ^ i) / (2 * k ^ i).

(** [parseFloat(h / 100) + ''] for a number of hundredths [h >= 0]: the
    shortest decimal, so trailing zeros of the fraction are dropped. *)
Definition show_hundredths (h : Z) : string :=
  let int_part := pretty (h / 100) in
  let frac := h mod 100 in
  if decide (frac = 0) then int_part
  else if decide (frac mod 10 = 0) then int_part +:+ "." +:+ pretty (frac / 10)
  else int_part +:+ "." +:+ pretty (frac / 10) +:+ pretty (frac mod 10).

Definition formatFileSize (bytes : Z) : string :=
  if decide (bytes = 0) then "0 Bytes"
  else if decide (bytes < 0) then "NaN undefined"
  else
    let i := log_k_floor bytes in
    show_hundredths (toFixed2 bytes i) +:+ " " +:+ sizes_at i.

(** The text before the first space: the numeric part of a formatted size. *)
Fixpoint numeric_part (s : string) : string :=
  match s with
  | EmptyString => EmptyString
  | String c s' => if decide (c = " "%char) then EmptyString
                   else String c (numeric_part s')
  end.

(** The text after the first space: the unit of a formatted size. *)
Fixpoint unit_part (s : string) : string :=
  match s with
  | EmptyString => EmptyString
  | String c s' => if decide (c = " "%char) then s' else unit_part s'
  end.

Definition is_digit (c : ascii) : bool :=
  bool_decide (48 <= Z.of_nat (nat_of_ascii c) <= 57).

(** A decimal numeral with exactly two digits after the point. *)
Fixpoint two_decimal_places (s : string) : bool :=
  match s with
  | EmptyString => false
  | String c s' =>
      if decide (c = "."%char) then
        match s' with
        | String d1 (String d2 EmptyString) => is_digit d1 && is_digit d2
        | _ => false
        end
      else is_digit c && two_decimal_places s'
  end.

End FileSize.

(** ** JavaScript values

    Strings are byte strings (the UTF-8 form of the JavaScript string), and
    numbers are the integers of the safe range, which is where the
    timestamps of [Date.now()] and the sizes of files live.  An object is
    the list of its own enumerable properties in the order in which
    [Object.entries] and [JSON.stringify] enumerate them: array-index keys
    in ascending order first, then the other keys in insertion order. *)
Module JS.

Record FileRef := mkFileRef {
  file_name : string;
  file_size : Z;
  file_type : string
}.

Inductive value :=
  | VUndefined
  | VNull
  | VBool (b : bool)
  | VNum (n : Z)
  | VStr (s : string)
  | VFile (f : FileRef)            (* a File object, as FormData yields it *)
  | VNative (member : string)      (* a member inherited from Object.prototype *)
  | VArr (items : list value)
  | VObj (props : list (string * value)).

#[global] Instance FileRef_eq_dec : EqDecision FileRef.
Proof. solve_decision. Defined.

(** ToBoolean. *)
Definition truthy (v : value) : bool :=
  match v with
  | VUndefined | VNull => false
  | VBool b => b
  | VNum n => negb (n =? 0)%Z
  | VStr s => negb (String.eqb s EmptyString)
  | VFile _ | VNative _ | VArr _ | VObj _ => true
  end.

(** [x === s] for a string [s]. *)
Definition strict_eq_str (x : value) (s : string) : bool :=
  match x with VStr t => String.eqb t s | _ => false end.

(** [items.includes(s)] for a string [s]. *)
Definition includes (items : list value) (s : string) : bool :=
  existsb (fun x => strict_eq_str x s) items.

(** The names that every plain object inherits from [Object.prototype]. *)
Definition object_prototype_members : list string :=
  [ "constructor"; "hasOwnProperty"; "isPrototypeOf"; "propertyIsEnumerable";
    "toLocaleString"; "toString"; "valueOf"; "__defineGetter__";
    "__defineSetter__"; "__lookupGetter__"; "__lookupSetter__"; "__proto__" ].

Definition digit_value (c : ascii) : option Z :=
  let n := Z.of_nat (nat_of_ascii c) in
  if decide (48 <= n <= 57) then Some (n - 48) else None.

Fixpoint digits_value (acc : Z) (s : string) : option Z :=
  match s with
  | EmptyString => Some acc
  | String c s' =>
      match digit_value c with
      | Some d => digits_value (10 * acc + d) s'
      | None => None
      end
  end.

(** A property key that is an array index: the canonical decimal numeral of
    an integer below 2^32 - 1. *)
Definition array_index (key : string) : option Z :=
  match key with
  | EmptyString => None
  | _ =>
      match digits_value 0 key with
      | Some n =>
          if decide (n <= 4294967294) then
            if String.eqb (pretty n) key then Some n else None
          else None
      | None => None
      end
  end.

Definition props := list (string * value).

Fixpoint get_own (key : string) (o : props) : option value :=
  match o with
  | [] => None
  | (k, v) :: o' => if String.eqb k key then Some v else get_own key o'
  end.

(** [o[key]] on a plain object: own properties, then [Object.prototype]. *)
Definition get (key : string) (o : props) : value :=
  match get_own key o with
  | Some v => v
  | None =>
      if bool_decide (key ∈ object_prototype_members) then VNative key
      else VUndefined
  end.

Fixpoint replace_own (key : string) (v : value) (o : props) : props :=
  match o with
  | [] => []
  | (k, w) :: o' =>
      if String.eqb k key then (k, v) :: o' else (k, w) :: replace_own key v o'
  end.

(** Where a new array-index key goes: before the first key that is not an
    array index or is a larger one. *)
Fixpoint insert_index (n : Z) (key : string) (v : value) (o : props) : props :=
  match o with
  | [] => [(key, v)]
  | (k, w) :: o' =>
      match array_index k with
      | Some m => if decide (m < n) then (k, w) :: insert_index n key v o'
                  else (key, v) :: o
      | None => (key, v) :: o
      end
  end.

(** [o[key] = v] for a key other than [__proto__]. *)
Definition set (key : string) (v : value) (o : props) : props :=
  match get_own key o with
  | Some _ => replace_own key v o
  | None =>
      match array_index key with
      | Some n => insert_index n key v o
      | None => (o ++ [(key, v)])%list
      end
  end.

End JS.

(** ** JSON: the payload format of web storage *)
Module JSON.
Import JS.

Definition hex_digit (n : Z) : ascii :=
  ascii_of_nat (Z.to_nat (if decide (n < 10) then 48 + n else 87 + n)).

Definition dquote : ascii := ascii_of_nat 34.

(** QuoteJSONString, without the surrounding quotes. *)
Fixpoint quote_body (s : string) : string :=
  match s with
  | EmptyString => EmptyString
  | String c s' =>
      let n := Z.of_nat (nat_of_ascii c) in
      (if decide (n = 34) then String "\" (String dquote EmptyString)
       else if decide (n = 92) then "\\"
       else if decide (n = 8) then "\b"
       else if decide (n = 12) then "\f"
       else if decide (n = 10) then "\n"
       else if decide (n = 13) then "\r"
       else if decide (n = 9) then "\t"
       else if decide (n < 32) then
         "\u00" +:+ String (hex_digit (n / 16))
                    (String (hex_digit (n mod 16)) EmptyString)
       else String c EmptyString)
      +:+ quote_body s'
  end.

Definition quote (s : string) : string :=
  String dquote (quote_body s +:+ String dquote EmptyString).

Fixpoint join_comma (parts : list string) : string :=
  match parts with
  | [] => EmptyString
  | [p] => p
  | p :: rest => p +:+ "," +:+ join_comma rest
  end.

(** [JSON.stringify(v)]; [None] stands for the result [undefined].  A File
    has no own enumerable property and is written as an empty object. *)
Fixpoint stringify (v : value) : option string :=
  match v with
  | VUndefined => None
  | VNative m => if String.eqb m "__proto__" then Some "{}" else None
  | VNull => Some "null"
  | VBool b => Some (if b then "true" else "false")
  | VNum n => Some (pretty n)
  | VStr s => Some (quote s)
  | VFile _ => Some "{}"
  | VArr items =>
      Some ("[" +:+ join_comma (map (fun x => default "null" (stringify x)) items)
            +:+ "]")
  | VObj ps =>
      Some ("{" +:+ join_comma
                      (omap (fun p => (fun t => quote p.1 +:+ ":" +:+ t)
                                        <$> stringify p.2) ps)
            +:+ "}")
  end.

(** *** Parsing *)

Inductive parsed (A : Type) :=
  | Parsed (a : A) (rest : string)
  | SyntaxError
  | Unsupported.   (* valid JSON outside the value model: a fraction, an
                      exponent, an integer beyond the safe range, or an
                      escape above U+007F *)
Arguments Parsed {A} a rest.
Arguments SyntaxError {A}.
Arguments Unsupported {A}.

Definition is_ws (c : ascii) : bool :=
  let n := nat_of_ascii c in
  bool_decide (n = 32%nat ∨ n = 9%nat ∨ n = 10%nat ∨ n = 13%nat).

Fixpoint skip_ws (s : string) : string :=
  match s with
  | String c s' => if is_ws c then skip_ws s' else s
  | EmptyString => s
  end.

Definition hex_value (c : ascii) : option Z :=
  let n := Z.of_nat (nat_of_ascii c) in
  if decide (48 <= n <= 57) then Some (n - 48)
  else if decide (97 <= n <= 102) then Some (n - 87)
  else if decide (65 <= n <= 70) then Some (n - 55)
  else None.

(** The characters of a string literal after its opening quote. *)
Fixpoint parse_string_body (s : string) : parsed string :=
  match s with
  | EmptyString => SyntaxError
  | String c s' =>
      let n := Z.of_nat (nat_of_ascii c) in
      let cons_to (d : ascii) (r : parsed string) :=
        match r with
        | Parsed t rest => Parsed (String d t) rest
        | SyntaxError => SyntaxError
        | Unsupported => Unsupported
        end in
      if decide (n = 34) then Parsed EmptyString s'
      else if decide (n < 32) then SyntaxError
      else if decide (n = 92) then
        match s' with
        | String e s'' =>
            let m := Z.of_nat (nat_of_ascii e) in
            if decide (m = 34 ∨ m = 92 ∨ m = 47) then
              cons_to e (parse_string_body s'')
            else if decide (m = 98) then
              cons_to (ascii_of_nat 8) (parse_string_body s'')
            else if decide (m = 102) then
              cons_to (ascii_of_nat 12) (parse_string_body s'')
            else if decide (m = 110) then
              cons_to (ascii_of_nat 10) (parse_string_body s'')
            else if decide (m = 114) then
              cons_to (ascii_of_nat 13) (parse_string_body s'')
            else if decide (m = 116) then
              cons_to (ascii_of_nat 9) (parse_string_body s'')
            else if decide (m = 117) then
              match s'' with
              | String h1 (String h2 (String h3 (String h4 s4))) =>
                  match hex_value h1, hex_value h2, hex_value h3, hex_value h4 with
                  | Some a, Some b, Some c', Some d =>
                      let code := ((a * 16 + b) * 16 + c') * 16 + d in
                      if decide (code < 128) then
                        cons_to (ascii_of_nat (Z.to_nat code))
                                (parse_string_body s4)
                      else Unsupported
                  | _, _, _, _ => SyntaxError
                  end
              | _ => SyntaxError
              end
            else SyntaxError
        | EmptyString => SyntaxError
        end
      else cons_to c (parse_string_body s')
  end.

(** The digits at the head of [s], their value accumulated in [acc]. *)
Fixpoint parse_digits (acc : Z) (s : string) : Z * string :=
  match s with
  | String c s' =>
      match digit_value c with
      | Some d => parse_digits (10 * acc + d) s'
      | None => (acc, s)
      end
  | EmptyString => (acc, s)
  end.

Definition safe_integer : Z := 9007199254740991.

(** A number literal without its sign; [s] starts with a digit. *)
Definition parse_unsigned (s : string) : parsed Z :=
  match s with
  | String c s' =>
      match digit_value c with
      | Some d =>
          let '(n, rest) := if decide (d = 0) then (0, s') else parse_digits d s' in
          match rest with
          | String r _ =>
              if bool_decide (r = "."%char ∨ r = "e"%char ∨ r = "E"%char)
              then Unsupported
              else if decide (n <= safe_integer) then Parsed n rest
                   else Unsupported
          | EmptyString =>
              if decide (n <= safe_integer) then Parsed n rest else Unsupported
          end
      | None => SyntaxError
      end
  | EmptyString => SyntaxError
  end.

Definition parse_literal (word : string) (v : value) (s : string) : parsed value :=
  if String.prefix word s
  then Parsed v (String.substring (String.length word)
                                  (String.length s - String.length word) s)
  else SyntaxError.

Definition bind_parsed {A B} (r : parsed A) (f : A -> string -> parsed B) : parsed B :=
  match r with
  | Parsed a rest => f a rest
  | SyntaxError => SyntaxError
  | Unsupported => Unsupported
  end.

(** Recursive descent over the JSON grammar.  [fuel] bounds the number of
    nested calls; running out of it is reported as [Unsupported], never as a
    syntax error. *)
Fixpoint parse_value (fuel : nat) (s : string) : parsed value :=
  match fuel with
  | O => Unsupported
  | S fuel' =>
      match skip_ws s with
      | EmptyString => SyntaxError
      | String c s' =>
          if decide (c = dquote) then
            bind_parsed (parse_string_body s') (fun t rest => Parsed (VStr t) rest)
          else if decide (c = "["%char) then
            match skip_ws s' with
            | String c' r =>
                if decide (c' = "]"%char) then Parsed (VArr []) r
                else parse_elements fuel' s' []
            | EmptyString => SyntaxError
            end
          else if decide (c = "{"%char) then
            match skip_ws s' with
            | String c' r =>
                if decide (c' = "}"%char) then Parsed (VObj []) r
                else parse_members fuel' s' []
            | EmptyString => SyntaxError
            end
          else if decide (c = "-"%char) then
            bind_parsed (parse_unsigned s') (fun n rest => Parsed (VNum (- n)) rest)
          else if decide (c = "t"%char) then parse_literal "true" (VBool true) (String c s')
          else if decide (c = "f"%char) then parse_literal "false" (VBool false) (String c s')
          else if decide (c = "n"%char) then parse_literal "null" VNull (String c s')
          else bind_parsed (parse_unsigned (String c s'))
                           (fun n rest => Parsed (VNum n) rest)
      end
  end
with parse_elements (fuel : nat) (s : string) (acc : list value) : parsed value :=
  match fuel with
  | O => Unsupported
  | S fuel' =>
      bind_parsed (parse_value fuel' s) (fun v rest =>
        match skip_ws rest with
        | String c r =>
            if decide (c = ","%char) then parse_elements fuel' r (acc ++ [v])%list
            else if decide (c = "]"%char) then Parsed (VArr (acc ++ [v])%list) r
            else SyntaxError
        | EmptyString => SyntaxError
        end)
  end
with parse_members (fuel : nat) (s : string) (acc : props) : parsed value :=
  match fuel with
  | O => Unsupported
  | S fuel' =>
      match skip_ws s with
      | String q s' =>
          if decide (q = dquote) then
            bind_parsed (parse_string_body s') (fun key rest =>
              match skip_ws rest with
              | String colon r =>
                  if decide (colon = ":"%char) then
                    bind_parsed (parse_value fuel' r) (fun v rest' =>
                      match skip_ws rest' with
                      | String c r' =>
                          if decide (c = ","%char) then
                            parse_members fuel' r' (JS.set key v acc)
                          else if decide (c = "}"%char) then
                            Parsed (VObj (JS.set key v acc)) r'
                          else SyntaxError
                      | EmptyString => SyntaxError
                      end)
                  else SyntaxError
              | EmptyString => SyntaxError
              end)
          else SyntaxError
      | EmptyString => SyntaxError
      end
  end.

Inductive outcome :=
  | Value (v : value)
  | Throws          (* SyntaxError: the text is not JSON *)
  | Unmodelled.     (* JSON that [value] cannot hold *)

(** [JSON.parse(text)]. *)
Definition parse (text : string) : outcome :=
  match parse_value (2 * String.length text + 2) text with
  | Parsed v rest =>
      match skip_ws rest with
      | EmptyString => Value v
      | String _ _ => Throws
      end
  | SyntaxError => Throws
  | Unsupported => Unmodelled
  end.

End JSON.

(** ** Computations that mutate a state and may throw

    A JavaScript function that updates an object in place is a function on
    the state [S] of that object.  [Raised s] is an exception leaving the
    function with the state as far as it was updated; [NotModelled] marks an
    input on which the embedding makes no statement. *)
Module Run.

Inductive result (S A : Type) :=
  | Done (a : A) (s : S)
  | Raised (s : S)
  | NotModelled.
Arguments Done {S A} a s.
Arguments Raised {S A} s.
Arguments NotModelled {S A}.

Definition M (S A : Type) : Type := S -> result S A.

Definition ret {S A} (a : A) : M S A := fun s => Done a s.

Definition bind {S A B} (m : M S A) (f : A -> M S B) : M S B :=
  fun s =>
    match m s with
    | Done a s' => f a s'
    | Raised s' => Raised s'
    | NotModelled => NotModelled
    end.

Definition throw {S A} : M S A := fun s => Raised s.
Definition not_modelled {S A} : M S A := fun _ => NotModelled.
Definition get_state {S} : M S S := fun s => Done s s.
Definition put_state {S} (s : S) : M S unit := fun _ => Done tt s.
Definition modify {S} (f : S -> S) : M S unit := fun s => Done tt (f s).

(** [try { m } catch (error) { }]: the exception is swallowed and the
    updates made before it stay. *)
Definition try_catch {S} (m : M S unit) : M S unit :=
  fun s =>
    match m s with
    | Done a s' => Done a s'
    | Raised s' => Done tt s'
    | NotModelled => NotModelled
    end.

(** [items.forEach(f)]. *)
Fixpoint forEach {S A} (items : list A) (f : A -> M S unit) : M S unit :=
  match items with
  | [] => ret tt
  | x :: rest => bind (f x) (fun _ => forEach rest f)
  end.

End Run.

#[global] Instance run_ret {S} : MRet (Run.M S) := fun A => @Run.ret S A.
#[global] Instance run_bind {S} : MBind (Run.M S) :=
  fun A B f m => @Run.bind S A B m f.

(** ** The form as the manager sees it

    A form is the list of its controls in document order.  Every control is
    enabled and a descendant of its form; an option of a select may be
    disabled; the custom widget containers
    ([.selectMultiple], [.fileuploader-input]) are not nested, and every
    file input has a parent of its own, which is where its notice goes.
    Elements that are not controls, the attribute [dirname] and the hidden
    input [_charset_] are left out.  The ids of the controls are not part
    of the form: no control has the id [addEventListener], [querySelector]
    or [querySelectorAll]. *)
Module DOM.
Import JS.

Inductive control_type :=
  | Checkbox
  | Radio
  | FileInput
  | SelectOne
  | SelectMultiple
  | Textarea
  | ButtonElement
  | Input (type : string).   (* any other input: text, hidden, email, submit, ... *)

#[global] Instance control_type_eq_dec : EqDecision control_type.
Proof. solve_decision. Defined.

Record option_element := mkOption {
  opt_value : string;
  opt_selected : bool;
  opt_disabled : bool        (* disabled itself or through its [optgroup] *)
}.

Inductive widget_class := SelectMultipleWidget | FileUploaderInput.

#[global] Instance widget_class_eq_dec : EqDecision widget_class.
Proof. solve_decision. Defined.

Record widget := mkWidget {
  w_class : widget_class;
  w_open : bool              (* carries the class [open] *)
}.

(** One line of the notice written by [displayFileInfo]: the file name and
    its formatted size, as text.  The notice is assigned as markup; what a
    file name that holds markup adds to the page is not modelled. *)
Definition notice := list (string * string).

Record element := mkElement {
  el_type : control_type;
  el_name_attr : option string;      (* the [name] attribute, if present *)
  el_value : string;                 (* [element.value]; options carry it for selects *)
  el_checked : bool;
  el_options : list option_element;
  el_files : list FileRef;
  el_widget : option nat;            (* the widget container around the control *)
  el_notice : option notice          (* [.restored-files-info] next to the control *)
}.

Record form := mkForm {
  form_id : string;
  form_name : string;
  form_data_freeform : bool;         (* carries the attribute [data-freeform] *)
  form_classes : list string;
  elements : list element;
  widgets : list widget
}.

(** [element.name]: the attribute, or the empty string without one. *)
Definition name (e : element) : string := default EmptyString (el_name_attr e).

Definition is_input (e : element) : bool :=
  match el_type e with
  | Checkbox | Radio | FileInput | Input _ => true
  | SelectOne | SelectMultiple | Textarea | ButtonElement => false
  end.

(** Inputs that are buttons never contribute to the entry list of a form
    constructed without a submitter. *)
Definition is_button (e : element) : bool :=
  match el_type e with
  | ButtonElement => true
  | Input t => bool_decide (t ∈ ["submit"; "reset"; "button"; "image"])
  | _ => false
  end.

Definition empty_file : FileRef :=
  mkFileRef EmptyString 0 "application/octet-stream".

(** The options of a select that are submitted: selected and not disabled. *)
Definition submitted (o : option_element) : bool :=
  opt_selected o && negb (opt_disabled o).

(** The entries one control adds to [new FormData(form)]. *)
Definition entries_of (e : element) : list (string * value) :=
  match el_name_attr e with
  | None => []
  | Some n =>
      if String.eqb n EmptyString then []
      else if is_button e then []
      else
        match el_type e with
        | Checkbox | Radio =>
            if el_checked e then [(n, VStr (el_value e))] else []
        | FileInput =>
            match el_files e with
            | [] => [(n, VFile empty_file)]
            | fs => map (fun f => (n, VFile f)) fs
            end
        | SelectOne | SelectMultiple =>
            map (fun o => (n, VStr (opt_value o)))
                (filter (fun o => submitted o = true) (el_options e))
        | Textarea | ButtonElement | Input _ => [(n, VStr (el_value e))]
        end
  end.

(** [new FormData(form).entries()]. *)
Definition FormData_entries (f : form) : list (string * value) :=
  concat (map entries_of (elements f)).

(** A name that can be spliced between the double quotes of an attribute
    selector and then matches by equality. *)
Definition selector_safe (n : string) : bool :=
  forallb (fun c => negb (bool_decide
             (c ∈ [JSON.dquote; "\"%char; ascii_of_nat 10; ascii_of_nat 12;
                   ascii_of_nat 13])))
          (list_ascii_of_string n).

(** What a control holds for the user: everything but the notice. *)
Definition field_state (e : element)
    : control_type * option string * string * bool * list option_element * list FileRef :=
  (el_type e, el_name_attr e, el_value e, el_checked e, el_options e, el_files e).

(** The controls of a form by type and name, in document order. *)
Definition layout (f : form) : list (control_type * option string) :=
  map (fun e => (el_type e, el_name_attr e)) (elements f).

(** No control of the form has the name [n]. *)
Definition no_control_named (n : string) (f : form) : bool :=
  forallb (fun e => negb (String.eqb (name e) n)) (elements f).

(** Does the control match [[name="n"]]? *)
Definition has_name (n : string) (e : element) : bool :=
  bool_decide (el_name_attr e = Some n).

(** The controls of a form are its named properties, and they come before
    the members that the form inherits: with a control named [n], [form[n]]
    is that control, and the call [form[n](...)] of a method [n] is a
    TypeError.  Image buttons are not among the named properties. *)
Definition overrides (n : string) (e : element) : bool :=
  has_name n e && negb (bool_decide (el_type e = Input "image")).

Definition overridden (n : string) (f : form) : bool :=
  existsb (overrides n) (elements f).

End DOM.

(** ** The manager *)
Module FreeformStateManager.
Import JS DOM Run.

Record Options := mkOptions {
  storagePrefix : string;
  storageType : string;
  autoSave : bool;
  autoRestore : bool;
  clearOnSubmit : bool;
  debug : bool;
  excludeFields : list string
}.

Definition default_options : Options :=
  {| storagePrefix := "freeform_state_";
     storageType := "localStorage";
     autoSave := true;
     autoRestore := true;
     clearOnSubmit := true;
     debug := false;
     excludeFields := ["honeypot"; "csrf_token"; "CRAFT_CSRF_TOKEN"] |}.

Definition excluded (opts : Options) (n : string) : bool :=
  bool_decide (n ∈ excludeFields opts).

(** *** [extractFormState]

    The object [state] under construction is the state of the computation. *)

(** The body of the loop over [formData.entries()].  With the key
    [__proto__] the assignment would replace the prototype of [state]; that
    is not modelled. *)
Definition collect_entry (opts : Options) (entry : string * value) : M props unit :=
  let '(key, value) := entry in
  if excluded opts key then mret tt
  else if String.eqb key "__proto__" then not_modelled
  else
    state ← get_state;
    let current := JS.get key state in
    if truthy current then
      match current with
      | VArr items => put_state (JS.set key (VArr (items ++ [value])%list) state)
      | _ => put_state (JS.set key (VArr [current; value]) state)
      end
    else put_state (JS.set key value state).

(** The body of the loop over the checkboxes of the form. *)
Definition track_unchecked (opts : Options) (checkbox : element) : M props unit :=
  let name := DOM.name checkbox in
  if excluded opts name then mret tt
  else if el_checked checkbox then mret tt
  else
    state ← get_state;
    (if truthy (JS.get "_unchecked" state) then mret tt
     else put_state (JS.set "_unchecked" (VArr []) state));;
    state ← get_state;
    match JS.get "_unchecked" state with
    | VArr items =>
        put_state (JS.set "_unchecked" (VArr (items ++ [VStr name])%list) state)
    | VStr _ | VFile _ => throw            (* no [push] on a string or a File *)
    | _ => not_modelled
    end.

(** The body of the loop over the checked radio buttons. *)
Definition record_radio (opts : Options) (radio : element) : M props unit :=
  let name := DOM.name radio in
  if excluded opts name then mret tt
  else if String.eqb name "__proto__" then mret tt   (* a string is no prototype *)
  else modify (JS.set name (VStr (el_value radio))).

Definition in_widget (w : nat) (e : element) : bool :=
  bool_decide (el_widget e = Some w).

Definition file_info (f : FileRef) : value :=
  VObj [("name", VStr (file_name f)); ("size", VNum (file_size f));
        ("type", VStr (file_type f))].

(** The two loops of [extractCustomElements], over the widget with index [w]. *)
Definition open_select_state (f : form) (w : nat) (wd : widget) (custom : props) : props :=
  if bool_decide (w_class wd = SelectMultipleWidget) && w_open wd then
    match list_find (fun e => in_widget w e && bool_decide (el_type e = Input "hidden") = true)
                    (elements f) with
    | Some (_, input) =>
        if negb (String.eqb (DOM.name input) EmptyString)
        then JS.set (DOM.name input +:+ "_open") (VBool true) custom
        else custom
    | None => custom
    end
  else custom.

Definition uploader_state (f : form) (w : nat) (wd : widget) (custom : props) : props :=
  if bool_decide (w_class wd = FileUploaderInput) then
    match list_find (fun e => in_widget w e && bool_decide (el_type e = FileInput) = true)
                    (elements f) with
    | Some (_, input) =>
        match el_files input with
        | [] => custom
        | files => JS.set (DOM.name input +:+ "_files") (VArr (map file_info files)) custom
        end
    | None => custom
    end
  else custom.

Definition fold_widgets (step : nat -> widget -> props -> props) (f : form)
    (custom : props) : props :=
  foldl (fun acc iw => step iw.1 iw.2 acc) custom (imap (fun i w => (i, w)) (widgets f)).

Definition extractCustomElements (f : form) : props :=
  fold_widgets (uploader_state f) f (fold_widgets (open_select_state f) f []).

Definition extractFormState_passes (opts : Options) (f : form) : M props unit :=
  forEach (FormData_entries f) (collect_entry opts);;
  (if overridden "querySelectorAll" f then throw else mret tt);;
  forEach (filter (fun e => el_type e = Checkbox) (elements f)) (track_unchecked opts);;
  forEach (filter (fun e => el_type e = Radio ∧ el_checked e = true) (elements f))
          (record_radio opts);;
  modify (JS.set "_custom" (VObj (extractCustomElements f))).

Inductive returned (A : Type) :=
  | Returns (a : A)
  | Throws
  | Unmodelled.
Arguments Returns {A} a.
Arguments Throws {A}.
Arguments Unmodelled {A}.

Definition extractFormState (opts : Options) (f : form) : returned props :=
  match extractFormState_passes opts f [] with
  | Done _ state => Returns state
  | Raised _ => Throws
  | NotModelled => Unmodelled
  end.

(** *** [applyFormState]

    The form is the state of the computation: what its controls hold.
    The [change] event dispatched after each control runs listeners that
    are not part of it, the manager's own among them, which save the form
    or arm a timer when they are attached.  What these do to the storage,
    the registry and the timers is not modelled: the results about an
    applied state are about the controls of the form.  The sanitization
    that typed inputs apply to an assigned value is not modelled either.
    [document.createElement] in [displayFileInfo] is taken to be the method
    of the document. *)

(** String conversion of a value spliced into a template or assigned to a
    string attribute; [None] where the conversion is not modelled. *)
Definition to_string (v : value) : option string :=
  match v with
  | VStr s => Some s
  | VUndefined => Some "undefined"
  | VNull => Some "null"
  | VBool b => Some (if b then "true" else "false")
  | VNum n => Some (pretty n)
  | VFile _ => Some "[object File]"
  | VNative _ | VArr _ | VObj _ => None
  end.

Definition update_element (i : nat) (g : element -> element) : M form unit :=
  modify (fun f => {| form_id := form_id f; form_name := form_name f;
                      form_data_freeform := form_data_freeform f;
                      form_classes := form_classes f;
                      elements := alter g i (elements f);
                      widgets := widgets f |}).

Definition with_checked (b : bool) (e : element) : element :=
  {| el_type := el_type e; el_name_attr := el_name_attr e; el_value := el_value e;
     el_checked := b; el_options := el_options e; el_files := el_files e;
     el_widget := el_widget e; el_notice := el_notice e |}.

Definition with_value (s : string) (e : element) : element :=
  {| el_type := el_type e; el_name_attr := el_name_attr e; el_value := s;
     el_checked := el_checked e; el_options := el_options e; el_files := el_files e;
     el_widget := el_widget e; el_notice := el_notice e |}.

Definition with_options (os : list option_element) (e : element) : element :=
  {| el_type := el_type e; el_name_attr := el_name_attr e; el_value := el_value e;
     el_checked := el_checked e; el_options := os; el_files := el_files e;
     el_widget := el_widget e; el_notice := el_notice e |}.

Definition with_notice (n : option notice) (e : element) : element :=
  {| el_type := el_type e; el_name_attr := el_name_attr e; el_value := el_value e;
     el_checked := el_checked e; el_options := el_options e; el_files := el_files e;
     el_widget := el_widget e; el_notice := n |}.

(** The other members of the radio button group of [e]: radio buttons of
    the form with the same non-empty name. *)
Definition same_group (e other : element) : bool :=
  bool_decide (el_type other = Radio)
  && match el_name_attr e with
     | Some n => negb (String.eqb n EmptyString) && has_name n other
     | None => false
     end.

(** [radio.checked = b]: checking a radio button unchecks its group. *)
Definition set_radio_checked (i : nat) (b : bool) : M form unit :=
  f ← get_state;
  match elements f !! i with
  | None => mret tt
  | Some e =>
      (if b then
         forEach (seq 0 (length (elements f)))
                 (fun j => match elements f !! j with
                           | Some other =>
                               if same_group e other && negb (Nat.eqb i j)
                               then update_element j (with_checked false)
                               else mret tt
                           | None => mret tt
                           end)
       else mret tt);;
      update_element i (with_checked b)
  end.

(** [option.selected = p(option.value)] for every option of a select,
    disabled or not. *)
Definition select_by (p : string -> bool) (os : list option_element)
    : list option_element :=
  map (fun o => mkOption (opt_value o) (p (opt_value o)) (opt_disabled o)) os.

(** [select.value = s]: the first option with that value, disabled or not,
    becomes the selected one, every other option is deselected. *)
Fixpoint select_first (s : string) (os : list option_element) : list option_element :=
  match os with
  | [] => []
  | o :: rest =>
      if String.eqb (opt_value o) s
      then mkOption (opt_value o) true (opt_disabled o)
           :: select_by (fun _ => false) rest
      else mkOption (opt_value o) false (opt_disabled o) :: select_first s rest
  end.

(** [element.value = v] in the default branch. *)
Definition assign_value (i : nat) (e : element) (v : value) : M form unit :=
  match el_type e with
  | SelectOne | SelectMultiple =>
      match to_string v with
      | Some s => update_element i (fun e => with_options (select_first s (el_options e)) e)
      | None => not_modelled
      end
  | ButtonElement =>
      match to_string v with
      | Some s => update_element i (with_value s)
      | None => not_modelled
      end
  | _ =>
      match v with
      | VNull => update_element i (with_value EmptyString)
      | _ => match to_string v with
             | Some s => update_element i (with_value s)
             | None => not_modelled
             end
      end
  end.

(** The body of the loop of [restoreField], for the control at index [i]. *)
Definition restore_element (value : JS.value) (i : nat) : M form unit :=
  f ← get_state;
  match elements f !! i with
  | None => mret tt
  | Some e =>
      match el_type e with
      | Checkbox =>
          match value with
          | VArr items => update_element i (with_checked (includes items (el_value e)))
          | _ => update_element i (with_checked (strict_eq_str value (el_value e)))
          end
      | Radio => set_radio_checked i (strict_eq_str value (el_value e))
      | SelectMultiple =>
          match value with
          | VArr items =>
              update_element i (fun e => with_options
                                  (select_by (includes items) (el_options e)) e)
          | _ =>
              update_element i (fun e => with_options
                                  (select_by (strict_eq_str value) (el_options e)) e)
          end
      | FileInput => mret tt
      | _ =>
          match value with
          | VArr items => assign_value i e (default VUndefined (items !! 0%nat))
          | _ => assign_value i e value
          end
      end
  end.

(** The indices of the controls that a selector picks, in document order. *)
Definition query_all (p : element -> bool) (f : form) : list nat :=
  filter (fun i => from_option p false (elements f !! i) = true)
         (seq 0 (length (elements f))).

Definition query (p : element -> bool) (f : form) : option nat :=
  head (query_all p f).

Definition restoreField (name : string) (value : JS.value) : M form unit :=
  f ← get_state;
  if overridden "querySelectorAll" f then throw
  else if selector_safe name then
    forEach (query_all (has_name name) f) (restore_element value)
  else not_modelled.

(** [s.endsWith(suffix)]. *)
Definition ends_with (suffix s : string) : bool :=
  let n := String.length s in
  let m := String.length suffix in
  (m <=? n)%nat && String.eqb (String.substring (n - m) m s) suffix.

(** [s.replace(pattern, '')]: the first occurrence of the pattern goes. *)
Fixpoint remove_first (pattern s : string) : string :=
  if String.prefix pattern s
  then String.substring (String.length pattern)
                        (String.length s - String.length pattern) s
  else match s with
       | EmptyString => EmptyString
       | String c s' => String c (remove_first pattern s')
       end.

Definition update_widget (w : nat) (g : widget -> widget) : M form unit :=
  modify (fun f => {| form_id := form_id f; form_name := form_name f;
                      form_data_freeform := form_data_freeform f;
                      form_classes := form_classes f;
                      elements := elements f;
                      widgets := alter g w (widgets f) |}).

(** [formatFileSize(file.size)] on a property value. *)
Definition formatFileSize_of (size : value) : option string :=
  match size with
  | VNum n => Some (FileSize.formatFileSize n)
  | VUndefined => Some "NaN undefined"
  | _ => None
  end.

(** One entry of [fileInfos.map(...)] in [displayFileInfo]. *)
Definition file_line (file : value) : M form (string * string) :=
  let line (name size : value) : M form (string * string) :=
    match to_string name, formatFileSize_of size with
    | Some n, Some s => mret (n, s)
    | _, _ => not_modelled
    end in
  match file with
  | VObj ps => line (JS.get "name" ps) (JS.get "size" ps)
  | VNull | VUndefined => throw
  | VStr _ | VNum _ | VBool _ => line VUndefined VUndefined
  | VFile f => line (VStr (file_name f)) (VNum (file_size f))
  | VNative _ | VArr _ => not_modelled
  end.

Fixpoint file_lines (fileInfos : list value) : M form notice :=
  match fileInfos with
  | [] => mret []
  | file :: rest =>
      l ← file_line file;
      ls ← file_lines rest;
      mret (l :: ls)
  end.

Definition displayFileInfo (fileInput : nat) (fileInfos : list value) : M form unit :=
  update_element fileInput
    (fun e => match el_notice e with
              | None => with_notice (Some []) e
              | Some _ => e
              end);;
  lines ← file_lines fileInfos;
  update_element fileInput (with_notice (Some lines)).

(** The body of the loop of [restoreCustomElements]. *)
Definition restore_custom (entry : string * value) : M form unit :=
  let '(key, value) := entry in
  (if ends_with "_open" key then
     let selectName := remove_first "_open" key in
     f ← get_state;
     if overridden "querySelector" f then throw
     else if selector_safe selectName then
       match query (fun e => is_input e && has_name selectName e
                             && match el_widget e with
                                | Some w =>
                                    bool_decide (w_class <$> widgets f !! w
                                                 = Some SelectMultipleWidget)
                                | None => false
                                end) f with
       | Some i =>
           match elements f !! i ≫= el_widget with
           | Some w =>
               if truthy value
               then update_widget w (fun wd => mkWidget (w_class wd) true)
               else mret tt
           | None => mret tt
           end
       | None => mret tt
       end
     else not_modelled
   else mret tt);;
  (if ends_with "_files" key then
     let inputName := remove_first "_files" key in
     f ← get_state;
     if overridden "querySelector" f then throw
     else if selector_safe inputName then
       match query (fun e => bool_decide (el_type e = FileInput) && has_name inputName e) f with
       | Some fileInput =>
           match value with
           | VArr fileInfos => displayFileInfo fileInput fileInfos
           | _ => mret tt
           end
       | None => mret tt
       end
     else not_modelled
   else mret tt).

Definition restoreCustomElements (custom : value) : M form unit :=
  match custom with
  | VObj entries => forEach entries restore_custom
  | VNative _ => not_modelled
  | _ => mret tt       (* no own key ends in [_open] or [_files] *)
  end.

(** The body of the loop over [state._unchecked]. *)
Definition force_unchecked (name : value) : M form unit :=
  match to_string name with
  | Some n =>
      f ← get_state;
      if overridden "querySelector" f then throw
      else if selector_safe n then
        match query (fun e => bool_decide (el_type e = Checkbox) && has_name n e) f with
        | Some checkbox => update_element checkbox (with_checked false)
        | None => mret tt
        end
      else not_modelled
  | None => not_modelled
  end.

Definition applyFormState (state : value) : M form unit :=
  match state with
  | VObj entries =>
      forEach entries
        (fun entry => if String.prefix "_" entry.1 then mret tt
                      else restoreField entry.1 entry.2);;
      (let custom := JS.get "_custom" entries in
       if truthy custom then restoreCustomElements custom else mret tt);;
      (let unchecked := JS.get "_unchecked" entries in
       if truthy unchecked then
         match unchecked with
         | VArr names => forEach names force_unchecked
         | VStr _ | VNum _ | VBool _ | VFile _ => throw   (* no [forEach] *)
         | _ => not_modelled
         end
       else mret tt)
  | VUndefined | VNull => throw
  | VNum _ | VBool _ => mret tt
  | _ => not_modelled
  end.

(** *** The page, web storage and timers *)

Record formData := mkFormData {
  element : nat;              (* the form node *)
  storageKey : string;
  lastSaved : option Z
}.

Record Document := mkDocument {
  href : string;                     (* [window.location.href] *)
  nodes : gmap nat form;             (* the form nodes, attached or not *)
  page : list nat;                   (* the attached forms, in document order *)
  other_ids : list string;           (* ids of the elements that are not forms *)
  other_names : list string          (* names of the elements outside every form *)
}.

Inductive callback :=
  | Later (timeout : nat) (formId : string)   (* [later] of [debounce], with its
                                                 variable [timeout] and the
                                                 form that [func] saves *)
  | SubmitCheck (formId : string).            (* the arrow of [handleFormSubmit] *)

Record timer := mkTimer {
  timer_id : nat;
  due : Z;
  action : callback
}.

Record Scheduler := mkScheduler {
  timers : list timer;               (* pending, in order of creation *)
  next_timer : nat;
  cells : list (option nat)          (* the [timeout] variable of each closure *)
}.

Record write := mkWrite {
  write_at : Z;
  write_key : string;
  write_value : string
}.

Record world := mkWorld {
  now : Z;                                   (* [Date.now()] *)
  document : Document;
  localStorage : gmap string string;
  sessionStorage : gmap string string;
  scheduler : Scheduler;
  options : Options;                         (* [this.options] *)
  forms : gmap string formData;              (* [this.forms] *)
  setItem_log : list write                   (* every [setItem] call, oldest first *)
}.

Definition set_now (t : Z) (w : world) : world :=
  mkWorld t (document w) (localStorage w) (sessionStorage w) (scheduler w)
          (options w) (forms w) (setItem_log w).
Definition set_document (d : Document) (w : world) : world :=
  mkWorld (now w) d (localStorage w) (sessionStorage w) (scheduler w)
          (options w) (forms w) (setItem_log w).
Definition set_localStorage (s : gmap string string) (w : world) : world :=
  mkWorld (now w) (document w) s (sessionStorage w) (scheduler w)
          (options w) (forms w) (setItem_log w).
Definition set_sessionStorage (s : gmap string string) (w : world) : world :=
  mkWorld (now w) (document w) (localStorage w) s (scheduler w)
          (options w) (forms w) (setItem_log w).
Definition set_scheduler (s : Scheduler) (w : world) : world :=
  mkWorld (now w) (document w) (localStorage w) (sessionStorage w) s
          (options w) (forms w) (setItem_log w).
Definition set_forms (m : gmap string formData) (w : world) : world :=
  mkWorld (now w) (document w) (localStorage w) (sessionStorage w) (scheduler w)
          (options w) m (setItem_log w).
Definition set_setItem_log (l : list write) (w : world) : world :=
  mkWorld (now w) (document w) (localStorage w) (sessionStorage w) (scheduler w)
          (options w) (forms w) l.

(** [getStorage()], read and written through. *)
Definition session (w : world) : bool :=
  String.eqb (storageType (options w)) "sessionStorage".

Definition getStorage (w : world) : gmap string string :=
  if session w then sessionStorage w else localStorage w.

Definition set_storage (s : gmap string string) (w : world) : world :=
  if session w then set_sessionStorage s w else set_localStorage s w.

Definition getItem (key : string) : M world (option string) :=
  w ← get_state; mret (getStorage w !! key).

Definition setItem (key value : string) : M world unit :=
  modify (fun w => set_setItem_log (setItem_log w ++ [mkWrite (now w) key value])%list
                     (set_storage (<[key := value]> (getStorage w)) w)).

Definition removeItem (key : string) : M world unit :=
  modify (fun w => set_storage (delete key (getStorage w)) w).

(** [setTimeout(action, delay)]. *)
Definition setTimeout (action : callback) (delay : Z) : M world nat :=
  w ← get_state;
  let s := scheduler w in
  let id := next_timer s in
  put_state (set_scheduler
               (mkScheduler (timers s ++ [mkTimer id (now w + delay) action])%list
                            (S id) (cells s)) w);;
  mret id.

(** [clearTimeout(id)]; [None] is [undefined]. *)
Definition clearTimeout (id : option nat) : M world unit :=
  modify (fun w =>
    let s := scheduler w in
    match id with
    | Some i =>
        set_scheduler
          (mkScheduler (filter (fun t => timer_id t ≠ i) (timers s))
                       (next_timer s) (cells s)) w
    | None => w
    end).

(** Running a function of the form on the node [node]. *)
Definition on_node (node : nat) (m : M form unit) : M world unit :=
  fun w =>
    match nodes (document w) !! node with
    | None => NotModelled
    | Some f =>
        let store f' :=
          set_document (mkDocument (href (document w))
                                   (<[node := f']> (nodes (document w)))
                                   (page (document w)) (other_ids (document w))
                                   (other_names (document w))) w in
        match m f with
        | Done a f' => Done a (store f')
        | Raised f' => Raised (store f')
        | NotModelled => NotModelled
        end
    end.

(** *** [clearFormState], [saveFormState], [restoreFormState] *)

Definition clearFormState (formId : string) : M world unit :=
  w ← get_state;
  match forms w !! formId with
  | None => mret tt
  | Some formData => try_catch (removeItem (storageKey formData))
  end.

Definition set_lastSaved (formId : string) (t : Z) (w : world) : world :=
  set_forms (alter (fun fd => mkFormData (element fd) (storageKey fd) (Some t))
                   formId (forms w)) w.

Definition saveFormState (formId : string) : M world unit :=
  w ← get_state;
  match forms w !! formId with
  | None => mret tt
  | Some formData =>
      match nodes (document w) !! element formData with
      | None => not_modelled
      | Some form =>
          match extractFormState (options w) form with
          | Throws => throw
          | Unmodelled => not_modelled
          | Returns state =>
              try_catch
                (match JSON.stringify
                         (VObj [("state", VObj state);
                                ("timestamp", VNum (now w));
                                ("url", VStr (href (document w)))]) with
                 | Some text => setItem (storageKey formData) text
                 | None => not_modelled
                 end;;
                 modify (set_lastSaved formId (now w)))
          end
      end
  end.

(** [const { state, timestamp } = parsed]; [None] is the TypeError of
    destructuring [null]. *)
Definition destructure (parsed : value) : option (value * value) :=
  match parsed with
  | VObj ps => Some (JS.get "state" ps, JS.get "timestamp" ps)
  | VNull | VUndefined => None
  | _ => Some (VUndefined, VUndefined)
  end.

Definition maxAge : Z := 24 * 60 * 60 * 1000.

(** [Date.now() - timestamp > maxAge]; a comparison with NaN is false. *)
Definition too_old (now : Z) (timestamp : value) : option bool :=
  match timestamp with
  | VNum t => Some (bool_decide (now - t > maxAge))
  | VUndefined => Some false
  | VNull => Some (bool_decide (now > maxAge))
  | VBool b => Some (bool_decide (now - (if b then 1 else 0) > maxAge))
  | _ => None
  end.

Definition restoreFormState (formId : string) : M world unit :=
  w ← get_state;
  match forms w !! formId with
  | None => mret tt
  | Some formData =>
      try_catch
        (savedData ← getItem (storageKey formData);
         match savedData with
         | None => mret tt
         | Some text =>
             if String.eqb text EmptyString then mret tt
             else
               match JSON.parse text with
               | JSON.Throws => throw
               | JSON.Unmodelled => not_modelled
               | JSON.Value parsed =>
                   match destructure parsed with
                   | None => throw
                   | Some (state, timestamp) =>
                       w ← get_state;
                       match too_old (now w) timestamp with
                       | None => not_modelled
                       | Some true => clearFormState formId
                       | Some false =>
                           on_node (element formData) (applyFormState state)
                       end
                   end
               end
         end)
  end.

(** *** Registration *)

(** [form[n]] may be a control and not the attribute [n]: a control of the
    form with the name or the id [n] stands for the property [n] of the
    form.  The ids of the controls are among [other_ids], so an element
    with the id [n] may be such a control. *)
Definition shadowed (n : string) (w : world) (f : form) : bool :=
  overridden n f || bool_decide (n ∈ other_ids (document w)).

(** [form.id || form.name] after the fallback, where it is the value of an
    attribute.  [None] where it may be a control of the form, and where it
    is the id made of [Date.now()] and [Math.random()]: neither is
    modelled. *)
Definition form_key (w : world) (f : form) : option string :=
  if shadowed "id" w f then None
  else if negb (String.eqb (form_id f) EmptyString) then Some (form_id f)
  else if shadowed "name" w f then None
  else if String.eqb (form_name f) EmptyString then None
  else Some (form_name f).

Definition registerForm (node : nat) : M world unit :=
  w ← get_state;
  match nodes (document w) !! node with
  | None => not_modelled
  | Some form =>
      match form_key w form with
      | None => not_modelled
      | Some formId =>
          let storageKey := storagePrefix (options w) +:+ formId in
          modify (fun w => set_forms (<[formId := mkFormData node storageKey None]> (forms w)) w);;
          if autoRestore (options w) then restoreFormState formId else mret tt
      end
  end.

Definition selectors : list (form -> bool) :=
  [ form_data_freeform;
    (fun f => bool_decide ("freeform-form" ∈ form_classes f));
    (fun f => bool_decide ("formularNeu" ∈ form_classes f));
    (fun f => bool_decide ("anfrage" ∈ form_classes f)) ].

Definition attached (w : world) : list form :=
  omap (fun node => nodes (document w) !! node) (page (document w)).

(** The call [document[n](...)] of a method [n] of the document.  A form
    of the page named [n] comes before the member: [document[n]] is then
    the form, and the call is a TypeError.  So does an image, a frame or an
    embedded object with the name, and some of them with the id, [n]; an
    element with that name or id may be one of these. *)
Definition document_method (n : string) : M world unit :=
  w ← get_state;
  if existsb (fun f => String.eqb (form_name f) n) (attached w) then throw
  else if bool_decide (n ∈ other_names (document w))
          || bool_decide (n ∈ other_ids (document w)) then not_modelled
  else mret tt.

Definition discoverForms : M world unit :=
  forEach selectors (fun selector =>
    document_method "querySelectorAll";;
    w ← get_state;
    forEach (filter (fun node => from_option selector false
                                   (nodes (document w) !! node) = true)
                    (page (document w)))
            registerForm).

(** [attachFormListeners] calls [form.addEventListener] and then, in
    [attachInputListeners] and [attachFreeformListeners],
    [form.querySelectorAll] on every registered form.  The listeners it
    attaches are the handlers below. *)
Definition attachFormListeners : M world unit :=
  w ← get_state;
  if existsb (fun f => overridden "addEventListener" f
                       || overridden "querySelectorAll" f)
             (omap (fun fd => nodes (document w) !! element fd)
                   (map_to_list (forms w)).*2)
  then throw
  else mret tt.

(** The hook on [contentReplaced]. *)
Definition contentReplaced : M world unit :=
  modify (set_forms ∅);;
  discoverForms;;
  attachFormListeners.

(** *** Submission *)

(** A form id that [#id] selects as an identifier. *)
Definition css_identifier (id : string) : bool :=
  let alpha (c : ascii) :=
    let n := nat_of_ascii c in
    bool_decide ((65 ≤ n ≤ 90)%nat ∨ (97 ≤ n ≤ 122)%nat ∨ n = 95%nat) in
  let rest (c : ascii) :=
    let n := nat_of_ascii c in
    alpha c || bool_decide ((48 ≤ n ≤ 57)%nat ∨ n = 45%nat) in
  match id with
  | EmptyString => false
  | String c s => alpha c && forallb rest (list_ascii_of_string s)
  end.

(** [document.querySelector(`#${formId}`) ||
     document.querySelector(`[name="${formId}"]`)]. *)
Definition found_on_page (formId : string) (w : world) : bool :=
  existsb (fun f => String.eqb (form_id f) formId) (attached w)
  || bool_decide (formId ∈ other_ids (document w))
  || existsb (fun f => String.eqb (form_name f) formId
                       || existsb (has_name formId) (elements f)) (attached w)
  || bool_decide (formId ∈ other_names (document w)).

(** The function that [handleFormSubmit] hands to [setTimeout]. *)
Definition submit_check (formId : string) : M world unit :=
  document_method "querySelector";;
  if css_identifier formId then
    w ← get_state;
    if found_on_page formId w then mret tt
    else clearFormState formId
  else not_modelled.

Definition handleFormSubmit (formId : string) : M world unit :=
  w ← get_state;
  if clearOnSubmit (options w)
  then setTimeout (SubmitCheck formId) 1000;; mret tt
  else mret tt.

(** *** [debounce] and the listener of [attachInputListeners]

    A closure is the data it closes over: [debounce] allocates the variable
    [timeout] and returns [executedFunction] bound to it; [func] is always
    [() => this.saveFormState(formId)], so the form id stands for it. *)

Record debounced := mkDebounced {
  d_timeout : nat;        (* the variable [timeout] of this closure *)
  d_formId : string;
  d_wait : Z
}.

Definition read_cell (c : nat) (w : world) : option nat :=
  mjoin (cells (scheduler w) !! c).

Definition write_cell (c : nat) (v : option nat) : M world unit :=
  modify (fun w =>
    let s := scheduler w in
    set_scheduler (mkScheduler (timers s) (next_timer s) (<[c := v]> (cells s))) w).

Definition debounce (formId : string) (wait : Z) : M world debounced :=
  w ← get_state;
  let s := scheduler w in
  put_state (set_scheduler
               (mkScheduler (timers s) (next_timer s) (cells s ++ [None])%list) w);;
  mret (mkDebounced (length (cells s)) formId wait).

Definition executedFunction (d : debounced) : M world unit :=
  w ← get_state;
  clearTimeout (read_cell (d_timeout d) w);;
  id ← setTimeout (Later (d_timeout d) (d_formId d)) (d_wait d);
  write_cell (d_timeout d) (Some id).

Definition later (timeout : nat) (formId : string) : M world unit :=
  w ← get_state;
  clearTimeout (read_cell timeout w);;
  saveFormState formId.

(** The listener that [attachInputListeners] adds for every event of every
    tracked control of the form [formId]. *)
Definition inputListener (formId : string) : M world unit :=
  w ← get_state;
  if autoSave (options w) then
    d ← debounce formId 500;
    executedFunction d
  else mret tt.

(** *** The event loop *)

Definition run_callback (a : callback) : M world unit :=
  match a with
  | Later timeout formId => later timeout formId
  | SubmitCheck formId => submit_check formId
  end.

(** The pending timer to fire next among those due by [until]: the
    earliest, and the oldest among equals. *)
Definition next_due (until : Z) (w : world) : option timer :=
  foldl (fun best t =>
           if decide (due t <= until) then
             match best with
             | Some b => if decide (due t < due b) then Some t else Some b
             | None => Some t
             end
           else best)
        None (timers (scheduler w)).

(** Firing a timer: it leaves the pending list, time moves on to its due
    time, and an exception of the callback ends the task and nothing else. *)
Definition fire (t : timer) : M world unit :=
  clearTimeout (Some (timer_id t));;
  modify (fun w => set_now (Z.max (now w) (due t)) w);;
  try_catch (run_callback (action t)).

Fixpoint run_timers (fuel : nat) (until : Z) : M world unit :=
  w ← get_state;
  match next_due until w with
  | None => modify (fun w => set_now (Z.max (now w) until) w)
  | Some t =>
      match fuel with
      | O => not_modelled
      | S fuel' => fire t;; run_timers fuel' until
      end
  end.

(** Time passes until [until] and every timer due by then fires.  No
    callback sets a timer, so the pending timers bound the work. *)
Definition advance (until : Z) : M world unit :=
  w ← get_state;
  run_timers (length (timers (scheduler w))) until.

(** *** Iterating over the registry

    [this.forms] is a [Map], and [forEach] visits its keys in the order of
    their insertion.  The registry [forms] does not record that order, so
    the functions that iterate over it take the keys in that order as the
    list [order]. *)
Definition forms_forEach (order : list string) (body : string -> M world unit)
    : M world unit :=
  forEach order body.

(** The listeners on [beforeunload] and [pagehide] and the hook on swup's
    [willReplaceContent]: every form is saved. *)
Definition saveAll (order : list string) : M world unit :=
  forms_forEach order saveFormState.

(** The listener on [visibilitychange]. *)
Definition visibilitychange (order : list string) (visibilityState : string)
    : M world unit :=
  if String.eqb visibilityState "hidden" then saveAll order else mret tt.

(** *** The public methods

    The argument is any value; the keys of the registry are strings, so a
    truthy argument that is not a string finds no form. *)
Definition for_form (order : list string) (formId : value)
    (method : string -> M world unit) : M world unit :=
  if truthy formId then
    match formId with
    | VStr id => method id
    | _ => mret tt
    end
  else forms_forEach order method.

Definition save (order : list string) (formId : value) : M world unit :=
  for_form order formId saveFormState.

Definition restore (order : list string) (formId : value) : M world unit :=
  for_form order formId restoreFormState.

Definition clear (order : list string) (formId : value) : M world unit :=
  for_form order formId clearFormState.

End FreeformStateManager.

(** ** Forms on which encoding followed by decoding is the identity *)
Module Shape.
Import JS DOM.

(** A field name without a role of its own in the snapshot, in a selector
    or in the form: not empty, free of quotes, backslashes and line breaks,
    not a member of [Object.prototype], not the metadata key [_unchecked],
    and not the name of a method that the manager calls on the form. *)
Definition plain_name (n : string) : bool :=
  negb (String.eqb n EmptyString)
  && selector_safe n
  && negb (bool_decide (n ∈ object_prototype_members))
  && negb (String.eqb n "_unchecked")
  && negb (bool_decide (n ∈ ["querySelector"; "querySelectorAll"])).

Definition selected_values (e : element) : list string :=
  map opt_value (filter (fun o => opt_selected o = true) (el_options e)).

(** The values of the options that are submitted. *)
Definition submitted_values (e : element) : list string :=
  map opt_value (filter (fun o => submitted o = true) (el_options e)).

(** The options of a select have distinct values; a single select has at
    most one selected option; in a multiple select the selected options are
    all enabled or all disabled, and several of them do not start with the
    empty value. *)
Definition tidy_control (e : element) : bool :=
  match el_name_attr e with
  | Some n => plain_name n
  | None => true
  end
  && match el_type e with
     | SelectOne =>
         bool_decide (NoDup (map opt_value (el_options e)))
         && bool_decide (length (selected_values e) ≤ 1)%nat
     | SelectMultiple =>
         bool_decide (NoDup (map opt_value (el_options e)))
         && match submitted_values e with
            | v :: _ :: _ => negb (String.eqb v EmptyString)
            | _ => true
            end
         && (bool_decide (submitted_values e = [])
             || bool_decide (submitted_values e = selected_values e))
     | _ => true
     end.

(** Two controls of a form share a name only as radio buttons of one group,
    with different values and at most one of them checked. *)
Definition may_share_name (e1 e2 : element) : bool :=
  match el_name_attr e1, el_name_attr e2 with
  | Some n1, Some n2 =>
      if String.eqb n1 n2 then
        bool_decide (el_type e1 = Radio) && bool_decide (el_type e2 = Radio)
        && negb (String.eqb (el_value e1) (el_value e2))
        && negb (el_checked e1 && el_checked e2)
      else true
  | _, _ => true
  end.

Fixpoint pairwise {A} (r : A -> A -> bool) (l : list A) : bool :=
  match l with
  | [] => true
  | x :: rest => forallb (r x) rest && pairwise r rest
  end.

Definition roundtrip_ready (f : form) : bool :=
  forallb tidy_control (elements f) && pairwise may_share_name (elements f).

End Shape.

(** ** Concrete forms and pages used by the examples *)
Module Examples.
Import JS DOM Run FreeformStateManager.

Definition text_input (n v : string) : DOM.element :=
  mkElement (Input "text") (Some n) v false [] [] None None.

Definition checkbox (n v : string) (checked : bool) : DOM.element :=
  mkElement Checkbox (Some n) v checked [] [] None None.

Definition radio (n v : string) (checked : bool) : DOM.element :=
  mkElement Radio (Some n) v checked [] [] None None.

Definition multi_select (n : string) (os : list option_element) : DOM.element :=
  mkElement SelectMultiple (Some n) EmptyString false os [] None None.

(** A form [<form id="contact" data-freeform>] with the given controls. *)
Definition contact_form (controls : list DOM.element) : form :=
  mkForm "contact" EmptyString true [] controls [].

Definition two_tags : form :=
  contact_form [text_input "tag" "a"; text_input "tag" "b"].

Definition tags_first_empty : form :=
  contact_form [text_input "tag" EmptyString; text_input "tag" "x"].

Definition interests : form :=
  contact_form [checkbox "interests" "a" false; checkbox "interests" "b" true].

Definition interests_first_checked : form :=
  contact_form [checkbox "interests" "a" true; checkbox "interests" "b" false].

(** The two boxes of the group unchecked by the user, and the group as it is
    rendered, with both boxes checked. *)
Definition interests_off : form :=
  contact_form [checkbox "interests" "a" false; checkbox "interests" "b" false].

Definition interests_rendered : form :=
  contact_form [checkbox "interests" "a" true; checkbox "interests" "b" true].

Definition same_value_boxes : form :=
  contact_form [checkbox "agree" "on" true; checkbox "agree" "on" false].

Definition newsletter_form : form :=
  contact_form
    [ text_input "email" "a@b.com";
      multi_select "newsletter" [mkOption "x" true false; mkOption "y" true false; mkOption "z" false false];
      checkbox "subscribe" "on" false;
      radio "plan" "free" false; radio "plan" "pro" true ].

(** The same controls in another state: the text field empty, a different
    option selected, the checkbox checked and the other radio chosen. *)
Definition blank_newsletter_form : form :=
  contact_form
    [ text_input "email" EmptyString;
      multi_select "newsletter" [mkOption "x" false false; mkOption "y" false false; mkOption "z" true false];
      checkbox "subscribe" "on" true;
      radio "plan" "free" true; radio "plan" "pro" false ].

(** A multiple select from which the user has removed every selection, and
    the same select as it is rendered, with its default selection. *)
Definition cleared_select : form :=
  contact_form [multi_select "newsletter" [mkOption "x" false false; mkOption "z" false false]].

Definition rendered_select : form :=
  contact_form [multi_select "newsletter" [mkOption "x" false false; mkOption "z" true false]].

(** A single select that shows a disabled placeholder, and the same select
    with a choice made. *)
Definition placeholder_select : form :=
  contact_form
    [mkElement SelectOne (Some "topic") EmptyString false
               [mkOption EmptyString true true; mkOption "sales" false false] [] None None].

Definition chosen_select : form :=
  contact_form
    [mkElement SelectOne (Some "topic") EmptyString false
               [mkOption EmptyString false true; mkOption "sales" true false] [] None None].

Definition token_form : form :=
  contact_form [text_input "csrf_token" "fresh"; text_input "email" EmptyString].

Definition custom_field_form : form :=
  contact_form [text_input "_custom" "x"].

Definition contact_key : string := "freeform_state_contact".

(** A page at time [t] that shows [f], registered under the id [contact],
    with [stored] under its storage key. *)
Definition page_with (opts : Options) (t : Z) (f : form) (stored : option string) : world :=
  mkWorld t
    (mkDocument "https://example.org/contact" {[ 0%nat := f ]} [0%nat] [] [])
    (match stored with Some s => {[ contact_key := s ]} | None => ∅ end)
    ∅
    (mkScheduler [] 0 [])
    opts
    {[ "contact" := mkFormData 0 contact_key None ]}
    [].

(** The user types [v] into the first control of the form node [node]. *)
Definition user_types (node : nat) (v : string) : M world unit :=
  on_node node (update_element 0 (with_value v)).

(** The page is replaced by one without any form. *)
Definition leave_page (w : world) : world :=
  set_document (mkDocument "https://example.org/thanks" (nodes (document w)) [] [] []) w.

Definition no_clear_options : Options :=
  mkOptions "freeform_state_" "localStorage" true true false false
            ["honeypot"; "csrf_token"; "CRAFT_CSRF_TOKEN"].

(** Two changes of the same form, 100 ms apart, then time passes. *)
Definition burst_of_two : M world unit :=
  user_types 0 "ab";; inputListener "contact";;
  advance 1000100;;
  user_types 0 "abc";; inputListener "contact";;
  advance 1002000.

(** The text that [saveFormState] stores for [state] captured at [timestamp]. *)
Definition envelope_text (state : props) (timestamp : Z) : string :=
  default EmptyString
    (JSON.stringify (VObj [("state", VObj state); ("timestamp", VNum timestamp);
                           ("url", VStr "https://example.org/contact")])).

Definition email_form : form := contact_form [text_input "email" EmptyString].

(** An envelope captured at time 1000 is read one millisecond after it has
    become 24 hours old. *)
Definition stale_page : world :=
  page_with default_options (1000 + 86400000 + 1) email_form
            (Some (envelope_text [("email", VStr "zz")] 1000)).

(** The same envelope read when it is exactly 24 hours old. *)
Definition day_old_page : world :=
  page_with default_options (1000 + 86400000) email_form
            (Some (envelope_text [("email", VStr "zz")] 1000)).

Definition malformed_page : world :=
  page_with default_options 5000 email_form (Some "{oops").

(** Storage holds a token captured by a manager that excluded nothing. *)
Definition foreign_token_page : world :=
  page_with default_options 5000 token_form
            (Some (envelope_text [("csrf_token", VStr "stale")] 4000)).

Definition saved_page (opts : Options) : world :=
  page_with opts 5000 email_form (Some "saved").

(** The world right after the submission of the form [contact]. *)
Definition submitted (w : world) : world :=
  match handleFormSubmit "contact" w with
  | Done _ w1 => w1
  | _ => w
  end.

(** The form is submitted, the page transition replaces it and rebuilds the
    registry, and the delay passes. *)
Definition submit_and_transition : M world unit :=
  handleFormSubmit "contact";; modify leave_page;; contentReplaced;; advance 6000.

Definition typing_page : world :=
  page_with default_options 1000000 (contact_form [text_input "email" "a"]) None.

Definition stored_of (r : result world unit) (key : string) : option string :=
  match r with
  | Done _ w => getStorage w !! key
  | _ => None
  end.

Definition log_of (r : result world unit) : list write :=
  match r with
  | Done _ w => setItem_log w
  | _ => []
  end.

Definition form_of (r : result world unit) (node : nat) : option form :=
  match r with
  | Done _ w => nodes (document w) !! node
  | _ => None
  end.

Definition found_after (r : result world unit) (formId : string) : option bool :=
  match r with
  | Done _ w => Some (found_on_page formId w)
  | _ => None
  end.

(** A form with an upload: a text field and, inside an uploader widget, a
    file input in which one file is chosen. *)
Definition upload_form : form :=
  mkForm "contact" EmptyString true []
    [ text_input "email" "a@b.com";
      mkElement FileInput (Some "cv") EmptyString false []
                [mkFileRef "cv.pdf" 1536 "application/pdf"] (Some 0%nat) None ]
    [ mkWidget FileUploaderInput false ].

Definition upload_page : world := page_with default_options 5000 upload_form None.

(** A form whose snapshot cannot be taken: the value of the field named
    [_unchecked] stands where the list of unchecked boxes is to go. *)
Definition reserved_name_form : form :=
  mkForm "survey" EmptyString true []
    [text_input "_unchecked" "x"; checkbox "agree" "on" false] [].

(** A page with two registered forms, [survey] before [contact]. *)
Definition two_forms_page : world :=
  mkWorld 5000
    (mkDocument "https://example.org/contact"
                {[ 0%nat := reserved_name_form; 1%nat := email_form ]} [0%nat; 1%nat] [] [])
    ∅ ∅ (mkScheduler [] 0 []) default_options
    {[ "survey" := mkFormData 0 "freeform_state_survey" None;
       "contact" := mkFormData 1 contact_key None ]}
    [].

(** An entry written without a timestamp, read long after. *)
Definition undated_page : world :=
  page_with default_options 99999999999 email_form
    (Some (default EmptyString
             (JSON.stringify (VObj [("state", VObj [("email", VStr "zz")])])))).

(** The page after one call of the debounced function of the form: its
    timer is pending and its variable [timeout] holds the identifier. *)
Definition pending_page : world :=
  mkWorld 1000000
    (mkDocument "https://example.org/contact"
                {[ 0%nat := contact_form [text_input "email" "a"] ]} [0%nat] [] [])
    ∅ ∅
    (mkScheduler [mkTimer 0 1000500 (Later 0 "contact")] 1 [Some 0%nat])
    default_options
    {[ "contact" := mkFormData 0 contact_key None ]}
    [].

(** The page right after [debounce]: the closure exists and nothing is
    pending. *)
Definition debounced_page : world :=
  mkWorld 1000000
    (mkDocument "https://example.org/contact"
                {[ 0%nat := contact_form [text_input "email" "a"] ]} [0%nat] [] [])
    ∅ ∅
    (mkScheduler [] 0 [None])
    default_options
    {[ "contact" := mkFormData 0 contact_key None ]}
    [].

(** The page after a transition: the form [contact] is attached, and the
    registry still holds a form of the page before. *)
Definition arrived_page : world :=
  set_forms {[ "old" := mkFormData 7 "freeform_state_old" (Some 4000) ]}
            (page_with default_options 5000 email_form None).

End Examples.

(** ** Invariants of encoding and decoding, used by the proofs *)
Module Invariants.
Import JS DOM Run FreeformStateManager Shape.

(** [m] relates the controls before and after it by [Q], also when it
    throws. *)
Definition kept (Q : DOM.element -> DOM.element -> Prop) {A} (m : M form A) (f : form)
    : Prop :=
  match m f with
  | Done _ f' | Raised f' => Forall2 Q (elements f) (elements f')
  | NotModelled => True
  end.

(** A computation that runs to its end from every form that has its method
    [querySelector], and leaves the form with it. *)
Definition total {A} (m : M form A) : Prop :=
  forall h, overridden "querySelector" h = false ->
    exists a h', m h = Done a h' /\ overridden "querySelector" h' = false.

(** The keys of a snapshot are names that are not excluded, or metadata. *)
Definition keys_ok (opts : Options) (st : props) : Prop :=
  forall k, is_Some (get_own k st) ->
            excluded opts k = false \/ k = "_unchecked" \/ k = "_custom".

(** The list under [_unchecked] holds names that are not excluded. *)
Definition unchecked_ok (opts : Options) (st : props) : Prop :=
  forall v, get_own "_unchecked" st = Some v ->
    exists items, v = VArr items /\
                  Forall (fun x => exists s, x = VStr s /\ excluded opts s = false) items.

(** A control with the name [n] keeps what it holds. *)
Definition keeps_named (n : string) (e e' : DOM.element) : Prop :=
  el_name_attr e' = el_name_attr e /\
  (el_name_attr e = Some n -> field_state e' = field_state e).

(** A write keeps the type and the name of a control. *)
Definition same_control (e e' : DOM.element) : Prop :=
  el_type e' = el_type e /\ el_name_attr e' = el_name_attr e.

(** A write that leaves the value, checkedness, options and files alone. *)
Definition same_fields (e e' : DOM.element) : Prop :=
  field_state e' = field_state e.

Definition is_checkbox_named (n : string) (e : DOM.element) : bool :=
  bool_decide (el_type e = Checkbox) && has_name n e.

Definition unchecked_at (i : nat) (f : form) : Prop :=
  exists e, elements f !! i = Some e /\ el_checked e = false.

(** The name [n] is in the list under the key [_unchecked]. *)
Definition listed (n : string) (st : props) : Prop :=
  exists names, get_own "_unchecked" st = Some (VArr names) /\ VStr n ∈ names.

Definition selected_of (os : list option_element) : list string :=
  map opt_value (filter (fun o => opt_selected o = true) os).

(** What the entry list of a control that is not a radio button
    accumulates to. *)
Definition encodes (e : DOM.element) (v : value) : Prop :=
  match el_type e with
  | Checkbox => el_checked e = true /\ v = VStr (el_value e)
  | Radio => False
  | FileInput => True
  | SelectOne => exists x, selected_values e = [x] /\ v = VStr x
  | SelectMultiple =>
      (exists x, selected_values e = [x] /\ v = VStr x) \/
      v = VArr (map VStr (selected_values e))
  | Textarea | ButtonElement | Input _ => v = VStr (el_value e)
  end.

(** What a key holding [cur] holds after further values [xs] for it. *)
Definition combine (cur : value) (xs : list value) : value :=
  match xs with
  | [] => cur
  | _ :: _ => match cur with
              | VArr l => VArr (l ++ xs)
              | _ => VArr (cur :: xs)
              end
  end.

(** [st'] differs from [st] at the key [n] at most. *)
Definition same_but (n : string) (st st' : props) : Prop :=
  (forall k, k <> n -> get_own k st' = get_own k st) /\
  (NoDup st.*1 -> NoDup st'.*1).

(** The values that a control contributes to the entry list. *)
Definition entry_values (e : DOM.element) : list value :=
  match el_name_attr e with
  | None => []
  | Some n =>
      if String.eqb n EmptyString then []
      else if is_button e then []
      else
        match el_type e with
        | Checkbox | Radio => if el_checked e then [VStr (el_value e)] else []
        | FileInput =>
            match el_files e with
            | [] => [VFile empty_file]
            | fs => map VFile fs
            end
        | SelectOne | SelectMultiple => map VStr (submitted_values e)
        | Textarea | ButtonElement | Input _ => [VStr (el_value e)]
        end
  end.

(** Restoring any entry of the snapshot leaves the form [f] as it is. *)
Definition fixes (f : form) (st : props) : Prop :=
  forall k v, get_own k st = Some v -> String.prefix "_" k = false ->
              restoreField k v f = Done tt f.

(** Every key comes from one of the first [m] controls of [f]. *)
Definition from_controls (f : form) (m : nat) (st : props) : Prop :=
  forall k, is_Some (get_own k st) ->
    exists j e, (j < m)%nat /\ elements f !! j = Some e /\
                el_name_attr e = Some k /\ entry_values e <> [].

(** The list under [_unchecked] names unchecked checkboxes of [f]. *)
Definition unchecked_names (f : form) (st : props) : Prop :=
  get_own "_unchecked" st = None \/
  exists names,
    get_own "_unchecked" st = Some (VArr names) /\
    Forall (fun x => exists cb, cb ∈ elements f /\ el_type cb = Checkbox /\
                                el_checked cb = false /\ x = VStr (DOM.name cb)) names.

Definition snapshot_ok (f : form) (st : props) : Prop :=
  NoDup st.*1 /\ fixes f st /\ unchecked_names f st.

Definition safe_char (c : ascii) : bool :=
  negb (bool_decide (c ∈ [JSON.dquote; "\"%char; ascii_of_nat 10; ascii_of_nat 12;
                          ascii_of_nat 13])).

(** An entry that [extractCustomElements] can produce. *)
Definition custom_entry (entry : string * value) : Prop :=
  selector_safe entry.1 = true /\
  (entry.2 = VBool true \/ exists files, entry.2 = VArr (map file_info files)).

End Invariants.
(** ** What a value is after a trip through JSON text *)
Module Payload.
Import JS JSON.

(** [JSON.parse(JSON.stringify(v))]; [None] where [stringify] returns
    [undefined]. *)
Fixpoint reread (v : value) : option value :=
  match v with
  | VUndefined => None
  | VNative m => if String.eqb m "__proto__" then Some (VObj []) else None
  | VNull => Some VNull
  | VBool b => Some (VBool b)
  | VNum n => Some (VNum n)
  | VStr s => Some (VStr s)
  | VFile _ => Some (VObj [])
  | VArr items => Some (VArr (map (fun x => default VNull (reread x)) items))
  | VObj ps => Some (VObj (omap (fun p => pair p.1 <$> reread p.2) ps))
  end.

(** Keys in the order in which an object enumerates them: array indices
    ascending, then the other keys, none of them twice. *)
Fixpoint enumeration_order (bound : Z) (keys : list string) : bool :=
  match keys with
  | [] => true
  | k :: rest =>
      match array_index k with
      | Some n => bool_decide (bound < n) && enumeration_order n rest
      | None => bool_decide (NoDup keys)
                && forallb (fun k' => bool_decide (array_index k' = None)) rest
      end
  end.

(** Values that [JSON.stringify] writes as they are modelled: the numbers
    are safe integers and the keys of every object are in enumeration
    order. *)
Fixpoint representable (v : value) : bool :=
  match v with
  | VNum n => bool_decide (- safe_integer <= n <= safe_integer)
  | VArr items => forallb representable items
  | VObj ps => enumeration_order (-1) ps.*1 && forallb (fun p => representable p.2) ps
  | _ => true
  end.

(** A bound on the nesting of parser calls that reading a value back takes. *)
Fixpoint weight (v : value) : nat :=
  match v with
  | VArr items => S (sum_list_with (fun x => S (weight x)) items)
  | VObj ps => S (sum_list_with (fun p => S (weight p.2)) ps)
  | _ => 1
  end.

(** Where a value ends inside a text written by [stringify]. *)
Definition delimited (rest : string) : Prop :=
  match rest with
  | EmptyString => True
  | String c _ => c = ","%char \/ c = "]"%char \/ c = "}"%char
  end.

Definition starts_value (t : string) : Prop :=
  exists c t', t = String c t' /\ is_ws c = false /\ c <> "]"%char /\ c <> "}"%char.

(** The text [t] is read back as the value [v], wherever it stands in a
    text written by [stringify]. *)
Definition reads (t : string) (v : value) : Prop :=
  starts_value t /\
  (weight v <= 2 * String.length t)%nat /\
  forall fuel rest, (weight v <= fuel)%nat -> delimited rest ->
    parse_value fuel (t +:+ rest) = Parsed v rest.

(** A member of an object: its key, the text of its value and the value. *)
Definition member_text (m : string * string * value) : string :=
  quote m.1.1 +:+ ":" +:+ m.1.2.

Definition member_entry (m : string * string * value) : string * value :=
  (m.1.1, m.2).

End Payload.

(** ** What is kept in storage *)
Module Stored.
Import JS JSON DOM Run FreeformStateManager Payload.

(** An object that [stringify] writes as it is modelled. *)
Definition writable (o : props) : Prop :=
  enumeration_order (-1) o.*1 = true /\ Forall (fun p => representable p.2 = true) o.

(** Every file chosen in the form has a size that is a safe integer. *)
Definition sized_files (f : form) : bool :=
  forallb (fun e => forallb (fun x => bool_decide (0 <= file_size x <= safe_integer))
                            (el_files e))
          (elements f).

(** The object that [saveFormState] writes. *)
Definition envelope (state : value) (timestamp : Z) (url : string) : value :=
  VObj [("state", state); ("timestamp", VNum timestamp); ("url", VStr url)].

(** The world after a save of the form [formId] that wrote [text]. *)
Definition saved (formId : string) (fd : formData) (text : string) (w : world) : world :=
  set_lastSaved formId (now w)
    (set_setItem_log (setItem_log w ++ [mkWrite (now w) (storageKey fd) text])
       (set_storage (<[storageKey fd := text]> (getStorage w)) w)).

(** A value that JSON text gives back as it is. *)
Definition plain (v : value) : Prop := reread v = Some v.

(** A file input of the form has the name [k]. *)
Definition file_named (f : form) (k : string) : Prop :=
  exists e, e ∈ elements f /\ el_type e = FileInput /\ el_name_attr e = Some k.

(** Every entry of the snapshot is plain or belongs to a file input. *)
Definition plain_or_file (f : form) (st : props) : Prop :=
  forall k v, get_own k st = Some v -> plain v \/ file_named f k.

End Stored.

Module Timers.
Import JS DOM Run FreeformStateManager.

(** Is [t] a pending call of the debounced closure with the variable [c]? *)
Definition is_later (c : nat) (t : timer) : bool :=
  match action t with
  | Later c' _ => bool_decide (c' = c)
  | SubmitCheck _ => false
  end.

Definition pending_of (c : nat) (w : world) : list timer :=
  filter (fun t => is_later c t = true) (timers (scheduler w)).

Definition others_of (c : nat) (w : world) : list timer :=
  filter (fun t => is_later c t = false) (timers (scheduler w)).

(** The pending timers have distinct identifiers, all of them handed out
    already; the variable [timeout] of a closure holds an identifier handed
    out already, and a pending timer belongs to a closure exactly when that
    variable holds its identifier. *)
Definition scheduler_ok (w : world) : Prop :=
  let s := scheduler w in
  NoDup (map timer_id (timers s)) /\
  Forall (fun t => (timer_id t < next_timer s)%nat) (timers s) /\
  (forall c i, read_cell c w = Some i -> (i < next_timer s)%nat) /\
  (forall t c, t ∈ timers s ->
     (exists formId, action t = Later c formId) <-> read_cell c w = Some (timer_id t)).

End Timers.

Module Burst.
Import JS DOM Run FreeformStateManager.

(** Calls of one debounced function at the given times, the event loop
    running in between. *)
Definition burst (d : debounced) (times : list Z) : M world unit :=
  forEach times (fun t => advance t;; executedFunction d).

(** Each call comes less than [wait] after the one before it. *)
Fixpoint close_calls (wait last : Z) (times : list Z) : bool :=
  match times with
  | [] => true
  | t :: rest => bool_decide (last <= t < last + wait) && close_calls wait t rest
  end.

(** The world in which the call pending since [last] is about to run:
    no timer is pending and it is [wait] after [last]. *)
Definition at_delayed_call (d : debounced) (last : Z) (w : world) : world :=
  set_now (Z.max (now w) (last + d_wait d))
    (set_scheduler (mkScheduler [] (next_timer (scheduler w)) (cells (scheduler w))) w).

(** What a burst leaves behind: one pending timer, held by the variable
    of the closure and due [wait] after the last call. *)
Definition after_call (d : debounced) (w0 : world) (last : Z) (w : world) : Prop :=
  exists i : nat,
    timers (scheduler w) = [mkTimer i (last + d_wait d) (Later (d_timeout d) (d_formId d))] /\
    read_cell (d_timeout d) w = Some i /\
    length (cells (scheduler w)) = length (cells (scheduler w0)) /\
    now w = last /\
    document w = document w0 /\ options w = options w0 /\ forms w = forms w0 /\
    localStorage w = localStorage w0 /\ sessionStorage w = sessionStorage w0 /\
    setItem_log w = setItem_log w0.

End Burst.

Module Frames.
Import JS DOM Run FreeformStateManager.

(** The page, the options and the registered forms with their storage keys
    are the same in both worlds. *)
Definition same_registry (w w' : world) : Prop :=
  document w' = document w /\ options w' = options w /\
  forall id, (fun fd => (element fd, storageKey fd)) <$> forms w' !! id
             = (fun fd => (element fd, storageKey fd)) <$> forms w !! id.

(** The key under which some form of [ids] keeps its state. *)
Definition key_of (w : world) (ids : list string) (key : string) : bool :=
  existsb (fun id => from_option (fun fd => String.eqb (storageKey fd) key) false
                                 (forms w !! id))
          ids.

End Frames.

Module Structure.
Import JS DOM Run FreeformStateManager.

(** The list under [_unchecked], if there is one, was made by
    [extractFormState] itself. *)
Definition unchecked_is_list (st : props) : Prop :=
  get_own "_unchecked" st = None \/ exists items, get_own "_unchecked" st = Some (VArr items).

End Structure.

Module Registry.
Import JS DOM Run FreeformStateManager.

(** [m] relates the state before and after it by [R], also when it throws. *)
Definition keeps {S A} (R : S -> S -> Prop) (m : M S A) : Prop :=
  forall s, match m s with
            | Done _ s' | Raised s' => R s s'
            | NotModelled => True
            end.

(** What identifies a form and makes the manager find it. *)
Definition form_attrs (f : form) : string * string * bool * list string :=
  (form_id f, form_name f, form_data_freeform f, form_classes f).

Definition same_form (f f' : form) : Prop := form_attrs f' = form_attrs f.

(** [form.id || form.name]. *)
Definition registered_id (f : form) : string :=
  if String.eqb (form_id f) EmptyString then form_name f else form_id f.

(** One of the four selectors of [discoverForms] matches the form. *)
Definition is_freeform (f : form) : bool :=
  existsb (fun selector => selector f) selectors.

(** The same registry and options, and a page with the same forms, up to
    what their controls hold. *)
Definition same_forms (w w' : world) : Prop :=
  forms w' = forms w /\ options w' = options w /\
  page (document w') = page (document w) /\
  forall node, form_attrs <$> nodes (document w') !! node
               = form_attrs <$> nodes (document w) !! node.

End Registry.

Module Discovery.
Import JS DOM Run FreeformStateManager Registry.

(** The registry entry [fd] under the key [id] is the one that
    [registerForm] makes for a Freeform form attached to the page of [w]. *)
Definition registered_from (w : world) (id : string) (fd : formData) : Prop :=
  exists f, element fd ∈ page (document w) /\
            nodes (document w) !! element fd = Some f /\
            is_freeform f = true /\
            registered_id f = id /\
            storageKey fd = storagePrefix (options w) +:+ id /\
            lastSaved fd = None.

(** The registry grows: what is registered in [w] is registered in [w']. *)
Definition registry_grows (w w' : world) : Prop :=
  forall id, is_Some (forms w !! id) -> is_Some (forms w' !! id).

(** During discovery: the page of [w0] up to what its controls hold, and a
    registry made from it. *)
Definition discovering (w0 w : world) : Prop :=
  options w = options w0 /\
  page (document w) = page (document w0) /\
  (forall node, form_attrs <$> nodes (document w) !! node
                = form_attrs <$> nodes (document w0) !! node) /\
  forall id fd, forms w !! id = Some fd -> registered_from w0 id fd.

(** The form at [node] on the page of [w0] is in the registry of [w]. *)
Definition registered_node (w0 w : world) (node : nat) : Prop :=
  forall f, nodes (document w0) !! node = Some f -> is_Some (forms w !! registered_id f).

(** No element of the page stands for the method [n] of the document. *)
Definition document_keeps (n : string) (w : world) : Prop :=
  existsb (fun f => String.eqb (form_name f) n) (attached w) = false /\
  (n ∉ other_names (document w)) /\
  (n ∉ other_ids (document w)).

(** No control of the form stands for a method that [attachFormListeners]
    calls on it. *)
Definition listenable (f : form) : bool :=
  negb (overridden "addEventListener" f) && negb (overridden "querySelectorAll" f).

(** A page on a first visit: no element stands for
    [document.querySelectorAll], every attached node is a form of the page,
    and every Freeform form among them takes its key from an attribute,
    has its methods [addEventListener] and [querySelectorAll] and, with
    [autoRestore] on, has nothing stored under its storage key. *)
Definition first_visit (w : world) : Prop :=
  document_keeps "querySelectorAll" w /\
  forall node, node ∈ page (document w) ->
    exists f, nodes (document w) !! node = Some f /\
      (is_freeform f = true ->
         is_Some (form_key w f) /\
         listenable f = true /\
         (autoRestore (options w) = true ->
            getStorage w !! (storagePrefix (options w) +:+ registered_id f) = None)).

(** During the discovery on a first visit the page, the storage and the
    options stay as they are in [w]. *)
Definition untouched (w s : world) : Prop :=
  document s = document w /\ getStorage s = getStorage w /\ options s = options w.

End Discovery.

(** ** The same form, rendered again *)
Module Rerender.
Import JS DOM Run FreeformStateManager Shape.

(** What the markup of a control fixes, whatever the user does with it:
    a checkbox or radio button without its checkedness, a select without
    its selection, a text control without its value; of a file input only
    the type and the name. *)
Definition blank (e : DOM.element)
    : control_type * option string * string * bool * list option_element * list FileRef :=
  match el_type e with
  | Checkbox | Radio => field_state (with_checked false e)
  | SelectOne | SelectMultiple =>
      field_state (with_options (select_by (fun _ => false) (el_options e)) e)
  | FileInput => (el_type e, el_name_attr e, EmptyString, false, [], [])
  | Textarea | ButtonElement | Input _ => field_state (with_value EmptyString e)
  end.

(** [g] shows the controls of [f], in the same order. *)
Definition rerendered (f g : form) : Prop :=
  map blank (elements g) = map blank (elements f).

Definition akin (e1 e2 : DOM.element) : Prop := blank e2 = blank e1.

Definition agree (e1 e2 : DOM.element) : Prop := field_state e2 = field_state e1.

(** Two forms with the same markup that hold the same in the controls with
    an index in [P], file inputs apart. *)
Definition locked (P : nat -> Prop) (f1 h1 : form) : Prop :=
  Forall2 akin (elements f1) (elements h1) /\
  forall j e1 e2, P j -> elements f1 !! j = Some e1 -> elements h1 !! j = Some e2 ->
                  el_type e1 <> FileInput -> agree e1 e2.

(** The controls with a name that is a key of [entries] restored by
    [applyFormState], and the first checkboxes with a name in [names], by
    their index in [f]. *)
Definition named_by (entries : props) (f : form) (j : nat) : Prop :=
  exists k v, (k, v) ∈ entries /\ String.prefix "_" k = false /\
              j ∈ query_all (has_name k) f.

Definition unchecked_by (names : list value) (f : form) (j : nat) : Prop :=
  exists name n, name ∈ names /\ to_string name = Some n /\
                 query (Invariants.is_checkbox_named n) f = Some j.

Definition written (entries : props) (f : form) (j : nat) : Prop :=
  named_by entries f j \/
  exists names, JS.get "_unchecked" entries = VArr names /\ unchecked_by names f j.

(** The controls that [applyFormState] may write, by type and name: a
    control that is no file input and has a restored key as its name, and a
    checkbox with a name in the list under [_unchecked]. *)
Definition touched (entries : props) (t : control_type) (a : option string) : Prop :=
  (t <> FileInput /\
   exists k v, (k, v) ∈ entries /\ String.prefix "_" k = false /\ a = Some k) \/
  (t = Checkbox /\
   exists names name n, JS.get "_unchecked" entries = VArr names /\ name ∈ names /\
                        to_string name = Some n /\ a = Some n).

(** The same control, holding what it held unless writes to it are
    admitted by [touch]. *)
Definition held_unless (touch : control_type -> option string -> Prop)
    (e e' : DOM.element) : Prop :=
  Invariants.same_control e e' /\
  (~ touch (el_type e) (el_name_attr e) -> field_state e' = field_state e).

End Rerender.

(** ** What a snapshot pins down *)
Module Capture.
Import JS DOM Run FreeformStateManager Shape.

(** The controls whose state the snapshot of [f] brings back: a control
    with a name that is not excluded and, unless it is an unchecked
    checkbox, does not start with an underscore; a radio button only if a
    button of its group is checked, a select only if an option that is not
    disabled is selected;
    no file input and no button. *)
Definition captured (opts : Options) (f : form) (e : DOM.element) : bool :=
  match el_name_attr e with
  | None => false
  | Some n =>
      negb (excluded opts n)
      && match el_type e with
         | Checkbox => negb (el_checked e) || negb (String.prefix "_" n)
         | Radio =>
             negb (String.prefix "_" n)
             && existsb (fun r => bool_decide (el_type r = Radio) && has_name n r
                                  && el_checked r)
                        (elements f)
         | SelectOne | SelectMultiple =>
             negb (String.prefix "_" n)
             && negb (bool_decide (submitted_values e = []))
         | FileInput | ButtonElement => false
         | Textarea => negb (String.prefix "_" n)
         | Input _ => negb (String.prefix "_" n) && negb (is_button e)
         end
  end.

(** The keys of [s'] are those of [s] and [key]. *)
Definition grows_by (key : string) (s s' : props) : Prop :=
  forall k, is_Some (get_own k s') <-> k = key \/ is_Some (get_own k s).

(** Where the keys of a snapshot of [f] come from. *)
Definition origin (opts : Options) (f : form) (st : props) : Prop :=
  forall k, is_Some (get_own k st) ->
    k = "_unchecked" \/ k = "_custom" \/
    (exists v, (k, v) ∈ FormData_entries f) \/
    (exists r, r ∈ elements f /\ el_type r = Radio /\ el_checked r = true /\
               DOM.name r = k).

End Capture.

(** ** The custom widgets *)
Module Widgets.
Import JS DOM Run FreeformStateManager.

(** The lines that [displayFileInfo] shows for the files of a snapshot:
    the name of each file and its formatted size. *)
Definition notice_of (files : list FileRef) : notice :=
  map (fun x => (file_name x, FileSize.formatFileSize (file_size x))) files.

(** The form has no file input but the one at index [i]. *)
Definition only_file_input (f : form) (i : nat) : Prop :=
  forall j e, elements f !! j = Some e -> el_type e = FileInput -> j = i.

(** The control at index [i] holds the notice [lines]. *)
Definition shows (lines : notice) (i : nat) (h : form) : Prop :=
  exists e, elements h !! i = Some e /\ el_notice e = Some lines.

(** A write that leaves the notice of a control alone. *)
Definition same_notice (e e' : DOM.element) : Prop :=
  el_name_attr e' = el_name_attr e /\ el_notice e' = el_notice e.

(** The second half of the body of the loop of [restoreCustomElements]. *)
Definition files_part (key : string) (value : JS.value) : M form unit :=
  if ends_with "_files" key then
    let inputName := remove_first "_files" key in
    f ← get_state;
    if overridden "querySelector" f then throw
    else if selector_safe inputName then
      match query (fun e => bool_decide (el_type e = FileInput) && has_name inputName e) f with
      | Some fileInput =>
          match value with
          | VArr fileInfos => displayFileInfo fileInput fileInfos
          | _ => mret tt
          end
      | None => mret tt
      end
    else not_modelled
  else mret tt.

End Widgets.

(** ** Open selects *)
Module Selects.
Import JS DOM Run FreeformStateManager.

(** The widget with index [w] carries the class [open]. *)
Definition open_at (w : nat) (h : form) : Prop :=
  exists wd, widgets h !! w = Some wd /\ w_open wd = true.

(** The widgets of [g] are those of [f], open or not, around the same
    controls. *)
Definition same_widgets (f g : form) : Prop :=
  map el_widget (elements g) = map el_widget (elements f) /\
  map w_class (widgets g) = map w_class (widgets f).

(** A write that keeps the widgets around their controls and closes none. *)
Definition opens (h h' : form) : Prop :=
  same_widgets h h' /\ forall w, open_at w h -> open_at w h'.

End Selects.

(** ** The keys of a snapshot *)
Module Keys.
Import JS DOM Run FreeformStateManager.

(** Some checkbox of the form is unchecked and not excluded. *)
Definition unchecked_box (opts : Options) (f : form) : Prop :=
  exists cb, cb ∈ elements f /\ el_type cb = Checkbox /\ el_checked cb = false /\
             excluded opts (DOM.name cb) = false.

(** Some checked radio button of the form has the name [k]; the name of a
    radio button without a name attribute is the empty string. *)
Definition checked_radio (f : form) (k : string) : Prop :=
  exists r, r ∈ elements f /\ el_type r = Radio /\ el_checked r = true /\ DOM.name r = k.

(** Where a key of a snapshot comes from. *)
Definition stored_key (opts : Options) (f : form) (k : string) : Prop :=
  k = "_custom" \/
  (k = "_unchecked" /\ unchecked_box opts f) \/
  (excluded opts k = false /\
   ((exists v, (k, v) ∈ FormData_entries f) \/ (checked_radio f k /\ k <> "__proto__"))).

End Keys.

(** ** Arriving on a page: [contentReplaced] and the restore of [registerForm] *)
Module Transition.
Import JS DOM Run FreeformStateManager Rerender Capture Registry.

(** The controls of [h] hold what the snapshot of [f] captures, and what
    the controls of [g] hold where it captures nothing. *)
Definition restored_onto (opts : Options) (f g h : form) : Prop :=
  forall i e_f e_g,
    elements f !! i = Some e_f -> elements g !! i = Some e_g ->
    exists e', elements h !! i = Some e' /\
               field_state e' = field_state (if captured opts f e_f then e_f else e_g).

(** [h] is the form [g], rendered like [f], and holds what [g] holds where
    the snapshot of [f] captures nothing. *)
Definition carries (opts : Options) (f g h : form) : Prop :=
  rerendered f h /\ form_attrs h = form_attrs g /\
  forall i e_f e_g,
    elements f !! i = Some e_f -> elements g !! i = Some e_g ->
    captured opts f e_f = false ->
    exists e', elements h !! i = Some e' /\ field_state e' = field_state e_g.

(** The world while [discoverForms] runs on the page of [w2], whose only
    form is [g] at [node]; [b] tells whether the form is registered, and so
    restored, already. *)
Definition arriving (opts : Options) (f g : form) (formId key text : string) (node : nat)
    (w2 : world) (b : bool) (w' : world) : Prop :=
  options w' = options w2 /\ now w' = now w2 /\ page (document w') = [node] /\
  other_ids (document w') = other_ids (document w2) /\
  other_names (document w') = other_names (document w2) /\
  getStorage w' !! key = Some text /\
  forms w' = (if b then {[ formId := mkFormData node key None ]} else ∅) /\
  exists h, nodes (document w') !! node = Some h /\ carries opts f g h /\
            (b = true -> restored_onto opts f g h).

End Transition.

(** ** Forms with custom widgets, used by the examples *)
Module WidgetExamples.
Import JS DOM Run FreeformStateManager.

Definition cv_input : DOM.element :=
  mkElement FileInput (Some "cv") EmptyString false []
            [mkFileRef "cv.pdf" 1536 "application/pdf"] (Some 0%nat) None.

(** A form with an open multi-select around a hidden input. *)
Definition tags_form : form :=
  mkForm "contact" EmptyString true []
    [ mkElement (Input "hidden") (Some "tags") "a,b" false [] [] (Some 0%nat) None;
      Examples.text_input "email" "a@b.com" ]
    [ mkWidget SelectMultipleWidget true ].

(** The default options, with the field [cv] excluded as well. *)
Definition private_options : Options :=
  mkOptions "freeform_state_" "localStorage" true true true false
            ["honeypot"; "csrf_token"; "CRAFT_CSRF_TOKEN"; "cv"].

End WidgetExamples.


(** * Theorems *)

(** ** File sizes *)
Section FileSizeFacts.
Import FileSize.

Lemma log_k_floor_bounds (size : Z) :
  0 < size < 1024 ^ 4 ->
  0 <= log_k_floor size <= 3 /\
  1024 ^ log_k_floor size <= size < 1024 ^ (log_k_floor size + 1).
Proof.
  intros [Hpos Hlt]. unfold log_k_floor.
  pose proof (Z.log2_spec size Hpos) as [Hlo Hhi].
  pose proof (Z.log2_nonneg size) as Hnn.
  assert (Hl : Z.log2 size < 40).
  { apply Z.log2_lt_pow2; [lia|]. change (2 ^ 40) with (1024 ^ 4). lia. }
  assert (Ho : 0 <= Z.log2 size / 10 <= 3).
  { split; [apply Z.div_pos; lia |].
    assert (Z.log2 size / 10 < 4) by (apply Z.div_lt_upper_bound; lia). lia. }
  split; [exact Ho|].
  pose proof (Z.mul_div_le (Z.log2 size) 10 ltac:(lia)) as Hd1.
  pose proof (Z.mul_succ_div_gt (Z.log2 size) 10 ltac:(lia)) as Hd2.
  set (o := Z.log2 size / 10) in *.
  replace (1024 ^ o) with (2 ^ (10 * o)) by (rewrite Z.pow_mul_r by lia; reflexivity).
  replace (1024 ^ (o + 1)) with (2 ^ (10 * (o + 1)))
    by (rewrite Z.pow_mul_r by lia; reflexivity).
  split.
  - apply Z.le_trans with (2 ^ Z.log2 size); [|exact Hlo].
    apply Z.pow_le_mono_r; lia.
  - apply Z.lt_le_trans with (2 ^ Z.succ (Z.log2 size)); [exact Hhi|].
    apply Z.pow_le_mono_r; lia.
Qed.

(** C9 (amended).  For a size of at least one byte and below 1024^4, the
    formatted text is the number of hundredths nearest to size / 1024^order
    (the larger one on a tie), printed without trailing zeros, then a space
    and the unit at position order of Bytes, KB, MB, GB, where order is the
    integer logarithm of the size to base 1024. *)
Theorem formatFileSize_rounds (size : Z) :
  0 < size < 1024 ^ 4 ->
  exists (order hundredths : Z) (unit_name : string),
    0 <= order /\
    sizes !! Z.to_nat order = Some unit_name /\
    1024 ^ order <= size < 1024 ^ (order + 1) /\
    2 * hundredths * 1024 ^ order <= 200 * size + 1024 ^ order
      < 2 * (hundredths + 1) * 1024 ^ order /\
    formatFileSize size = show_hundredths hundredths +:+ " " +:+ unit_name.
Proof.
  intros Hsize.
  destruct (log_k_floor_bounds size Hsize) as [Ho Hb].
  set (o := log_k_floor size) in *.
  assert (Hk : 0 < 1024 ^ o) by (apply Z.pow_pos_nonneg; lia).
  exists o, (toFixed2 size o), (sizes_at o).
  split; [lia|]. split.
  { unfold sizes_at. rewrite decide_True by lia.
    assert (Hcases : o = 0 \/ o = 1 \/ o = 2 \/ o = 3) by lia.
    destruct Hcases as [-> | [-> | [-> | ->]]]; reflexivity. }
  split; [exact Hb|]. split.
  { unfold toFixed2, k.
    pose proof (Z.mul_div_le (200 * size + 1024 ^ o) (2 * 1024 ^ o) ltac:(lia)).
    pose proof (Z.mul_succ_div_gt (200 * size + 1024 ^ o) (2 * 1024 ^ o) ltac:(lia)).
    lia. }
  unfold formatFileSize.
  rewrite decide_False by lia. rewrite decide_False by lia. reflexivity.
Qed.

Lemma formatFileSize_rounds_witness :
  0 < 1536 < 1024 ^ 4 /\
  exists (order hundredths : Z) (unit_name : string),
    0 <= order /\
    sizes !! Z.to_nat order = Some unit_name /\
    1024 ^ order <= 1536 < 1024 ^ (order + 1) /\
    2 * hundredths * 1024 ^ order <= 200 * 1536 + 1024 ^ order
      < 2 * (hundredths + 1) * 1024 ^ order /\
    formatFileSize 1536 = show_hundredths hundredths +:+ " " +:+ unit_name.
Proof.
  split; [split; reflexivity | apply (formatFileSize_rounds 1536); split; reflexivity].
Defined.

(** C9 as stated fails: 1536 bytes are shown as 1.5 KB, with one decimal
    place. *)
Lemma formatFileSize_claim_fails :
  ~ (forall size : Z, 0 < size ->
       unit_part (formatFileSize size) ∈ sizes /\
       two_decimal_places (numeric_part (formatFileSize size)) = true).
Proof.
  intros H.
  destruct (H 1536 ltac:(lia)) as [_ Hdec].
  vm_compute in Hdec. discriminate.
Qed.

(** From one tebibyte on there is no unit left in [sizes]. *)
Example formatFileSize_two_tebibytes : formatFileSize (2 ^ 41) = "2 undefined".
Proof. reflexivity. Qed.

(** C10.  A size of zero bytes is formatted as the fixed text 0 Bytes. *)
Theorem formatFileSize_zero : formatFileSize 0 = "0 Bytes".
Proof. reflexivity. Qed.
End FileSizeFacts.

(** ** The monad, unfolded *)
Section RunFacts.
Import Run.

(** A loop whose every step leaves the state alone leaves it alone. *)
Lemma forEach_fixed {S A} (items : list A) (f : A -> M S unit) (s : S) :
  (forall x, x ∈ items -> f x s = Done tt s) ->
  forEach items f s = Done tt s.
Proof.
  induction items as [|x rest IH]; intros Hstep; [reflexivity|].
  cbn [forEach]. unfold bind.
  rewrite (Hstep x) by set_solver. apply IH. intros y Hy. apply Hstep. set_solver.
Qed.

Lemma bind_Done_inv {S A B} (m : M S A) (f : A -> M S B) (s s' : S) (b : B) :
  (m ≫= f) s = Done b s' -> exists a s1, m s = Done a s1 /\ f a s1 = Done b s'.
Proof.
  unfold mbind, run_bind, bind. destruct (m s) as [a s1| |]; [eauto | done..].
Qed.

(** A call of a method that a control may stand for: where the run goes
    on, the method was there. *)
Lemma guard_Done_inv {S B} (b : bool) (k : M S B) (s s' : S) (r : B) :
  ((if b then throw else mret tt) ≫= fun _ => k) s = Done r s' ->
  b = false /\ k s = Done r s'.
Proof. by destruct b. Qed.

Lemma guard_false {S B} (b : bool) (k : M S B) (s : S) :
  b = false -> ((if b then throw else mret tt) ≫= fun _ => k) s = k s.
Proof. by intros ->. Qed.

(** What every step of a loop that runs to its end preserves holds at the end. *)
Lemma forEach_Done {S A} (P : S -> Prop) (items : list A) (f : A -> M S unit) :
  (forall x s s', x ∈ items -> P s -> f x s = Done tt s' -> P s') ->
  forall s s', P s -> forEach items f s = Done tt s' -> P s'.
Proof.
  induction items as [|x rest IH]; intros Hstep s s' Hs Hrun.
  - by injection Hrun as <-.
  - cbn [forEach] in Hrun. unfold bind in Hrun.
    destruct (f x s) as [[] s1| |] eqn:Hx; [|done..].
    eapply IH; [| |exact Hrun].
    + intros y t t' Hy. apply Hstep. set_solver.
    + eapply Hstep; eauto. set_solver.
Qed.

(** A loop runs to its end when every step does and keeps what the next
    step needs. *)
Lemma forEach_total {S A} (P : S -> Prop) (items : list A) (f : A -> M S unit) :
  (forall x s, x ∈ items -> P s -> exists s', f x s = Done tt s' /\ P s') ->
  forall s, P s -> exists s', forEach items f s = Done tt s' /\ P s'.
Proof.
  induction items as [|x rest IH]; intros Hstep s Hs; [by exists s|].
  destruct (Hstep x s ltac:(left) Hs) as (s1 & Hx & Hs1).
  destruct (IH ltac:(intros y t Hy; apply Hstep; by right) s1 Hs1) as (s' & Hrun & Hs').
  exists s'. split; [|exact Hs']. cbn [forEach]. unfold bind. by rewrite Hx.
Qed.

Lemma forEach_app {S A} (xs ys : list A) (f : A -> M S unit) (s : S) :
  forEach (xs ++ ys) f s = (forEach xs f ≫= fun _ => forEach ys f) s.
Proof.
  revert s. induction xs as [|x xs IH]; intros s; [reflexivity|].
  cbn [forEach app]. unfold mbind, run_bind, bind.
  destruct (f x s) as [[] s1| s1 |]; [|reflexivity..].
  rewrite IH. reflexivity.
Qed.

End RunFacts.

(** ** Objects: reading after writing *)
Section ObjectFacts.
Import JS.

Lemma get_own_app_None (key : string) (o o' : props) :
  get_own key o = None -> get_own key (o ++ o') = get_own key o'.
Proof.
  induction o as [|[k w] o IH]; [reflexivity|]. cbn.
  destruct (String.eqb k key); [discriminate | exact IH].
Qed.

Lemma get_own_replace_own (key key' : string) (v : value) (o : props) :
  get_own key' (replace_own key v o)
  = if String.eqb key key' then (fun _ => v) <$> get_own key o else get_own key' o.
Proof.
  induction o as [|[k w] o IH]; cbn.
  - by destruct (String.eqb key key').
  - destruct (String.eqb k key) eqn:Ek; cbn.
    + apply String.eqb_eq in Ek. subst k.
      by destruct (String.eqb key key').
    + destruct (String.eqb key key') eqn:Ekk.
      * apply String.eqb_eq in Ekk. subst key'. rewrite Ek. exact IH.
      * destruct (String.eqb k key'); [reflexivity | exact IH].
Qed.

Lemma get_own_insert_index (n : Z) (key key' : string) (v : value) (o : props) :
  get_own key o = None ->
  get_own key' (insert_index n key v o)
  = if String.eqb key key' then Some v else get_own key' o.
Proof.
  intros Hnone. induction o as [|[k w] o IH]; cbn.
  - by destruct (String.eqb key key').
  - cbn in Hnone. destruct (String.eqb k key) eqn:Ek; [discriminate|].
    destruct (array_index k) as [m|]; [destruct (decide (m < n))|]; cbn.
    + destruct (String.eqb key key') eqn:Ekk.
      * apply String.eqb_eq in Ekk. subst key'. rewrite Ek. by apply IH.
      * destruct (String.eqb k key'); [reflexivity | by apply IH].
    + by destruct (String.eqb key key').
    + by destruct (String.eqb key key').
Qed.

Lemma get_own_set (key key' : string) (v : value) (o : props) :
  get_own key' (JS.set key v o)
  = if String.eqb key key' then Some v else get_own key' o.
Proof.
  unfold JS.set. destruct (get_own key o) as [w|] eqn:Hown.
  - rewrite get_own_replace_own, Hown. reflexivity.
  - destruct (array_index key) as [n|].
    + by apply get_own_insert_index.
    + destruct (String.eqb key key') eqn:Ekk.
      * apply String.eqb_eq in Ekk. subst key'.
        rewrite get_own_app_None by exact Hown. cbn. by rewrite String.eqb_refl.
      * destruct (get_own key' o) as [x|] eqn:Hx.
        -- clear Hown. induction o as [|[k w] o IH]; [discriminate|]. cbn in *.
           destruct (String.eqb k key'); [exact Hx | by apply IH].
        -- rewrite get_own_app_None by exact Hx. cbn. by rewrite Ekk.
Qed.

Lemma get_own_set_eq (key : string) (v : value) (o : props) :
  get_own key (JS.set key v o) = Some v.
Proof. by rewrite get_own_set, String.eqb_refl. Qed.

Lemma get_own_set_ne (key key' : string) (v : value) (o : props) :
  key <> key' -> get_own key' (JS.set key v o) = get_own key' o.
Proof.
  intros Hne. rewrite get_own_set.
  destruct (String.eqb key key') eqn:E; [|reflexivity].
  by apply String.eqb_eq in E.
Qed.

Lemma get_of_own (key : string) (v : value) (o : props) :
  get_own key o = Some v -> JS.get key o = v.
Proof. intros H. unfold JS.get. by rewrite H. Qed.

Lemma elem_of_get_own (key : string) (o : props) :
  get_own key o = None <-> forall v, (key, v) ∉ o.
Proof.
  induction o as [|[k w] o IH]; cbn.
  - split; [intros _ v; apply not_elem_of_nil | done].
  - destruct (String.eqb k key) eqn:Ek.
    + apply String.eqb_eq in Ek. subst k. split; [discriminate|].
      intros H. destruct (H w). left.
    + apply String.eqb_neq in Ek. rewrite IH. split.
      * intros H v Hin. apply elem_of_cons in Hin as [Heq | Hin]; [congruence|].
        by apply (H v).
      * intros H v Hin. apply (H v). by right.
Qed.

(** Writing a property adds its entry and drops at most the old one. *)
Lemma elem_of_set (key key' : string) (v v' : value) (o : props) :
  (key', v') ∈ JS.set key v o -> (key', v') = (key, v) \/ (key', v') ∈ o.
Proof.
  unfold JS.set. destruct (get_own key o) as [w|] eqn:Hown.
  - clear Hown. induction o as [|[k x] o IH]; cbn; [by right|].
    destruct (String.eqb k key) eqn:Ek.
    + apply String.eqb_eq in Ek. subst k.
      intros [Heq | Hin]%elem_of_cons; [by left | right; by right].
    + intros [Heq | Hin]%elem_of_cons; [right; rewrite Heq; left|].
      destruct (IH Hin) as [? | ?]; [by left | right; by right].
  - destruct (array_index key) as [n|].
    + clear Hown. induction o as [|[k x] o IH]; cbn.
      * intros Hin%list_elem_of_singleton. by left.
      * destruct (array_index k) as [m|]; [destruct (decide (m < n))|].
        -- intros [Heq | Hin]%elem_of_cons; [right; rewrite Heq; left|].
           destruct (IH Hin) as [? | ?]; [by left | right; by right].
        -- intros [Heq | Hin]%elem_of_cons; [by left | by right].
        -- intros [Heq | Hin]%elem_of_cons; [by left | by right].
    + intros [Hin | Hin%list_elem_of_singleton]%elem_of_app; [by right | by left].
Qed.

End ObjectFacts.

(** ** Storage and restore *)
Section ManagerFacts.
Import JS DOM Run FreeformStateManager.

Lemma getStorage_set_storage (s : gmap string string) (w : world) :
  getStorage (set_storage s w) = s.
Proof.
  unfold getStorage, set_storage, session.
  destruct (String.eqb (storageType (options w)) "sessionStorage") eqn:E;
    cbn; rewrite E; reflexivity.
Qed.

Lemma document_set_storage (s : gmap string string) (w : world) :
  document (set_storage s w) = document w.
Proof. unfold set_storage. by destruct (session w). Qed.

Lemma scheduler_set_storage (s : gmap string string) (w : world) :
  scheduler (set_storage s w) = scheduler w.
Proof. unfold set_storage. by destruct (session w). Qed.

Lemma clearFormState_registered (w : world) (formId : string) (fd : formData) :
  forms w !! formId = Some fd ->
  clearFormState formId w
  = Done tt (set_storage (delete (storageKey fd) (getStorage w)) w).
Proof.
  intros Hfd. unfold clearFormState, mbind, run_bind, bind, get_state.
  rewrite Hfd. reflexivity.
Qed.

Lemma clearFormState_unregistered (w : world) (formId : string) :
  forms w !! formId = None -> clearFormState formId w = Done tt w.
Proof.
  intros Hfd. unfold clearFormState, mbind, run_bind, bind, get_state.
  rewrite Hfd. reflexivity.
Qed.

Lemma parse_empty : JSON.parse EmptyString = JSON.Throws.
Proof. reflexivity. Qed.

(** C3.  A stored envelope whose timestamp lies more than 24 hours before
    now is not applied (the page is left as it was) and its entry leaves
    the storage; an envelope with now - timestamp <= 24h is usable: the
    restore is the application of its state to the form. *)
Theorem restoreFormState_staleness
    (w : world) (formId : string) (fd : formData) (text : string)
    (envelope : props) (timestamp : Z) :
  forms w !! formId = Some fd ->
  getStorage w !! storageKey fd = Some text ->
  JSON.parse text = JSON.Value (VObj envelope) ->
  JS.get "timestamp" envelope = VNum timestamp ->
  (now w - timestamp > maxAge ->
     exists w', restoreFormState formId w = Done tt w' /\
                document w' = document w /\
                getStorage w' = delete (storageKey fd) (getStorage w)) /\
  (now w - timestamp <= maxAge ->
     restoreFormState formId w
     = try_catch (on_node (element fd) (applyFormState (JS.get "state" envelope))) w).
Proof.
  intros Hfd Hget Hparse Hts.
  assert (Hne : String.eqb text EmptyString = false).
  { destruct (String.eqb text EmptyString) eqn:E; [|reflexivity].
    apply String.eqb_eq in E. subst text. rewrite parse_empty in Hparse. discriminate. }
  assert (Hbody : forall b,
    bool_decide (now w - timestamp > maxAge) = b ->
    restoreFormState formId w
    = try_catch (if b then clearFormState formId
                 else on_node (element fd) (applyFormState (JS.get "state" envelope))) w).
  { intros b Hb.
    unfold restoreFormState, getItem, try_catch, mbind, run_bind, bind, get_state, mret, run_ret, ret.
    rewrite Hfd, Hget, Hne, Hparse. cbn [destructure]. rewrite Hts. cbn [too_old].
    rewrite Hb. by destruct b. }
  split.
  - intros Hold. rewrite (Hbody true) by (apply bool_decide_eq_true; lia).
    unfold try_catch. rewrite (clearFormState_registered w formId fd Hfd).
    eexists. split; [reflexivity|].
    by rewrite document_set_storage, getStorage_set_storage.
  - intros Hfresh. by rewrite (Hbody false) by (apply bool_decide_eq_false; lia).
Qed.

(** C7 on the code: when the stored text fails to parse, the restore
    applies nothing and changes nothing.  The [SyntaxError] is caught and
    logged, and the entry that does not parse stays in the storage, where
    an entry that is too old is removed. *)
Theorem restoreFormState_malformed
    (w : world) (formId : string) (fd : formData) (text : string) :
  forms w !! formId = Some fd ->
  getStorage w !! storageKey fd = Some text ->
  JSON.parse text = JSON.Throws ->
  restoreFormState formId w = Done tt w.
Proof.
  intros Hfd Hget Hparse.
  unfold restoreFormState, getItem, try_catch, mbind, run_bind, bind, get_state, mret, run_ret, ret.
  rewrite Hfd, Hget. destruct (String.eqb text EmptyString); [reflexivity|].
  rewrite Hparse. reflexivity.
Qed.

Lemma restoreFormState_staleness_witness :
  (exists w', restoreFormState "contact" Examples.stale_page = Done tt w' /\
              document w' = document Examples.stale_page /\
              getStorage w' = delete Examples.contact_key (getStorage Examples.stale_page)) /\
  restoreFormState "contact" Examples.day_old_page
  = try_catch (on_node 0 (applyFormState (VObj [("email", VStr "zz")])))
              Examples.day_old_page.
Proof.
  split.
  - refine (proj1 (restoreFormState_staleness Examples.stale_page "contact"
                     (mkFormData 0 Examples.contact_key None)
                     (Examples.envelope_text [("email", VStr "zz")] 1000)
                     [("state", VObj [("email", VStr "zz")]); ("timestamp", VNum 1000);
                      ("url", VStr "https://example.org/contact")]
                     1000 _ _ _ _) _);
      vm_compute; reflexivity.
  - refine (proj2 (restoreFormState_staleness Examples.day_old_page "contact"
                     (mkFormData 0 Examples.contact_key None)
                     (Examples.envelope_text [("email", VStr "zz")] 1000)
                     [("state", VObj [("email", VStr "zz")]); ("timestamp", VNum 1000);
                      ("url", VStr "https://example.org/contact")]
                     1000 _ _ _ _) _);
      vm_compute; first [reflexivity | discriminate].
Defined.

(** At exactly 24 hours the envelope is still applied. *)
Example restoreFormState_day_old :
  Examples.form_of (restoreFormState "contact" Examples.day_old_page) 0
  = Some (Examples.contact_form [Examples.text_input "email" "zz"]) /\
  Examples.stored_of (restoreFormState "contact" Examples.day_old_page) Examples.contact_key
  = Some (Examples.envelope_text [("email", VStr "zz")] 1000).
Proof. split; reflexivity. Qed.

(** The entry [{oops] is still in the storage after the restore. *)
Example malformed_entry_stays :
  Examples.stored_of (restoreFormState "contact" Examples.malformed_page)
                     Examples.contact_key
  = Some "{oops".
Proof. reflexivity. Qed.

Lemma restoreFormState_malformed_witness :
  restoreFormState "contact" Examples.malformed_page = Done tt Examples.malformed_page.
Proof.
  apply (restoreFormState_malformed Examples.malformed_page "contact"
           (mkFormData 0 Examples.contact_key None) "{oops"); reflexivity.
Defined.

End ManagerFacts.

(** ** Submission and debounce *)
Section TimerFacts.
Import JS DOM Run FreeformStateManager.

Lemma found_on_page_document (formId : string) (w w' : world) :
  document w' = document w -> found_on_page formId w' = found_on_page formId w.
Proof. intros H. unfold found_on_page, attached. by rewrite H. Qed.

Lemma document_keeps_document (n : string) (w w' : world) :
  document w' = document w -> Discovery.document_keeps n w -> Discovery.document_keeps n w'.
Proof. intros H. unfold Discovery.document_keeps, attached. by rewrite H. Qed.

Lemma document_method_keeps (n : string) (w : world) :
  Discovery.document_keeps n w -> document_method n w = Done tt w.
Proof.
  intros (Hforms & Hnames & Hids).
  unfold document_method, mbind, run_bind, bind, get_state.
  rewrite Hforms. by rewrite !bool_decide_eq_false_2.
Qed.

Lemma document_method_Done (n : string) (w w' : world) :
  document_method n w = Done tt w' -> w' = w /\ Discovery.document_keeps n w.
Proof.
  unfold document_method, Discovery.document_keeps, mbind, run_bind, bind, get_state.
  destruct (existsb _ (attached w)); [done|].
  destruct (bool_decide_reflect (n ∈ other_names (document w))); [done|].
  destruct (bool_decide_reflect (n ∈ other_ids (document w))); [done|].
  by intros [= <-].
Qed.

Lemma getStorage_set_now (t : Z) (w : world) :
  getStorage (set_now t w) = getStorage w.
Proof. reflexivity. Qed.

Lemma run_timers_idle (fuel : nat) (until : Z) (w : world) :
  timers (scheduler w) = [] ->
  run_timers fuel until w = Done tt (set_now (Z.max (now w) until) w).
Proof.
  intros Hnone.
  destruct fuel; cbn [run_timers]; unfold mbind, run_bind, bind, get_state, next_due;
    rewrite Hnone; reflexivity.
Qed.

Lemma advance_single (w : world) (t : timer) (until : Z) :
  timers (scheduler w) = [t] ->
  due t <= until ->
  advance until w = (fire t ≫= fun _ => run_timers 0 until) w.
Proof.
  intros Hone Hdue.
  unfold advance. unfold mbind at 1, run_bind at 1, bind at 1, get_state.
  rewrite Hone. cbn [length run_timers].
  unfold mbind at 1, run_bind at 1, bind at 1, get_state, next_due.
  rewrite Hone. cbn [foldl]. rewrite decide_True by exact Hdue. reflexivity.
Qed.

Lemma fire_unfold (t : timer) (w : world) :
  fire t w
  = try_catch (run_callback (action t))
      (set_now (Z.max (now w) (due t))
         (set_scheduler
            (mkScheduler (filter (fun t' => timer_id t' ≠ timer_id t)
                                 (timers (scheduler w)))
                         (next_timer (scheduler w)) (cells (scheduler w))) w)).
Proof. reflexivity. Qed.

(** X22.  What a submission does.  With clearOnSubmit enabled and a form id
    that is a CSS identifier, a submission only schedules a check 1000 ms
    later and leaves the storage as it is.  When that check is the timer
    that fires, on a page where no element stands for
    [document.querySelector], and the form is still in the registry, the
    entry under the storage key of the form is removed if no element with
    the id or the name of the form is on the page, and the storage is left
    unchanged if one is found; the page is left as it is. *)
Theorem handleFormSubmit_deferred_check (w : world) (formId : string) :
  clearOnSubmit (options w) = true ->
  css_identifier formId = true ->
  (exists w1,
     handleFormSubmit formId w = Done tt w1 /\
     getStorage w1 = getStorage w /\
     timers (scheduler w1)
     = (timers (scheduler w)
        ++ [mkTimer (next_timer (scheduler w)) (now w + 1000) (SubmitCheck formId)])%list) /\
  (forall (w' : world) (id : nat) (fd : formData),
     timers (scheduler w') = [mkTimer id (now w + 1000) (SubmitCheck formId)] ->
     forms w' !! formId = Some fd ->
     Discovery.document_keeps "querySelector" w' ->
     exists w2,
       advance (now w + 1000) w' = Done tt w2 /\
       document w2 = document w' /\
       getStorage w2 = if found_on_page formId w' then getStorage w'
                       else delete (storageKey fd) (getStorage w')).
Proof.
  intros Hclear Hid. split.
  - unfold handleFormSubmit, setTimeout, mbind, run_bind, bind, get_state, put_state, mret, run_ret, ret.
    rewrite Hclear. cbn. eexists. split; [reflexivity|]. split; [|reflexivity].
    unfold getStorage, session. reflexivity.
  - intros w' id fd Htimers Hfd Hdocument.
    rewrite (advance_single w' _ (now w + 1000) Htimers) by (cbn; lia).
    unfold mbind, run_bind, bind. rewrite fire_unfold.
    cbn [timer_id due action run_callback].
    set (w1 := set_now _ _).
    assert (Hdoc : document w1 = document w') by reflexivity.
    assert (Hforms : forms w1 !! formId = Some fd) by exact Hfd.
    assert (Hsto : getStorage w1 = getStorage w') by reflexivity.
    assert (Htm : timers (scheduler w1) = []).
    { subst w1. cbn. rewrite Htimers. cbn. rewrite decide_False by tauto. reflexivity. }
    unfold submit_check. unfold mbind at 1, run_bind at 1, try_catch, bind at 1.
    rewrite (document_method_keeps _ _ (document_keeps_document _ w' w1 Hdoc Hdocument)).
    rewrite Hid. unfold mbind, run_bind, bind, get_state.
    rewrite (found_on_page_document formId w' w1 Hdoc).
    destruct (found_on_page formId w') eqn:Hfound.
    + unfold mret, run_ret, ret. rewrite (run_timers_idle _ _ _ Htm).
      eexists. split; [reflexivity|]. split; [reflexivity|]. exact Hsto.
    + rewrite (clearFormState_registered w1 formId fd Hforms).
      rewrite run_timers_idle by (by rewrite scheduler_set_storage).
      eexists. split; [reflexivity|]. split.
      * cbn. by rewrite document_set_storage.
      * rewrite getStorage_set_now, getStorage_set_storage. by rewrite Hsto.
Qed.

Lemma handleFormSubmit_deferred_check_witness :
  exists w2,
    advance (5000 + 1000)
            (Examples.leave_page (Examples.submitted (Examples.saved_page default_options)))
    = Done tt w2 /\
    document w2
    = document (Examples.leave_page (Examples.submitted (Examples.saved_page default_options))) /\
    getStorage w2
    = if found_on_page "contact"
           (Examples.leave_page (Examples.submitted (Examples.saved_page default_options)))
      then getStorage (Examples.leave_page
                         (Examples.submitted (Examples.saved_page default_options)))
      else delete Examples.contact_key
                  (getStorage (Examples.leave_page
                                 (Examples.submitted (Examples.saved_page default_options)))).
Proof.
  refine (proj2 (handleFormSubmit_deferred_check
                   (Examples.saved_page default_options) "contact" eq_refl eq_refl)
                (Examples.leave_page (Examples.submitted (Examples.saved_page default_options)))
                0%nat (mkFormData 0 Examples.contact_key None) eq_refl eq_refl _).
  split; [reflexivity | split; vm_compute; apply not_elem_of_nil].
Defined.

(** C8 on the code: with the default options a form is submitted, the
    page transition replaces the page by one without the form and the hook
    on [contentReplaced] rebuilds the registry, and the delay passes.  The
    check finds no element with the id or the name of the form and calls
    [clearFormState], which looks the form up in the registry, finds
    nothing, and returns: the state of the submitted form stays in the
    storage. *)
Theorem submitted_state_outlives_transition :
  Examples.found_after
    (Examples.submit_and_transition (Examples.saved_page default_options)) "contact"
  = Some false /\
  Examples.stored_of
    (Examples.submit_and_transition (Examples.saved_page default_options))
    Examples.contact_key
  = Some "saved".
Proof. split; reflexivity. Qed.

(** With clearOnSubmit switched off no check is scheduled, and the state of
    a form that has left the page stays in the storage as well. *)
Example submission_without_clear :
  Examples.stored_of
    ((handleFormSubmit "contact";; modify Examples.leave_page;; advance (5000 + 1000))
       (Examples.saved_page Examples.no_clear_options))
    Examples.contact_key
  = Some "saved".
Proof. reflexivity. Qed.

(** The listener schedules a save of its own and cancels nothing: the
    variable [timeout] it clears belongs to a closure made for this event. *)
Lemma inputListener_schedules (w : world) (formId : string) :
  autoSave (options w) = true ->
  exists w',
    inputListener formId w = Done tt w' /\
    getStorage w' = getStorage w /\
    timers (scheduler w')
    = (timers (scheduler w)
       ++ [mkTimer (next_timer (scheduler w)) (now w + 500)
                   (Later (length (cells (scheduler w))) formId)])%list.
Proof.
  intros Hauto.
  unfold inputListener, debounce, executedFunction, setTimeout, clearTimeout, write_cell,
    modify, mbind, run_bind, bind, get_state, put_state, mret, run_ret, ret.
  rewrite Hauto. cbn [d_timeout d_formId d_wait].
  unfold read_cell. cbn [scheduler set_scheduler cells].
  rewrite lookup_app_r by lia. rewrite Nat.sub_diag. cbn [lookup list_lookup mjoin].
  eexists. split; [reflexivity|]. split; reflexivity.
Qed.

(** C2 on the code: two changes of one form, 100 ms apart, are persisted
    twice, 500 ms after each change; the first timer is not cancelled by the
    second change. *)
Theorem burst_of_two_is_saved_twice :
  map (fun wr => (write_at wr, write_key wr, JSON.parse (write_value wr)))
      (Examples.log_of (Examples.burst_of_two Examples.typing_page))
  = [ (1000500, Examples.contact_key,
       JSON.Value (VObj [("state", VObj [("email", VStr "abc"); ("_custom", VObj [])]);
                         ("timestamp", VNum 1000500);
                         ("url", VStr "https://example.org/contact")]));
      (1000600, Examples.contact_key,
       JSON.Value (VObj [("state", VObj [("email", VStr "abc"); ("_custom", VObj [])]);
                         ("timestamp", VNum 1000600);
                         ("url", VStr "https://example.org/contact")])) ].
Proof. vm_compute. reflexivity. Qed.

End TimerFacts.

(** ** What [applyFormState] leaves alone

    [Q] relates a control before and after a write.  Every write of
    [applyFormState] to the value, the checkedness or the options of a
    control goes to a control selected by its name, so a relation that
    admits those writes on the names in [touch], and a notice anywhere, is
    kept by the whole function as long as it is only asked to write names
    in [touch]. *)
Section Preservation.
Import JS DOM Run FreeformStateManager Invariants.

Variable Q : DOM.element -> DOM.element -> Prop.
Variable touch : option string -> Prop.
Hypothesis Q_refl : forall e, Q e e.
Hypothesis Q_trans : forall a b c, Q a b -> Q b c -> Q a c.
Hypothesis Q_name : forall e e', Q e e' -> el_name_attr e' = el_name_attr e.
Hypothesis Q_checked : forall e b, touch (el_name_attr e) -> Q e (with_checked b e).
Hypothesis Q_value : forall e s, touch (el_name_attr e) -> Q e (with_value s e).
Hypothesis Q_options : forall e os, touch (el_name_attr e) -> Q e (with_options os e).
Hypothesis Q_notice : forall e n, Q e (with_notice n e).

Local Abbreviation kept := (Invariants.kept Q).

Lemma Forall2_Q_refl (l : list DOM.element) : Forall2 Q l l.
Proof. induction l; constructor; auto. Qed.

Lemma Forall2_Q_trans (l1 l2 l3 : list DOM.element) :
  Forall2 Q l1 l2 -> Forall2 Q l2 l3 -> Forall2 Q l1 l3.
Proof. apply Forall2_trans. exact Q_trans. Qed.

Lemma kept_ret {A} (a : A) (f : form) : kept (mret a) f.
Proof. apply Forall2_Q_refl. Qed.

Lemma kept_throw {A} (f : form) : kept (@throw form A) f.
Proof. apply Forall2_Q_refl. Qed.

Lemma kept_not_modelled {A} (f : form) : kept (@not_modelled form A) f.
Proof. exact I. Qed.

Lemma kept_bind {A B} (m : M form A) (k : A -> M form B) (f : form) :
  kept m f ->
  (forall a f', m f = Done a f' -> kept (k a) f') ->
  kept (m ≫= k) f.
Proof.
  unfold Invariants.kept, mbind, run_bind, bind. intros Hm Hk.
  destruct (m f) as [a f1 | f1 |] eqn:E; [| exact Hm | exact I].
  specialize (Hk a f1 eq_refl).
  destruct (k a f1); [| | exact I]; eapply Forall2_Q_trans; eauto.
Qed.

Lemma kept_get_state (k : form -> M form unit) (f : form) :
  kept (k f) f -> kept (get_state ≫= k) f.
Proof. intros H. apply kept_bind; [apply Forall2_Q_refl|]. by intros a f' [= <- <-]. Qed.

Lemma kept_forEach {A} (items : list A) (g : A -> M form unit) (f : form) :
  (forall x f', x ∈ items -> Forall2 Q (elements f) (elements f') -> kept (g x) f') ->
  kept (forEach items g) f.
Proof.
  revert f. induction items as [|x rest IH]; intros f Hstep; [apply Forall2_Q_refl|].
  cbn [forEach]. apply (kept_bind (g x) (fun _ => forEach rest g)).
  - apply Hstep; [set_solver | apply Forall2_Q_refl].
  - intros [] f1 Hx. apply IH. intros y f2 Hy Hf2. apply Hstep; [set_solver|].
    eapply Forall2_Q_trans; [|exact Hf2].
    pose proof (Hstep x f ltac:(set_solver) (Forall2_Q_refl _)) as Hk.
    unfold Invariants.kept in Hk. by rewrite Hx in Hk.
Qed.

Lemma kept_update_element (i : nat) (g : DOM.element -> DOM.element) (f : form) :
  (forall e, elements f !! i = Some e -> Q e (g e)) ->
  kept (update_element i g) f.
Proof.
  intros Hg. unfold Invariants.kept, update_element, modify. cbn.
  apply Forall2_alter_r; [apply Forall2_Q_refl|].
  intros x y Hx Hy _. assert (x = y) by congruence. subst y. by apply Hg.
Qed.

Lemma kept_update_widget (w : nat) (g : widget -> widget) (f : form) :
  kept (update_widget w g) f.
Proof. unfold Invariants.kept, update_widget, modify. cbn. apply Forall2_Q_refl. Qed.

Lemma lookup_related (f f' : form) (i : nat) (e' : DOM.element) :
  Forall2 Q (elements f) (elements f') ->
  elements f' !! i = Some e' ->
  exists e, elements f !! i = Some e /\ el_name_attr e' = el_name_attr e.
Proof.
  intros HQ He'. destruct (Forall2_lookup_r _ _ _ _ _ HQ He') as (e & He & Hq).
  exists e. split; [exact He | by apply Q_name].
Qed.

Lemma same_group_name (e other : DOM.element) :
  same_group e other = true -> el_name_attr other = el_name_attr e.
Proof.
  unfold same_group. intros [_ H]%andb_true_iff.
  destruct (el_name_attr e) as [n|]; [|discriminate].
  apply andb_true_iff in H as [_ H]. by apply bool_decide_eq_true in H.
Qed.

(** Unchecking the rest of the group of the radio button [e] at [i]. *)
Lemma kept_uncheck_group (i : nat) (e : DOM.element) (f : form) :
  touch (el_name_attr e) ->
  kept (forEach (seq 0 (length (elements f)))
          (fun j => match elements f !! j with
                    | Some other =>
                        if same_group e other && negb (i =? j)%nat
                        then update_element j (with_checked false)
                        else mret tt
                    | None => mret tt
                    end)) f.
Proof.
  intros Htouch. apply kept_forEach. intros j f' _ Hf'.
  destruct (elements f !! j) as [other|] eqn:Hother; [|apply kept_ret].
  destruct (same_group e other && negb (i =? j)%nat) eqn:Hgroup; [|apply kept_ret].
  apply kept_update_element. intros e' He'. apply Q_checked.
  destruct (lookup_related f f' j e' Hf' He') as (o & Ho & Hname).
  assert (o = other) by congruence. subst o. rewrite Hname.
  apply andb_true_iff in Hgroup as [Hgroup _].
  by rewrite (same_group_name e other Hgroup).
Qed.

Lemma kept_set_radio_checked (i : nat) (b : bool) (f : form) :
  (forall e, elements f !! i = Some e -> touch (el_name_attr e)) ->
  kept (set_radio_checked i b) f.
Proof.
  intros Htouch. unfold set_radio_checked. apply kept_get_state.
  destruct (elements f !! i) as [e|] eqn:He; [|apply kept_ret].
  specialize (Htouch e eq_refl).
  assert (Hloop : kept (if b then forEach (seq 0 (length (elements f)))
          (fun j => match elements f !! j with
                    | Some other =>
                        if same_group e other && negb (i =? j)%nat
                        then update_element j (with_checked false)
                        else mret tt
                    | None => mret tt
                    end) else mret tt) f).
  { destruct b; [by apply kept_uncheck_group | apply kept_ret]. }
  apply kept_bind; [exact Hloop|].
  intros [] f' Hf'. apply kept_update_element. intros e' He'. apply Q_checked.
  unfold Invariants.kept in Hloop. rewrite Hf' in Hloop.
  destruct (lookup_related f f' i e' Hloop He') as (o & Ho & Hname).
  assert (o = e) by congruence. subst o. by rewrite Hname.
Qed.

Lemma kept_assign_value (i : nat) (e : DOM.element) (v : value) (f : form) :
  (forall e', elements f !! i = Some e' -> touch (el_name_attr e')) ->
  kept (assign_value i e v) f.
Proof.
  intros Htouch. unfold assign_value.
  destruct (el_type e); destruct v; cbn [to_string];
    first [ apply kept_not_modelled
          | apply kept_update_element; intros e' He';
            first [apply Q_value | apply Q_options]; by apply Htouch ].
Qed.

Lemma kept_restore_element (v : value) (i : nat) (f : form) :
  (forall e, elements f !! i = Some e -> touch (el_name_attr e)) ->
  kept (restore_element v i) f.
Proof.
  intros Htouch. unfold restore_element. apply kept_get_state.
  destruct (elements f !! i) as [e|] eqn:He; [|apply kept_ret].
  assert (Ht : forall e', elements f !! i = Some e' -> touch (el_name_attr e')).
  { intros e' He'. apply Htouch. congruence. }
  destruct (el_type e).
  - destruct v; apply kept_update_element; intros e' He'; apply Q_checked; by apply Ht.
  - by apply kept_set_radio_checked.
  - apply kept_ret.
  - destruct v; by apply kept_assign_value.
  - destruct v; apply kept_update_element; intros e' He'; apply Q_options; by apply Ht.
  - destruct v; by apply kept_assign_value.
  - destruct v; by apply kept_assign_value.
  - destruct v; by apply kept_assign_value.
Qed.

Lemma elem_of_query_all (p : DOM.element -> bool) (f : form) (i : nat) :
  i ∈ query_all p f <-> exists e, elements f !! i = Some e /\ p e = true.
Proof.
  unfold query_all. rewrite list_elem_of_filter, elem_of_seq. split.
  - intros [Hp _]. destruct (elements f !! i) as [e|]; [eauto | discriminate].
  - intros (e & He & Hp). rewrite He. split; [exact Hp|].
    apply lookup_lt_Some in He. lia.
Qed.

Lemma kept_restoreField (key : string) (v : value) (f : form) :
  touch (Some key) -> kept (restoreField key v) f.
Proof.
  intros Htouch. unfold restoreField. apply kept_get_state.
  destruct (overridden _ f); [apply kept_throw|].
  destruct (selector_safe key); [|apply kept_not_modelled].
  apply kept_forEach. intros i f' Hi Hf'.
  apply kept_restore_element. intros e' He'.
  apply elem_of_query_all in Hi as (e & He & Hp).
  destruct (lookup_related f f' i e' Hf' He') as (o & Ho & Hname).
  assert (o = e) by congruence. subst o. rewrite Hname.
  unfold has_name in Hp. apply bool_decide_eq_true in Hp. by rewrite Hp.
Qed.

Lemma kept_file_line (file : value) (f : form) : kept (file_line file) f.
Proof.
  unfold file_line.
  destruct file; try apply kept_not_modelled; try apply kept_throw;
    repeat match goal with
           | |- context [match ?x with _ => _ end] => destruct x
           end; first [apply kept_ret | apply kept_not_modelled].
Qed.

Lemma kept_file_lines (fileInfos : list value) (f : form) :
  kept (file_lines fileInfos) f.
Proof.
  revert f. induction fileInfos as [|file rest IH]; intros f; [apply kept_ret|].
  cbn [file_lines]. apply kept_bind; [apply kept_file_line|].
  intros l f1 _. apply kept_bind; [apply IH|]. intros ls f2 _. apply kept_ret.
Qed.

Lemma kept_displayFileInfo (fileInput : nat) (fileInfos : list value) (f : form) :
  kept (displayFileInfo fileInput fileInfos) f.
Proof.
  unfold displayFileInfo. apply kept_bind.
  - apply kept_update_element. intros e _. destruct (el_notice e); [apply Q_refl | apply Q_notice].
  - intros [] f1 _. apply kept_bind; [apply kept_file_lines|].
    intros lines f2 _. apply kept_update_element. intros e _. apply Q_notice.
Qed.

Lemma kept_restore_custom (entry : string * value) (f : form) :
  kept (restore_custom entry) f.
Proof.
  destruct entry as [key v]. unfold restore_custom. apply kept_bind.
  - destruct (ends_with "_open" key); [|apply kept_ret].
    apply kept_get_state.
    destruct (overridden _ f); [apply kept_throw|].
    destruct (selector_safe _); [|apply kept_not_modelled].
    destruct (query _ f) as [i|]; [|apply kept_ret].
    destruct (elements f !! i ≫= el_widget) as [w|]; [|apply kept_ret].
    destruct (truthy v); [apply kept_update_widget | apply kept_ret].
  - intros [] f1 _.
    destruct (ends_with "_files" key); [|apply kept_ret].
    apply kept_get_state.
    destruct (overridden _ f1); [apply kept_throw|].
    destruct (selector_safe _); [|apply kept_not_modelled].
    destruct (query _ f1) as [i|]; [|apply kept_ret].
    destruct v; first [apply kept_ret | apply kept_displayFileInfo].
Qed.

Lemma kept_restoreCustomElements (custom : value) (f : form) :
  kept (restoreCustomElements custom) f.
Proof.
  unfold restoreCustomElements.
  destruct custom; try apply kept_ret; try apply kept_not_modelled.
  apply kept_forEach. intros entry f' _ _. apply kept_restore_custom.
Qed.

Lemma elem_of_query (p : DOM.element -> bool) (f : form) (i : nat) :
  query p f = Some i -> exists e, elements f !! i = Some e /\ p e = true.
Proof.
  unfold query. intros H. apply head_Some_elem_of in H.
  by apply elem_of_query_all in H.
Qed.

Lemma kept_force_unchecked (name : value) (f : form) :
  (forall s, to_string name = Some s -> touch (Some s)) ->
  kept (force_unchecked name) f.
Proof.
  intros Htouch. unfold force_unchecked.
  destruct (to_string name) as [s|]; [|apply kept_not_modelled].
  apply kept_get_state.
  destruct (overridden _ f); [apply kept_throw|].
  destruct (selector_safe s); [|apply kept_not_modelled].
  destruct (query _ f) as [i|] eqn:Hq; [|apply kept_ret].
  apply kept_update_element. intros e He. apply Q_checked.
  apply elem_of_query in Hq as (e0 & He0 & Hp).
  assert (e0 = e) by congruence. subst e0.
  apply andb_true_iff in Hp as [_ Hp]. unfold has_name in Hp.
  apply bool_decide_eq_true in Hp. rewrite Hp. by apply Htouch.
Qed.

(** The whole of [applyFormState] keeps [Q] when the keys it restores and
    the names it unchecks are in [touch]. *)
Lemma kept_applyFormState (entries : props) (f : form) :
  (forall key v, (key, v) ∈ entries -> String.prefix "_" key = false -> touch (Some key)) ->
  (forall names name s, JS.get "_unchecked" entries = VArr names ->
                        name ∈ names -> to_string name = Some s -> touch (Some s)) ->
  kept (applyFormState (VObj entries)) f.
Proof.
  intros Hkeys Hnames. unfold applyFormState.
  apply kept_bind; [|intros [] f1 _; apply kept_bind].
  - apply kept_forEach. intros [key v] f' Hin _. cbn [fst snd].
    destruct (String.prefix "_" key) eqn:Hp; [apply kept_ret|].
    apply kept_restoreField. by eapply Hkeys.
  - destruct (truthy _); [apply kept_restoreCustomElements | apply kept_ret].
  - intros [] f2 _.
    destruct (truthy _); [|apply kept_ret].
    destruct (JS.get "_unchecked" entries) eqn:Hu;
      try apply kept_throw; try apply kept_not_modelled.
    apply kept_forEach. intros name f' Hin _.
    apply kept_force_unchecked. intros s Hs. by eapply Hnames.
Qed.

End Preservation.

(** ** Exclusion *)
Section Exclusion.
Import JS DOM Run FreeformStateManager Invariants.

Variable opts : Options.

Local Abbreviation keys_ok := (Invariants.keys_ok opts).
Local Abbreviation unchecked_ok := (Invariants.unchecked_ok opts).

Lemma keys_ok_set (key : string) (v : value) (st : props) :
  excluded opts key = false \/ key = "_unchecked" \/ key = "_custom" ->
  keys_ok st -> keys_ok (JS.set key v st).
Proof.
  intros Hkey Hst k Hk. rewrite get_own_set in Hk.
  destruct (String.eqb key k) eqn:E; [|by apply Hst].
  apply String.eqb_eq in E. by subst k.
Qed.

Lemma unchecked_ok_set (key : string) (v : value) (st : props) :
  key <> "_unchecked" -> unchecked_ok st -> unchecked_ok (JS.set key v st).
Proof. intros Hne Hst x. rewrite get_own_set_ne by exact Hne. apply Hst. Qed.

Lemma entry_control (f : form) (key : string) (v : value) :
  (key, v) ∈ FormData_entries f ->
  exists e, e ∈ elements f /\ el_name_attr e = Some key.
Proof.
  unfold FormData_entries. intros Hin%list_elem_of_In.
  apply in_concat in Hin as (es & Hes%list_elem_of_In & Hin%list_elem_of_In).
  apply list_elem_of_fmap in Hes as (e & -> & He).
  exists e. split; [exact He|].
  unfold entries_of in Hin. destruct (el_name_attr e) as [n|]; [|by apply elem_of_nil in Hin].
  destruct (String.eqb n EmptyString); [by apply elem_of_nil in Hin|].
  destruct (is_button e); [by apply elem_of_nil in Hin|].
  assert (Hmap : forall {A} (g : A -> value) (l : list A),
             (key, v) ∈ map (fun x => (n, g x)) l -> key = n).
  { intros A g l (x & Hx & _)%list_elem_of_fmap. congruence. }
  destruct (el_type e).
  1,2: destruct (el_checked e); [|by apply elem_of_nil in Hin];
       apply list_elem_of_singleton in Hin; congruence.
  - destruct (el_files e) as [|file files].
    + apply list_elem_of_singleton in Hin. congruence.
    + f_equal. symmetry. exact (Hmap _ VFile (file :: files) Hin).
  - f_equal. symmetry. exact (Hmap _ (fun o => VStr (opt_value o)) _ Hin).
  - f_equal. symmetry. exact (Hmap _ (fun o => VStr (opt_value o)) _ Hin).
  - apply list_elem_of_singleton in Hin. congruence.
  - apply list_elem_of_singleton in Hin. congruence.
  - apply list_elem_of_singleton in Hin. congruence.
Qed.

Lemma no_control_named_spec (n : string) (f : form) (e : DOM.element) :
  no_control_named n f = true -> e ∈ elements f -> DOM.name e <> n.
Proof.
  unfold no_control_named. rewrite forallb_forall. intros H He.
  apply list_elem_of_In in He. specialize (H e He).
  apply negb_true_iff in H. by apply String.eqb_neq in H.
Qed.

Lemma name_of_attr (e : DOM.element) (n : string) :
  el_name_attr e = Some n -> DOM.name e = n.
Proof. unfold DOM.name. by intros ->. Qed.

Lemma collect_entry_ok (entry : string * value) (st st' : props) :
  entry.1 <> "_unchecked" ->
  keys_ok st /\ unchecked_ok st ->
  collect_entry opts entry st = Done tt st' ->
  keys_ok st' /\ unchecked_ok st'.
Proof.
  destruct entry as [key v]. cbn [fst]. intros Hne [Hk Hu]. unfold collect_entry.
  destruct (excluded opts key) eqn:Hex; [by intros [= <-]|].
  destruct (String.eqb key "__proto__"); [done|].
  unfold mbind, run_bind, bind, get_state, put_state.
  destruct (truthy (JS.get key st)); [destruct (JS.get key st)|];
    intros [= <-]; (split; [apply keys_ok_set; auto | by apply unchecked_ok_set]).
Qed.

Lemma track_unchecked_ok (checkbox : DOM.element) (st st' : props) :
  keys_ok st /\ unchecked_ok st ->
  track_unchecked opts checkbox st = Done tt st' ->
  keys_ok st' /\ unchecked_ok st'.
Proof.
  intros [Hk Hu]. unfold track_unchecked.
  destruct (excluded opts (DOM.name checkbox)) eqn:Hex; [by intros [= <-]|].
  destruct (el_checked checkbox); [by intros [= <-]|].
  unfold mbind, run_bind, bind, get_state, put_state, mret, run_ret, ret.
  set (st1 := if truthy (JS.get "_unchecked" st) then st
              else JS.set "_unchecked" (VArr []) st).
  assert (H1 : keys_ok st1 /\ unchecked_ok st1).
  { subst st1. destruct (truthy _); [done|]. split.
    - apply keys_ok_set; auto.
    - intros v. rewrite get_own_set_eq. intros [= <-]. eexists. split; [done | constructor]. }
  replace (match (if truthy (JS.get "_unchecked" st) then fun s => Done tt s
                  else fun _ => Done tt (JS.set "_unchecked" (VArr []) st)) st with
           | Done a s' => _ a s' | Raised s' => Raised s' | NotModelled => NotModelled end)
    with (match JS.get "_unchecked" st1 with
          | VArr items =>
              Done tt (JS.set "_unchecked" (VArr (items ++ [VStr (DOM.name checkbox)])) st1)
          | VStr _ | VFile _ => Raised st1
          | _ => NotModelled
          end : result props unit).
  2: { subst st1. destruct (truthy (JS.get "_unchecked" st)); cbv beta iota;
       by destruct (JS.get "_unchecked" _). }
  destruct H1 as [Hk1 Hu1].
  destruct (JS.get "_unchecked" st1) as [| | | | | | |items|] eqn:Hget; try done.
  intros [= <-]. split; [apply keys_ok_set; auto|].
  intros v. rewrite get_own_set_eq. intros [= <-].
  eexists. split; [done|]. apply Forall_app. split.
  - unfold JS.get in Hget. destruct (get_own "_unchecked" st1) as [x|] eqn:Hown.
    + subst x. destruct (Hu1 _ Hown) as (items' & [= <-] & Hall). exact Hall.
    + by destruct (bool_decide _).
  - repeat constructor. eauto.
Qed.

Lemma record_radio_ok (radio : DOM.element) (st st' : props) :
  DOM.name radio <> "_unchecked" ->
  keys_ok st /\ unchecked_ok st ->
  record_radio opts radio st = Done tt st' ->
  keys_ok st' /\ unchecked_ok st'.
Proof.
  intros Hne [Hk Hu]. unfold record_radio.
  destruct (excluded opts (DOM.name radio)) eqn:Hex; [by intros [= <-]|].
  destruct (String.eqb _ "__proto__"); [by intros [= <-]|].
  intros [= <-]. split; [apply keys_ok_set; auto | by apply unchecked_ok_set].
Qed.

(** What [extractFormState] returns has no excluded key besides the two
    metadata keys, and lists no excluded name as unchecked. *)
Lemma extractFormState_ok (f : form) (st : props) :
  no_control_named "_unchecked" f = true ->
  extractFormState opts f = Returns st ->
  keys_ok st /\ unchecked_ok st.
Proof.
  intros Hfree. unfold extractFormState.
  destruct (extractFormState_passes opts f []) as [[] st0| |] eqn:Hrun; [|done..].
  intros [= <-]. unfold extractFormState_passes in Hrun.
  apply bind_Done_inv in Hrun as ([] & st1 & H1 & Hrun).
  apply guard_Done_inv in Hrun as [_ Hrun].
  apply bind_Done_inv in Hrun as ([] & st2 & H2 & Hrun).
  apply bind_Done_inv in Hrun as ([] & st3 & H3 & Hrun).
  injection Hrun as <-.
  assert (Hinit : keys_ok [] /\ unchecked_ok []).
  { split; [intros k [x Hx]; discriminate | intros v Hv; discriminate]. }
  assert (Hst1 : keys_ok st1 /\ unchecked_ok st1).
  { eapply (forEach_Done (fun st => keys_ok st /\ unchecked_ok st)); [|exact Hinit|exact H1].
    intros [key v] s s' Hin Hs. apply collect_entry_ok; [|exact Hs].
    cbn [fst]. destruct (entry_control f key v Hin) as (e & He & Hname).
    rewrite <- (name_of_attr e key Hname). by eapply no_control_named_spec. }
  assert (Hst2 : keys_ok st2 /\ unchecked_ok st2).
  { eapply (forEach_Done (fun st => keys_ok st /\ unchecked_ok st)); [|exact Hst1|exact H2].
    intros e s s' _ Hs. by apply track_unchecked_ok. }
  assert (Hst3 : keys_ok st3 /\ unchecked_ok st3).
  { eapply (forEach_Done (fun st => keys_ok st /\ unchecked_ok st)); [|exact Hst2|exact H3].
    intros e s s' Hin Hs. apply record_radio_ok; [|exact Hs].
    apply list_elem_of_filter in Hin as [_ Hin]. by eapply no_control_named_spec. }
  destruct Hst3 as [Hk Hu]. split; [apply keys_ok_set; auto | by apply unchecked_ok_set].
Qed.

End Exclusion.

Section ExclusionTheorem.
Import JS DOM Run FreeformStateManager Invariants.

Lemma applyFormState_keeps_named (n : string) (entries : props) (g g' : form) :
  (forall key v, (key, v) ∈ entries -> String.prefix "_" key = false -> key <> n) ->
  (forall names name s, JS.get "_unchecked" entries = VArr names ->
                        name ∈ names -> to_string name = Some s -> s <> n) ->
  applyFormState (VObj entries) g = Done tt g' ->
  Forall2 (keeps_named n) (elements g) (elements g').
Proof.
  intros Hkeys Hnames Hrun.
  pose proof (kept_applyFormState (keeps_named n) (fun a => a <> Some n)) as Hkept.
  unfold kept in Hkept. specialize (Hkept
    ltac:(by intros e; split)
    ltac:(intros a b c [Hn1 H1] [Hn2 H2]; split;
            [congruence | intros Ha; rewrite H2, H1; congruence])
    ltac:(by intros e e' [Hn _])
    ltac:(by intros e b Ht; split)
    ltac:(by intros e s Ht; split)
    ltac:(by intros e os Ht; split)
    ltac:(by intros e nt; split)
    entries g).
  rewrite Hrun in Hkept. apply Hkept.
  - intros key v Hin Hp [= ->]. by eapply Hkeys.
  - intros names name s Hu Hin Hs [= ->]. by eapply Hnames.
Qed.




End ExclusionTheorem.

(** ** Unchecked checkboxes *)
Section Unchecked.
Import JS DOM Run FreeformStateManager Invariants.

Lemma same_control_layout (l l' : list DOM.element) :
  Forall2 same_control l l' ->
  map (fun e => (el_type e, el_name_attr e)) l'
  = map (fun e => (el_type e, el_name_attr e)) l.
Proof. induction 1 as [|e e' l l' [Ht Hn] _ IH]; cbn; [done|]. by rewrite Ht, Hn, IH. Qed.

(** Whether a control stands for a member of the form is a matter of the
    types and names of the controls. *)
Lemma overridden_layout (n : string) (f g : form) :
  layout g = layout f -> overridden n g = overridden n f.
Proof.
  unfold layout, overridden. generalize (elements f) (elements g).
  induction l as [|e l IH]; intros [|e' l'] Hl; try done.
  injection Hl as Ht Hn Hl. cbn [existsb]. rewrite (IH l' Hl).
  unfold overrides, has_name. by rewrite Ht, Hn.
Qed.

Lemma layout_lookup (f g : form) (i : nat) (e : DOM.element) :
  layout g = layout f ->
  elements f !! i = Some e ->
  exists e', elements g !! i = Some e' /\
             el_type e' = el_type e /\ el_name_attr e' = el_name_attr e.
Proof.
  unfold layout. intros Hl He.
  assert (H : map (fun e => (el_type e, el_name_attr e)) (elements g) !! i
              = Some (el_type e, el_name_attr e)).
  { rewrite Hl. change (map ?h ?l) with (h <$> l). by rewrite list_lookup_fmap, He. }
  change (map ?h ?l) with (h <$> l) in H. rewrite list_lookup_fmap in H.
  destruct (elements g !! i) as [e'|]; [|discriminate].
  injection H as Ht Hn. eauto.
Qed.

(** A selector that looks at types and names picks the same controls in
    forms of the same layout. *)
Lemma query_all_layout (p : DOM.element -> bool) (f g : form) :
  (forall e e', el_type e' = el_type e -> el_name_attr e' = el_name_attr e -> p e' = p e) ->
  layout g = layout f ->
  query_all p g = query_all p f.
Proof.
  intros Hp Hl. unfold query_all.
  assert (Hlen : length (elements g) = length (elements f)).
  { unfold layout in Hl. apply (f_equal length) in Hl. by rewrite !length_map in Hl. }
  rewrite Hlen. apply list_filter_iff. intros i.
  destruct (elements f !! i) as [e|] eqn:He.
  - destruct (layout_lookup f g i e Hl He) as (e' & -> & Ht & Hn). cbn.
    by rewrite (Hp e e' Ht Hn).
  - assert (elements g !! i = None) as ->; [|done].
    apply lookup_ge_None. apply lookup_ge_None in He. lia.
Qed.

Lemma is_checkbox_named_layout (n : string) (e e' : DOM.element) :
  el_type e' = el_type e -> el_name_attr e' = el_name_attr e ->
  is_checkbox_named n e' = is_checkbox_named n e.
Proof. unfold is_checkbox_named, has_name. by intros -> ->. Qed.

Lemma force_unchecked_step (name : value) (f h h' : form) (n : string) (i : nat) :
  layout h = layout f ->
  query (is_checkbox_named n) f = Some i ->
  force_unchecked name h = Done tt h' ->
  layout h' = layout f /\
  (unchecked_at i h -> unchecked_at i h') /\
  (name = VStr n -> unchecked_at i h').
Proof.
  intros Hl Hq. unfold force_unchecked.
  destruct (to_string name) as [s|] eqn:Hs; [|done].
  unfold mbind, run_bind, bind, get_state.
  destruct (overridden "querySelector" h); [done|].
  destruct (selector_safe s); [|done].
  change (fun e => bool_decide (el_type e = Checkbox) && has_name s e)
    with (is_checkbox_named s).
  destruct (query (is_checkbox_named s) h) as [j|] eqn:Hj.
  - unfold update_element, modify. intros [= <-].
    assert (Hl' : layout (mkForm (form_id h) (form_name h) (form_data_freeform h)
                            (form_classes h) (alter (with_checked false) j (elements h))
                            (widgets h)) = layout f).
    { rewrite <- Hl. unfold layout. cbn [elements].
      apply same_control_layout.
      apply Forall2_alter_r; [by apply Forall_Forall2_diag, Forall_forall|].
      intros x y _ _ [Ht Hn]. by split. }
    split; [exact Hl'|]. split.
    + intros (e & He & Hc). unfold unchecked_at. cbn [elements].
      destruct (decide (j = i)) as [->|Hne].
      * rewrite list_lookup_alter_eq, He. cbn. eauto.
      * rewrite list_lookup_alter_ne by exact Hne. eauto.
    + intros ->. injection Hs as <-.
      unfold query in Hj, Hq.
      rewrite (query_all_layout (is_checkbox_named n) f h
                 (is_checkbox_named_layout n) Hl) in Hj.
      assert (j = i) by congruence. subst j.
      apply head_Some_elem_of, elem_of_query_all in Hq as (e & He & _).
      destruct (layout_lookup f h i e Hl He) as (e' & He' & _).
      unfold unchecked_at. cbn [elements]. rewrite list_lookup_alter_eq, He'. cbn. eauto.
  - intros [= <-]. split; [exact Hl|]. split; [done|].
    intros ->. injection Hs as <-.
    unfold query in Hj, Hq.
    rewrite (query_all_layout (is_checkbox_named n) f h
               (is_checkbox_named_layout n) Hl) in Hj.
    congruence.
Qed.

Lemma force_unchecked_loop (names : list value) (f h h' : form) (n : string) (i : nat) :
  layout h = layout f ->
  query (is_checkbox_named n) f = Some i ->
  forEach names force_unchecked h = Done tt h' ->
  layout h' = layout f /\
  (unchecked_at i h -> unchecked_at i h') /\
  (VStr n ∈ names -> unchecked_at i h').
Proof.
  intros Hl Hq. revert h Hl. induction names as [|name names IH]; intros h Hl Hrun.
  - injection Hrun as <-. split; [done|]. split; [done|]. by intros ?%elem_of_nil.
  - cbn [forEach] in Hrun. unfold bind in Hrun.
    destruct (force_unchecked name h) as [[] h1| |] eqn:Hstep; [|done..].
    destruct (force_unchecked_step name f h h1 n i Hl Hq Hstep) as (Hl1 & Hmono & Hhit).
    destruct (IH h1 Hl1 Hrun) as (Hl' & Hmono' & Hhit').
    split; [exact Hl'|]. split; [auto|].
    intros [Heq | Hin]%elem_of_cons; [apply Hmono', Hhit; congruence | auto].
Qed.

End Unchecked.

Section UncheckedTheorem.
Import JS DOM Run FreeformStateManager Invariants.

Variable opts : Options.

Lemma track_unchecked_unfold (checkbox : DOM.element) (st : props) :
  excluded opts (DOM.name checkbox) = false ->
  el_checked checkbox = false ->
  track_unchecked opts checkbox st
  = let st1 := if truthy (JS.get "_unchecked" st) then st
               else JS.set "_unchecked" (VArr []) st in
    match JS.get "_unchecked" st1 with
    | VArr items =>
        Done tt (JS.set "_unchecked" (VArr (items ++ [VStr (DOM.name checkbox)])) st1)
    | VStr _ | VFile _ => Raised st1
    | _ => NotModelled
    end.
Proof.
  intros Hex Hc. unfold track_unchecked. rewrite Hex, Hc.
  unfold mbind, run_bind, bind, get_state, put_state, mret, run_ret, ret.
  destruct (truthy (JS.get "_unchecked" st)); cbv beta iota zeta;
    by destruct (JS.get "_unchecked" _).
Qed.

Lemma get_unchecked_None (st : props) :
  get_own "_unchecked" st = None -> JS.get "_unchecked" st = VUndefined.
Proof. intros H. unfold JS.get. rewrite H. reflexivity. Qed.

Lemma track_unchecked_lists (checkbox : DOM.element) (st st' : props) :
  excluded opts (DOM.name checkbox) = false ->
  el_checked checkbox = false ->
  track_unchecked opts checkbox st = Done tt st' ->
  listed (DOM.name checkbox) st'.
Proof.
  intros Hex Hc. rewrite (track_unchecked_unfold checkbox st Hex Hc). cbv zeta.
  destruct (JS.get "_unchecked" _) as [| | | | | | |items|]; try done.
  intros [= <-]. exists (items ++ [VStr (DOM.name checkbox)]).
  rewrite get_own_set_eq. split; [done|]. apply elem_of_app. right. left.
Qed.

Lemma track_unchecked_keeps_listed (n : string) (checkbox : DOM.element) (st st' : props) :
  listed n st ->
  track_unchecked opts checkbox st = Done tt st' ->
  listed n st'.
Proof.
  intros (names & Hown & Hin). unfold track_unchecked.
  destruct (excluded opts (DOM.name checkbox)) eqn:Hex; [intros [= <-]; by exists names|].
  destruct (el_checked checkbox) eqn:Hc; [intros [= <-]; by exists names|].
  intros Hrun.
  assert (Hrun' : track_unchecked opts checkbox st = Done tt st').
  { unfold track_unchecked. by rewrite Hex, Hc. }
  rewrite (track_unchecked_unfold checkbox st Hex Hc) in Hrun'. cbv zeta in Hrun'.
  rewrite (get_of_own _ _ _ Hown) in Hrun'. cbn [truthy] in Hrun'.
  rewrite (get_of_own _ _ _ Hown) in Hrun'. injection Hrun' as <-.
  exists (names ++ [VStr (DOM.name checkbox)]). rewrite get_own_set_eq.
  split; [done|]. apply elem_of_app. by left.
Qed.

Lemma record_radio_keeps_listed (n : string) (radio : DOM.element) (st st' : props) :
  DOM.name radio <> "_unchecked" ->
  listed n st ->
  record_radio opts radio st = Done tt st' ->
  listed n st'.
Proof.
  intros Hne (names & Hown & Hin). unfold record_radio.
  destruct (excluded opts _); [intros [= <-]; by exists names|].
  destruct (String.eqb _ "__proto__"); [intros [= <-]; by exists names|].
  intros [= <-]. exists names. by rewrite get_own_set_ne.
Qed.

(** An unchecked checkbox with a name that is not excluded is on the list
    of the snapshot. *)
Lemma extractFormState_lists_unchecked (f : form) (st : props) (e : DOM.element) :
  no_control_named "_unchecked" f = true ->
  extractFormState opts f = Returns st ->
  e ∈ elements f ->
  el_type e = Checkbox ->
  el_checked e = false ->
  excluded opts (DOM.name e) = false ->
  listed (DOM.name e) st.
Proof.
  intros Hfree Hst He Htype Hc Hex. unfold extractFormState in Hst.
  destruct (extractFormState_passes opts f []) as [[] st0| |] eqn:Hrun; [|done..].
  injection Hst as <-. unfold extractFormState_passes in Hrun.
  apply bind_Done_inv in Hrun as ([] & st1 & H1 & Hrun).
  apply guard_Done_inv in Hrun as [_ Hrun].
  apply bind_Done_inv in Hrun as ([] & st2 & H2 & Hrun).
  apply bind_Done_inv in Hrun as ([] & st3 & H3 & Hrun).
  injection Hrun as <-.
  assert (Hin : e ∈ filter (fun e => el_type e = Checkbox) (elements f)).
  { by apply list_elem_of_filter. }
  apply list_elem_of_split in Hin as (l1 & l2 & Hsplit).
  rewrite Hsplit, forEach_app in H2.
  apply bind_Done_inv in H2 as ([] & sta & _ & H2).
  cbn [forEach] in H2. unfold bind in H2.
  destruct (track_unchecked opts e sta) as [[] stb| |] eqn:Hstep; [|done..].
  assert (Hb : listed (DOM.name e) stb) by (by eapply track_unchecked_lists).
  assert (H2' : listed (DOM.name e) st2).
  { eapply (forEach_Done (listed (DOM.name e))); [|exact Hb|exact H2].
    intros cb s s' _ Hs. by apply track_unchecked_keeps_listed. }
  assert (H3' : listed (DOM.name e) st3).
  { eapply (forEach_Done (listed (DOM.name e))); [|exact H2'|exact H3].
    intros r s s' Hr Hs. apply record_radio_keeps_listed; [|exact Hs].
    apply list_elem_of_filter in Hr as [_ Hr]. by eapply no_control_named_spec. }
  destruct H3' as (names & Hown & Hn). exists names. by rewrite get_own_set_ne.
Qed.

End UncheckedTheorem.

Section UncheckedDecode.
Import JS DOM Run FreeformStateManager Invariants.

Lemma same_control_writes :
  (forall e, same_control e e) /\
  (forall a b c, same_control a b -> same_control b c -> same_control a c) /\
  (forall e e', same_control e e' -> el_name_attr e' = el_name_attr e) /\
  (forall e b, True -> same_control e (with_checked b e)) /\
  (forall e s, True -> same_control e (with_value s e)) /\
  (forall e os, True -> same_control e (with_options os e)) /\
  (forall e nt, same_control e (with_notice nt e)).
Proof.
  split; [by intros e; split|].
  split; [intros a b c [H1 H2] [H3 H4]; split; congruence|].
  split; [by intros e e' [_ H]|].
  repeat split.
Qed.

Lemma same_control_kept_generic (entries : props) (g g1 : form) :
  forEach entries
    (fun entry => if String.prefix "_" entry.1 then mret tt
                  else restoreField entry.1 entry.2) g = Done tt g1 ->
  layout g1 = layout g.
Proof.
  intros Hrun.
  destruct same_control_writes as (R & T & N & C & V & O & Nt).
  assert (Hk : kept same_control
                 (forEach entries
                    (fun entry => if String.prefix "_" entry.1 then mret tt
                                  else restoreField entry.1 entry.2)) g).
  { apply (kept_forEach same_control (fun _ => True) R T N C V O Nt).
    intros [key v] f' _ _. cbn [fst snd].
    destruct (String.prefix "_" key).
    - by apply kept_ret.
    - by apply (kept_restoreField same_control (fun _ => True) R T N C V O Nt). }
  unfold kept in Hk. rewrite Hrun in Hk. by apply same_control_layout.
Qed.

Lemma same_control_kept_custom (custom : value) (g g1 : form) :
  restoreCustomElements custom g = Done tt g1 -> layout g1 = layout g.
Proof.
  intros Hrun.
  destruct same_control_writes as (R & T & N & C & V & O & Nt).
  pose proof (kept_restoreCustomElements same_control (fun _ => True)
                R T N C V O Nt custom g) as Hk.
  unfold kept in Hk. rewrite Hrun in Hk. by apply same_control_layout.
Qed.

(** X23.  The pass over the unchecked-boxes list is not overridden.  Take a
    checkbox with a name attribute n that is unchecked when the snapshot is
    encoded, whose name is not excluded, and which is the first checkbox of
    the form with that name; no control of the form is named _unchecked.
    When decoding the snapshot onto a form with the same controls (the same
    types and names in the same order, whatever they hold) returns, that
    checkbox is unchecked, whether or not the snapshot has an entry for n:
    the pass runs last and unchecks, for each listed name, the first
    checkbox with that name. *)
Theorem first_checkbox_stays_unchecked
    (opts : Options) (f g g' : form) (st : props)
    (i : nat) (e : DOM.element) (n : string) :
  no_control_named "_unchecked" f = true ->
  extractFormState opts f = Returns st ->
  elements f !! i = Some e ->
  el_type e = Checkbox ->
  el_checked e = false ->
  el_name_attr e = Some n ->
  excluded opts n = false ->
  query (fun c => bool_decide (el_type c = Checkbox) && has_name n c) f = Some i ->
  layout g = layout f ->
  applyFormState (VObj st) g = Done tt g' ->
  exists e', elements g' !! i = Some e' /\ el_checked e' = false.
Proof.
  intros Hfree Hst He Htype Hc Hn Hex Hfirst Hl Hrun.
  assert (Hname : DOM.name e = n) by (by apply name_of_attr).
  destruct (extractFormState_lists_unchecked opts f st e Hfree Hst
              ltac:(by eapply list_elem_of_lookup_2) Htype Hc ltac:(by rewrite Hname))
    as (names & Hown & Hin).
  rewrite Hname in Hin.
  unfold applyFormState in Hrun.
  apply bind_Done_inv in Hrun as ([] & g1 & H1 & Hrun).
  apply bind_Done_inv in Hrun as ([] & g2 & H2 & Hrun).
  rewrite (get_of_own _ _ _ Hown) in Hrun. cbn [truthy] in Hrun.
  assert (Hl1 : layout g1 = layout g) by (by eapply same_control_kept_generic).
  assert (Hl2 : layout g2 = layout g1).
  { destruct (truthy (JS.get "_custom" st)).
    - by eapply same_control_kept_custom.
    - by injection H2 as <-. }
  destruct (force_unchecked_loop names f g2 g' n i ltac:(congruence) Hfirst Hrun)
    as (_ & _ & Hhit).
  exact (Hhit Hin).
Qed.

Lemma first_checkbox_stays_unchecked_witness :
  exists e',
    elements (Examples.contact_form [Examples.checkbox "interests" "a" false;
                                     Examples.checkbox "interests" "b" true]) !! 0%nat
    = Some e' /\ el_checked e' = false.
Proof.
  apply (first_checkbox_stays_unchecked default_options
           Examples.interests_off Examples.interests_rendered
           (Examples.contact_form [Examples.checkbox "interests" "a" false;
                                   Examples.checkbox "interests" "b" true])
           [("_unchecked", VArr [VStr "interests"; VStr "interests"]); ("_custom", VObj [])]
           0%nat (Examples.checkbox "interests" "a" false) "interests");
    reflexivity.
Defined.

End UncheckedDecode.

Section CodecExamples.
Import JS DOM Run FreeformStateManager Invariants.

(** C6 on the code: two text inputs share the name tag, the first is
    empty; the snapshot holds the scalar of the second instead of a list of
    both values. *)
Theorem extractFormState_empty_first_value :
  extractFormState default_options Examples.tags_first_empty
  = Returns [("tag", VStr "x"); ("_custom", VObj [])].
Proof. reflexivity. Qed.

(** With a first value that is not empty the list is built. *)
Example extractFormState_two_values :
  extractFormState default_options Examples.two_tags
  = Returns [("tag", VArr [VStr "a"; VStr "b"]); ("_custom", VObj [])].
Proof. reflexivity. Qed.

(** A text field, a multiple select with two selected options, an
    unchecked checkbox and a radio group: the snapshot, and its decoding
    onto the same controls with nothing filled in. *)
Example newsletter_scenario :
  extractFormState default_options Examples.newsletter_form
  = Returns [("email", VStr "a@b.com"); ("newsletter", VArr [VStr "x"; VStr "y"]);
             ("plan", VStr "pro"); ("_unchecked", VArr [VStr "subscribe"]);
             ("_custom", VObj [])]
  /\ applyFormState
       (VObj [("email", VStr "a@b.com"); ("newsletter", VArr [VStr "x"; VStr "y"]);
              ("plan", VStr "pro"); ("_unchecked", VArr [VStr "subscribe"]);
              ("_custom", VObj [])])
       Examples.blank_newsletter_form
     = Done tt Examples.newsletter_form.
Proof. split; reflexivity. Qed.

(** C4 on the code: the two checkboxes of a group are unchecked when the
    snapshot is taken, so the snapshot has no entry for their name and
    lists the name twice; decoded onto the form as it is rendered, with both
    boxes checked, the first box is unchecked twice and the second stays
    checked: the pass over the list asks [querySelector] for the checkbox of
    a name, which is the first one. *)
Theorem second_checkbox_stays_checked :
  extractFormState default_options Examples.interests_off
  = Returns [("_unchecked", VArr [VStr "interests"; VStr "interests"]);
             ("_custom", VObj [])]
  /\ applyFormState
       (VObj [("_unchecked", VArr [VStr "interests"; VStr "interests"]);
              ("_custom", VObj [])])
       Examples.interests_rendered
     = Done tt (Examples.contact_form [Examples.checkbox "interests" "a" false;
                                       Examples.checkbox "interests" "b" true]).
Proof. split; reflexivity. Qed.

(** A checkbox that was unchecked when the snapshot was taken also comes
    out checked when it shares name and value with a checked one. *)
Example same_value_box_is_checked :
  extractFormState default_options Examples.same_value_boxes
  = Returns [("agree", VStr "on"); ("_unchecked", VArr [VStr "agree"]);
             ("_custom", VObj [])]
  /\ applyFormState
       (VObj [("agree", VStr "on"); ("_unchecked", VArr [VStr "agree"]);
              ("_custom", VObj [])])
       Examples.same_value_boxes
     = Done tt (Examples.contact_form [Examples.checkbox "agree" "on" false;
                                       Examples.checkbox "agree" "on" true]).
Proof. split; reflexivity. Qed.

(** A disabled placeholder that is selected is not submitted: the snapshot
    has no entry for the select, and decoding it leaves a select with a
    choice made as it is. *)
Example placeholder_is_not_captured :
  extractFormState default_options Examples.placeholder_select
  = Returns [("_custom", VObj [])]
  /\ applyFormState (VObj [("_custom", VObj [])]) Examples.chosen_select
     = Done tt Examples.chosen_select.
Proof. split; reflexivity. Qed.

(** The slip in the pass over the unchecked boxes also breaks the round
    trip of a checkbox group: its first box, checked, is unchecked because a
    later box of the group is. *)
Example roundtrip_fails_on_checkbox_group :
  applyFormState
    (VObj [("interests", VStr "a"); ("_unchecked", VArr [VStr "interests"]);
           ("_custom", VObj [])])
    Examples.interests_first_checked
  = Done tt (Examples.contact_form [Examples.checkbox "interests" "a" false;
                                    Examples.checkbox "interests" "b" false])
  /\ extractFormState default_options Examples.interests_first_checked
     = Returns [("interests", VStr "a"); ("_unchecked", VArr [VStr "interests"]);
                ("_custom", VObj [])].
Proof. split; reflexivity. Qed.

End CodecExamples.

(** ** Round trip *)
Section ObjectKeys.
Import JS.

Lemma keys_replace_own (key : string) (v : value) (o : props) :
  (replace_own key v o).*1 = o.*1.
Proof.
  induction o as [|[k w] o IH]; [reflexivity|]. cbn.
  destruct (String.eqb k key); cbn; [reflexivity | by rewrite IH].
Qed.

Lemma get_own_None_keys (key : string) (o : props) :
  get_own key o = None <-> key ∉ o.*1.
Proof.
  rewrite elem_of_get_own. split.
  - intros H ([k v] & -> & Hin)%list_elem_of_fmap. by apply (H v).
  - intros H v Hin. apply H. apply list_elem_of_fmap. by exists (key, v).
Qed.

Lemma keys_insert_index (n : Z) (key : string) (v : value) (o : props) :
  (insert_index n key v o).*1 ≡ₚ key :: o.*1.
Proof.
  induction o as [|[k w] o IH]; [reflexivity|]. cbn.
  destruct (array_index k) as [m|]; [destruct (decide (m < n))|]; cbn; try reflexivity.
  rewrite IH. apply Permutation_swap.
Qed.

Lemma NoDup_keys_set (key : string) (v : value) (o : props) :
  NoDup o.*1 -> NoDup (JS.set key v o).*1.
Proof.
  intros Hnd. unfold JS.set. destruct (get_own key o) as [w|] eqn:Hown.
  - by rewrite keys_replace_own.
  - apply get_own_None_keys in Hown. destruct (array_index key) as [n|].
    + rewrite keys_insert_index. by constructor.
    + rewrite fmap_app. cbn. apply NoDup_app. split; [exact Hnd|]. split.
      * intros x Hx ->%list_elem_of_singleton. contradiction.
      * apply NoDup_singleton.
Qed.

Lemma elem_of_get_own_Some (key : string) (v : value) (o : props) :
  NoDup o.*1 -> (key, v) ∈ o -> get_own key o = Some v.
Proof.
  induction o as [|[k w] o IH]; intros Hnd Hin; [by apply elem_of_nil in Hin|].
  cbn in *. apply NoDup_cons in Hnd as [Hk Hnd].
  apply elem_of_cons in Hin as [[= -> ->] | Hin].
  - by rewrite String.eqb_refl.
  - destruct (String.eqb k key) eqn:Ek; [|by apply IH].
    apply String.eqb_eq in Ek. subst k. destruct Hk.
    apply list_elem_of_fmap. by exists (key, v).
Qed.

End ObjectKeys.

Section Ready.
Import JS DOM Run FreeformStateManager Shape Invariants.

Lemma pairwise_lookup {A} (r : A -> A -> bool) (l : list A) (i j : nat) (x y : A) :
  pairwise r l = true -> (i < j)%nat ->
  l !! i = Some x -> l !! j = Some y -> r x y = true.
Proof.
  revert i j. induction l as [|a l IH]; intros i j Hp Hij Hx Hy; [done|].
  cbn in Hp. apply andb_true_iff in Hp as [Hall Hp].
  destruct i as [|i], j as [|j]; try lia; cbn in *.
  - injection Hx as ->. rewrite forallb_forall in Hall. apply Hall.
    apply list_elem_of_In. by eapply list_elem_of_lookup_2.
  - apply (IH i j); [done | lia | done | done].
Qed.

Lemma may_share_name_sym (e1 e2 : DOM.element) :
  may_share_name e1 e2 = may_share_name e2 e1.
Proof.
  unfold may_share_name.
  destruct (el_name_attr e1) as [n1|], (el_name_attr e2) as [n2|]; try reflexivity.
  rewrite (String.eqb_sym n2 n1). destruct (String.eqb n1 n2); [|reflexivity].
  rewrite (String.eqb_sym (el_value e2)), (andb_comm (el_checked e2)).
  by rewrite (andb_comm (bool_decide (el_type e2 = Radio))).
Qed.

Variable f : form.
Hypothesis Hready : roundtrip_ready f = true.

Lemma ready_tidy (e : DOM.element) : e ∈ elements f -> tidy_control e = true.
Proof.
  intros He. unfold roundtrip_ready in Hready.
  apply andb_true_iff in Hready as [Hall _].
  rewrite forallb_forall in Hall. apply Hall. by apply list_elem_of_In.
Qed.

Lemma ready_plain (e : DOM.element) (n : string) :
  e ∈ elements f -> el_name_attr e = Some n -> plain_name n = true.
Proof.
  intros He Hn. pose proof (ready_tidy e He) as Ht. unfold tidy_control in Ht.
  rewrite Hn in Ht. by apply andb_true_iff in Ht as [Ht _].
Qed.

Lemma ready_share (i j : nat) (ei ej : DOM.element) :
  i <> j -> elements f !! i = Some ei -> elements f !! j = Some ej ->
  may_share_name ei ej = true.
Proof.
  intros Hne Hi Hj. unfold roundtrip_ready in Hready.
  apply andb_true_iff in Hready as [_ Hp].
  destruct (decide (i < j)%nat).
  - by apply (pairwise_lookup may_share_name (elements f) i j).
  - rewrite may_share_name_sym.
    apply (pairwise_lookup may_share_name (elements f) j i); [done | lia | done | done].
Qed.

(** Two controls with the same name are radio buttons with different
    values, not both checked. *)
Lemma ready_same_name (i j : nat) (ei ej : DOM.element) (n : string) :
  i <> j -> elements f !! i = Some ei -> elements f !! j = Some ej ->
  el_name_attr ei = Some n -> el_name_attr ej = Some n ->
  el_type ei = Radio /\ el_type ej = Radio /\
  el_value ei <> el_value ej /\
  (el_checked ei = true -> el_checked ej = false).
Proof.
  intros Hne Hi Hj Hni Hnj.
  pose proof (ready_share i j ei ej Hne Hi Hj) as Hs.
  unfold may_share_name in Hs. rewrite Hni, Hnj, String.eqb_refl in Hs.
  apply andb_true_iff in Hs as [Hs Hc]. apply andb_true_iff in Hs as [Hs Hv].
  apply andb_true_iff in Hs as [Ht1 Ht2].
  apply bool_decide_eq_true in Ht1, Ht2.
  apply negb_true_iff, String.eqb_neq in Hv.
  apply negb_true_iff in Hc.
  split; [done|]. split; [done|]. split; [done|].
  intros Hci. rewrite Hci in Hc. exact Hc.
Qed.

Lemma plain_name_facts (n : string) :
  plain_name n = true ->
  n <> EmptyString /\ selector_safe n = true /\
  (n ∉ object_prototype_members) /\ n <> "_unchecked".
Proof.
  unfold plain_name. intros H.
  apply andb_true_iff in H as [H _].
  apply andb_true_iff in H as [H H4]. apply andb_true_iff in H as [H H3].
  apply andb_true_iff in H as [H1 H2].
  apply negb_true_iff, String.eqb_neq in H1.
  apply negb_true_iff, bool_decide_eq_false in H3.
  apply negb_true_iff, String.eqb_neq in H4. done.
Qed.

Lemma plain_name_method (n : string) :
  plain_name n = true -> n <> "querySelector" /\ n <> "querySelectorAll".
Proof.
  unfold plain_name. intros [_ H]%andb_true_iff.
  apply negb_true_iff, bool_decide_eq_false in H. set_solver.
Qed.

(** No control of the form stands for a method that the manager calls. *)
Lemma ready_method (n : string) :
  n = "querySelector" \/ n = "querySelectorAll" -> overridden n f = false.
Proof.
  intros Hn. unfold overridden.
  destruct (existsb (overrides n) (elements f)) eqn:E; [|reflexivity].
  apply existsb_exists in E as (e & He & Ho). apply list_elem_of_In in He.
  unfold overrides, has_name in Ho. apply andb_true_iff in Ho as [Ho _].
  apply bool_decide_eq_true in Ho.
  destruct (plain_name_method n (ready_plain e n He Ho)). by destruct Hn.
Qed.

Lemma alter_fixed {A} (g : A -> A) (l : list A) (i : nat) (x : A) :
  l !! i = Some x -> g x = x -> alter g i l = l.
Proof.
  revert i. induction l as [|a l IH]; intros [|i] Hl Hg; cbn in *; try done.
  - injection Hl as ->. by rewrite Hg.
  - f_equal. by apply IH.
Qed.

Lemma update_element_fixed (i : nat) (g : DOM.element -> DOM.element)
    (h : form) (e : DOM.element) :
  elements h !! i = Some e -> g e = e -> update_element i g h = Done tt h.
Proof.
  intros He Hg. unfold update_element, modify.
  rewrite (alter_fixed g _ i e He Hg). by destruct h.
Qed.

Lemma with_checked_same (e : DOM.element) : with_checked (el_checked e) e = e.
Proof. by destruct e. Qed.

Lemma with_value_same (e : DOM.element) : with_value (el_value e) e = e.
Proof. by destruct e. Qed.

Lemma with_options_same (e : DOM.element) : with_options (el_options e) e = e.
Proof. by destruct e. Qed.

End Ready.

Section Selects.
Import JS DOM Run FreeformStateManager Shape Invariants.

Lemma NoDup_fmap_elem {A B} (g : A -> B) (l : list A) (x y : A) :
  NoDup (map g l) -> x ∈ l -> y ∈ l -> g x = g y -> x = y.
Proof.
  induction l as [|a l IH]; intros Hnd Hx Hy Hg; [by apply elem_of_nil in Hx|].
  cbn in Hnd. apply NoDup_cons in Hnd as [Ha Hnd].
  apply elem_of_cons in Hx as [-> | Hx]; apply elem_of_cons in Hy as [-> | Hy].
  - reflexivity.
  - destruct Ha. rewrite Hg. by apply (list_elem_of_fmap_2 g).
  - destruct Ha. rewrite <- Hg. by apply (list_elem_of_fmap_2 g).
  - by apply IH.
Qed.

Lemma select_by_fixed (p : string -> bool) (os : list option_element) :
  (forall o, o ∈ os -> p (opt_value o) = opt_selected o) ->
  select_by p os = os.
Proof.
  unfold select_by. induction os as [|o os IH]; intros Hp; [reflexivity|]. cbn.
  rewrite (Hp o) by left. rewrite IH by (intros o' Ho'; apply Hp; by right).
  by destruct o.
Qed.

Lemma elem_of_selected_of (os : list option_element) (o : option_element) :
  NoDup (map opt_value os) -> o ∈ os ->
  (opt_value o ∈ selected_of os <-> opt_selected o = true).
Proof.
  intros Hnd Ho. unfold selected_of. split.
  - intros (o' & Hv & Ho')%list_elem_of_fmap.
    apply list_elem_of_filter in Ho' as [Hsel Ho'].
    by rewrite (NoDup_fmap_elem opt_value os o o' Hnd Ho Ho' Hv).
  - intros Hsel. apply list_elem_of_fmap. exists o. split; [done|].
    by apply list_elem_of_filter.
Qed.

Lemma includes_strings (vals : list string) (s : string) :
  includes (map VStr vals) s = bool_decide (s ∈ vals).
Proof.
  unfold includes. induction vals as [|v vals IH]; [reflexivity|]. cbn. rewrite IH.
  destruct (String.eqb v s) eqn:E.
  - apply String.eqb_eq in E. subst v. symmetry. apply bool_decide_eq_true. left.
  - apply String.eqb_neq in E. cbn.
    destruct (bool_decide (s ∈ vals)) eqn:Hin.
    + apply bool_decide_eq_true in Hin. symmetry. apply bool_decide_eq_true. by right.
    + apply bool_decide_eq_false in Hin. symmetry. apply bool_decide_eq_false.
      intros [-> | ?]%elem_of_cons; done.
Qed.

(** Selecting by membership in the selected values changes nothing. *)
Lemma select_by_includes_fixed (os : list option_element) :
  NoDup (map opt_value os) ->
  select_by (includes (map VStr (selected_of os))) os = os.
Proof.
  intros Hnd. apply select_by_fixed. intros o Ho. rewrite includes_strings.
  destruct (opt_selected o) eqn:Hsel.
  - apply bool_decide_eq_true. by apply elem_of_selected_of.
  - apply bool_decide_eq_false. rewrite (elem_of_selected_of os o Hnd Ho). congruence.
Qed.

Lemma select_by_single_fixed (os : list option_element) (x : string) :
  NoDup (map opt_value os) -> selected_of os = [x] ->
  select_by (strict_eq_str (VStr x)) os = os.
Proof.
  intros Hnd Hx. apply select_by_fixed. intros o Ho. cbn.
  pose proof (elem_of_selected_of os o Hnd Ho) as Hiff. rewrite Hx in Hiff.
  destruct (opt_selected o).
  - apply String.eqb_eq. symmetry. apply list_elem_of_singleton. by apply Hiff.
  - apply String.eqb_neq. intros ->.
    assert (false = true); [|done]. apply Hiff. left.
Qed.

Lemma select_none_fixed (os : list option_element) :
  selected_of os = [] -> select_by (fun _ => false) os = os.
Proof.
  intros Hnone. apply select_by_fixed. intros o Ho.
  destruct (opt_selected o) eqn:Hsel; [|reflexivity].
  assert (Hin : opt_value o ∈ selected_of os).
  { unfold selected_of. apply list_elem_of_fmap. exists o. split; [done|].
    by apply list_elem_of_filter. }
  rewrite Hnone in Hin. by apply elem_of_nil in Hin.
Qed.

(** Assigning to a single select the value of its selected option changes
    nothing. *)
Lemma select_first_fixed (os : list option_element) (x : string) :
  NoDup (map opt_value os) -> selected_of os = [x] ->
  select_first x os = os.
Proof.
  induction os as [|o os IH]; intros Hnd Hx; [reflexivity|].
  cbn in Hnd. apply NoDup_cons in Hnd as [Ho Hnd].
  unfold selected_of in Hx. cbn [select_first].
  rewrite filter_cons in Hx.
  destruct (decide (opt_selected o = true)) as [Hsel|Hsel].
  - cbn in Hx. injection Hx as Hv Hrest. rewrite Hv, String.eqb_refl.
    rewrite (select_none_fixed os Hrest). destruct o; cbn in *. by subst.
  - destruct (String.eqb (opt_value o) x) eqn:E.
    + apply String.eqb_eq in E. destruct Ho. rewrite E.
      assert (Hin : x ∈ selected_of os) by (unfold selected_of; rewrite Hx; left).
      unfold selected_of in Hin. apply list_elem_of_fmap in Hin as (o' & -> & Ho').
      apply list_elem_of_filter in Ho' as [_ Ho']. by apply (list_elem_of_fmap_2 opt_value).
    + rewrite (IH Hnd Hx). destruct o as [v sel]; cbn in *.
      by destruct sel.
Qed.

(** The submitted options are among the selected ones. *)
Lemma submitted_selected (os : list option_element) :
  selected_of os = [] -> map opt_value (filter (fun o => submitted o = true) os) = [].
Proof.
  unfold selected_of. induction os as [|[v sel dis] os IH]; [done|].
  rewrite !filter_cons. destruct sel.
  - rewrite decide_True by done. discriminate.
  - rewrite !decide_False by done. exact IH.
Qed.

Lemma submitted_single (os : list option_element) (x : string) :
  (length (selected_of os) <= 1)%nat ->
  map opt_value (filter (fun o => submitted o = true) os) = [x] ->
  selected_of os = [x].
Proof.
  induction os as [|[v sel dis] os IH]; [done|]. intros Hlen Hsub.
  unfold selected_of in *. rewrite filter_cons in Hlen, Hsub |- *.
  destruct sel.
  - rewrite decide_True in Hlen |- * by done. cbn [map length] in Hlen |- *.
    assert (Hnone : selected_of os = []).
    { unfold selected_of. destruct (map opt_value _); [done|]. cbn in Hlen. lia. }
    pose proof (submitted_selected os Hnone) as Hrest.
    unfold selected_of in Hnone. rewrite Hnone.
    destruct dis.
    + rewrite decide_False in Hsub by done. congruence.
    + rewrite decide_True in Hsub by done. cbn [map] in Hsub. congruence.
  - rewrite decide_False in Hlen |- * by done. rewrite decide_False in Hsub by done.
    by apply IH.
Qed.

Lemma submitted_length (os : list option_element) :
  (length (filter (fun o => submitted o = true) os)
   <= length (filter (fun o => opt_selected o = true) os))%nat.
Proof.
  induction os as [|[v sel dis] os IH]; [done|]. rewrite !filter_cons.
  destruct sel, dis.
  - rewrite decide_False, decide_True by done. cbn [length]. lia.
  - rewrite !decide_True by done. cbn [length]. lia.
  - by rewrite !decide_False by done.
  - by rewrite !decide_False by done.
Qed.

End Selects.

Section RestoreFixed.
Import JS DOM Run FreeformStateManager Shape Invariants.

Variable f : form.
Hypothesis Hready : roundtrip_ready f = true.

Lemma set_checked_fixed (i : nat) (e : DOM.element) (b : bool) :
  elements f !! i = Some e -> el_checked e = b ->
  update_element i (with_checked b) f = Done tt f.
Proof.
  intros He Hc. apply (update_element_fixed i _ f e He).
  rewrite <- Hc. apply with_checked_same.
Qed.

Lemma set_radio_checked_false_fixed (j : nat) (e : DOM.element) :
  elements f !! j = Some e -> el_checked e = false ->
  set_radio_checked j false f = Done tt f.
Proof.
  intros He Hc. unfold set_radio_checked, mbind, run_bind, bind, get_state.
  rewrite He. cbn. by apply (set_checked_fixed j e).
Qed.

Lemma set_radio_checked_true_fixed (i : nat) (e : DOM.element) :
  elements f !! i = Some e -> el_checked e = true ->
  (forall k other, k <> i -> elements f !! k = Some other ->
                   same_group e other = true -> el_checked other = false) ->
  set_radio_checked i true f = Done tt f.
Proof.
  intros He Hc Hgroup. unfold set_radio_checked, mbind, run_bind, bind, get_state.
  rewrite He. rewrite forEach_fixed; [by apply (set_checked_fixed i e)|].
  intros k _. destruct (elements f !! k) as [other|] eqn:Hother; [|reflexivity].
  destruct (same_group e other) eqn:Hsame; [|reflexivity].
  destruct (Nat.eqb_spec i k) as [->|Hne]; [reflexivity|]. cbn.
  apply (set_checked_fixed k other false Hother). apply (Hgroup k); auto.
Qed.

(** Restoring the value of the checked radio button of a group leaves the
    group as it is. *)
Lemma restore_radio_fixed (i : nat) (e : DOM.element) (n : string) :
  elements f !! i = Some e -> el_type e = Radio -> el_checked e = true ->
  el_name_attr e = Some n ->
  restoreField n (VStr (el_value e)) f = Done tt f.
Proof.
  intros He Ht Hc Hn. unfold restoreField.
  destruct (plain_name_facts n
              (ready_plain f Hready e n ltac:(by eapply list_elem_of_lookup_2) Hn))
    as (_ & -> & _).
  unfold mbind, run_bind, bind, get_state.
  rewrite (ready_method f Hready "querySelectorAll") by auto.
  apply forEach_fixed. intros j Hj.
  apply elem_of_query_all in Hj as (ej & Hej & Hp).
  unfold has_name in Hp. apply bool_decide_eq_true in Hp.
  unfold restore_element, mbind, run_bind, bind, get_state. rewrite Hej.
  destruct (decide (j = i)) as [->|Hne].
  - assert (ej = e) by congruence. subst ej. rewrite Ht.
    cbn [strict_eq_str]. rewrite String.eqb_refl.
    apply (set_radio_checked_true_fixed i e He Hc).
    intros k other Hk Hother Hsame.
    pose proof (same_group_name e other Hsame) as Hname. rewrite Hn in Hname.
    destruct (ready_same_name f Hready i k e other n ltac:(done) He Hother Hn Hname)
      as (_ & _ & _ & Hone).
    by apply Hone.
  - destruct (ready_same_name f Hready i j e ej n ltac:(done) He Hej Hn Hp)
      as (_ & Htj & Hv & Hone).
    rewrite Htj. cbn [strict_eq_str].
    assert (String.eqb (el_value e) (el_value ej) = false) as -> by (by apply String.eqb_neq).
    apply (set_radio_checked_false_fixed j ej Hej). by apply Hone.
Qed.

Lemma restore_encoded_fixed (i : nat) (e : DOM.element) (n : string) (v : value) :
  elements f !! i = Some e -> el_name_attr e = Some n -> encodes e v ->
  restoreField n v f = Done tt f.
Proof.
  intros He Hn Henc. unfold restoreField.
  assert (Hin : e ∈ elements f) by (by eapply list_elem_of_lookup_2).
  destruct (plain_name_facts n (ready_plain f Hready e n Hin Hn)) as (_ & -> & _).
  unfold mbind, run_bind, bind, get_state.
  rewrite (ready_method f Hready "querySelectorAll") by auto.
  apply forEach_fixed. intros j Hj.
  apply elem_of_query_all in Hj as (ej & Hej & Hp).
  unfold has_name in Hp. apply bool_decide_eq_true in Hp.
  assert (j = i) as ->.
  { destruct (decide (j = i)) as [|Hne]; [done|].
    destruct (ready_same_name f Hready i j e ej n ltac:(done) He Hej Hn Hp) as (Hr & _).
    unfold encodes in Henc. by rewrite Hr in Henc. }
  assert (ej = e) by congruence. subst ej.
  unfold restore_element, mbind, run_bind, bind, get_state. rewrite He.
  pose proof (ready_tidy f Hready e Hin) as Htidy. unfold tidy_control in Htidy.
  apply andb_true_iff in Htidy as [_ Htidy].
  unfold encodes in Henc. destruct (el_type e) eqn:Ht.
  - destruct Henc as [Hc ->]. cbn [strict_eq_str]. rewrite String.eqb_refl.
    by apply (set_checked_fixed i e).
  - done.
  - reflexivity.
  - destruct Henc as (x & Hx & ->). apply andb_true_iff in Htidy as [Hnd _].
    apply bool_decide_eq_true in Hnd.
    unfold assign_value. rewrite Ht. cbn [to_string].
    apply (update_element_fixed i _ f e He).
    rewrite (select_first_fixed (el_options e) x Hnd Hx). apply with_options_same.
  - apply andb_true_iff in Htidy as [Htidy _].
    apply andb_true_iff in Htidy as [Hnd _]. apply bool_decide_eq_true in Hnd.
    destruct Henc as [(x & Hx & ->) | ->].
    + apply (update_element_fixed i _ f e He).
      rewrite (select_by_single_fixed (el_options e) x Hnd Hx). apply with_options_same.
    + apply (update_element_fixed i _ f e He).
      change (selected_values e) with (selected_of (el_options e)).
      rewrite (select_by_includes_fixed (el_options e) Hnd). apply with_options_same.
  - subst v. unfold assign_value. rewrite Ht. cbn [to_string].
    apply (update_element_fixed i _ f e He), with_value_same.
  - subst v. unfold assign_value. rewrite Ht. cbn [to_string].
    apply (update_element_fixed i _ f e He), with_value_same.
  - subst v. unfold assign_value. rewrite Ht. cbn [to_string].
    apply (update_element_fixed i _ f e He), with_value_same.
Qed.

(** No control carries an empty [name] attribute, so nothing is selected by it. *)
Lemma restore_nameless_fixed (v : value) :
  restoreField EmptyString v f = Done tt f.
Proof.
  unfold restoreField. cbn [selector_safe list_ascii_of_string forallb].
  unfold mbind, run_bind, bind, get_state.
  rewrite (ready_method f Hready "querySelectorAll") by auto.
  apply forEach_fixed. intros j Hj.
  apply elem_of_query_all in Hj as (ej & Hej & Hp).
  unfold has_name in Hp. apply bool_decide_eq_true in Hp.
  destruct (plain_name_facts EmptyString
              (ready_plain f Hready ej EmptyString
                 ltac:(by eapply list_elem_of_lookup_2) Hp)) as (Hne & _).
  done.
Qed.

End RestoreFixed.

Section Accumulate.
Import JS DOM Run FreeformStateManager Shape Invariants.

Variable opts : Options.

Lemma combine_step (cur x : value) (xs : list value) :
  combine cur (x :: xs)
  = combine (match cur with VArr l => VArr (l ++ [x]) | _ => VArr [cur; x] end) xs.
Proof.
  destruct xs as [|y ys]; destruct cur; cbn; try reflexivity.
  by rewrite <- app_assoc.
Qed.

Lemma collect_more (n : string) (xs : list value) (st : props) (cur : value) :
  excluded opts n = false ->
  String.eqb n "__proto__" = false ->
  get_own n st = Some cur -> truthy cur = true ->
  exists st',
    forEach (map (fun x => (n, x)) xs) (collect_entry opts) st = Done tt st' /\
    get_own n st' = Some (combine cur xs) /\ same_but n st st'.
Proof.
  intros Hex Hproto. revert st cur.
  induction xs as [|x xs IH]; intros st cur Hown Htruthy.
  - exists st. split; [reflexivity|]. split; [exact Hown|]. by split.
  - cbn [map forEach]. unfold bind at 1.
    assert (Hstep : collect_entry opts (n, x) st
                    = Done tt (JS.set n (match cur with
                                         | VArr l => VArr (l ++ [x])
                                         | _ => VArr [cur; x]
                                         end) st)).
    { unfold collect_entry. rewrite Hex, Hproto.
      unfold mbind, run_bind, bind, get_state, put_state.
      rewrite (get_of_own n cur st Hown), Htruthy. by destruct cur. }
    rewrite Hstep.
    destruct (IH (JS.set n (match cur with
                            | VArr l => VArr (l ++ [x])
                            | _ => VArr [cur; x]
                            end) st)
                 (match cur with VArr l => VArr (l ++ [x]) | _ => VArr [cur; x] end)
                 (get_own_set_eq _ _ _) ltac:(by destruct cur))
      as (st' & Hrun & Hn & Hother & Hnd).
    exists st'. split; [exact Hrun|]. split; [by rewrite combine_step|]. split.
    + intros k Hk. rewrite Hother by exact Hk. by apply get_own_set_ne.
    + intros H. by apply Hnd, NoDup_keys_set.
Qed.

Lemma collect_fresh (n : string) (x : value) (xs : list value) (st : props) :
  excluded opts n = false ->
  n ∉ object_prototype_members ->
  get_own n st = None ->
  (xs <> [] -> truthy x = true) ->
  exists st',
    forEach (map (fun x => (n, x)) (x :: xs)) (collect_entry opts) st = Done tt st' /\
    get_own n st' = Some (combine x xs) /\ same_but n st st'.
Proof.
  intros Hex Hproto Hown Htruthy.
  assert (Hp : String.eqb n "__proto__" = false).
  { apply String.eqb_neq. intros ->. apply Hproto. repeat constructor. }
  cbn [map forEach]. unfold bind at 1.
  assert (Hstep : collect_entry opts (n, x) st = Done tt (JS.set n x st)).
  { unfold collect_entry. rewrite Hex, Hp.
    unfold mbind, run_bind, bind, get_state, put_state, JS.get.
    rewrite Hown. rewrite bool_decide_eq_false_2 by exact Hproto. reflexivity. }
  rewrite Hstep. destruct xs as [|y ys].
  - exists (JS.set n x st). split; [reflexivity|]. split; [apply get_own_set_eq|]. split.
    + intros k Hk. by apply get_own_set_ne.
    + apply NoDup_keys_set.
  - destruct (collect_more n (y :: ys) (JS.set n x st) x Hex Hp
                (get_own_set_eq _ _ _) (Htruthy ltac:(done)))
      as (st' & Hrun & Hn & Hother & Hnd).
    exists st'. split; [exact Hrun|]. split; [exact Hn|]. split.
    + intros k Hk. rewrite Hother by exact Hk. by apply get_own_set_ne.
    + intros H. by apply Hnd, NoDup_keys_set.
Qed.

(** Where the accumulation works: a first value that is a string other
    than the empty one, followed by at least one more value under the same
    name, gives the list of all of them in encounter order. *)
Lemma collect_list (n first second : string) (more : list value) (st : props) :
  excluded opts n = false ->
  n ∉ object_prototype_members ->
  get_own n st = None ->
  first <> EmptyString ->
  exists st',
    forEach (map (fun x => (n, x)) (VStr first :: VStr second :: more))
            (collect_entry opts) st = Done tt st' /\
    get_own n st' = Some (VArr (VStr first :: VStr second :: more)).
Proof.
  intros Hex Hproto Hown Hfirst.
  destruct (collect_fresh n (VStr first) (VStr second :: more) st Hex Hproto Hown)
    as (st' & Hrun & Hn & _).
  { intros _. cbn. by apply negb_true_iff, String.eqb_neq. }
  by exists st'.
Qed.

Lemma collect_excluded (n : string) (xs : list value) (st : props) :
  excluded opts n = true ->
  forEach (map (fun x => (n, x)) xs) (collect_entry opts) st = Done tt st.
Proof.
  intros Hex. apply forEach_fixed. intros [k v] (x & [= -> ->] & _)%list_elem_of_fmap.
  unfold collect_entry. by rewrite Hex.
Qed.

Lemma entries_of_values (e : DOM.element) :
  entries_of e = map (fun x => (DOM.name e, x)) (entry_values e).
Proof.
  unfold entries_of, entry_values, DOM.name, submitted_values.
  destruct (el_name_attr e) as [n|]; [|reflexivity]. cbn [default].
  destruct (String.eqb n EmptyString); [reflexivity|].
  destruct (is_button e); [reflexivity|].
  destruct (el_type e); try reflexivity.
  - by destruct (el_checked e).
  - by destruct (el_checked e).
  - destruct (el_files e) as [|file files]; [reflexivity|]. by rewrite map_map.
  - by rewrite !map_map.
  - by rewrite !map_map.
Qed.

End Accumulate.

Section ExtractReady.
Import JS DOM Run FreeformStateManager Shape Invariants.

Variable opts : Options.
Variable f : form.
Hypothesis Hready : roundtrip_ready f = true.

Local Abbreviation fixes := (Invariants.fixes f).
Local Abbreviation from_controls := (Invariants.from_controls f).

Lemma entry_values_named (e : DOM.element) :
  entry_values e <> [] -> exists n, el_name_attr e = Some n.
Proof. unfold entry_values. destruct (el_name_attr e); [eauto | done]. Qed.

Lemma entry_values_radio (e : DOM.element) :
  el_type e = Radio -> entry_values e <> [] ->
  el_checked e = true /\ entry_values e = [VStr (el_value e)].
Proof.
  unfold entry_values. intros Ht.
  destruct (el_name_attr e); [|done].
  destruct (String.eqb _ _); [done|]. destruct (is_button e); [done|].
  rewrite Ht. by destruct (el_checked e).
Qed.

Lemma values_encode (e : DOM.element) (x : value) (xs : list value) :
  tidy_control e = true ->
  entry_values e = x :: xs ->
  (xs <> [] -> truthy x = true) /\
  (el_type e <> Radio -> encodes e (combine x xs)).
Proof.
  unfold tidy_control, entry_values, encodes. intros Htidy Hvals.
  apply andb_true_iff in Htidy as [_ Htidy].
  destruct (el_name_attr e) as [n|]; [|done].
  destruct (String.eqb n EmptyString); [done|]. destruct (is_button e); [done|].
  destruct (el_type e) eqn:Ht.
  - destruct (el_checked e); [|done]. injection Hvals as <- <-. by split.
  - split; [|done]. destruct (el_checked e); [|done]. by injection Hvals as <- <-.
  - split; [|done]. intros _.
    destruct (el_files e); injection Hvals as <- _; reflexivity.
  - apply andb_true_iff in Htidy as [_ Hlen]. apply bool_decide_eq_true in Hlen.
    pose proof (submitted_length (el_options e)) as Hsub.
    pose proof (submitted_single (el_options e)) as Hone.
    unfold selected_values in Hlen. rewrite length_map in Hlen.
    unfold submitted_values in *.
    destruct (filter (fun o => submitted o = true) (el_options e)) as [|o [|o' os]] eqn:Hsel;
      cbn in Hvals, Hsub; try done; try lia.
    injection Hvals as <- <-. split; [done|]. intros _. exists (opt_value o).
    split; [|done]. apply Hone; [|done]. unfold selected_of. by rewrite length_map.
  - apply andb_true_iff in Htidy as [Htidy Hall].
    apply andb_true_iff in Htidy as [_ Hfirst].
    assert (Hsame : submitted_values e <> [] -> selected_values e = submitted_values e).
    { intros Hne. apply orb_true_iff in Hall as [H%bool_decide_eq_true | H%bool_decide_eq_true];
        [done | by symmetry]. }
    destruct (submitted_values e) as [|v [|v' vs]] eqn:Hsel; cbn in Hvals; [done| |].
    + injection Hvals as <- <-. split; [done|]. intros _. left. exists v.
      split; [by apply Hsame | done].
    + injection Hvals as <- <-. split; [by intros _|]. intros _. right.
      by rewrite Hsame.
  - injection Hvals as <- <-. by split.
  - injection Hvals as <- <-. by split.
  - injection Hvals as <- <-. by split.
Qed.

Lemma element_step (m : nat) (e : DOM.element) (st : props) :
  elements f !! m = Some e ->
  NoDup st.*1 -> fixes st -> from_controls m st ->
  exists st',
    forEach (entries_of e) (collect_entry opts) st = Done tt st' /\
    NoDup st'.*1 /\ fixes st' /\ from_controls (S m) st'.
Proof.
  intros He Hnd Hfix Hfrom. rewrite entries_of_values.
  assert (Hin : e ∈ elements f) by (by eapply list_elem_of_lookup_2).
  assert (Hmono : from_controls (S m) st).
  { intros k Hk. destruct (Hfrom k Hk) as (j & e' & Hj & H). exists j, e'. split; [lia | done]. }
  destruct (entry_values e) as [|x xs] eqn:Hvals.
  { exists st. by repeat split. }
  destruct (entry_values_named e ltac:(by rewrite Hvals)) as (n & Hn).
  rewrite (name_of_attr e n Hn).
  destruct (excluded opts n) eqn:Hex.
  { exists st. split; [by apply collect_excluded | done]. }
  destruct (plain_name_facts n (ready_plain f Hready e n Hin Hn)) as (_ & _ & Hproto & _).
  destruct (values_encode e x xs (ready_tidy f Hready e Hin) Hvals) as [Htruthy Henc].
  assert (Hfresh : get_own n st = None).
  { destruct (get_own n st) as [w|] eqn:Hown; [|done].
    destruct (Hfrom n ltac:(eauto)) as (j & e' & Hj & He' & Hn' & Hv').
    destruct (ready_same_name f Hready j m e' e n ltac:(lia) He' He Hn' Hn)
      as (Hr' & Hr & _ & Hone).
    destruct (entry_values_radio e' Hr' Hv') as [Hc' _].
    destruct (entry_values_radio e Hr ltac:(by rewrite Hvals)) as [Hc _].
    rewrite (Hone Hc') in Hc. done. }
  destruct (collect_fresh opts n x xs st Hex Hproto Hfresh Htruthy)
    as (st' & Hrun & Hown & Hother & Hnd').
  exists st'. split; [exact Hrun|]. split; [by apply Hnd'|]. split.
  - intros k v Hk Hp. destruct (decide (k = n)) as [->|Hne].
    + rewrite Hown in Hk. injection Hk as <-.
      destruct (decide (el_type e = Radio)) as [Hr|Hr].
      * destruct (entry_values_radio e Hr ltac:(by rewrite Hvals)) as [Hc Hv].
        rewrite Hvals in Hv. injection Hv as -> ->. cbn [combine].
        by apply (restore_radio_fixed f Hready m e n).
      * apply (restore_encoded_fixed f Hready m e n); [done | done | by apply Henc].
    + rewrite Hother in Hk by exact Hne. by apply Hfix.
  - intros k Hk. destruct (decide (k = n)) as [->|Hne].
    + exists m, e. split; [lia|]. split; [done|]. split; [done|]. by rewrite Hvals.
    + rewrite Hother in Hk by exact Hne. by apply Hmono.
Qed.

(** The pass over the entry list, control by control. *)
Lemma entries_pass (rest : list DOM.element) (m : nat) (st : props) :
  drop m (elements f) = rest ->
  NoDup st.*1 -> fixes st -> from_controls m st ->
  exists st',
    forEach (concat (map entries_of rest)) (collect_entry opts) st = Done tt st' /\
    NoDup st'.*1 /\ fixes st' /\ from_controls (length (elements f)) st'.
Proof.
  revert m st. induction rest as [|e rest IH]; intros m st Hdrop Hnd Hfix Hfrom.
  - exists st. split; [reflexivity|]. split; [done|]. split; [done|].
    intros k Hk. destruct (Hfrom k Hk) as (j & e' & Hj & He' & H).
    exists j, e'. split; [|done]. by apply lookup_lt_Some in He'.
  - assert (He : elements f !! m = Some e).
    { assert (H0 : drop m (elements f) !! 0%nat = Some e) by (by rewrite Hdrop).
      by rewrite lookup_drop, Nat.add_0_r in H0. }
    destruct (element_step m e st He Hnd Hfix Hfrom) as (st1 & Hrun1 & Hnd1 & Hfix1 & Hfrom1).
    destruct (IH (S m) st1) as (st' & Hrun & H); [|done..|].
    { replace (S m) with (m + 1)%nat by lia. by rewrite <- drop_drop, Hdrop. }
    exists st'. split; [|exact H].
    cbn [map concat]. rewrite forEach_app.
    unfold mbind, run_bind, bind. by rewrite Hrun1.
Qed.

End ExtractReady.

Section ExtractReadyPasses.
Import JS DOM Run FreeformStateManager Shape Invariants.

Variable opts : Options.
Variable f : form.
Hypothesis Hready : roundtrip_ready f = true.

Local Abbreviation unchecked_names := (Invariants.unchecked_names f).
Local Abbreviation snapshot_ok := (Invariants.snapshot_ok f).

Lemma fixes_set_metadata (key : string) (v : value) (st : props) :
  String.prefix "_" key = true -> fixes f st -> fixes f (JS.set key v st).
Proof.
  intros Hp Hfix k w Hk Hpk. rewrite get_own_set in Hk.
  destruct (String.eqb key k) eqn:E; [|by apply Hfix].
  apply String.eqb_eq in E. subst k. congruence.
Qed.

Lemma track_step (cb : DOM.element) (st : props) :
  cb ∈ elements f -> el_type cb = Checkbox -> snapshot_ok st ->
  exists st', track_unchecked opts cb st = Done tt st' /\ snapshot_ok st'.
Proof.
  intros Hin Ht (Hnd & Hfix & Hun).
  destruct (excluded opts (DOM.name cb)) eqn:Hex.
  { exists st. split; [|done]. unfold track_unchecked. by rewrite Hex. }
  destruct (el_checked cb) eqn:Hc.
  { exists st. split; [|done]. unfold track_unchecked. by rewrite Hex, Hc. }
  rewrite (track_unchecked_unfold opts cb st Hex Hc). cbv zeta.
  assert (Hitem : exists c, c ∈ elements f /\ el_type c = Checkbox /\
                            el_checked c = false /\ VStr (DOM.name cb) = VStr (DOM.name c)).
  { by exists cb. }
  destruct Hun as [Hnone | (names & Hown & Hall)].
  - rewrite (get_unchecked_None st Hnone). cbn [truthy].
    rewrite (get_of_own _ _ _ (get_own_set_eq "_unchecked" (VArr []) st)).
    eexists. split; [reflexivity|]. split; [by do 2 apply NoDup_keys_set|].
    split; [apply fixes_set_metadata; [reflexivity|];
            apply fixes_set_metadata; [reflexivity | exact Hfix]|].
    right. eexists. rewrite get_own_set_eq. split; [reflexivity|].
    by repeat constructor.
  - rewrite (get_of_own _ _ _ Hown). cbn [truthy]. rewrite (get_of_own _ _ _ Hown).
    eexists. split; [reflexivity|]. split; [by apply NoDup_keys_set|].
    split; [apply fixes_set_metadata; [reflexivity | exact Hfix]|].
    right. eexists. rewrite get_own_set_eq. split; [reflexivity|].
    apply Forall_app. split; [exact Hall | by repeat constructor].
Qed.

Lemma unchecked_names_set (key : string) (v : value) (st : props) :
  key <> "_unchecked" -> unchecked_names st -> unchecked_names (JS.set key v st).
Proof.
  intros Hne [Hnone | (names & Hown & Hall)].
  - left. by rewrite get_own_set_ne.
  - right. exists names. by rewrite get_own_set_ne.
Qed.

Lemma radio_step (r : DOM.element) (st : props) :
  r ∈ elements f -> el_type r = Radio -> el_checked r = true -> snapshot_ok st ->
  exists st', record_radio opts r st = Done tt st' /\ snapshot_ok st'.
Proof.
  intros Hin Ht Hc (Hnd & Hfix & Hun). unfold record_radio.
  destruct (excluded opts (DOM.name r)); [by exists st|].
  destruct (String.eqb (DOM.name r) "__proto__"); [by exists st|].
  eexists. split; [reflexivity|].
  apply list_elem_of_lookup in Hin as (i & Hi).
  split; [by apply NoDup_keys_set|]. split.
  - intros k v Hk Hp. rewrite get_own_set in Hk.
    destruct (String.eqb (DOM.name r) k) eqn:E; [|by apply Hfix].
    apply String.eqb_eq in E. subst k. injection Hk as <-.
    unfold DOM.name. destruct (el_name_attr r) as [n|] eqn:Hn; cbn [default].
    + by apply (restore_radio_fixed f Hready i r n).
    + by apply restore_nameless_fixed.
  - apply unchecked_names_set; [|done].
    unfold DOM.name. destruct (el_name_attr r) as [n|] eqn:Hn; cbn [default]; [|done].
    by destruct (plain_name_facts n
                   (ready_plain f Hready r n ltac:(by eapply list_elem_of_lookup_2) Hn))
      as (_ & _ & _ & ?).
Qed.

(** Encoding a ready form returns a snapshot whose every entry restores
    the form to itself. *)
Lemma extractFormState_ready :
  exists st,
    extractFormState opts f = Returns st /\
    snapshot_ok st /\
    get_own "_custom" st = Some (VObj (extractCustomElements f)).
Proof.
  destruct (entries_pass opts f Hready (elements f) 0 [] eq_refl)
    as (st1 & H1 & Hnd1 & Hfix1 & Hfrom1).
  { constructor. }
  { intros k v Hk. discriminate. }
  { intros k [v Hk]. discriminate. }
  assert (Hok1 : snapshot_ok st1).
  { split; [done|]. split; [done|]. left.
    destruct (get_own "_unchecked" st1) eqn:Hown; [|done].
    destruct (Hfrom1 "_unchecked" ltac:(eauto)) as (j & e & _ & He & Hn & _).
    by destruct (plain_name_facts "_unchecked"
                   (ready_plain f Hready e _ ltac:(by eapply list_elem_of_lookup_2) Hn))
      as (_ & _ & _ & ?). }
  destruct (forEach_total snapshot_ok
              (filter (fun e => el_type e = Checkbox) (elements f))
              (track_unchecked opts)) with (s := st1) as (st2 & H2 & Hok2); [|done|].
  { intros cb s [Ht Hin]%list_elem_of_filter Hs. by apply track_step. }
  destruct (forEach_total snapshot_ok
              (filter (fun e => el_type e = Radio /\ el_checked e = true) (elements f))
              (record_radio opts)) with (s := st2) as (st3 & H3 & Hok3); [|done|].
  { intros r s [[Ht Hc] Hin]%list_elem_of_filter Hs. by apply radio_step. }
  exists (JS.set "_custom" (VObj (extractCustomElements f)) st3).
  split; [|split].
  - unfold extractFormState, extractFormState_passes, FormData_entries,
      mbind, run_bind, bind, modify.
    rewrite (ready_method f Hready "querySelectorAll") by auto.
    rewrite H1. cbn [mret run_ret ret]. by rewrite H2, H3.
  - destruct Hok3 as (Hnd & Hfix & Hun).
    split; [by apply NoDup_keys_set|].
    split; [apply fixes_set_metadata; [reflexivity | exact Hfix]|].
    by apply unchecked_names_set.
  - apply get_own_set_eq.
Qed.

End ExtractReadyPasses.

Section CustomReady.
Import JS DOM Run FreeformStateManager Shape Invariants.

Lemma selector_safe_cons (c : ascii) (s : string) :
  selector_safe (String c s) = safe_char c && selector_safe s.
Proof. reflexivity. Qed.

Lemma selector_safe_app (a b : string) :
  selector_safe (a +:+ b) = selector_safe a && selector_safe b.
Proof.
  induction a as [|c a IH]; [reflexivity|].
  change (String c a +:+ b) with (String c (a +:+ b)).
  rewrite !selector_safe_cons, IH. by rewrite andb_assoc.
Qed.

Lemma selector_safe_substring (s : string) (n m : nat) :
  selector_safe s = true -> selector_safe (String.substring n m s) = true.
Proof.
  revert n m. induction s as [|c s IH]; intros n m Hs.
  - by destruct n, m.
  - rewrite selector_safe_cons in Hs. apply andb_true_iff in Hs as [Hc Hs].
    destruct n as [|n]; cbn [String.substring].
    + destruct m as [|m]; [reflexivity|].
      rewrite selector_safe_cons, Hc. by apply IH.
    + by apply IH.
Qed.

Lemma selector_safe_remove_first (pattern s : string) :
  selector_safe s = true -> selector_safe (remove_first pattern s) = true.
Proof.
  induction s as [|c s IH]; intros Hs; cbn [remove_first].
  - destruct (String.prefix pattern EmptyString); [|reflexivity].
    by apply selector_safe_substring.
  - destruct (String.prefix pattern (String c s)).
    + by apply selector_safe_substring.
    + rewrite selector_safe_cons in Hs. apply andb_true_iff in Hs as [Hc Hs].
      rewrite selector_safe_cons, Hc. by apply IH.
Qed.

Lemma total_ret {A} (a : A) : total (mret a : M form A).
Proof. intros h Hh. by exists a, h. Qed.

Lemma total_bind {A B} (m : M form A) (k : A -> M form B) :
  total m -> (forall a, total (k a)) -> total (m ≫= k).
Proof.
  intros Hm Hk h Hh. destruct (Hm h Hh) as (a & h1 & H1 & Hh1).
  destruct (Hk a h1 Hh1) as (b & h2 & H2 & Hh2).
  exists b, h2. unfold mbind, run_bind, bind. by rewrite H1.
Qed.

Lemma total_get_state {A} (k : form -> M form A) :
  (forall s, overridden "querySelector" s = false -> total (k s)) ->
  total (get_state ≫= k).
Proof. intros Hk h Hh. destruct (Hk h Hh h Hh) as (a & h' & H). by exists a, h'. Qed.

Lemma total_update_element (i : nat) (g : DOM.element -> DOM.element) :
  (forall e, el_type (g e) = el_type e /\ el_name_attr (g e) = el_name_attr e) ->
  total (update_element i g).
Proof.
  intros Hg h Hh. eexists _, _. split; [reflexivity|].
  etrans; [|exact Hh]. apply overridden_layout. unfold layout. cbn [elements].
  apply same_control_layout.
  apply Forall2_alter_r; [by apply Forall_Forall2_diag, Forall_forall|].
  intros x y _ _ [Ht Hn]. destruct (Hg y) as [Ht' Hn']. split; congruence.
Qed.

Lemma total_update_widget (w : nat) (g : widget -> widget) :
  total (update_widget w g).
Proof. intros h Hh. by eexists _, _. Qed.

Lemma total_file_lines (files : list FileRef) :
  total (file_lines (map file_info files)).
Proof.
  induction files as [|file files IH]; [apply total_ret|].
  cbn [map file_lines]. apply total_bind.
  - intros h Hh. by eexists _, _.
  - intros l. apply total_bind; [exact IH|]. intros ls. apply total_ret.
Qed.

Lemma total_restore_custom (entry : string * value) :
  custom_entry entry -> total (restore_custom entry).
Proof.
  destruct entry as [key v]. intros [Hsafe Hv]. cbn [fst snd] in *.
  unfold restore_custom. apply total_bind.
  - destruct (ends_with "_open" key); [|apply total_ret]. cbv zeta.
    rewrite (selector_safe_remove_first "_open" key Hsafe).
    apply total_get_state. intros s ->.
    destruct (query _ s) as [i|]; [|apply total_ret].
    destruct (elements s !! i ≫= el_widget) as [w|]; [|apply total_ret].
    destruct (truthy v); [apply total_update_widget | apply total_ret].
  - intros [].
    destruct (ends_with "_files" key); [|apply total_ret]. cbv zeta.
    rewrite (selector_safe_remove_first "_files" key Hsafe).
    apply total_get_state. intros s ->.
    destruct (query _ s) as [i|]; [|apply total_ret].
    destruct Hv as [-> | (files & ->)]; [apply total_ret|].
    unfold displayFileInfo. apply total_bind.
    { apply total_update_element. intros e. by destruct (el_notice e). }
    intros []. apply total_bind; [apply total_file_lines|].
    intros lines. by apply total_update_element.
Qed.

Variable f : form.
Hypothesis Hready : roundtrip_ready f = true.

Lemma name_safe (e : DOM.element) :
  e ∈ elements f -> selector_safe (DOM.name e) = true.
Proof.
  intros He. unfold DOM.name. destruct (el_name_attr e) as [n|] eqn:Hn; [|reflexivity].
  by destruct (plain_name_facts n (ready_plain f Hready e n He Hn)) as (_ & ? & _).
Qed.

Lemma custom_entries_set (key : string) (v : value) (custom : props) :
  custom_entry (key, v) -> Forall custom_entry custom ->
  Forall custom_entry (JS.set key v custom).
Proof.
  intros Hnew Hall. apply Forall_forall. intros [k w] Hin.
  destruct (elem_of_set _ _ _ _ _ Hin) as [[= -> ->] | Hold]; [done|].
  rewrite Forall_forall in Hall. by apply Hall.
Qed.

Lemma found_element (p : DOM.element -> Prop) `{!forall e, Decision (p e)}
    (i : nat) (e : DOM.element) :
  list_find p (elements f) = Some (i, e) -> e ∈ elements f.
Proof. intros (He & _)%list_find_Some. by eapply list_elem_of_lookup_2. Qed.

Lemma open_select_state_entries (w : nat) (wd : widget) (custom : props) :
  Forall custom_entry custom -> Forall custom_entry (open_select_state f w wd custom).
Proof.
  intros Hall. unfold open_select_state.
  destruct (_ && _); [|done].
  destruct (list_find _ (elements f)) as [[i input]|] eqn:Hfind; [|done].
  destruct (negb _); [|done].
  apply custom_entries_set; [|done]. split; [|by left]. cbn [fst].
  rewrite selector_safe_app. rewrite (name_safe input); [reflexivity|].
  by eapply found_element.
Qed.

Lemma uploader_state_entries (w : nat) (wd : widget) (custom : props) :
  Forall custom_entry custom -> Forall custom_entry (uploader_state f w wd custom).
Proof.
  intros Hall. unfold uploader_state.
  destruct (bool_decide _); [|done].
  destruct (list_find _ (elements f)) as [[i input]|] eqn:Hfind; [|done].
  destruct (el_files input) as [|file files]; [done|].
  apply custom_entries_set; [|done]. split; [|right; by eexists]. cbn [fst].
  rewrite selector_safe_app. rewrite (name_safe input); [reflexivity|].
  by eapply found_element.
Qed.

Lemma fold_widgets_entries (step : nat -> widget -> props -> props) (custom : props) :
  (forall w wd c, Forall custom_entry c -> Forall custom_entry (step w wd c)) ->
  Forall custom_entry custom -> Forall custom_entry (fold_widgets step f custom).
Proof.
  intros Hstep. unfold fold_widgets.
  generalize (imap (fun i w => (i, w)) (widgets f)). intros l. revert custom.
  induction l as [|[w wd] l IH]; intros custom Hall; [done|].
  cbn [foldl]. apply IH. by apply Hstep.
Qed.

Lemma extractCustomElements_entries :
  Forall custom_entry (extractCustomElements f).
Proof.
  unfold extractCustomElements.
  apply fold_widgets_entries; [apply uploader_state_entries|].
  apply fold_widgets_entries; [apply open_select_state_entries | constructor].
Qed.

(** Replaying the custom widgets of a ready form runs to its end, on a form
    that has its method [querySelector]. *)
Lemma restoreCustomElements_total (h : form) :
  overridden "querySelector" h = false ->
  exists h', restoreCustomElements (VObj (extractCustomElements f)) h = Done tt h'.
Proof.
  intros Hh.
  pose proof extractCustomElements_entries as Hall. rewrite Forall_forall in Hall.
  cbn [restoreCustomElements].
  destruct (forEach_total (fun s => overridden "querySelector" s = false)
              (extractCustomElements f) restore_custom)
    with (s := h) as (h' & Hrun & _); [|done|by exists h'].
  intros entry s Hin Hs.
  destruct (total_restore_custom entry (Hall entry Hin) s Hs) as ([] & s' & Hs').
  by exists s'.
Qed.

End CustomReady.

Section RoundTrip.
Import JS DOM Run FreeformStateManager Shape Invariants.

Lemma same_fields_writes :
  (forall e, same_fields e e) /\
  (forall a b c, same_fields a b -> same_fields b c -> same_fields a c) /\
  (forall e e', same_fields e e' -> el_name_attr e' = el_name_attr e) /\
  (forall e b, False -> same_fields e (with_checked b e)) /\
  (forall e s, False -> same_fields e (with_value s e)) /\
  (forall e os, False -> same_fields e (with_options os e)) /\
  (forall e nt, same_fields e (with_notice nt e)).
Proof.
  unfold same_fields. split; [done|].
  split; [intros a b c H1 H2; congruence|].
  split; [intros e e' H; by injection H|].
  repeat split; done.
Qed.

Lemma same_fields_layout (h h' : form) :
  Forall2 same_fields (elements h) (elements h') -> layout h' = layout h.
Proof.
  unfold layout. induction 1 as [|e e' l l' He _ IH]; [reflexivity|]. cbn.
  unfold same_fields in He. injection He as -> -> _ _ _ _. by rewrite IH.
Qed.

Lemma same_fields_map (h h' : form) :
  Forall2 same_fields (elements h) (elements h') ->
  map field_state (elements h') = map field_state (elements h).
Proof.
  induction 1 as [|e e' l l' He _ IH]; [reflexivity|]. cbn. by rewrite He, IH.
Qed.

Variable f : form.
Hypothesis Hready : roundtrip_ready f = true.

(** On a form that holds what [f] holds, forcing an unchecked checkbox of
    [f] unchecked changes nothing. *)
Lemma force_unchecked_fixed (cb : DOM.element) (h : form) :
  Forall2 same_fields (elements f) (elements h) ->
  cb ∈ elements f -> el_type cb = Checkbox -> el_checked cb = false ->
  force_unchecked (VStr (DOM.name cb)) h = Done tt h.
Proof.
  intros Hsame Hin Ht Hc. unfold force_unchecked. cbn [to_string].
  rewrite (name_safe f Hready cb Hin).
  unfold mbind, run_bind, bind, get_state.
  rewrite (overridden_layout "querySelector" f h (same_fields_layout f h Hsame)).
  rewrite (ready_method f Hready "querySelector") by auto.
  change (fun e => bool_decide (el_type e = Checkbox) && has_name (DOM.name cb) e)
    with (is_checkbox_named (DOM.name cb)).
  unfold query.
  rewrite (query_all_layout (is_checkbox_named (DOM.name cb)) f h
             (is_checkbox_named_layout _) (same_fields_layout f h Hsame)).
  destruct (head (query_all (is_checkbox_named (DOM.name cb)) f)) as [j|] eqn:Hq;
    [|reflexivity].
  apply head_Some_elem_of, elem_of_query_all in Hq as (ej & Hej & Hp).
  apply andb_true_iff in Hp as [Htj Hnj].
  apply bool_decide_eq_true in Htj. unfold has_name in Hnj. apply bool_decide_eq_true in Hnj.
  apply list_elem_of_lookup in Hin as (i & Hi).
  assert (Hattr : el_name_attr cb = Some (DOM.name cb)).
  { unfold DOM.name. destruct (el_name_attr cb) as [n|] eqn:Hn; [reflexivity|].
    unfold DOM.name in Hnj. rewrite Hn in Hnj. cbn in Hnj.
    by destruct (plain_name_facts EmptyString
                   (ready_plain f Hready ej _ ltac:(by eapply list_elem_of_lookup_2) Hnj)). }
  assert (j = i) as ->.
  { destruct (decide (j = i)) as [|Hne]; [done|].
    destruct (ready_same_name f Hready i j cb ej _ ltac:(done) Hi Hej Hattr Hnj) as (Hr & _).
    congruence. }
  destruct (Forall2_lookup_l _ _ _ _ _ Hsame Hi) as (e' & He' & Hfields).
  apply (update_element_fixed i _ h e' He').
  unfold same_fields in Hfields. injection Hfields as _ _ _ Hchecked _ _.
  rewrite <- Hc, <- Hchecked. apply with_checked_same.
Qed.

(** Encoding a ready form returns a snapshot, and decoding that snapshot
    onto the form itself runs to its end and leaves every control with the
    value, checkedness, selected options and files it had. *)
Lemma decode_encode_fixed (opts : Options) :
  exists (st : props) (f' : form),
    extractFormState opts f = Returns st /\
    applyFormState (VObj st) f = Done tt f' /\
    map field_state (elements f') = map field_state (elements f).
Proof.
  destruct (extractFormState_ready opts f Hready) as (st & Hst & (Hnd & Hfix & Hun) & Hcustom).
  assert (H1 : forEach st
                 (fun entry => if String.prefix "_" entry.1 then mret tt
                               else restoreField entry.1 entry.2) f = Done tt f).
  { apply forEach_fixed. intros [k v] Hin. cbn [fst snd].
    destruct (String.prefix "_" k) eqn:Hp; [reflexivity|].
    apply Hfix; [by apply elem_of_get_own_Some | done]. }
  destruct (restoreCustomElements_total f Hready f) as (f2 & H2);
    [apply (ready_method f Hready); auto|].
  assert (Hsame : Forall2 same_fields (elements f) (elements f2)).
  { destruct same_fields_writes as (R & T & N & C & V & O & Nt).
    pose proof (kept_restoreCustomElements same_fields (fun _ => False)
                  R T N C V O Nt (VObj (extractCustomElements f)) f) as Hk.
    unfold kept in Hk. by rewrite H2 in Hk. }
  exists st, f2. split; [exact Hst|]. split; [|by apply same_fields_map].
  unfold applyFormState, mbind, run_bind, bind. rewrite H1.
  rewrite (get_of_own _ _ _ Hcustom). cbn [truthy]. rewrite H2.
  destruct Hun as [Hnone | (names & Hown & Hall)].
  - by rewrite (get_unchecked_None st Hnone).
  - rewrite (get_of_own _ _ _ Hown). cbn [truthy].
    apply forEach_fixed. intros x Hx. rewrite Forall_forall in Hall.
    destruct (Hall x Hx) as (cb & Hin & Ht & Hc & ->).
    by apply force_unchecked_fixed.
Qed.

End RoundTrip.

(** ** JSON: reading back what was written *)
Section JSONFacts.
Import JS JSON Payload.

Lemma append_cons (c : ascii) (a b : string) : String c a +:+ b = String c (a +:+ b).
Proof. reflexivity. Qed.

Lemma append_nil (a : string) : EmptyString +:+ a = a.
Proof. reflexivity. Qed.

Lemma append_assoc (a b c : string) : (a +:+ b) +:+ c = a +:+ (b +:+ c).
Proof. induction a as [|x a IH]; [reflexivity|]. rewrite !append_cons. by f_equal. Qed.

Lemma length_append (a b : string) :
  String.length (a +:+ b) = (String.length a + String.length b)%nat.
Proof. induction a as [|x a IH]; [reflexivity|]. rewrite append_cons. simpl. by f_equal. Qed.

Lemma substring_all (s : string) : String.substring 0 (String.length s) s = s.
Proof. induction s as [|c s IH]; simpl; [reflexivity|]. by f_equal. Qed.

(** One character of a string literal is read back as it was written. *)
Lemma parse_string_body_char (c : ascii) (s : string) :
  parse_string_body (quote_body (String c EmptyString) +:+ s)
  = match parse_string_body s with
    | Parsed t rest => Parsed (String c t) rest
    | SyntaxError => SyntaxError
    | Unsupported => Unsupported
    end.
Proof.
  destruct c as [[] [] [] [] [] [] [] []]; reflexivity.
Qed.

Lemma quote_body_cons (c : ascii) (s : string) :
  quote_body (String c s) = quote_body (String c EmptyString) +:+ quote_body s.
Proof.
  cbn [quote_body]. 
  repeat (destruct (decide _); [reflexivity|]).
  reflexivity.
Qed.

Lemma parse_string_body_quote (s rest : string) :
  parse_string_body (quote_body s +:+ String dquote rest) = Parsed s rest.
Proof.
  induction s as [|c s IH].
  - reflexivity.
  - rewrite quote_body_cons, append_assoc, parse_string_body_char, IH. reflexivity.
Qed.

Lemma append_nil_r (a : string) : a +:+ EmptyString = a.
Proof. induction a as [|x a IH]; [reflexivity|]. rewrite append_cons. by f_equal. Qed.

(** *** Numbers *)

Lemma digit_value_char (d : N) :
  (d < 10)%N -> digit_value (pretty_N_char d) = Some (Z.of_N d).
Proof.
  intros Hd.
  assert (d = 0 \/ d = 1 \/ d = 2 \/ d = 3 \/ d = 4 \/ d = 5 \/ d = 6 \/ d = 7
          \/ d = 8 \/ d = 9)%N as H by lia.
  repeat (destruct H as [-> | H]; [reflexivity|]). by subst d.
Qed.

Lemma pretty_N_go_app (x : N) (s : string) :
  pretty_N_go x s = pretty_N_go x EmptyString +:+ s.
Proof.
  revert s. induction (N.lt_wf_0 x) as [x _ IH]. intros s.
  destruct (decide (0 < x)%N) as [Hx|Hx].
  - assert (Hlt : (x `div` 10 < x)%N) by (by apply N.div_lt).
    rewrite !(pretty_N_go_step x) by done.
    rewrite (IH _ Hlt (String _ s)), (IH _ Hlt (String _ EmptyString)).
    by rewrite append_assoc.
  - assert (x = 0%N) as -> by lia. by rewrite !pretty_N_go_0.
Qed.

Lemma parse_digits_pretty (x : N) (acc : Z) (r : string) :
  parse_digits acc (pretty_N_go x EmptyString +:+ r)
  = parse_digits
      (acc * 10 ^ Z.of_nat (String.length (pretty_N_go x EmptyString)) + Z.of_N x) r.
Proof.
  revert acc r. induction (N.lt_wf_0 x) as [x _ IH]. intros acc r.
  destruct (decide (0 < x)%N) as [Hx|Hx].
  - rewrite !(pretty_N_go_step x) by done.
    rewrite (pretty_N_go_app _ (String _ _)), append_assoc, append_cons, append_nil.
    rewrite IH by (by apply N.div_lt).
    cbn [parse_digits]. rewrite digit_value_char by (by apply N.mod_lt).
    f_equal. rewrite length_append. cbn [String.length].
    rewrite Nat2Z.inj_add, Z.pow_add_r by lia.
    rewrite N2Z.inj_mod, N2Z.inj_div.
    change (Z.of_N 10) with 10. change (10 ^ Z.of_nat 1) with 10.
    generalize (10 ^ Z.of_nat (String.length (pretty_N_go (x `div` 10) EmptyString))).
    intros p. replace (acc * (p * 10)) with (10 * (acc * p)) by ring.
    generalize (acc * p). intros q.
    pose proof (Z.div_mod (Z.of_N x) 10). lia.
  - assert (x = 0%N) as -> by lia. rewrite pretty_N_go_0. cbn. f_equal. lia.
Qed.

(** The numeral of a positive number starts with a digit other than 0. *)
Lemma pretty_N_go_head (x : N) :
  (0 < x)%N ->
  exists c ds d, pretty_N_go x EmptyString = String c ds /\
                 digit_value c = Some d /\ 0 < d.
Proof.
  induction (N.lt_wf_0 x) as [x _ IH]. intros Hx.
  rewrite pretty_N_go_step, pretty_N_go_app by done.
  destruct (decide (0 < x `div` 10)%N) as [Hdiv|Hdiv].
  - destruct (IH (x `div` 10)%N) as (c & ds & d & -> & Hc & Hd); [by apply N.div_lt|done|].
    exists c, (ds +:+ String (pretty_N_char (x `mod` 10)) EmptyString), d. by rewrite append_cons.
  - assert (x `div` 10 = 0)%N as Hz by (by apply N.le_0_r, N.nlt_ge).
    rewrite Hz, pretty_N_go_0, append_nil.
    assert (x < 10)%N.
    { pose proof (N.div_mod x 10) as Hdm. pose proof (N.mod_lt x 10) as Hm.
      rewrite Hz in Hdm. revert Hdm Hm. generalize (x `mod` 10)%N. lia. }
    eexists _, _, _. split; [reflexivity|].
    rewrite N.mod_small by done. rewrite digit_value_char by done. split; [done|lia].
Qed.

Lemma parse_digits_stop (acc : Z) (rest : string) :
  delimited rest -> parse_digits acc rest = (acc, rest).
Proof.
  destruct rest as [|c rest]; [done|]. by intros [-> | [-> | ->]].
Qed.

Lemma parse_unsigned_pretty (x : N) (rest : string) :
  Z.of_N x <= safe_integer ->
  delimited rest ->
  parse_unsigned (pretty x +:+ rest) = Parsed (Z.of_N x) rest.
Proof.
  intros Hsafe Hrest. unfold pretty, pretty_N.
  destruct (decide (x = 0%N)) as [->|Hx].
  - cbn. destruct rest as [|c rest]; [done|].
    by destruct Hrest as [-> | [-> | ->]].
  - destruct (pretty_N_go_head x) as (c & ds & d & Hds & Hc & Hd); [lia|].
    pose proof (parse_digits_pretty x 0 rest) as Hp.
    rewrite Hds in Hp |- *. rewrite append_cons in Hp |- *.
    cbn [parse_digits] in Hp. rewrite Hc in Hp.
    unfold parse_unsigned. rewrite Hc.
    destruct (decide (d = 0)) as [->|_]; [lia|].
    replace (10 * 0 + d) with d in Hp by lia. rewrite Hp.
    rewrite parse_digits_stop by done. cbn [Z.mul].
    replace (0 + Z.of_N x) with (Z.of_N x) by lia.
    destruct rest as [|r rest].
    + by rewrite decide_True.
    + rewrite bool_decide_eq_false_2; [by rewrite decide_True|].
      destruct Hrest as [-> | [-> | ->]]; intros [? | [? | ?]]; discriminate.
Qed.

Lemma parse_value_unfold (fuel : nat) (c : ascii) (s' : string) :
  is_ws c = false ->
  parse_value (S fuel) (String c s')
  = if decide (c = dquote) then
      bind_parsed (parse_string_body s') (fun t rest => Parsed (VStr t) rest)
    else if decide (c = "["%char) then
      match skip_ws s' with
      | String c' r =>
          if decide (c' = "]"%char) then Parsed (VArr []) r
          else parse_elements fuel s' []
      | EmptyString => SyntaxError
      end
    else if decide (c = "{"%char) then
      match skip_ws s' with
      | String c' r =>
          if decide (c' = "}"%char) then Parsed (VObj []) r
          else parse_members fuel s' []
      | EmptyString => SyntaxError
      end
    else if decide (c = "-"%char) then
      bind_parsed (parse_unsigned s') (fun n rest => Parsed (VNum (- n)) rest)
    else if decide (c = "t"%char) then parse_literal "true" (VBool true) (String c s')
    else if decide (c = "f"%char) then parse_literal "false" (VBool false) (String c s')
    else if decide (c = "n"%char) then parse_literal "null" VNull (String c s')
    else bind_parsed (parse_unsigned (String c s'))
                     (fun n rest => Parsed (VNum n) rest).
Proof. intros Hc. cbn [parse_value skip_ws]. rewrite Hc. reflexivity. Qed.

Lemma parse_literal_word (word : string) (v : value) (rest : string) :
  parse_literal word v (word +:+ rest) = Parsed v rest.
Proof.
  unfold parse_literal.
  assert (Hp : String.prefix word (word +:+ rest) = true).
  { induction word as [|c word IH]; [by destruct rest|].
    rewrite append_cons. cbn. by destruct (ascii_dec c c). }
  rewrite Hp. f_equal.
  induction word as [|c word IH].
  - rewrite append_nil. cbn [String.length]. rewrite Nat.sub_0_r. apply substring_all.
  - rewrite append_cons. cbn [String.length String.substring]. apply IH.
    by rewrite append_cons in Hp; cbn in Hp; destruct (ascii_dec c c).
Qed.

Lemma reads_null : reads "null" VNull.
Proof.
  split; [by eexists _, _|]. split; [cbn; lia|].
  intros [|fuel] rest Hfuel _; [cbn in Hfuel; lia|].
  change ("null" +:+ rest) with (String "n" ("ull" +:+ rest)).
  rewrite parse_value_unfold by done.
  repeat (rewrite decide_False by done). rewrite decide_True by done.
  apply (parse_literal_word "null").
Qed.

Lemma reads_bool (b : bool) : reads (if b then "true" else "false") (VBool b).
Proof.
  split; [by destruct b; eexists _, _|]. split; [destruct b; cbn; lia|].
  intros [|fuel] rest Hfuel _; [cbn in Hfuel; lia|].
  destruct b.
  - change ("true" +:+ rest) with (String "t" ("rue" +:+ rest)).
    rewrite parse_value_unfold by done.
    repeat (rewrite decide_False by done). rewrite decide_True by done.
    apply (parse_literal_word "true").
  - change ("false" +:+ rest) with (String "f" ("alse" +:+ rest)).
    rewrite parse_value_unfold by done.
    repeat (rewrite decide_False by done). rewrite decide_True by done.
    apply (parse_literal_word "false").
Qed.

Lemma reads_string (s : string) : reads (quote s) (VStr s).
Proof.
  split; [by eexists _, _|]. split; [cbn; lia|].
  intros [|fuel] rest Hfuel _; [cbn in Hfuel; lia|].
  unfold quote. rewrite append_cons, append_assoc, append_cons, append_nil.
  rewrite parse_value_unfold by done. rewrite decide_True by done.
  by rewrite parse_string_body_quote.
Qed.

Lemma digit_char_plain (c : ascii) (d : Z) :
  digit_value c = Some d ->
  is_ws c = false /\ c <> dquote /\ c <> "["%char /\ c <> "{"%char /\ c <> "-"%char
  /\ c <> "t"%char /\ c <> "f"%char /\ c <> "n"%char /\ c <> "]"%char /\ c <> "}"%char.
Proof.
  destruct c as [[] [] [] [] [] [] [] []]; try discriminate; intros _; repeat split; done.
Qed.

Lemma pretty_N_head (x : N) :
  exists c ds d, pretty x = String c ds /\ digit_value c = Some d.
Proof.
  unfold pretty, pretty_N. destruct (decide (x = 0%N)) as [->|Hx].
  - by eexists _, _, _.
  - destruct (pretty_N_go_head x) as (c & ds & d & H & Hc & _); [lia|]. by eexists _, _, _.
Qed.

Lemma reads_number (n : Z) :
  - safe_integer <= n <= safe_integer -> reads (pretty n) (VNum n).
Proof.
  intros Hn.
  assert (Hnat : forall x : N, Z.of_N x <= safe_integer ->
            starts_value (pretty x) /\
            forall fuel rest, delimited rest ->
              parse_value (S fuel) (pretty x +:+ rest) = Parsed (VNum (Z.of_N x)) rest).
  { intros x Hx. destruct (pretty_N_head x) as (c & ds & d & Hp & Hc).
    destruct (digit_char_plain c d Hc) as (Hws & H1 & H2 & H3 & H4 & H5 & H6 & H7 & H8 & H9).
    split; [by eexists _, _|].
    intros fuel rest Hrest.
    pose proof (parse_unsigned_pretty x rest Hx Hrest) as Hu.
    rewrite Hp in Hu |- *. rewrite append_cons in Hu |- *.
    rewrite parse_value_unfold by done.
    repeat (rewrite decide_False by done). by rewrite Hu. }
  assert (Hlen : forall x : N, (1 <= String.length (pretty x))%nat).
  { intros x. destruct (pretty_N_head x) as (c & ds & d & -> & _). cbn. lia. }
  destruct n as [|p|p].
  - destruct (Hnat 0%N) as [Hs Hparse]; [done|].
    split; [done|]. split; [cbn; lia|].
    intros [|fuel] rest Hfuel Hrest; [cbn in Hfuel; lia|]. by apply Hparse.
  - destruct (Hnat (N.pos p)) as [Hs Hparse]; [cbn; lia|].
    change (pretty (Z.pos p)) with (pretty (N.pos p)).
    split; [done|]. split; [specialize (Hlen (N.pos p)); cbn [weight]; lia|].
    intros [|fuel] rest Hfuel Hrest; [cbn in Hfuel; lia|]. by apply Hparse.
  - change (pretty (Z.neg p)) with ("-" +:+ pretty (N.pos p)).
    split; [by eexists _, _|].
    split; [rewrite length_append; cbn [weight String.length]; lia|].
    intros [|fuel] rest Hfuel Hrest; [cbn in Hfuel; lia|].
    rewrite append_assoc, append_cons, append_nil.
    rewrite parse_value_unfold by done.
    repeat (rewrite decide_False by done). rewrite decide_True by done.
    rewrite parse_unsigned_pretty by (done || cbn; lia). reflexivity.
Qed.

End JSONFacts.

Section JSONFacts2.
Import JS JSON Payload.

Lemma parse_elements_unfold (fuel : nat) (s : string) (acc : list value) :
  parse_elements (S fuel) s acc
  = bind_parsed (parse_value fuel s) (fun v rest =>
      match skip_ws rest with
      | String c r =>
          if decide (c = ","%char) then parse_elements fuel r (acc ++ [v])
          else if decide (c = "]"%char) then Parsed (VArr (acc ++ [v])) r
          else SyntaxError
      | EmptyString => SyntaxError
      end).
Proof. reflexivity. Qed.

Lemma parse_members_unfold (fuel : nat) (s : string) (acc : props) :
  parse_members (S fuel) s acc
  = match skip_ws s with
    | String q s' =>
        if decide (q = dquote) then
          bind_parsed (parse_string_body s') (fun key rest =>
            match skip_ws rest with
            | String colon r =>
                if decide (colon = ":"%char) then
                  bind_parsed (parse_value fuel r) (fun v rest' =>
                    match skip_ws rest' with
                    | String c r' =>
                        if decide (c = ","%char) then
                          parse_members fuel r' (JS.set key v acc)
                        else if decide (c = "}"%char) then
                          Parsed (VObj (JS.set key v acc)) r'
                        else SyntaxError
                    | EmptyString => SyntaxError
                    end)
                else SyntaxError
            | EmptyString => SyntaxError
            end)
        else SyntaxError
    | EmptyString => SyntaxError
    end.
Proof. reflexivity. Qed.

Lemma parse_elements_reads (ts : list string) (vs : list value) :
  Forall2 reads ts vs -> ts <> [] ->
  forall fuel acc rest,
    (sum_list_with (fun x => S (weight x)) vs <= fuel)%nat ->
    parse_elements fuel (join_comma ts +:+ String "]" rest) acc
    = Parsed (VArr (acc ++ vs)) rest.
Proof.
  induction 1 as [|t v ts vs Hr Hrest IH]; [done|]. intros _ fuel acc rest Hfuel.
  cbn [sum_list_with] in Hfuel.
  destruct fuel as [|fuel]; [lia|].
  destruct Hr as (_ & _ & Hparse).
  rewrite parse_elements_unfold.
  destruct ts as [|t2 ts].
  - apply Forall2_nil_inv_l in Hrest as ->.
    cbn [join_comma]. rewrite Hparse; [|lia|by right; left].
    cbn [bind_parsed skip_ws is_ws]. cbn.
    reflexivity.
  - change (join_comma (t :: t2 :: ts)) with (t +:+ "," +:+ join_comma (t2 :: ts)).
    rewrite !append_assoc, append_cons, append_nil.
    rewrite Hparse; [|lia|by left].
    cbn [bind_parsed]. cbn [skip_ws]. 
    change (is_ws ",") with false. cbv iota.
    rewrite decide_True by done.
    rewrite IH; [|done|lia]. by rewrite <- app_assoc.
Qed.

Lemma weight_join (ts : list string) (vs : list value) :
  Forall2 reads ts vs ->
  (sum_list_with (fun x => S (weight x)) vs <= 2 * String.length (join_comma ts) + 1)%nat.
Proof.
  induction 1 as [|t v ts vs Hr Hrest IH]; [cbn; lia|].
  destruct Hr as (_ & Hw & _). cbn [sum_list_with].
  destruct ts as [|t2 ts].
  - apply Forall2_nil_inv_l in Hrest as ->. cbn. lia.
  - change (join_comma (t :: t2 :: ts)) with (t +:+ "," +:+ join_comma (t2 :: ts)).
    rewrite !length_append. cbn [String.length]. lia.
Qed.

Lemma reads_array (ts : list string) (vs : list value) :
  Forall2 reads ts vs ->
  reads ("[" +:+ join_comma ts +:+ "]") (VArr vs).
Proof.
  intros Hall. split; [by eexists _, _|]. split.
  { pose proof (weight_join ts vs Hall).
    rewrite !length_append. cbn [weight String.length]. lia. }
  intros [|fuel] rest Hfuel Hrest; [cbn in Hfuel; lia|].
  rewrite !append_assoc, !append_cons, !append_nil.
  rewrite parse_value_unfold by done.
  repeat (rewrite decide_False by done). rewrite decide_True by done.
  destruct Hall as [|t v ts vs Hr Hall].
  - cbn. reflexivity.
  - assert (Hs : exists c r, join_comma (t :: ts) +:+ String "]" rest = String c r /\
                             is_ws c = false /\ c <> "]"%char).
    { destruct Hr as ((c & t' & -> & Hws & Hc & _) & _).
      destruct ts; cbn [join_comma]; rewrite append_cons; by eexists _, _. }
    destruct Hs as (c & r & Heq & Hws & Hc).
    rewrite Heq at 1. cbn [skip_ws]. rewrite Hws. rewrite decide_False by done.
    cbn [weight] in Hfuel.
    rewrite (parse_elements_reads (t :: ts) (v :: vs)); [reflexivity|by constructor|done|lia].
Qed.

End JSONFacts2.

Section JSONFacts3.
Import JS JSON Payload.

(** *** The order of keys *)

Lemma enumeration_order_plain (b : Z) (keys : list string) :
  NoDup keys -> Forall (fun k => array_index k = None) keys ->
  enumeration_order b keys = true.
Proof.
  intros Hnd Hall. destruct keys as [|k rest]; [done|].
  cbn [enumeration_order]. inversion Hall as [|? ? Hk Hrest]; subst. rewrite Hk.
  apply andb_true_intro. split; [by apply bool_decide_eq_true|].
  apply forallb_forall. intros k' Hin. apply bool_decide_eq_true.
  rewrite Forall_forall in Hrest. apply Hrest. by apply list_elem_of_In.
Qed.

Lemma enumeration_order_prefix (b : Z) (l1 l2 : list string) :
  enumeration_order b (l1 ++ l2) = true -> enumeration_order b l1 = true.
Proof.
  revert b. induction l1 as [|k l1 IH]; intros b; [done|].
  cbn [app enumeration_order]. destruct (array_index k) as [n|].
  - intros [Hb Hrest]%andb_prop. rewrite Hb. cbn. by apply IH.
  - intros [Hnd Hall]%andb_prop. apply andb_true_intro. split.
    + apply bool_decide_eq_true. apply bool_decide_eq_true in Hnd.
      change (k :: l1 ++ l2) with ((k :: l1) ++ l2) in Hnd.
      by apply NoDup_app in Hnd as [? _].
    + rewrite forallb_app in Hall. by apply andb_prop in Hall as [? _].
Qed.

(** The last key of an enumeration is new, and when it is an array index
    every key before it is a smaller one. *)
Lemma enumeration_order_last (b : Z) (l : list string) (k : string) :
  enumeration_order b (l ++ [k]) = true ->
  (k ∉ l) /\
  forall n, array_index k = Some n ->
            b < n /\ Forall (fun k' => exists m, array_index k' = Some m /\ m < n) l.
Proof.
  revert b. induction l as [|a l IH]; intros b.
  - cbn [app enumeration_order]. intros H. split; [apply not_elem_of_nil|].
    intros n Hn. rewrite Hn in H. apply andb_prop in H as [H _].
    apply bool_decide_eq_true in H. by split.
  - cbn [app enumeration_order]. destruct (array_index a) as [m|] eqn:Ha.
    + intros [Hb Hrest]%andb_prop. apply bool_decide_eq_true in Hb.
      destruct (IH m Hrest) as [Hnotin Hidx]. split.
      * intros [-> | Hin]%elem_of_cons; [|done].
        destruct (Hidx m Ha) as [? _]. lia.
      * intros n Hn. destruct (Hidx n Hn) as [Hmn Hall]. split; [lia|].
        constructor; [by exists m|done].
    + intros [Hnd Hall]%andb_prop. apply bool_decide_eq_true in Hnd.
      rewrite forallb_app in Hall. apply andb_prop in Hall as [_ Hk].
      cbn in Hk. rewrite andb_true_r in Hk. apply bool_decide_eq_true in Hk.
      split.
      * change (a :: l ++ [k]) with ((a :: l) ++ [k]) in Hnd.
        apply NoDup_app in Hnd as (_ & Hdisj & _).
        intros Hin. apply (Hdisj k Hin). by left.
      * intros n Hn. congruence.
Qed.

Lemma insert_index_append (n : Z) (k : string) (v : value) (acc : props) :
  Forall (fun k' => exists m, array_index k' = Some m /\ m < n) acc.*1 ->
  insert_index n k v acc = acc ++ [(k, v)].
Proof.
  induction acc as [|[a w] acc IH]; [done|].
  intros Hall. inversion Hall as [|? ? (m & Hm & Hlt) Hrest]; subst.
  cbn [insert_index app]. cbn in Hm. rewrite Hm. rewrite decide_True by done.
  by rewrite IH.
Qed.

Lemma set_append (b : Z) (k : string) (v : value) (acc : props) :
  enumeration_order b (acc.*1 ++ [k]) = true ->
  JS.set k v acc = acc ++ [(k, v)].
Proof.
  intros [Hnotin Hidx]%enumeration_order_last.
  unfold JS.set. apply get_own_None_keys in Hnotin. rewrite Hnotin.
  destruct (array_index k) as [n|] eqn:Hk; [|done].
  apply insert_index_append. by destruct (Hidx n eq_refl).
Qed.

(** *** Objects *)

Lemma parse_members_reads (ms : list (string * string * value)) :
  Forall (fun m => reads m.1.2 m.2) ms -> ms <> [] ->
  forall fuel acc rest,
    (sum_list_with (fun p => S (weight p.2)) (map member_entry ms) <= fuel)%nat ->
    enumeration_order (-1) (acc.*1 ++ (map member_entry ms).*1) = true ->
    parse_members fuel (join_comma (map member_text ms) +:+ String "}" rest) acc
    = Parsed (VObj (acc ++ map member_entry ms)) rest.
Proof.
  induction 1 as [|[[k t] v] ms Hr Hrest IH]; [done|].
  intros _ fuel acc rest Hfuel Horder.
  cbn [map sum_list_with member_entry fst snd] in Hfuel.
  destruct fuel as [|fuel]; [lia|].
  destruct Hr as (_ & _ & Hparse). cbn [fst snd] in Hparse.
  assert (Hset : JS.set k v acc = acc ++ [(k, v)]).
  { apply (set_append (-1)). cbn [map fmap list_fmap member_entry fst snd] in Horder.
    change (k :: ?l) with ([k] ++ l) in Horder. rewrite app_assoc in Horder.
    by apply enumeration_order_prefix in Horder. }
  rewrite parse_members_unfold.
  assert (Hhead : forall tail,
    join_comma (map member_text ((k, t, v) :: ms)) +:+ tail
    = String dquote (quote_body k +:+ String dquote
        (String ":" (t +:+ match ms with
                           | [] => tail
                           | _ => String "," (join_comma (map member_text ms) +:+ tail)
                           end)))).
  { intros tail. destruct ms as [|m ms]; cbn [map join_comma]; unfold member_text at 1, quote;
      cbn [fst snd];
      rewrite ?append_assoc, ?append_cons, ?append_nil; 
      rewrite ?append_assoc, ?append_cons, ?append_nil; reflexivity. }
  rewrite Hhead. cbn [skip_ws]. change (is_ws dquote) with false. cbv iota.
  rewrite decide_True by done.
  rewrite parse_string_body_quote. cbn [bind_parsed skip_ws].
  change (is_ws ":") with false. cbv iota. rewrite decide_True by done.
  destruct ms as [|m ms].
  - rewrite Hparse; [|lia|by right; right].
    cbn [bind_parsed skip_ws]. change (is_ws "}") with false. cbv iota.
    rewrite decide_False by done. rewrite decide_True by done.
    by rewrite Hset.
  - rewrite Hparse; [|lia|by left].
    cbn [bind_parsed skip_ws]. change (is_ws ",") with false. cbv iota.
    rewrite decide_True by done. rewrite Hset.
    rewrite IH; [|done|lia|].
    + by rewrite <- app_assoc.
    + rewrite fmap_app, <- app_assoc. exact Horder.
Qed.

Lemma weight_members (ms : list (string * string * value)) :
  Forall (fun m => reads m.1.2 m.2) ms ->
  (sum_list_with (fun p => S (weight p.2)) (map member_entry ms)
   <= 2 * String.length (join_comma (map member_text ms)) + 1)%nat.
Proof.
  induction 1 as [|[[k t] v] ms Hr Hrest IH]; [cbn; lia|].
  destruct Hr as (_ & Hw & _). cbn [fst snd] in Hw.
  cbn [map sum_list_with member_entry fst snd].
  destruct ms as [|m ms].
  - cbn [map join_comma sum_list_with]. unfold member_text. cbn [fst snd].
    rewrite !length_append. cbn [String.length]. lia.
  - cbn [map] in IH |- *.
    change (join_comma (member_text (k, t, v) :: ?l))
      with (member_text (k, t, v) +:+ "," +:+ join_comma l).
    unfold member_text at 1. cbn [fst snd].
    rewrite !length_append. cbn [String.length]. lia.
Qed.

Lemma reads_object (ms : list (string * string * value)) :
  Forall (fun m => reads m.1.2 m.2) ms ->
  enumeration_order (-1) (map member_entry ms).*1 = true ->
  reads ("{" +:+ join_comma (map member_text ms) +:+ "}") (VObj (map member_entry ms)).
Proof.
  intros Hall Horder. split; [by eexists _, _|]. split.
  { pose proof (weight_members ms Hall).
    rewrite !length_append. cbn [weight String.length]. lia. }
  intros [|fuel] rest Hfuel Hrest; [cbn in Hfuel; lia|].
  rewrite !append_assoc, !append_cons, !append_nil.
  rewrite parse_value_unfold by done.
  repeat (rewrite decide_False by done). rewrite decide_True by done.
  destruct ms as [|m ms].
  - cbn. reflexivity.
  - assert (Hs : exists r, join_comma (map member_text (m :: ms)) +:+ String "}" rest
                           = String dquote r).
    { destruct ms; cbn [map join_comma]; unfold member_text at 1, quote;
        rewrite ?append_assoc, ?append_cons; by eexists. }
    destruct Hs as (r & Heq).
    rewrite Heq at 1. cbn [skip_ws]. change (is_ws dquote) with false. cbv iota.
    rewrite decide_False by done.
    cbn [weight] in Hfuel.
    rewrite (parse_members_reads (m :: ms)); [reflexivity|done|done|lia|done].
Qed.

End JSONFacts3.

Section JSONFacts4.
Import JS JSON Payload.

Lemma value_nested_ind (P : value -> Prop) :
  P VUndefined -> P VNull -> (forall b, P (VBool b)) -> (forall n, P (VNum n)) ->
  (forall s, P (VStr s)) -> (forall f, P (VFile f)) -> (forall m, P (VNative m)) ->
  (forall items, Forall P items -> P (VArr items)) ->
  (forall ps, Forall (fun p => P p.2) ps -> P (VObj ps)) ->
  forall v, P v.
Proof.
  intros Hu Hn Hb Hnum Hs Hf Hnat Harr Hobj.
  fix IH 1. intros [ | |b|n|s|f|m|items|ps].
  - exact Hu.
  - exact Hn.
  - apply Hb.
  - apply Hnum.
  - apply Hs.
  - apply Hf.
  - apply Hnat.
  - apply Harr.
    exact ((fix go (l : list value) : Forall P l :=
              match l with
              | [] => Forall_nil_2 P
              | x :: l' => Forall_cons_2 P x l' (IH x) (go l')
              end) items).
  - apply Hobj.
    exact ((fix go (l : props) : Forall (fun p => P p.2) l :=
              match l with
              | [] => Forall_nil_2 _
              | p :: l' => Forall_cons_2 (fun p => P p.2) p l' (IH p.2) (go l')
              end) ps).
Qed.

Lemma enumeration_order_mono (b b' : Z) (keys : list string) :
  b' <= b -> enumeration_order b keys = true -> enumeration_order b' keys = true.
Proof.
  intros Hb. destruct keys as [|k rest]; [done|]. cbn [enumeration_order].
  destruct (array_index k); [|done].
  intros [H1 H2]%andb_prop. apply bool_decide_eq_true in H1.
  rewrite H2, andb_true_r. apply bool_decide_eq_true. lia.
Qed.

Lemma enumeration_order_tail (b : Z) (k : string) (keys : list string) :
  enumeration_order b (k :: keys) = true -> enumeration_order b keys = true.
Proof.
  cbn [enumeration_order]. destruct (array_index k) as [n|].
  - intros [H1 H2]%andb_prop. apply bool_decide_eq_true in H1.
    apply (enumeration_order_mono n); [lia|done].
  - intros [H1 H2]%andb_prop. apply bool_decide_eq_true in H1.
    apply enumeration_order_plain; [by apply NoDup_cons in H1 as [_ ?]|].
    apply Forall_forall. intros k' Hin.
    rewrite forallb_forall in H2.
    apply (bool_decide_eq_true_1 _), H2. by apply list_elem_of_In.
Qed.

Lemma enumeration_order_sublist (keys' keys : list string) :
  sublist keys' keys ->
  forall b, enumeration_order b keys = true -> enumeration_order b keys' = true.
Proof.
  induction 1 as [|k l1 l2 Hsub IH|k l1 l2 Hsub IH]; intros b; [done| |].
  - cbn [enumeration_order]. destruct (array_index k) as [n|].
    + intros [H1 H2]%andb_prop. rewrite H1. cbn. by apply IH.
    + intros [H1 H2]%andb_prop. apply bool_decide_eq_true in H1.
      apply andb_true_intro. split.
      * apply bool_decide_eq_true.
        eapply sublist_NoDup; [exact H1|by apply sublist_skip].
      * apply forallb_forall. intros k' Hin. rewrite forallb_forall in H2. apply H2.
        apply list_elem_of_In. apply (sublist_subseteq l1); [done|]. by apply list_elem_of_In.
  - intros H. apply IH. by apply enumeration_order_tail in H.
Qed.

Lemma omap_cons {A B} (f : A -> option B) (x : A) (l : list A) :
  omap f (x :: l) = match f x with Some y => y :: omap f l | None => omap f l end.
Proof. reflexivity. Qed.

Lemma stringify_None (v : value) : stringify v = None <-> reread v = None.
Proof.
  destruct v as [ | |b|n|s|f|m|items|ps]; cbn; try done.
  by destruct (String.eqb m "__proto__").
Qed.

Lemma reads_empty_object : reads "{}" (VObj []).
Proof. by apply (reads_object []). Qed.

(** Whatever [stringify] writes, the parser reads back as [reread] says. *)
Lemma stringify_reads (v : value) :
  representable v = true ->
  forall t, stringify v = Some t -> exists v', reread v = Some v' /\ reads t v'.
Proof.
  induction v as [ | |b|n|s|f|m|items IH|ps IH] using value_nested_ind;
    intros Hrep t Ht; cbn [stringify reread] in *.
  - done.
  - injection Ht as <-. eexists. split; [done|]. apply reads_null.
  - injection Ht as <-. eexists. split; [done|]. apply reads_bool.
  - injection Ht as <-. eexists. split; [done|]. apply reads_number.
    by apply bool_decide_eq_true in Hrep.
  - injection Ht as <-. eexists. split; [done|]. apply reads_string.
  - injection Ht as <-. eexists. split; [done|]. apply reads_empty_object.
  - destruct (String.eqb m "__proto__"); [|done].
    injection Ht as <-. eexists. split; [done|]. apply reads_empty_object.
  - injection Ht as <-. eexists. split; [done|]. apply reads_array.
    cbn [representable] in Hrep.
    induction items as [|x items IHitems]; [constructor|].
    cbn [forallb] in Hrep. apply andb_prop in Hrep as [Hx Hrest].
    inversion IH as [|? ? IHx IHrest]; subst.
    cbn [map]. constructor; [|by apply IHitems].
    destruct (stringify x) as [tx|] eqn:Hsx.
    + destruct (IHx Hx tx eq_refl) as (v' & -> & Hr). exact Hr.
    + apply stringify_None in Hsx as ->. apply reads_null.
  - injection Ht as <-. cbn [representable] in Hrep.
    apply andb_prop in Hrep as [Horder Hrep].
    assert (Hms : exists ms,
      omap (fun p => (fun t => quote p.1 +:+ ":" +:+ t) <$> stringify p.2) ps
        = map member_text ms /\
      omap (fun p => pair p.1 <$> reread p.2) ps = map member_entry ms /\
      Forall (fun m => reads m.1.2 m.2) ms /\
      sublist (map member_entry ms).*1 ps.*1).
    { clear Horder. induction ps as [|[k x] ps IHps].
      - exists []. by repeat split.
      - cbn [forallb snd] in Hrep. apply andb_prop in Hrep as [Hx Hrest].
        inversion IH as [|? ? IHx IHrest]; subst. cbn [snd] in IHx.
        destruct (IHps IHrest Hrest) as (ms & Ht & Hv & Hr & Hsub).
        rewrite !omap_cons. cbn [fst snd].
        destruct (stringify x) as [tx|] eqn:Hsx.
        + destruct (IHx Hx tx eq_refl) as (v' & Hv' & Hrx). rewrite Hv'.
          exists ((k, tx, v') :: ms). cbn [fmap option_fmap option_map].
          repeat split.
          * cbn [map]. unfold member_text at 1. cbn [fst snd]. by f_equal.
          * cbn [map]. unfold member_entry at 1. cbn [fst snd]. by f_equal.
          * by constructor.
          * cbn. by constructor.
        + apply stringify_None in Hsx as Hrx. rewrite Hrx.
          exists ms. cbn [fmap option_fmap option_map]. repeat split; try done.
          cbn. by constructor. }
    destruct Hms as (ms & -> & -> & Hr & Hsub).
    eexists. split; [done|]. apply reads_object; [done|].
    by apply (enumeration_order_sublist _ ps.*1).
Qed.

(** A representable value that [JSON.stringify] writes is parsed back
    from its text as [reread] describes. *)
Lemma parse_stringify (v : value) (text : string) :
  representable v = true ->
  stringify v = Some text ->
  exists v', reread v = Some v' /\ parse text = Value v'.
Proof.
  intros Hrep Ht. destruct (stringify_reads v Hrep text Ht) as (v' & Hv & _ & Hw & Hparse).
  exists v'. split; [done|]. unfold parse.
  specialize (Hparse (2 * String.length text + 2)%nat EmptyString).
  rewrite append_nil_r in Hparse. rewrite Hparse; [done|lia|done].
Qed.

End JSONFacts4.

(** ** Saving and restoring through storage *)
Section Writable.
Import JS JSON DOM Run FreeformStateManager Payload Stored.

Lemma array_index_pretty (k : string) (n : Z) : array_index k = Some n -> k = pretty n.
Proof.
  unfold array_index. destruct k as [|c k]; [done|].
  destruct (digits_value 0 (String c k)) as [m|]; [|done].
  destruct (decide (m <= 4294967294)); [|done].
  destruct (String.eqb (pretty m) (String c k)) eqn:E; [|done].
  intros [= <-]. symmetry. by apply String.eqb_eq.
Qed.

Lemma enumeration_order_bound (b b' : Z) (k : string) (keys : list string) :
  array_index k = None ->
  enumeration_order b (k :: keys) = enumeration_order b' (k :: keys).
Proof. intros Hk. cbn [enumeration_order]. by rewrite Hk. Qed.

Lemma enumeration_order_insert (n : Z) (k : string) (v : value) (o : props) (b : Z) :
  array_index k = Some n -> k ∉ o.*1 -> b < n ->
  enumeration_order b o.*1 = true ->
  enumeration_order b (insert_index n k v o).*1 = true.
Proof.
  intros Hk. revert b. induction o as [|[a w] o IH]; intros b Hnotin Hb Ho.
  - cbn. rewrite Hk. cbn. rewrite andb_true_r. by apply bool_decide_eq_true.
  - cbn [insert_index]. cbn [fmap list_fmap fst] in Ho, Hnotin.
    apply not_elem_of_cons in Hnotin as [Hne Hnotin].
    destruct (array_index a) as [m|] eqn:Ha.
    + cbn [enumeration_order] in Ho. rewrite Ha in Ho.
      apply andb_prop in Ho as [Hbm Ho]. apply bool_decide_eq_true in Hbm.
      destruct (decide (m < n)) as [Hlt|Hge].
      * cbn [fmap list_fmap fst enumeration_order]. rewrite Ha.
        apply andb_true_intro. split; [by apply bool_decide_eq_true|].
        by apply IH.
      * assert (m <> n).
        { intros ->. apply Hne. apply array_index_pretty in Ha, Hk. congruence. }
        cbn [fmap list_fmap fst enumeration_order]. rewrite Hk, Ha.
        apply andb_true_intro. split; [by apply bool_decide_eq_true|].
        apply andb_true_intro. split; [apply bool_decide_eq_true; lia|done].
    + assert (Ho' : enumeration_order n (a :: o.*1) = true)
        by (by rewrite (enumeration_order_bound n b)).
      change (enumeration_order b (k :: a :: o.*1) = true).
      change (enumeration_order b (k :: a :: o.*1))
        with (match array_index k with
              | Some n => bool_decide (b < n) && enumeration_order n (a :: o.*1)
              | None => bool_decide (NoDup (k :: a :: o.*1))
                        && forallb (fun k' => bool_decide (array_index k' = None)) (a :: o.*1)
              end).
      rewrite Hk, Ho', andb_true_r. by apply bool_decide_eq_true.
Qed.

Lemma enumeration_order_snoc (b : Z) (keys : list string) (k : string) :
  array_index k = None -> k ∉ keys ->
  enumeration_order b keys = true -> enumeration_order b (keys ++ [k]) = true.
Proof.
  intros Hk. revert b. induction keys as [|a keys IH]; intros b Hnotin Ho.
  - cbn. rewrite Hk. cbn. rewrite andb_true_r. apply bool_decide_eq_true.
    apply NoDup_singleton.
  - apply not_elem_of_cons in Hnotin as [Hne Hnotin].
    cbn [app enumeration_order] in *. destruct (array_index a) as [m|].
    + apply andb_prop in Ho as [Hbm Ho]. rewrite Hbm. cbn. by apply IH.
    + apply andb_prop in Ho as [Hnd Hall]. apply bool_decide_eq_true in Hnd.
      apply andb_true_intro. split.
      * apply bool_decide_eq_true. change (NoDup ((a :: keys) ++ [k])).
        apply NoDup_app. split; [done|]. split; [|apply NoDup_singleton].
        intros x Hx ->%list_elem_of_singleton.
        apply elem_of_cons in Hx as [->|Hx]; done.
      * rewrite forallb_app, Hall. cbn. rewrite andb_true_r. by apply bool_decide_eq_true.
Qed.

Lemma enumeration_order_set (k : string) (v : value) (o : props) :
  enumeration_order (-1) o.*1 = true -> enumeration_order (-1) (JS.set k v o).*1 = true.
Proof.
  intros Ho. unfold JS.set. destruct (get_own k o) as [w|] eqn:Hown.
  - by rewrite keys_replace_own.
  - apply get_own_None_keys in Hown. destruct (array_index k) as [n|] eqn:Hk.
    + apply enumeration_order_insert; try done.
      unfold array_index in Hk. destruct k as [|c k]; [done|].
      destruct (digits_value 0 (String c k)) as [m|] eqn:Hd; [|done].
      destruct (decide (m <= 4294967294)); [|done].
      destruct (String.eqb (pretty m) (String c k)) eqn:E; [|done].
      injection Hk as <-. apply String.eqb_eq in E.
      destruct m as [|p|p]; [lia|lia|]. 
      exfalso. change (pretty (Z.neg p)) with ("-" +:+ pretty (N.pos p)) in E.
      rewrite <- E in Hd. done.
    + rewrite fmap_app. by apply enumeration_order_snoc.
Qed.

Lemma writable_nil : writable [].
Proof. by split. Qed.

Lemma writable_set (k : string) (v : value) (o : props) :
  writable o -> representable v = true -> writable (JS.set k v o).
Proof.
  intros [Ho Hall] Hv. split; [by apply enumeration_order_set|].
  apply Forall_forall. intros [k' v'] Hin. cbn.
  apply elem_of_set in Hin as [[= -> ->] | Hin]; [done|].
  rewrite Forall_forall in Hall. by apply (Hall (k', v')).
Qed.

Lemma get_own_elem_of (k : string) (v : value) (o : props) :
  get_own k o = Some v -> (k, v) ∈ o.
Proof.
  induction o as [|[a w] o IH]; [done|]. cbn.
  destruct (String.eqb a k) eqn:E.
  - apply String.eqb_eq in E as ->. intros [= ->]. by left.
  - intros H. right. by apply IH.
Qed.

Lemma representable_get (k : string) (o : props) :
  writable o -> representable (JS.get k o) = true.
Proof.
  intros [_ Hall]. unfold JS.get. destruct (get_own k o) as [v|] eqn:Hown.
  - rewrite Forall_forall in Hall. by apply (Hall (k, v)), get_own_elem_of.
  - by destruct (bool_decide _).
Qed.

Lemma representable_app (items : list value) (v : value) :
  representable (VArr items) = true -> representable v = true ->
  representable (VArr (items ++ [v])) = true.
Proof. cbn. intros H1 H2. by rewrite forallb_app, H1; cbn; rewrite H2. Qed.

Section Passes.
Variable opts : Options.

Lemma collect_entry_writable (entry : string * value) (st st' : props) :
  representable entry.2 = true -> writable st ->
  collect_entry opts entry st = Done tt st' -> writable st'.
Proof.
  destruct entry as [key v]. cbn [snd]. intros Hv Hst. unfold collect_entry.
  destruct (excluded opts key); [by intros [= <-]|].
  destruct (String.eqb key "__proto__"); [done|].
  unfold mbind, run_bind, bind, get_state, put_state.
  pose proof (representable_get key st Hst) as Hcur.
  destruct (truthy (JS.get key st)).
  - revert Hcur. destruct (JS.get key st) as [ | |b|n|s|x|m|items|ps];
      intros Hcur [= <-]; apply writable_set; try done.
    all: try (by apply representable_app).
    all: cbn [representable forallb] in *; by rewrite ?Hcur, ?Hv.
  - intros [= <-]. by apply writable_set.
Qed.

Lemma track_unchecked_writable (checkbox : DOM.element) (st st' : props) :
  writable st -> track_unchecked opts checkbox st = Done tt st' -> writable st'.
Proof.
  intros Hst. unfold track_unchecked.
  destruct (excluded opts (DOM.name checkbox)); [by intros [= <-]|].
  destruct (el_checked checkbox); [by intros [= <-]|].
  intros Hrun.
  apply bind_Done_inv in Hrun as (state & s0 & Hget & Hrun). injection Hget as <- <-.
  apply bind_Done_inv in Hrun as ([] & s1 & H1 & Hrun).
  apply bind_Done_inv in Hrun as (state & s2 & Hget & Hrun). injection Hget as <- <-.
  assert (Hs1 : writable s1).
  { destruct (truthy (JS.get "_unchecked" st)); injection H1 as <-; [done|].
    by apply writable_set. }
  pose proof (representable_get "_unchecked" s1 Hs1) as Hcur.
  destruct (JS.get "_unchecked" s1); try done.
  injection Hrun as <-. apply writable_set; [done|]. by apply representable_app.
Qed.

Lemma record_radio_writable (radio : DOM.element) (st st' : props) :
  writable st -> record_radio opts radio st = Done tt st' -> writable st'.
Proof.
  intros Hst. unfold record_radio.
  destruct (excluded opts (DOM.name radio)); [by intros [= <-]|].
  destruct (String.eqb (DOM.name radio) "__proto__"); [by intros [= <-]|].
  intros [= <-]. by apply writable_set.
Qed.

End Passes.

Lemma entries_representable (f : form) (key : string) (v : value) :
  (key, v) ∈ FormData_entries f -> representable v = true.
Proof.
  unfold FormData_entries. intros Hin%list_elem_of_In.
  apply in_concat in Hin as (es & Hes%list_elem_of_In & Hin%list_elem_of_In).
  apply list_elem_of_fmap in Hes as (e & -> & He).
  unfold entries_of in Hin. destruct (el_name_attr e) as [n|]; [|by apply elem_of_nil in Hin].
  destruct (String.eqb n EmptyString); [by apply elem_of_nil in Hin|].
  destruct (is_button e); [by apply elem_of_nil in Hin|].
  assert (Hmap : forall {A} (g : A -> value) (l : list A),
             (forall x, representable (g x) = true) ->
             (key, v) ∈ map (fun x => (n, g x)) l -> representable v = true).
  { intros A g l Hg (x & [= _ ->] & _)%list_elem_of_fmap. apply Hg. }
  destruct (el_type e).
  1,2: destruct (el_checked e); [|by apply elem_of_nil in Hin];
       by apply list_elem_of_singleton in Hin as [= _ ->].
  - destruct (el_files e) as [|file files].
    + by apply list_elem_of_singleton in Hin as [= _ ->].
    + by apply (Hmap _ VFile (file :: files)).
  - by eapply (Hmap _ (fun o => VStr (opt_value o))); [|exact Hin].
  - by eapply (Hmap _ (fun o => VStr (opt_value o))); [|exact Hin].
  - by apply list_elem_of_singleton in Hin as [= _ ->].
  - by apply list_elem_of_singleton in Hin as [= _ ->].
  - by apply list_elem_of_singleton in Hin as [= _ ->].
Qed.

Lemma file_info_representable (x : FileRef) :
  0 <= file_size x <= safe_integer -> representable (file_info x) = true.
Proof.
  intros Hx. unfold file_info. cbn [representable forallb snd].
  rewrite (bool_decide_eq_true_2 (- safe_integer <= file_size x <= safe_integer))
    by (unfold safe_integer in *; lia).
  reflexivity.
Qed.

Lemma extractCustomElements_writable (f : form) :
  sized_files f = true -> writable (extractCustomElements f).
Proof.
  intros Hsized. unfold extractCustomElements, fold_widgets.
  assert (Hfold : forall (step : nat -> widget -> props -> props) (l : list (nat * widget)) o,
            (forall w wd o, writable o -> writable (step w wd o)) ->
            writable o -> writable (foldl (fun acc iw => step iw.1 iw.2 acc) o l)).
  { intros step l. induction l as [|[w wd] l IH]; intros o Hstep Ho; [done|].
    cbn. apply IH; [done|]. by apply Hstep. }
  apply Hfold; [|apply Hfold; [|apply writable_nil]].
  - intros w wd o Ho. unfold uploader_state.
    destruct (bool_decide _); [|done].
    destruct (list_find _ _) as [[i input]|] eqn:Hfind; [|done].
    destruct (el_files input) as [|x xs] eqn:Hfiles; [done|].
    apply writable_set; [done|]. cbn [representable].
    apply list_find_Some in Hfind as (Hin%list_elem_of_lookup_2 & _).
    unfold sized_files in Hsized. rewrite forallb_forall in Hsized.
    specialize (Hsized input ltac:(by apply list_elem_of_In)).
    rewrite Hfiles in Hsized. rewrite forallb_forall in Hsized.
    apply forallb_forall. intros y Hy. apply in_map_iff in Hy as (z & <- & Hz).
    apply file_info_representable. by apply (bool_decide_eq_true_1 _), Hsized.
  - intros w wd o Ho. unfold open_select_state.
    destruct (_ && _); [|done].
    destruct (list_find _ _) as [[i input]|]; [|done].
    destruct (negb _); [|done]. by apply writable_set.
Qed.

(** What [extractFormState] returns is written by [stringify] as it is
    modelled. *)
Lemma extractFormState_writable (opts : Options) (f : form) (st : props) :
  sized_files f = true ->
  extractFormState opts f = Returns st -> writable st.
Proof.
  intros Hsized. unfold extractFormState.
  destruct (extractFormState_passes opts f []) as [[] st0| |] eqn:Hrun; [|done..].
  intros [= <-]. unfold extractFormState_passes in Hrun.
  apply bind_Done_inv in Hrun as ([] & st1 & H1 & Hrun).
  apply guard_Done_inv in Hrun as [_ Hrun].
  apply bind_Done_inv in Hrun as ([] & st2 & H2 & Hrun).
  apply bind_Done_inv in Hrun as ([] & st3 & H3 & Hrun).
  injection Hrun as <-.
  assert (Hst1 : writable st1).
  { eapply (forEach_Done writable); [|exact writable_nil|exact H1].
    intros [key v] s s' Hin Hs. apply collect_entry_writable; [|exact Hs].
    by apply (entries_representable f key). }
  assert (Hst2 : writable st2).
  { eapply (forEach_Done writable); [|exact Hst1|exact H2].
    intros e s s' _ Hs. by apply track_unchecked_writable. }
  assert (Hst3 : writable st3).
  { eapply (forEach_Done writable); [|exact Hst2|exact H3].
    intros e s s' _ Hs. by apply record_radio_writable. }
  apply writable_set; [done|]. cbn [representable].
  destruct (extractCustomElements_writable f Hsized) as [Ho Hall].
  rewrite Ho. cbn. apply forallb_forall. intros p Hp.
  rewrite Forall_forall in Hall. by apply Hall, list_elem_of_In.
Qed.

End Writable.

Section SaveRestore.
Import JS JSON DOM Run FreeformStateManager Payload Stored.

(** The restore of an entry that parses to an object with a numeric
    timestamp. *)
Lemma restoreFormState_parsed
    (w : world) (formId : string) (fd : formData) (text : string)
    (entries : props) (timestamp : Z) :
  forms w !! formId = Some fd ->
  getStorage w !! storageKey fd = Some text ->
  JSON.parse text = JSON.Value (VObj entries) ->
  JS.get "timestamp" entries = VNum timestamp ->
  restoreFormState formId w
  = try_catch (if bool_decide (now w - timestamp > maxAge)
               then clearFormState formId
               else on_node (element fd) (applyFormState (JS.get "state" entries))) w.
Proof.
  intros Hfd Hget Hparse Hts.
  assert (Hne : String.eqb text EmptyString = false).
  { destruct (String.eqb text EmptyString) eqn:E; [|reflexivity].
    apply String.eqb_eq in E. subst text. rewrite parse_empty in Hparse. discriminate. }
  unfold restoreFormState, getItem, try_catch, mbind, run_bind, bind, get_state, mret, run_ret, ret.
  rewrite Hfd, Hget, Hne, Hparse. cbn [destructure]. rewrite Hts. cbn [too_old].
  by destruct (bool_decide (now w - timestamp > maxAge)).
Qed.

Lemma getStorage_set_forms (m : gmap string formData) (w : world) :
  getStorage (set_forms m w) = getStorage w.
Proof. reflexivity. Qed.

Lemma getStorage_set_setItem_log (l : list write) (w : world) :
  getStorage (set_setItem_log l w) = getStorage w.
Proof. reflexivity. Qed.

Lemma forms_set_storage (s : gmap string string) (w : world) :
  forms (set_storage s w) = forms w.
Proof. unfold set_storage. by destruct (session w). Qed.

Lemma getStorage_saved (formId : string) (fd : formData) (text : string) (w : world) :
  getStorage (saved formId fd text w) = <[storageKey fd := text]> (getStorage w).
Proof.
  unfold saved, set_lastSaved.
  by rewrite getStorage_set_forms, getStorage_set_setItem_log, getStorage_set_storage.
Qed.

Lemma document_saved (formId : string) (fd : formData) (text : string) (w : world) :
  document (saved formId fd text w) = document w.
Proof.
  unfold saved, set_lastSaved.
  change (document (set_storage (<[storageKey fd:=text]> (getStorage w)) w) = document w).
  apply document_set_storage.
Qed.

Lemma forms_saved (formId : string) (fd : formData) (text : string) (w : world) :
  forms w !! formId = Some fd ->
  forms (saved formId fd text w) !! formId
  = Some (mkFormData (element fd) (storageKey fd) (Some (now w))).
Proof.
  intros Hfd. unfold saved, set_lastSaved.
  change (alter (fun fd => mkFormData (element fd) (storageKey fd) (Some (now w))) formId
            (forms (set_storage (<[storageKey fd:=text]> (getStorage w)) w)) !! formId
          = Some (mkFormData (element fd) (storageKey fd) (Some (now w)))).
  by rewrite forms_set_storage, lookup_alter_eq, Hfd.
Qed.

Lemma saved_envelope (st : props) (t : Z) (url : string) :
  writable st -> - safe_integer <= t <= safe_integer ->
  exists text st',
    JSON.stringify (envelope (VObj st) t url) = Some text /\
    reread (VObj st) = Some st' /\
    JSON.parse text = JSON.Value (envelope st' t url).
Proof.
  intros [Ho Hall] Ht.
  assert (Hrep : representable (envelope (VObj st) t url) = true).
  { unfold envelope. cbn [representable forallb snd].
    rewrite Ho. rewrite (bool_decide_eq_true_2 (- safe_integer <= t <= safe_integer)) by done.
    assert (Hvals : forallb (fun p => representable p.2) st = true).
    { apply forallb_forall. intros p Hp. rewrite Forall_forall in Hall.
      by apply Hall, list_elem_of_In. }
    rewrite Hvals. reflexivity. }
  destruct (stringify (envelope (VObj st) t url)) as [text|] eqn:Htext; [|done].
  destruct (parse_stringify _ text Hrep Htext) as (v' & Hv' & Hparse).
  eexists text, _. split; [done|]. split; [reflexivity|].
  rewrite Hparse. f_equal. cbn in Hv'. by injection Hv' as <-.
Qed.

Lemma saveFormState_run
    (w : world) (formId : string) (fd : formData) (f : form) (st : props) :
  forms w !! formId = Some fd ->
  nodes (document w) !! element fd = Some f ->
  extractFormState (options w) f = Returns st ->
  sized_files f = true ->
  - safe_integer <= now w <= safe_integer ->
  exists (text : string) (st' : value),
    saveFormState formId w = Done tt (saved formId fd text w) /\
    reread (VObj st) = Some st' /\
    JSON.parse text = JSON.Value (envelope st' (now w) (href (document w))).
Proof.
  intros Hfd Hnode Hst Hsized Hnow.
  pose proof (extractFormState_writable _ _ _ Hsized Hst) as Hw.
  destruct (saved_envelope st (now w) (href (document w)) Hw Hnow)
    as (text & st' & Htext & Hst' & Hparse).
  exists text, st'. split; [|by split].
  unfold saveFormState, mbind, run_bind, bind, get_state.
  rewrite Hfd, Hnode, Hst. unfold envelope in Htext. unfold try_catch, bind.
  rewrite Htext. reflexivity.
Qed.

(** X2.  Saving a registered form writes, under the storage key of the
    form and nowhere else, a text that parses to the envelope of the
    snapshot as JSON rereads it, the time of the save and the address of
    the page; the page itself is left as it is. *)
Theorem saveFormState_stores
    (w : world) (formId : string) (fd : formData) (f : form) (st : props) :
  forms w !! formId = Some fd ->
  nodes (document w) !! element fd = Some f ->
  extractFormState (options w) f = Returns st ->
  sized_files f = true ->
  - safe_integer <= now w <= safe_integer ->
  exists (text : string) (st' : value) (w' : world),
    saveFormState formId w = Done tt w' /\
    getStorage w' = <[storageKey fd := text]> (getStorage w) /\
    document w' = document w /\
    reread (VObj st) = Some st' /\
    JSON.parse text = JSON.Value (envelope st' (now w) (href (document w))).
Proof.
  intros Hfd Hnode Hst Hsized Hnow.
  destruct (saveFormState_run w formId fd f st Hfd Hnode Hst Hsized Hnow)
    as (text & st' & Hrun & Hst' & Hparse).
  exists text, st', (saved formId fd text w).
  split; [done|]. split; [apply getStorage_saved|]. split; [apply document_saved|done].
Qed.

(** X3.  A restore of the form within 24 hours of its save applies the
    saved snapshot, as JSON rereads it, to the form; a restore later than
    that applies nothing and removes the entry. *)
Theorem restore_after_save
    (w : world) (formId : string) (fd : formData) (f : form) (st : props) :
  forms w !! formId = Some fd ->
  nodes (document w) !! element fd = Some f ->
  extractFormState (options w) f = Returns st ->
  sized_files f = true ->
  - safe_integer <= now w <= safe_integer ->
  exists (st' : value) (w' : world),
    saveFormState formId w = Done tt w' /\
    reread (VObj st) = Some st' /\
    forall t : Z,
      (t - now w <= maxAge ->
         restoreFormState formId (set_now t w')
         = try_catch (on_node (element fd) (applyFormState st')) (set_now t w')) /\
      (t - now w > maxAge ->
         exists w'', restoreFormState formId (set_now t w') = Done tt w'' /\
                     document w'' = document w /\
                     getStorage w'' !! storageKey fd = None).
Proof.
  intros Hfd Hnode Hst Hsized Hnow.
  destruct (saveFormState_run w formId fd f st Hfd Hnode Hst Hsized Hnow)
    as (text & st' & Hrun & Hst' & Hparse).
  exists st', (saved formId fd text w). split; [done|]. split; [done|].
  intros t.
  pose proof (forms_saved formId fd text w Hfd) as Hfd'.
  assert (Hget : getStorage (set_now t (saved formId fd text w)) !! storageKey fd = Some text).
  { rewrite getStorage_set_now, getStorage_saved. apply lookup_insert_eq. }
  pose proof (restoreFormState_parsed (set_now t (saved formId fd text w)) formId _ text _
                (now w) Hfd' Hget Hparse eq_refl) as Hrestore.
  cbn [element storageKey] in Hrestore.
  change (now (set_now t (saved formId fd text w))) with t in Hrestore.
  change (JS.get "state" _) with st' in Hrestore.
  split.
  - intros Hfresh. by rewrite bool_decide_eq_false_2 in Hrestore by lia.
  - intros Hold. rewrite bool_decide_eq_true_2 in Hrestore by lia.
    rewrite Hrestore. unfold try_catch.
    rewrite (clearFormState_registered (set_now t (saved formId fd text w)) formId _ Hfd').
    cbn [storageKey].
    eexists. split; [reflexivity|].
    rewrite document_set_storage, getStorage_set_storage. split.
    + apply document_saved.
    + apply lookup_delete_eq.
Qed.

End SaveRestore.

Section StoredRoundTrip.
Import JS JSON DOM Run FreeformStateManager Payload Stored Shape Invariants.

Lemma plain_snoc (items : list value) (v : value) :
  plain (VArr items) -> plain v -> plain (VArr (items ++ [v])).
Proof.
  unfold plain. cbn [reread]. intros [= Hitems] Hv. f_equal. f_equal.
  rewrite map_app, Hitems. cbn. by rewrite Hv.
Qed.

Lemma plain_pair (a b : value) : plain a -> plain b -> plain (VArr [a; b]).
Proof. unfold plain. cbn [reread map]. by intros -> ->. Qed.

Lemma plain_file_info (x : FileRef) : plain (file_info x).
Proof. reflexivity. Qed.

Lemma plain_custom (custom : props) : Forall custom_entry custom -> plain (VObj custom).
Proof.
  unfold plain. cbn [reread]. intros Hall. f_equal. f_equal.
  induction Hall as [|[k v] custom [_ Hv] _ IH]; [reflexivity|].
  rewrite omap_cons. cbn [fst snd] in *.
  assert (Hp : reread v = Some v).
  { destruct Hv as [-> | (files & ->)]; [reflexivity|].
    cbn [reread]. f_equal. f_equal. rewrite map_map. apply map_ext. intros x. reflexivity. }
  rewrite Hp. cbn. by rewrite IH.
Qed.

Section Form.
Variable opts : Options.
Variable f : form.
Hypothesis Hready : roundtrip_ready f = true.

Lemma entry_shape (key : string) (v : value) :
  (key, v) ∈ FormData_entries f ->
  (key ∉ object_prototype_members) /\ ((exists s, v = VStr s) \/ file_named f key).
Proof.
  intros Hin. split.
  { destruct (entry_control f key v Hin) as (e & He & Hn).
    by destruct (plain_name_facts key (ready_plain f Hready e key He Hn)) as (_ & _ & ? & _). }
  unfold FormData_entries in Hin. apply list_elem_of_In in Hin.
  apply in_concat in Hin as (es & Hes%list_elem_of_In & Hin%list_elem_of_In).
  apply list_elem_of_fmap in Hes as (e & -> & He).
  unfold entries_of in Hin. destruct (el_name_attr e) as [n|] eqn:Hn; [|by apply elem_of_nil in Hin].
  destruct (String.eqb n EmptyString); [by apply elem_of_nil in Hin|].
  destruct (is_button e); [by apply elem_of_nil in Hin|].
  destruct (el_type e) eqn:Ht.
  1,2: destruct (el_checked e); [|by apply elem_of_nil in Hin];
       apply list_elem_of_singleton in Hin as [= _ ->]; left; by eexists.
  - assert (key = n) as ->.
    { destruct (el_files e) as [|file files].
      - by apply list_elem_of_singleton in Hin as [= -> _].
      - by apply list_elem_of_fmap in Hin as (x & [= -> _] & _). }
    right. by exists e.
  - apply list_elem_of_fmap in Hin as (x & [= _ ->] & _). left. by eexists.
  - apply list_elem_of_fmap in Hin as (x & [= _ ->] & _). left. by eexists.
  - apply list_elem_of_singleton in Hin as [= _ ->]. left. by eexists.
  - apply list_elem_of_singleton in Hin as [= _ ->]. left. by eexists.
  - apply list_elem_of_singleton in Hin as [= _ ->]. left. by eexists.
Qed.

Lemma plain_or_file_set (k : string) (v : value) (st : props) :
  plain v \/ file_named f k -> plain_or_file f st -> plain_or_file f (JS.set k v st).
Proof.
  intros Hv Hst k' v'. rewrite get_own_set.
  destruct (String.eqb k k') eqn:E; [|apply Hst].
  apply String.eqb_eq in E as ->. by intros [= <-].
Qed.

Lemma collect_entry_plain (entry : string * value) (st st' : props) :
  entry ∈ FormData_entries f -> plain_or_file f st ->
  collect_entry opts entry st = Done tt st' -> plain_or_file f st'.
Proof.
  destruct entry as [key v]. intros [Hproto Hshape]%entry_shape Hst. unfold collect_entry.
  destruct (excluded opts key); [by intros [= <-]|].
  destruct (String.eqb key "__proto__"); [done|].
  unfold mbind, run_bind, bind, get_state, put_state.
  destruct Hshape as [(s & ->) | Hfile].
  2: { destruct (truthy (JS.get key st)); [destruct (JS.get key st)|];
         intros [= <-]; apply plain_or_file_set; auto. }
  unfold JS.get. destruct (get_own key st) as [cur|] eqn:Hown.
  - destruct (Hst key cur Hown) as [Hcur | Hfile].
    + destruct (truthy cur); [destruct cur|]; intros [= <-];
        apply plain_or_file_set; try done; left;
        first [by apply plain_snoc | by apply plain_pair | done].
    + destruct (truthy cur); [destruct cur|]; intros [= <-];
        apply plain_or_file_set; auto.
  - rewrite bool_decide_eq_false_2 by done. cbn [truthy].
    intros [= <-]. apply plain_or_file_set; [by left|done].
Qed.

Lemma track_unchecked_plain (checkbox : DOM.element) (st st' : props) :
  plain_or_file f st -> track_unchecked opts checkbox st = Done tt st' ->
  plain_or_file f st'.
Proof.
  intros Hst. unfold track_unchecked.
  destruct (excluded opts (DOM.name checkbox)); [by intros [= <-]|].
  destruct (el_checked checkbox); [by intros [= <-]|].
  intros Hrun.
  apply bind_Done_inv in Hrun as (state & s0 & Hget & Hrun). injection Hget as <- <-.
  apply bind_Done_inv in Hrun as ([] & s1 & H1 & Hrun).
  apply bind_Done_inv in Hrun as (state & s2 & Hget & Hrun). injection Hget as <- <-.
  assert (Hs1 : plain_or_file f s1).
  { destruct (truthy (JS.get "_unchecked" st)); injection H1 as <-; [done|].
    apply plain_or_file_set; [by left|done]. }
  unfold JS.get in Hrun. destruct (get_own "_unchecked" s1) as [cur|] eqn:Hown.
  - destruct cur; try done. injection Hrun as <-.
    apply plain_or_file_set; [|done].
    destruct (Hs1 _ _ Hown) as [Hp | Hfile]; [left|by right].
    by apply plain_snoc.
  - by rewrite bool_decide_eq_false_2 in Hrun by (by vm_compute).
Qed.

Lemma record_radio_plain (radio : DOM.element) (st st' : props) :
  plain_or_file f st -> record_radio opts radio st = Done tt st' -> plain_or_file f st'.
Proof.
  intros Hst. unfold record_radio.
  destruct (excluded opts (DOM.name radio)); [by intros [= <-]|].
  destruct (String.eqb (DOM.name radio) "__proto__"); [by intros [= <-]|].
  intros [= <-]. apply plain_or_file_set; [by left|done].
Qed.

Lemma extractFormState_plain (st : props) :
  extractFormState opts f = Returns st -> plain_or_file f st.
Proof.
  unfold extractFormState.
  destruct (extractFormState_passes opts f []) as [[] st0| |] eqn:Hrun; [|done..].
  intros [= <-]. unfold extractFormState_passes in Hrun.
  apply bind_Done_inv in Hrun as ([] & st1 & H1 & Hrun).
  apply guard_Done_inv in Hrun as [_ Hrun].
  apply bind_Done_inv in Hrun as ([] & st2 & H2 & Hrun).
  apply bind_Done_inv in Hrun as ([] & st3 & H3 & Hrun).
  injection Hrun as <-.
  assert (Hst1 : plain_or_file f st1).
  { eapply (forEach_Done (plain_or_file f)); [| |exact H1]; [|done].
    intros entry s s' Hin Hs. by apply collect_entry_plain. }
  assert (Hst2 : plain_or_file f st2).
  { eapply (forEach_Done (plain_or_file f)); [|exact Hst1|exact H2].
    intros e s s' _ Hs. by apply track_unchecked_plain. }
  assert (Hst3 : plain_or_file f st3).
  { eapply (forEach_Done (plain_or_file f)); [|exact Hst2|exact H3].
    intros e s s' _ Hs. by apply record_radio_plain. }
  apply plain_or_file_set; [|done]. left.
  apply plain_custom. by apply extractCustomElements_entries.
Qed.

(** Restoring the name of a file input writes nothing, whatever the value. *)
Lemma restoreField_file (k : string) (x : value) :
  file_named f k -> restoreField k x f = Done tt f.
Proof.
  intros (e & He & Ht & Hn). unfold restoreField.
  destruct (plain_name_facts k (ready_plain f Hready e k He Hn)) as (_ & -> & _).
  unfold mbind, run_bind, bind, get_state.
  rewrite (ready_method f Hready "querySelectorAll") by auto.
  apply forEach_fixed. intros i Hi.
  apply elem_of_query_all in Hi as (ei & Hei & Hp).
  unfold has_name in Hp. apply bool_decide_eq_true in Hp.
  apply list_elem_of_lookup in He as (j & Hj).
  assert (i = j) as ->.
  { destruct (decide (i = j)) as [|Hne]; [done|].
    destruct (ready_same_name f Hready i j ei e k Hne Hei Hj Hp Hn) as (_ & Hr & _).
    congruence. }
  assert (ei = e) as -> by congruence.
  unfold restore_element, mbind, run_bind, bind, get_state. by rewrite Hj, Ht.
Qed.

End Form.

Lemma get_own_reread (k : string) (st : props) :
  NoDup st.*1 ->
  get_own k (omap (fun p => pair p.1 <$> reread p.2) st) = get_own k st ≫= reread.
Proof.
  induction st as [|[a v] st IH]; [done|]. intros [Ha Hnd]%NoDup_cons.
  rewrite omap_cons. cbn [fst snd get_own].
  destruct (String.eqb a k) eqn:E.
  - apply String.eqb_eq in E as ->. apply get_own_None_keys in Ha. cbn [fst] in Ha.
    destruct (reread v) as [v'|] eqn:Hv; cbn.
    + by rewrite String.eqb_refl, Hv.
    + by rewrite IH, Ha, Hv.
  - destruct (reread v) as [v'|]; cbn; [rewrite E|]; by apply IH.
Qed.

Lemma get_reread_unchecked (st : props) (v : value) :
  NoDup st.*1 -> get_own "_unchecked" st = Some v -> plain v ->
  JS.get "_unchecked" (omap (fun p => pair p.1 <$> reread p.2) st) = v.
Proof.
  intros Hnd Hown Hp. unfold JS.get. rewrite get_own_reread by done.
  rewrite Hown. cbn. by rewrite Hp.
Qed.

(** Decoding what JSON rereads of the snapshot of a ready form leaves the
    form as it is. *)
Lemma applyFormState_reread (opts : Options) (f : form) :
  roundtrip_ready f = true ->
  exists (st st' : props) (f' : form),
    extractFormState opts f = Returns st /\
    reread (VObj st) = Some (VObj st') /\
    applyFormState (VObj st') f = Done tt f' /\
    map field_state (elements f') = map field_state (elements f).
Proof.
  intros Hready.
  destruct (extractFormState_ready opts f Hready) as (st & Hst & (Hnd & Hfix & Hun) & Hcustom).
  pose proof (extractFormState_plain opts f Hready st Hst) as Hplain.
  set (st' := omap (fun p : string * value => pair p.1 <$> reread p.2) st).
  assert (H1 : forEach st'
                 (fun entry => if String.prefix "_" entry.1 then mret tt
                               else restoreField entry.1 entry.2) f = Done tt f).
  { apply forEach_fixed. intros [k v'] Hin. cbn [fst snd].
    destruct (String.prefix "_" k) eqn:Hp; [reflexivity|].
    apply list_elem_of_omap in Hin as ([k0 v] & Hin & Hv). cbn [fst snd] in Hv.
    destruct (reread v) as [v0|] eqn:Hr; [|done]. cbn in Hv. injection Hv as -> ->.
    pose proof (elem_of_get_own_Some k v st Hnd Hin) as Hown.
    destruct (Hplain k v Hown) as [Hpl | Hfile].
    - unfold plain in Hpl. assert (v' = v) as -> by congruence. by apply Hfix.
    - by apply restoreField_file. }
  destruct (restoreCustomElements_total f Hready f) as (f2 & H2);
    [apply (ready_method f Hready); auto|].
  assert (Hsame : Forall2 same_fields (elements f) (elements f2)).
  { destruct same_fields_writes as (R & T & N & C & V & O & Nt).
    pose proof (kept_restoreCustomElements same_fields (fun _ => False)
                  R T N C V O Nt (VObj (extractCustomElements f)) f) as Hk.
    unfold kept in Hk. by rewrite H2 in Hk. }
  assert (Hc' : JS.get "_custom" st' = VObj (extractCustomElements f)).
  { unfold JS.get, st'. rewrite get_own_reread by done. rewrite Hcustom. cbn [mbind option_bind].
    by rewrite (plain_custom _ (extractCustomElements_entries f Hready)). }
  exists st, st', f2. split; [exact Hst|]. split; [reflexivity|].
  split; [|by apply same_fields_map].
  unfold applyFormState, mbind, run_bind, bind. rewrite H1, Hc'. cbn [truthy]. rewrite H2.
  destruct Hun as [Hnone | (names & Hown & Hall)].
  - assert (Hu : JS.get "_unchecked" st' = VUndefined).
    { unfold JS.get, st'. rewrite get_own_reread by done. by rewrite Hnone. }
    by rewrite Hu.
  - assert (Hpn : plain (VArr names)).
    { unfold plain. cbn [reread]. f_equal. f_equal.
      clear Hown. induction Hall as [|x names (cb & _ & _ & _ & ->) _ IH]; [done|].
      cbn. by rewrite IH. }
    assert (Hu : JS.get "_unchecked" st' = VArr names)
      by (by apply get_reread_unchecked).
    rewrite Hu. cbn [truthy].
    apply forEach_fixed. intros x Hx. rewrite Forall_forall in Hall.
    destruct (Hall x Hx) as (cb & Hin & Ht & Hc & ->).
    by apply (force_unchecked_fixed f Hready).
Qed.

(** X1.  Saving a ready form and restoring it within 24 hours, on the page
    as it was saved, leaves every control with the value, checkedness,
    selected options and files it had. *)
Theorem save_restore_roundtrip
    (w : world) (formId : string) (fd : formData) (f : form) :
  forms w !! formId = Some fd ->
  nodes (document w) !! element fd = Some f ->
  roundtrip_ready f = true ->
  sized_files f = true ->
  - safe_integer <= now w <= safe_integer ->
  exists w1 : world,
    saveFormState formId w = Done tt w1 /\
    forall t : Z, t - now w <= maxAge ->
      exists (w2 : world) (f' : form),
        restoreFormState formId (set_now t w1) = Done tt w2 /\
        nodes (document w2) !! element fd = Some f' /\
        map field_state (elements f') = map field_state (elements f).
Proof.
  intros Hfd Hnode Hready Hsized Hnow.
  destruct (applyFormState_reread (options w) f Hready) as (st & st' & f' & Hst & Hre & Happly & Hsame).
  destruct (saveFormState_run w formId fd f st Hfd Hnode Hst Hsized Hnow)
    as (text & st'' & Hrun & Hst'' & Hparse).
  assert (st'' = VObj st') as -> by congruence.
  exists (saved formId fd text w). split; [done|]. intros t Ht.
  pose proof (forms_saved formId fd text w Hfd) as Hfd'.
  assert (Hget : getStorage (set_now t (saved formId fd text w)) !! storageKey fd = Some text).
  { rewrite getStorage_set_now, getStorage_saved. apply lookup_insert_eq. }
  pose proof (restoreFormState_parsed (set_now t (saved formId fd text w)) formId _ text _
                (now w) Hfd' Hget Hparse eq_refl) as Hrestore.
  cbn [element storageKey] in Hrestore.
  change (now (set_now t (saved formId fd text w))) with t in Hrestore.
  change (JS.get "state" _) with (VObj st') in Hrestore.
  rewrite bool_decide_eq_false_2 in Hrestore by lia.
  rewrite Hrestore. unfold try_catch, on_node.
  change (document (set_now t (saved formId fd text w)))
    with (document (saved formId fd text w)).
  rewrite document_saved, Hnode, Happly.
  eexists _, f'. split; [reflexivity|]. split; [|done].
  cbn [document set_document nodes]. apply lookup_insert_eq.
Qed.

End StoredRoundTrip.

Section Debounce.
Import JS DOM Run FreeformStateManager Timers.

Lemma filter_none {A} (P : A -> Prop) `{!forall x, Decision (P x)} (l : list A) :
  (forall x, x ∈ l -> ~ P x) -> filter P l = [].
Proof.
  induction l as [|x l IH]; intros Hall; [done|].
  rewrite filter_cons_False by (apply Hall; left). apply IH. intros y Hy. apply Hall. by right.
Qed.

Lemma filter_absorb {A} (P Q : A -> Prop) `{!forall x, Decision (P x)}
    `{!forall x, Decision (Q x)} (l : list A) :
  (forall x, x ∈ l -> P x -> Q x) -> filter P (filter Q l) = filter P l.
Proof.
  induction l as [|x l IH]; intros Hall; [done|].
  assert (IH' : filter P (filter Q l) = filter P l).
  { apply IH. intros y Hy. apply Hall. by right. }
  destruct (decide (Q x)) as [Hq|Hq].
  - rewrite (filter_cons_True Q) by done.
    destruct (decide (P x)).
    + rewrite !(filter_cons_True P) by done. by rewrite IH'.
    + rewrite !(filter_cons_False P) by done. exact IH'.
  - rewrite (filter_cons_False Q) by done.
    rewrite (filter_cons_False P); [exact IH'|].
    intros Hp. apply Hq, Hall; [left|done].
Qed.

Lemma executedFunction_run (d : debounced) (w : world) :
  executedFunction d w
  = Done tt
      (set_scheduler
         (mkScheduler
            (match read_cell (d_timeout d) w with
             | Some i => filter (fun t => timer_id t ≠ i) (timers (scheduler w))
             | None => timers (scheduler w)
             end
             ++ [mkTimer (next_timer (scheduler w)) (now w + d_wait d)
                         (Later (d_timeout d) (d_formId d))])
            (S (next_timer (scheduler w)))
            (<[d_timeout d := Some (next_timer (scheduler w))]> (cells (scheduler w))))
         w).
Proof.
  unfold executedFunction, setTimeout, clearTimeout, write_cell,
    modify, mbind, run_bind, bind, get_state, put_state, mret, run_ret, ret.
  destruct (read_cell (d_timeout d) w); reflexivity.
Qed.

Lemma read_cell_set_scheduler (c : nat) (s : Scheduler) (w : world) :
  read_cell c (set_scheduler s w) = mjoin (cells s !! c).
Proof. reflexivity. Qed.

(** X4.  A call of a debounced function cancels the call that the
    previous call of the same function left pending and schedules one
    [wait] milliseconds from now: afterwards exactly one call is pending
    for this function, the pending timers of everything else are as
    before, and nothing is written. *)
Theorem executedFunction_coalesces (d : debounced) (w : world) :
  scheduler_ok w ->
  (d_timeout d < length (cells (scheduler w)))%nat ->
  exists w',
    executedFunction d w = Done tt w' /\
    pending_of (d_timeout d) w'
    = [mkTimer (next_timer (scheduler w)) (now w + d_wait d)
               (Later (d_timeout d) (d_formId d))] /\
    others_of (d_timeout d) w' = others_of (d_timeout d) w /\
    getStorage w' = getStorage w /\
    scheduler_ok w'.
Proof.
  intros (Hnd & Hlt & Hcells & Hown) Hc.
  set (c := d_timeout d) in *.
  rewrite executedFunction_run. eexists. split; [reflexivity|].
  fold c.
  set (kept := match read_cell c w with
               | Some i => filter (fun t => timer_id t ≠ i) (timers (scheduler w))
               | None => timers (scheduler w)
               end).
  set (new := mkTimer (next_timer (scheduler w)) (now w + d_wait d) (Later c (d_formId d))).
  assert (Hsub : forall t, t ∈ kept -> t ∈ timers (scheduler w)).
  { intros t. unfold kept. destruct (read_cell c w); [|done].
    by intros [_ ?]%list_elem_of_filter. }
  assert (Hnot : forall t, t ∈ kept -> is_later c t = false).
  { intros t Ht. destruct (is_later c t) eqn:E; [|done]. exfalso.
    unfold is_later in E. destruct (action t) as [c' fid|] eqn:Ha; [|done].
    apply bool_decide_eq_true in E as ->.
    pose proof (proj1 (Hown t c (Hsub t Ht)) (ex_intro _ fid Ha)) as Hcell.
    unfold kept in Ht. rewrite Hcell in Ht.
    by apply list_elem_of_filter in Ht as [? _]. }
  assert (Hkeep : forall t, t ∈ timers (scheduler w) -> is_later c t = false -> t ∈ kept).
  { intros t Ht Hl. unfold kept. destruct (read_cell c w) as [i|] eqn:Hcell; [|done].
    apply list_elem_of_filter. split; [|done]. intros <-.
    destruct (proj2 (Hown t c Ht) Hcell) as (fid & Ha).
    unfold is_later in Hl. rewrite Ha in Hl. by rewrite bool_decide_eq_true_2 in Hl. }
  assert (Hnew : is_later c new = true) by (cbn; by apply bool_decide_eq_true).
  split; [|split; [|split]].
  - unfold pending_of. cbn [scheduler set_scheduler timers].
    rewrite filter_app, (filter_cons_True _ new) by done.
    rewrite filter_nil, filter_none; [done|].
    intros t Ht. by rewrite (Hnot t Ht).
  - unfold others_of. cbn [scheduler set_scheduler timers].
    rewrite filter_app, (filter_cons_False _ new) by (by rewrite Hnew).
    rewrite filter_nil, app_nil_r.
    unfold kept. destruct (read_cell c w) as [i|] eqn:Hcell; [|done].
    apply filter_absorb. intros t Ht Hl <-.
    destruct (proj2 (Hown t c Ht) Hcell) as (fid & Ha).
    unfold is_later in Hl. rewrite Ha in Hl. by rewrite bool_decide_eq_true_2 in Hl.
  - reflexivity.
  - cbn [scheduler_ok]. unfold scheduler_ok.
    cbn [scheduler set_scheduler timers next_timer cells].
    assert (Hkept_lt : Forall (fun t => (timer_id t < next_timer (scheduler w))%nat) kept).
    { apply Forall_forall. intros t Ht. rewrite Forall_forall in Hlt. by apply Hlt, Hsub. }
    split; [|split; [|split]].
    + rewrite map_app. apply NoDup_app. split; [|split; [|apply NoDup_singleton]].
      * unfold kept. destruct (read_cell c w); [|done].
        eapply sublist_NoDup; [exact Hnd|]. apply fmap_sublist, sublist_filter.
      * intros i Hi ->%list_elem_of_singleton. cbn in Hi.
        apply list_elem_of_fmap in Hi as (t & Hid & Ht).
        rewrite Forall_forall in Hkept_lt. specialize (Hkept_lt t Ht). lia.
    + apply Forall_app. split.
      * eapply Forall_impl; [exact Hkept_lt|]. cbn. intros t. lia.
      * constructor; [cbn; lia|constructor].
    + intros c' i. rewrite read_cell_set_scheduler. cbn [cells].
      destruct (decide (c' = c)) as [->|Hne].
      * rewrite list_lookup_insert_eq by done. cbn. intros [= <-]. lia.
      * rewrite list_lookup_insert_ne by done. intros Hcell.
        specialize (Hcells c' i Hcell). lia.
    + intros t c' Ht. rewrite read_cell_set_scheduler. cbn [cells].
      apply elem_of_app in Ht as [Ht | ->%list_elem_of_singleton].
      * pose proof (Hnot t Ht) as Hl.
        rewrite Forall_forall in Hkept_lt. specialize (Hkept_lt t Ht).
        destruct (decide (c' = c)) as [->|Hne].
        -- rewrite list_lookup_insert_eq by done. cbn. split.
           ++ intros (fid & Ha). unfold is_later in Hl. rewrite Ha in Hl.
              by rewrite bool_decide_eq_true_2 in Hl.
           ++ intros [= Hid]. lia.
        -- rewrite list_lookup_insert_ne by done. apply Hown. by apply Hsub.
      * cbn [action timer_id new]. destruct (decide (c' = c)) as [->|Hne].
        -- rewrite list_lookup_insert_eq by done. cbn. split; [done|]. by eexists.
        -- rewrite list_lookup_insert_ne by done. split.
           ++ intros (fid & [= ? _]). congruence.
           ++ intros Hcell. specialize (Hcells c' _ Hcell). lia.
Qed.

End Debounce.

Section BurstFacts.
Import JS DOM Run FreeformStateManager Burst.

Lemma advance_not_due (w : world) (t : timer) (until : Z) :
  timers (scheduler w) = [t] -> until < due t ->
  advance until w = Done tt (set_now (Z.max (now w) until) w).
Proof.
  intros Hone Hdue.
  unfold advance. unfold mbind at 1, run_bind at 1, bind at 1, get_state.
  rewrite Hone. cbn [length run_timers].
  unfold mbind at 1, run_bind at 1, bind at 1, get_state, next_due.
  rewrite Hone. cbn [foldl]. rewrite decide_False by lia. reflexivity.
Qed.

Lemma advance_idle (w : world) (until : Z) :
  timers (scheduler w) = [] ->
  advance until w = Done tt (set_now (Z.max (now w) until) w).
Proof.
  intros Hnone. unfold advance, mbind, run_bind, bind, get_state.
  rewrite Hnone. by apply run_timers_idle.
Qed.

Lemma call_after_call (d : debounced) (w0 w : world) (last t : Z) :
  (d_timeout d < length (cells (scheduler w0)))%nat ->
  after_call d w0 last w -> last <= t < last + d_wait d ->
  exists w', (advance t;; executedFunction d) w = Done tt w' /\ after_call d w0 t w'.
Proof.
  intros Hc (i & Htimers & Hcell & Hlen & Hnow & Hdoc & Hopt & Hforms & Hls & Hss & Hlog) Ht.
  unfold mbind, run_bind, bind.
  rewrite (advance_not_due w _ t Htimers) by (cbn; lia).
  unfold executedFunction, setTimeout, clearTimeout, write_cell,
    modify, mbind, run_bind, bind, get_state, put_state, mret, run_ret, ret.
  change (read_cell (d_timeout d) (set_now (Z.max (now w) t) w))
    with (read_cell (d_timeout d) w).
  rewrite Hcell. cbn [scheduler set_scheduler set_now timers next_timer cells now].
  rewrite Htimers. rewrite filter_cons_False by (cbn; intros H; by apply H).
  rewrite filter_nil. cbn [app].
  eexists. split; [reflexivity|].
  exists (next_timer (scheduler w)).
  cbn [scheduler set_scheduler set_now timers next_timer cells now document options forms
       localStorage sessionStorage setItem_log].
  replace (Z.max (now w) t) with t by lia.
  split; [done|]. split.
  { unfold read_cell. cbn [scheduler set_scheduler cells].
    rewrite list_lookup_insert_eq by lia. done. }
  split; [by rewrite length_insert|]. done.
Qed.

Lemma first_call (d : debounced) (w : world) (t : Z) :
  (d_timeout d < length (cells (scheduler w)))%nat ->
  timers (scheduler w) = [] -> now w <= t ->
  exists w', (advance t;; executedFunction d) w = Done tt w' /\ after_call d w t w'.
Proof.
  intros Hc Hnone Ht.
  unfold mbind, run_bind, bind. rewrite (advance_idle w t Hnone).
  rewrite executedFunction_run.
  eexists. split; [reflexivity|].
  exists (next_timer (scheduler w)).
  cbn [scheduler set_scheduler set_now timers next_timer cells now document options forms
       localStorage sessionStorage setItem_log].
  change (read_cell (d_timeout d) (set_now (Z.max (now w) t) w))
    with (read_cell (d_timeout d) w).
  rewrite Hnone.
  replace (Z.max (now w) t) with t by lia.
  split; [by destruct (read_cell (d_timeout d) w)|]. split.
  { unfold read_cell. cbn [scheduler set_scheduler cells].
    rewrite list_lookup_insert_eq by lia. done. }
  split; [by rewrite length_insert|]. done.
Qed.

Lemma last_cons_default (t d : Z) (times : list Z) :
  List.last (t :: times) d = List.last times t.
Proof.
  revert t d. induction times as [|t2 times IH]; intros t d; [done|].
  change (List.last (t :: t2 :: times) d) with (List.last (t2 :: times) d).
  by rewrite !IH.
Qed.

Lemma burst_after_call (d : debounced) (w0 : world) (times : list Z) :
  (d_timeout d < length (cells (scheduler w0)))%nat ->
  forall w last,
    after_call d w0 last w -> close_calls (d_wait d) last times = true ->
    exists w', burst d times w = Done tt w' /\
               after_call d w0 (List.last times last) w'.
Proof.
  intros Hc. induction times as [|t times IH]; intros w last Hw Hclose.
  - by exists w.
  - cbn [close_calls] in Hclose. apply andb_prop in Hclose as [Ht Hclose].
    apply bool_decide_eq_true in Ht.
    destruct (call_after_call d w0 w last t Hc Hw Ht) as (w1 & Hrun1 & Hw1).
    destruct (IH w1 t Hw1 Hclose) as (w' & Hrun & Hw').
    exists w'. split.
    + unfold burst in *. cbn [forEach]. unfold bind at 1. cbv beta.
      rewrite Hrun1. exact Hrun.
    + by rewrite last_cons_default.
Qed.

Lemma saveFormState_scheduler (formId : string) (w w' : world) :
  saveFormState formId w = Done tt w' \/ saveFormState formId w = Raised w' ->
  scheduler w' = scheduler w.
Proof.
  unfold saveFormState, mbind, run_bind, bind, get_state.
  destruct (forms w !! formId) as [fd|]; [|by intros [[= <-] | ?]].
  destruct (nodes (document w) !! element fd) as [f|]; [|by intros [? | ?]].
  destruct (extractFormState (options w) f) as [st| |]; [|by intros [? | [= <-]]|by intros [? | ?]].
  unfold try_catch, bind.
  destruct (JSON.stringify _) as [text|]; [|by intros [? | ?]].
  intros [[= <-] | ?]; [|done]. cbn. apply scheduler_set_storage.
Qed.

(** X5.  Calls of one debounced function that follow each other by less
    than [wait], made while no other timer is pending, leave one timer
    pending, due [wait] after the last call, and write nothing; when the
    time has come, the function it wraps (the save of the form) runs once,
    at that time. *)
Theorem debounced_burst (d : debounced) (w : world) (t : Z) (times : list Z) (until : Z) :
  timers (scheduler w) = [] ->
  (d_timeout d < length (cells (scheduler w)))%nat ->
  now w <= t ->
  close_calls (d_wait d) t times = true ->
  List.last times t + d_wait d <= until ->
  exists (w1 : world) (i : nat),
    burst d (t :: times) w = Done tt w1 /\
    timers (scheduler w1)
    = [mkTimer i (List.last times t + d_wait d) (Later (d_timeout d) (d_formId d))] /\
    getStorage w1 = getStorage w /\
    setItem_log w1 = setItem_log w /\
    advance until w1
    = (try_catch (saveFormState (d_formId d));;
       modify (fun w' => set_now (Z.max (now w') until) w'))
        (at_delayed_call d (List.last times t) w1).
Proof.
  intros Hnone Hc Hnow Hclose Huntil.
  destruct (first_call d w t Hc Hnone Hnow) as (w0 & Hrun0 & Hw0).
  destruct (burst_after_call d w times Hc w0 t Hw0 Hclose) as (w1 & Hrun & Hw1).
  destruct Hw1 as (i & Htimers & Hcell & Hlen & Hnow1 & Hdoc & Hopt & Hforms & Hls & Hss & Hlog).
  exists w1, i. split; [|split; [done|split; [|split; [done|]]]].
  { unfold burst in *. cbn [forEach]. unfold bind at 1. cbv beta. by rewrite Hrun0. }
  { unfold getStorage, session. by rewrite Hopt, Hls, Hss. }
  rewrite (advance_single w1 _ until Htimers) by (cbn; lia).
  unfold mbind at 1, run_bind at 1, bind at 1. rewrite fire_unfold.
  cbn [timer_id due action run_callback]. rewrite Htimers.
  rewrite filter_cons_False by (cbn; intros H; by apply H). rewrite filter_nil.
  fold (at_delayed_call d (List.last times t) w1).
  set (w2 := at_delayed_call d (List.last times t) w1).
  assert (Hlater : later (d_timeout d) (d_formId d) w2 = saveFormState (d_formId d) w2).
  { unfold later, clearTimeout, modify, mbind, run_bind, bind, get_state.
    change (read_cell (d_timeout d) w2) with (read_cell (d_timeout d) w1). rewrite Hcell.
    reflexivity. }
  unfold try_catch at 1. rewrite Hlater.
  unfold mbind, run_bind, bind, try_catch.
  destruct (saveFormState (d_formId d) w2) as [[] w3|w3|] eqn:Hsave; [| |reflexivity].
  - apply run_timers_idle.
    by rewrite (saveFormState_scheduler _ w2 w3 (or_introl Hsave)).
  - apply run_timers_idle.
    by rewrite (saveFormState_scheduler _ w2 w3 (or_intror Hsave)).
Qed.

End BurstFacts.

Section FrameFacts.
Import JS DOM Run FreeformStateManager Stored Frames.

Lemma same_registry_refl (w : world) : same_registry w w.
Proof. by repeat split. Qed.

Lemma same_registry_trans (w1 w2 w3 : world) :
  same_registry w1 w2 -> same_registry w2 w3 -> same_registry w1 w3.
Proof.
  intros (Hd1 & Ho1 & Hf1) (Hd2 & Ho2 & Hf2).
  split; [congruence|]. split; [congruence|].
  intros id. by rewrite Hf2, Hf1.
Qed.

Lemma options_set_storage (s : gmap string string) (w : world) :
  options (set_storage s w) = options w.
Proof. unfold set_storage. by destruct (session w). Qed.

Lemma same_registry_set_storage (s : gmap string string) (w : world) :
  same_registry w (set_storage s w).
Proof.
  split; [apply document_set_storage|]. split; [apply options_set_storage|].
  intros id. by rewrite forms_set_storage.
Qed.

Lemma saveFormState_same_registry (formId : string) (w w' : world) :
  saveFormState formId w = Done tt w' \/ saveFormState formId w = Raised w' ->
  same_registry w w'.
Proof.
  unfold saveFormState, mbind, run_bind, bind, get_state.
  destruct (forms w !! formId) as [fd|] eqn:Hfd;
    [|intros [[= <-] | ?]; [apply same_registry_refl|done]].
  destruct (nodes (document w) !! element fd) as [f|]; [|by intros [? | ?]].
  destruct (extractFormState (options w) f) as [st| |];
    [|intros [? | [= <-]]; [done|apply same_registry_refl]|by intros [? | ?]].
  unfold try_catch, bind.
  destruct (JSON.stringify _) as [text|]; [|by intros [? | ?]].
  intros [[= <-] | ?]; [|done].
  change (same_registry w (saved formId fd text w)).
  split; [apply document_saved|]. split.
  { unfold saved, set_lastSaved. cbn. apply options_set_storage. }
  intros id. unfold saved, set_lastSaved.
  change (forms (set_forms ?m _)) with m.
  change (forms (set_setItem_log _ ?w0)) with (forms w0).
  rewrite forms_set_storage.
  destruct (decide (id = formId)) as [->|Hne].
  - rewrite lookup_alter_eq. by destruct (forms w !! formId).
  - by rewrite lookup_alter_ne.
Qed.

Lemma saveAll_same_registry (ids : list string) (w w' : world) :
  saveAll ids w = Done tt w' -> same_registry w w'.
Proof.
  unfold saveAll, forms_forEach.
  revert w. induction ids as [|id ids IH]; intros w.
  - intros [= <-]. apply same_registry_refl.
  - cbn [forEach]. unfold bind.
    destruct (saveFormState id w) as [[] w1| |] eqn:H1; [|done..].
    intros Hrest. eapply same_registry_trans; [|by apply IH].
    apply (saveFormState_same_registry id). by left.
Qed.

(** X6.  The listeners that save every form stop at the first form whose
    snapshot cannot be taken: its exception leaves the loop, and the forms
    after it in the registry are not saved. *)
Theorem saveAll_stops_at_throw
    (w w1 : world) (before after : list string) (formId : string)
    (fd : formData) (f : form) :
  forms w !! formId = Some fd ->
  nodes (document w) !! element fd = Some f ->
  extractFormState (options w) f = Throws ->
  saveAll before w = Done tt w1 ->
  saveAll (before ++ formId :: after) w = Raised w1.
Proof.
  intros Hfd Hnode Hthrows Hbefore.
  destruct (saveAll_same_registry before w w1 Hbefore) as (Hdoc & Hopt & Hforms).
  unfold saveAll, forms_forEach in *. rewrite forEach_app.
  unfold mbind, run_bind, bind. rewrite Hbefore. cbn [forEach]. unfold bind.
  assert (Hsave : saveFormState formId w1 = Raised w1).
  { unfold saveFormState, mbind, run_bind, bind, get_state.
    specialize (Hforms formId). rewrite Hfd in Hforms.
    destruct (forms w1 !! formId) as [fd1|]; [|done].
    injection Hforms as He Hk. by rewrite He, Hdoc, Hnode, Hopt, Hthrows. }
  by rewrite Hsave.
Qed.

Lemma clearFormState_run (formId : string) (w : world) :
  clearFormState formId w
  = Done tt (match forms w !! formId with
             | Some fd => set_storage (delete (storageKey fd) (getStorage w)) w
             | None => w
             end).
Proof.
  unfold clearFormState, mbind, run_bind, bind, get_state.
  by destruct (forms w !! formId).
Qed.

Lemma clear_each (ids : list string) (w : world) :
  exists w',
    forEach ids clearFormState w = Done tt w' /\
    document w' = document w /\ forms w' = forms w /\ options w' = options w /\
    scheduler w' = scheduler w /\ setItem_log w' = setItem_log w /\
    forall key,
      getStorage w' !! key = if key_of w ids key then None else getStorage w !! key.
Proof.
  revert w. induction ids as [|id ids IH]; intros w.
  - exists w. by repeat split.
  - cbn [forEach]. unfold bind. rewrite clearFormState_run.
    set (w1 := match forms w !! id with
               | Some fd => set_storage (delete (storageKey fd) (getStorage w)) w
               | None => w
               end).
    assert (H1 : document w1 = document w /\ forms w1 = forms w /\ options w1 = options w /\
                 scheduler w1 = scheduler w /\ setItem_log w1 = setItem_log w).
    { unfold w1. destruct (forms w !! id); [|done].
      rewrite document_set_storage, forms_set_storage, options_set_storage,
        scheduler_set_storage.
      repeat split. unfold set_storage. by destruct (session w). }
    destruct H1 as (Hd1 & Hf1 & Ho1 & Hs1 & Hl1).
    destruct (IH w1) as (w' & Hrun & Hd & Hf & Ho & Hs & Hl & Hkeys).
    exists w'. split; [done|].
    split; [congruence|]. split; [congruence|]. split; [congruence|].
    split; [congruence|]. split; [congruence|].
    intros key. rewrite Hkeys. unfold key_of. rewrite Hf1. cbn [existsb].
    fold (key_of w ids key).
    destruct (key_of w ids key); [by rewrite orb_true_r|]. rewrite orb_false_r.
    unfold w1. destruct (forms w !! id) as [fd|]; [|done]. cbn [from_option].
    rewrite getStorage_set_storage.
    destruct (String.eqb (storageKey fd) key) eqn:E.
    + apply String.eqb_eq in E as <-. apply lookup_delete_eq.
    + apply String.eqb_neq in E. by apply lookup_delete_ne.
Qed.

Lemma key_of_true (w : world) (ids : list string) (key : string) :
  key_of w ids key = true <->
  exists id fd, id ∈ ids /\ forms w !! id = Some fd /\ storageKey fd = key.
Proof.
  unfold key_of. rewrite existsb_exists. split.
  - intros (id & Hin%list_elem_of_In & Hid).
    destruct (forms w !! id) as [fd|] eqn:Hfd; [|done].
    exists id, fd. cbn in Hid. by apply String.eqb_eq in Hid.
  - intros (id & fd & Hin & Hfd & <-). exists id. split; [by apply list_elem_of_In|].
    rewrite Hfd. cbn. apply String.eqb_refl.
Qed.

(** X7.  Called without a form id, [clear] removes the stored state of
    every registered form and of nothing else; the page, the registry and
    the timers stay as they are. *)
Theorem clear_all (order : list string) (formId : value) (w : world) :
  truthy formId = false ->
  (forall id, id ∈ order <-> is_Some (forms w !! id)) ->
  exists w',
    clear order formId w = Done tt w' /\
    (forall id fd, forms w !! id = Some fd -> getStorage w' !! storageKey fd = None) /\
    (forall key, (forall id fd, forms w !! id = Some fd -> storageKey fd <> key) ->
                 getStorage w' !! key = getStorage w !! key) /\
    document w' = document w /\ forms w' = forms w /\ scheduler w' = scheduler w.
Proof.
  intros Hfalsy Horder. unfold clear, for_form, forms_forEach. rewrite Hfalsy.
  destruct (clear_each order w) as (w' & Hrun & Hd & Hf & Ho & Hs & Hl & Hkeys).
  exists w'. split; [done|]. split; [|split; [|done]].
  - intros id fd Hfd. rewrite Hkeys.
    assert (Hk : key_of w order (storageKey fd) = true).
    { apply key_of_true. exists id, fd. split; [|done]. apply Horder. by exists fd. }
    by rewrite Hk.
  - intros key Hkey. rewrite Hkeys.
    destruct (key_of w order key) eqn:Hk; [|done].
    apply key_of_true in Hk as (id & fd & _ & Hfd & Heq). by destruct (Hkey id fd).
Qed.

(** X9.  A stored entry without a timestamp never expires: whatever the
    time, its state is applied to the form. *)
Theorem restoreFormState_no_timestamp
    (w : world) (formId : string) (fd : formData) (text : string) (entries : props) :
  forms w !! formId = Some fd ->
  getStorage w !! storageKey fd = Some text ->
  JSON.parse text = JSON.Value (VObj entries) ->
  get_own "timestamp" entries = None ->
  restoreFormState formId w
  = try_catch (on_node (element fd) (applyFormState (JS.get "state" entries))) w.
Proof.
  intros Hfd Hget Hparse Hts.
  assert (Hne : String.eqb text EmptyString = false).
  { destruct (String.eqb text EmptyString) eqn:E; [|reflexivity].
    apply String.eqb_eq in E. subst text. rewrite parse_empty in Hparse. discriminate. }
  unfold restoreFormState, getItem, try_catch, mbind, run_bind, bind, get_state, mret, run_ret, ret.
  assert (Hts' : JS.get "timestamp" entries = VUndefined)
    by (unfold JS.get; by rewrite Hts).
  rewrite Hfd, Hget, Hne, Hparse. cbn [destructure]. by rewrite Hts'.
Qed.

End FrameFacts.

Section ExtractReturns.
Import JS DOM Run FreeformStateManager Structure.

Variable opts : Options.

Lemma collect_entry_returns (key : string) (v : value) (st : props) :
  key <> "__proto__" -> key <> "_unchecked" ->
  exists st', collect_entry opts (key, v) st = Done tt st' /\
              get_own "_unchecked" st' = get_own "_unchecked" st.
Proof.
  intros Hproto Hun. unfold collect_entry.
  destruct (excluded opts key); [by exists st|].
  apply String.eqb_neq in Hproto. rewrite Hproto.
  unfold mbind, run_bind, bind, get_state, put_state.
  destruct (truthy (JS.get key st)); [destruct (JS.get key st)|];
    (eexists; split; [reflexivity|]; by apply get_own_set_ne).
Qed.

Lemma track_unchecked_returns (checkbox : DOM.element) (st : props) :
  unchecked_is_list st ->
  exists st', track_unchecked opts checkbox st = Done tt st' /\ unchecked_is_list st'.
Proof.
  intros Hst. unfold track_unchecked.
  destruct (excluded opts (DOM.name checkbox)) eqn:Hex; [by exists st|].
  destruct (el_checked checkbox) eqn:Hc; [by exists st|].
  unfold mbind, run_bind, bind, get_state, put_state, mret, run_ret, ret.
  destruct Hst as [Hnone | (items & Hsome)].
  - rewrite (get_unchecked_None st Hnone). cbn [truthy].
    rewrite (get_of_own "_unchecked" (VArr []) _ (get_own_set_eq _ _ _)).
    eexists. split; [reflexivity|]. right. eexists. apply get_own_set_eq.
  - rewrite (get_of_own _ _ _ Hsome). cbn [truthy].
    rewrite (get_of_own _ _ _ Hsome).
    eexists. split; [reflexivity|]. right. eexists. apply get_own_set_eq.
Qed.

Lemma record_radio_returns (radio : DOM.element) (st : props) :
  exists st', record_radio opts radio st = Done tt st'.
Proof.
  unfold record_radio. destruct (excluded opts _); [by eexists|].
  destruct (String.eqb _ _); by eexists.
Qed.

(** X10.  A form none of whose controls is named [_unchecked] or
    [__proto__], and none of whose controls stands for the method
    [querySelectorAll] of the form, always has a snapshot:
    [extractFormState] returns. *)
Theorem extractFormState_returns (f : form) :
  no_control_named "_unchecked" f = true ->
  no_control_named "__proto__" f = true ->
  overridden "querySelectorAll" f = false ->
  exists st, extractFormState opts f = Returns st.
Proof.
  intros Hun Hproto Hmethod.
  destruct (forEach_total (fun st => get_own "_unchecked" st = None)
              (FormData_entries f) (collect_entry opts)) with (s := @nil (string * value))
    as (st1 & H1 & Hst1); [|done|].
  { intros [key v] st Hin Hst.
    destruct (entry_control f key v Hin) as (e & He & Hname).
    apply name_of_attr in Hname.
    destruct (collect_entry_returns key v st) as (st' & Hrun & Hsame).
    - rewrite <- Hname. by apply (no_control_named_spec _ f).
    - rewrite <- Hname. by apply (no_control_named_spec _ f).
    - exists st'. split; [done|]. by rewrite Hsame. }
  destruct (forEach_total unchecked_is_list
              (filter (fun e => el_type e = Checkbox) (elements f))
              (track_unchecked opts)) with (s := st1) as (st2 & H2 & Hst2); [|by left|].
  { intros cb st _ Hst. by apply track_unchecked_returns. }
  destruct (forEach_total (fun _ => True)
              (filter (fun e => el_type e = Radio /\ el_checked e = true) (elements f))
              (record_radio opts)) with (s := st2) as (st3 & H3 & _); [|done|].
  { intros r st _ _. destruct (record_radio_returns r st) as (st' & ?). by exists st'. }
  eexists.
  unfold extractFormState, extractFormState_passes, mbind, run_bind, bind, modify.
  rewrite H1, Hmethod. cbn [mret run_ret ret]. by rewrite H2, H3.
Qed.

(** With a control that stands for [querySelectorAll] the call of
    [form.querySelectorAll] is a TypeError, and no snapshot is taken. *)
Lemma extractFormState_calls_method (f : form) (st : props) :
  extractFormState opts f = Returns st -> overridden "querySelectorAll" f = false.
Proof.
  unfold extractFormState.
  destruct (extractFormState_passes opts f []) as [[] st0| |] eqn:Hrun; [|done..].
  intros _. unfold extractFormState_passes in Hrun.
  apply bind_Done_inv in Hrun as ([] & st1 & _ & Hrun).
  by apply guard_Done_inv in Hrun as [Hmethod _].
Qed.

Example extractFormState_method_overridden :
  extractFormState opts (Examples.contact_form [Examples.text_input "querySelectorAll" "x"])
  = Throws.
Proof.
  unfold extractFormState, extractFormState_passes, mbind, run_bind, bind.
  change (FormData_entries _) with [("querySelectorAll", VStr "x")].
  cbn [forEach]. unfold bind, collect_entry. cbn [fst snd].
  destruct (excluded opts "querySelectorAll"); reflexivity.
Qed.

End ExtractReturns.

Section SmallSizes.
Import FileSize.

(** X12.  A size of at least 1 and less than 1024 bytes is shown as that
    number followed by [Bytes]. *)
Theorem formatFileSize_bytes (size : Z) :
  1 <= size < 1024 -> formatFileSize size = pretty size +:+ " Bytes".
Proof.
  intros Hsize. unfold formatFileSize.
  rewrite decide_False by lia. rewrite decide_False by lia.
  assert (Hlog : log_k_floor size = 0).
  { unfold log_k_floor. apply Z.div_small. split; [apply Z.log2_nonneg|].
    apply Z.log2_lt_pow2; [lia|]. change (2 ^ 10) with 1024. lia. }
  rewrite Hlog. cbv zeta.
  assert (Hfix : toFixed2 size 0 = 100 * size).
  { unfold toFixed2, k. change (1024 ^ 0) with 1.
    replace (200 * size + 1) with (1 + (100 * size) * 2) by lia.
    rewrite Z.div_add by lia. change (2 * 1) with 2. change (1 `div` 2) with 0. lia. }
  rewrite Hfix. unfold show_hundredths.
  replace (100 * size) with (size * 100) by lia.
  rewrite Z.mod_mul by lia. rewrite decide_True by done.
  rewrite Z.div_mul by lia. reflexivity.
Qed.

End SmallSizes.

Section Keeps.
Import JS DOM Run FreeformStateManager Registry.

Context {S : Type} (R : S -> S -> Prop).
Hypothesis R_refl : forall s, R s s.
Hypothesis R_trans : forall a b c, R a b -> R b c -> R a c.

Lemma keeps_ret {A} (a : A) : keeps R (mret a : M S A).
Proof. intros s. apply R_refl. Qed.

Lemma keeps_throw {A} : keeps R (@throw S A).
Proof. intros s. apply R_refl. Qed.

Lemma keeps_not_modelled {A} : keeps R (@not_modelled S A).
Proof. by intros s. Qed.

Lemma keeps_bind {A B} (m : M S A) (k : A -> M S B) :
  keeps R m -> (forall a, keeps R (k a)) -> keeps R (m ≫= k).
Proof.
  intros Hm Hk s. unfold mbind, run_bind, bind. specialize (Hm s).
  destruct (m s) as [a s1|s1|]; [|done..].
  specialize (Hk a s1). destruct (k a s1); eauto.
Qed.

Lemma keeps_get_state {A} (k : S -> M S A) :
  (forall s, keeps R (k s)) -> keeps R (get_state ≫= k).
Proof. intros Hk s. unfold mbind, run_bind, bind, get_state. apply Hk. Qed.

Lemma keeps_modify (g : S -> S) : (forall s, R s (g s)) -> keeps R (modify g).
Proof. intros Hg s. apply Hg. Qed.

Lemma keeps_put_state (s' : S) : (forall s, R s s') -> keeps R (put_state s').
Proof. intros Hg s. apply Hg. Qed.

Lemma keeps_forEach {A} (items : list A) (g : A -> M S unit) :
  (forall x, keeps R (g x)) -> keeps R (forEach items g).
Proof.
  intros Hg. induction items as [|x items IH]; [apply (keeps_ret tt)|].
  cbn [forEach]. apply (keeps_bind (g x) (fun _ => forEach items g)); [apply Hg|done].
Qed.

Lemma keeps_try_catch (m : M S unit) : keeps R m -> keeps R (try_catch m).
Proof. intros Hm s. unfold try_catch. specialize (Hm s). by destruct (m s). Qed.

End Keeps.

Section FormAttrs.
Import JS DOM Run FreeformStateManager Registry.

Lemma same_form_refl (f : form) : same_form f f.
Proof. done. Qed.

Lemma same_form_trans (a b c : form) : same_form a b -> same_form b c -> same_form a c.
Proof. unfold same_form. congruence. Qed.

Local Abbreviation keeps_form := (keeps same_form).

Ltac keeps_step :=
  lazymatch goal with
  | |- keeps _ (mret _) => apply (keeps_ret same_form same_form_refl)
  | |- keeps _ throw => apply (keeps_throw same_form same_form_refl)
  | |- keeps _ not_modelled => apply (keeps_not_modelled same_form)
  | |- keeps _ (modify _) => apply (keeps_modify same_form); intros ?; reflexivity
  | |- keeps _ (get_state ≫= _) => apply (keeps_get_state same_form); intros ?
  | |- keeps _ (forEach _ _) =>
      apply (keeps_forEach same_form same_form_refl same_form_trans); intros ?
  | |- keeps _ (_ ≫= _) => apply (keeps_bind same_form same_form_trans); [|intros ?]
  | |- keeps _ (match ?x with _ => _ end) => destruct x
  end.

Lemma keeps_update_element (i : nat) (g : DOM.element -> DOM.element) :
  keeps_form (update_element i g).
Proof. unfold update_element. repeat keeps_step. Qed.

Lemma keeps_update_widget (w : nat) (g : widget -> widget) :
  keeps_form (update_widget w g).
Proof. unfold update_widget. repeat keeps_step. Qed.

Lemma keeps_set_radio_checked (i : nat) (b : bool) : keeps_form (set_radio_checked i b).
Proof.
  unfold set_radio_checked.
  repeat first [apply keeps_update_element | keeps_step].
Qed.

Lemma keeps_assign_value (i : nat) (e : DOM.element) (v : value) :
  keeps_form (assign_value i e v).
Proof.
  unfold assign_value.
  repeat first [apply keeps_update_element | keeps_step].
Qed.

Lemma keeps_restore_element (v : value) (i : nat) : keeps_form (restore_element v i).
Proof.
  unfold restore_element.
  repeat first [apply keeps_update_element | apply keeps_set_radio_checked
               | apply keeps_assign_value | keeps_step].
Qed.

Lemma keeps_restoreField (name : string) (v : value) : keeps_form (restoreField name v).
Proof.
  unfold restoreField. repeat first [apply keeps_restore_element | keeps_step].
Qed.

Lemma keeps_file_line (file : value) : keeps same_form (file_line file).
Proof. unfold file_line. repeat keeps_step. Qed.

Lemma keeps_file_lines (fileInfos : list value) : keeps same_form (file_lines fileInfos).
Proof.
  induction fileInfos as [|file rest IH]; cbn [file_lines]; [keeps_step|].
  apply (keeps_bind same_form same_form_trans); [apply keeps_file_line|intros l].
  apply (keeps_bind same_form same_form_trans); [apply IH|intros ls]. keeps_step.
Qed.

Lemma keeps_displayFileInfo (i : nat) (fileInfos : list value) :
  keeps_form (displayFileInfo i fileInfos).
Proof.
  unfold displayFileInfo.
  repeat first [apply keeps_update_element | apply keeps_file_lines | keeps_step].
Qed.

Lemma keeps_restore_custom (entry : string * value) : keeps_form (restore_custom entry).
Proof.
  unfold restore_custom. destruct entry as [key v].
  repeat first [apply keeps_update_widget | apply keeps_displayFileInfo | keeps_step].
Qed.

Lemma keeps_restoreCustomElements (custom : value) :
  keeps_form (restoreCustomElements custom).
Proof.
  unfold restoreCustomElements. repeat first [apply keeps_restore_custom | keeps_step].
Qed.

Lemma keeps_force_unchecked (name : value) : keeps_form (force_unchecked name).
Proof.
  unfold force_unchecked. repeat first [apply keeps_update_element | keeps_step].
Qed.

Lemma keeps_applyFormState (state : value) : keeps_form (applyFormState state).
Proof.
  unfold applyFormState.
  repeat first [apply keeps_restoreField | apply keeps_restoreCustomElements
               | apply keeps_force_unchecked | keeps_step].
Qed.

End FormAttrs.

Section DiscoveryFacts.
Import JS DOM Run FreeformStateManager Registry Discovery.

Lemma same_forms_refl (w : world) : same_forms w w.
Proof. by repeat split. Qed.

Lemma same_forms_trans (a b c : world) : same_forms a b -> same_forms b c -> same_forms a c.
Proof.
  intros (H1 & H2 & H3 & H4) (H5 & H6 & H7 & H8).
  split; [congruence|]. split; [congruence|]. split; [congruence|].
  intros node. by rewrite H8, H4.
Qed.

Lemma same_forms_set_storage (s : gmap string string) (w : world) :
  same_forms w (set_storage s w).
Proof.
  split; [apply forms_set_storage|]. split; [apply options_set_storage|].
  by rewrite document_set_storage.
Qed.

Lemma keeps_on_node (node : nat) (m : M form unit) :
  keeps same_form m -> keeps same_forms (on_node node m).
Proof.
  intros Hm w. unfold on_node.
  destruct (nodes (document w) !! node) as [f|] eqn:Hnode; [|done].
  specialize (Hm f).
  assert (Hstore : forall f', same_form f f' ->
            same_forms w (set_document
                            (mkDocument (href (document w)) (<[node := f']> (nodes (document w)))
                                        (page (document w)) (other_ids (document w))
                                        (other_names (document w))) w)).
  { intros f' Hf'. repeat split. intros node'. cbn [document set_document nodes].
    destruct (decide (node' = node)) as [->|Hne].
    - rewrite lookup_insert_eq, Hnode. cbn. by f_equal.
    - by rewrite lookup_insert_ne. }
  destruct (m f) as [[] f'|f'|]; [by apply Hstore..|done].
Qed.

Lemma keeps_clearFormState (formId : string) : keeps same_forms (clearFormState formId).
Proof.
  intros w. rewrite clearFormState_run.
  destruct (forms w !! formId); [apply same_forms_set_storage|apply same_forms_refl].
Qed.

Lemma keeps_restoreFormState (formId : string) : keeps same_forms (restoreFormState formId).
Proof.
  unfold restoreFormState.
  apply (keeps_get_state same_forms). intros w.
  destruct (forms w !! formId) as [fd|]; [|apply (keeps_ret same_forms same_forms_refl)].
  apply (keeps_try_catch same_forms).
  apply (keeps_bind same_forms same_forms_trans).
  { unfold getItem. apply (keeps_get_state same_forms). intros ?.
    apply (keeps_ret same_forms same_forms_refl). }
  intros [text|]; [|apply (keeps_ret same_forms same_forms_refl)].
  destruct (String.eqb text EmptyString); [apply (keeps_ret same_forms same_forms_refl)|].
  destruct (JSON.parse text) as [parsed| |];
    [|apply (keeps_throw same_forms same_forms_refl)|apply (keeps_not_modelled same_forms)].
  destruct (destructure parsed) as [[state timestamp]|];
    [|apply (keeps_throw same_forms same_forms_refl)].
  apply (keeps_get_state same_forms). intros w1.
  destruct (too_old (now w1) timestamp) as [[]|]; [| |apply (keeps_not_modelled same_forms)].
  - apply keeps_clearFormState.
  - apply keeps_on_node, keeps_applyFormState.
Qed.

Lemma forEach_visits {S A} (I : S -> Prop) (P : A -> S -> Prop)
    (items : list A) (f : A -> M S unit) :
  (forall x s s', x ∈ items -> I s -> f x s = Done tt s' -> I s' /\ P x s') ->
  (forall x y s s', y ∈ items -> I s -> P x s -> f y s = Done tt s' -> P x s') ->
  forall s s', I s -> forEach items f s = Done tt s' ->
               I s' /\ forall x, x ∈ items -> P x s'.
Proof.
  intros Hstep Hstable. 
  assert (Hgen : forall visited rest, (forall x, x ∈ rest -> x ∈ items) ->
            forall s s', I s -> (forall x, x ∈ visited -> P x s) ->
              forEach rest f s = Done tt s' ->
              I s' /\ forall x, x ∈ visited ++ rest -> P x s').
  { intros visited rest. revert visited. induction rest as [|y rest IH]; intros visited Hsub s s' Hs Hv Hrun.
    - injection Hrun as <-. split; [done|]. intros x. rewrite app_nil_r. apply Hv.
    - cbn [forEach] in Hrun. unfold bind in Hrun.
      destruct (f y s) as [[] s1| |] eqn:Hy; [|done..].
      assert (Hyin : y ∈ items) by (apply Hsub; left).
      destruct (Hstep y s s1 Hyin Hs Hy) as [Hs1 Hpy].
      destruct (IH (visited ++ [y]) ltac:(intros x Hx; apply Hsub; by right) s1 s' Hs1) as [Hs' Hall].
      + intros x [Hx | ->%list_elem_of_singleton]%elem_of_app; [|done].
        exact (Hstable x y s s1 Hyin Hs (Hv x Hx) Hy).
      + exact Hrun.
      + split; [done|]. intros x Hx. apply Hall. by rewrite <- app_assoc. }
  intros s s' Hs Hrun.
  destruct (Hgen [] items ltac:(done) s s' Hs ltac:(by intros x []%elem_of_nil) Hrun) as [? Hall].
  split; [done|]. exact Hall.
Qed.

Lemma selector_attrs (selector : form -> bool) (f f' : form) :
  selector ∈ selectors -> form_attrs f' = form_attrs f -> selector f' = selector f.
Proof.
  unfold selectors, form_attrs. intros Hin [= _ _ Hd Hc].
  repeat (apply elem_of_cons in Hin as [-> | Hin]; [by rewrite ?Hd, ?Hc|]).
  by apply elem_of_nil in Hin.
Qed.

Lemma registered_id_attrs (f f' : form) :
  form_attrs f' = form_attrs f -> registered_id f' = registered_id f.
Proof. unfold form_attrs, registered_id. by intros [= -> -> _ _]. Qed.

Lemma is_freeform_selector (selector : form -> bool) (f : form) :
  selector ∈ selectors -> selector f = true -> is_freeform f = true.
Proof.
  intros Hin Hsel. unfold is_freeform. apply existsb_exists.
  exists selector. split; [by apply list_elem_of_In|done].
Qed.

Lemma discovering_node (w0 w : world) (node : nat) (f0 : form) :
  discovering w0 w -> nodes (document w0) !! node = Some f0 ->
  exists f, nodes (document w) !! node = Some f /\ form_attrs f = form_attrs f0.
Proof.
  intros (_ & _ & Hattrs & _) Hnode. specialize (Hattrs node). rewrite Hnode in Hattrs.
  destruct (nodes (document w) !! node) as [f|]; [|done].
  exists f. split; [done|]. cbn [fmap option_fmap option_map] in Hattrs. congruence.
Qed.

Lemma form_key_registered (w : world) (f : form) (k : string) :
  form_key w f = Some k -> k = registered_id f.
Proof.
  unfold form_key, registered_id. destruct (shadowed "id" w f); [done|].
  destruct (String.eqb (form_id f) EmptyString); cbn [negb]; [|congruence].
  destruct (shadowed "name" w f); [done|].
  destruct (String.eqb (form_name f) EmptyString); congruence.
Qed.

Lemma registerForm_step (w0 w w' : world) (node : nat) (f0 : form) :
  discovering w0 w ->
  node ∈ page (document w0) ->
  nodes (document w0) !! node = Some f0 ->
  is_freeform f0 = true ->
  registerForm node w = Done tt w' ->
  discovering w0 w' /\ registry_grows w w' /\ registered_node w0 w' node.
Proof.
  intros Hdisc Hpage Hnode0 Hfree.
  destruct (discovering_node w0 w node f0 Hdisc Hnode0) as (f & Hnode & Hattrs).
  destruct Hdisc as (Hopt & Hpg & Hat & Hreg).
  unfold registerForm, mbind, run_bind, bind, get_state, modify.
  rewrite Hnode.
  destruct (form_key w f) as [k|] eqn:Hkey; [|done].
  rewrite (form_key_registered w f k Hkey), (registered_id_attrs f0 f Hattrs).
  set (fd := mkFormData node (storagePrefix (options w) +:+ registered_id f0) None).
  set (w1 := set_forms (<[registered_id f0 := fd]> (forms w)) w).
  intros Hrun.
  assert (Hsame : same_forms w1 w').
  { destruct (autoRestore (options w)).
    - pose proof (keeps_restoreFormState (registered_id f0) w1) as Hk.
      by rewrite Hrun in Hk.
    - injection Hrun as <-. apply same_forms_refl. }
  destruct Hsame as (Hf' & Ho' & Hp' & Ha').
  assert (Hforms : forms w' = <[registered_id f0 := fd]> (forms w)) by (by rewrite Hf').
  split; [|split].
  - split; [by rewrite Ho'|]. split; [by rewrite Hp'|]. split.
    + intros node'. by rewrite Ha'.
    + intros id fd'. rewrite Hforms.
      destruct (decide (id = registered_id f0)) as [->|Hne].
      * rewrite lookup_insert_eq. intros [= <-].
        exists f0. unfold fd. cbn [element storageKey lastSaved]. by rewrite Hopt.
      * rewrite lookup_insert_ne by done. apply Hreg.
  - intros id. rewrite Hforms.
    destruct (decide (id = registered_id f0)) as [->|Hne].
    + rewrite lookup_insert_eq. by eexists.
    + by rewrite lookup_insert_ne.
  - intros f1 Hf1. assert (f1 = f0) as -> by congruence.
    rewrite Hforms, lookup_insert_eq. by eexists.
Qed.

(** One pass of [discoverForms]: the forms that the selector matches. *)
Lemma selector_pass (w0 w w' : world) (selector : form -> bool) :
  discovering w0 w -> selector ∈ selectors ->
  (document_method "querySelectorAll";;
   w ← get_state;
   forEach (filter (fun node => from_option selector false
                                  (nodes (document w) !! node) = true)
                   (page (document w)))
           registerForm) w = Done tt w' ->
  discovering w0 w' /\ registry_grows w w' /\
  forall node f0, node ∈ page (document w0) -> nodes (document w0) !! node = Some f0 ->
                  selector f0 = true -> is_Some (forms w' !! registered_id f0).
Proof.
  intros Hdisc Hsel Hrun.
  apply bind_Done_inv in Hrun as ([] & w1 & [-> _]%document_method_Done & Hrun).
  revert Hrun. unfold mbind, run_bind, bind, get_state. intros Hrun.
  set (matched := filter (fun node => from_option selector false
                                        (nodes (document w) !! node) = true)
                         (page (document w))) in *.
  assert (Hmatched : forall node, node ∈ matched <->
            node ∈ page (document w0) /\
            exists f0, nodes (document w0) !! node = Some f0 /\ selector f0 = true).
  { intros node. unfold matched. rewrite list_elem_of_filter.
    destruct Hdisc as (_ & -> & Hattrs & _). specialize (Hattrs node).
    split.
    - intros [Hm Hin]. split; [done|].
      destruct (nodes (document w) !! node) as [f|]; [|done].
      destruct (nodes (document w0) !! node) as [f0|]; [|done].
      exists f0. split; [done|].
      assert (Ha : form_attrs f = form_attrs f0)
        by (cbn [fmap option_fmap option_map] in Hattrs; congruence).
      by rewrite <- (selector_attrs selector f0 f Hsel Ha).
    - intros [Hin (f0 & Hnode0 & Hm)]. split; [|done].
      rewrite Hnode0 in Hattrs.
      destruct (nodes (document w) !! node) as [f|]; [|done].
      assert (Ha : form_attrs f = form_attrs f0)
        by (cbn [fmap option_fmap option_map] in Hattrs; congruence).
      cbn. by rewrite (selector_attrs selector f0 f Hsel Ha). }
  destruct (forEach_visits
              (fun s => discovering w0 s /\ registry_grows w s)
              (fun node s => registered_node w0 s node)
              matched registerForm) with (s := w) (s' := w') as [[Hd' Hg'] Hall].
  - intros node s s' Hin [Hds Hgs] Hreg.
    apply Hmatched in Hin as [Hpage (f0 & Hnode0 & Hm)].
    destruct (registerForm_step w0 s s' node f0 Hds Hpage Hnode0
                (is_freeform_selector selector f0 Hsel Hm) Hreg) as (? & Hg & ?).
    split; [split; [done|]|done]. intros id Hid. by apply Hg, Hgs.
  - intros node node' s s' Hin [Hds Hgs] Hp Hreg.
    apply Hmatched in Hin as [Hpage (f0 & Hnode0 & Hm)].
    destruct (registerForm_step w0 s s' node' f0 Hds Hpage Hnode0
                (is_freeform_selector selector f0 Hsel Hm) Hreg) as (_ & Hg & _).
    intros f1 Hf1. by apply Hg, Hp.
  - split; [done|]. by intros id.
  - exact Hrun.
  - split; [done|]. split; [done|].
    intros node f0 Hpage Hnode0 Hm. apply (Hall node); [|done].
    apply Hmatched. split; [done|]. by exists f0.
Qed.

Lemma discoverForms_registry (w0 w w' : world) :
  discovering w0 w -> discoverForms w = Done tt w' ->
  discovering w0 w' /\
  forall node f0, node ∈ page (document w0) -> nodes (document w0) !! node = Some f0 ->
                  is_freeform f0 = true -> is_Some (forms w' !! registered_id f0).
Proof.
  intros Hdisc Hrun. unfold discoverForms in Hrun.
  destruct (forEach_visits
              (discovering w0)
              (fun selector s =>
                 forall node f0, node ∈ page (document w0) ->
                                 nodes (document w0) !! node = Some f0 ->
                                 selector f0 = true -> is_Some (forms s !! registered_id f0))
              selectors
              (fun selector =>
                 document_method "querySelectorAll";;
                 w ← get_state;
                 forEach (filter (fun node => from_option selector false
                                                (nodes (document w) !! node) = true)
                                 (page (document w)))
                         registerForm)) with (s := w) (s' := w') as [Hd' Hall].
  - intros selector s s' Hin Hds Hpass.
    destruct (selector_pass w0 s s' selector Hds Hin Hpass) as (? & _ & ?). by split.
  - intros selector selector' s s' Hin Hds Hp Hpass.
    destruct (selector_pass w0 s s' selector' Hds Hin Hpass) as (_ & Hg & _).
    intros node f0 Hpage Hnode0 Hm. by apply Hg, (Hp node).
  - exact Hdisc.
  - exact Hrun.
  - split; [done|]. intros node f0 Hpage Hnode0 Hfree.
    unfold is_freeform in Hfree. apply existsb_exists in Hfree as (selector & Hin & Hm).
    apply list_elem_of_In in Hin. exact (Hall selector Hin node f0 Hpage Hnode0 Hm).
Qed.

Lemma forEach_runs {S A} (I : S -> Prop) (items : list A) (body : A -> M S unit) :
  (forall x s, x ∈ items -> I s -> exists s', body x s = Done tt s' /\ I s') ->
  forall s, I s -> exists s', forEach items body s = Done tt s' /\ I s'.
Proof.
  induction items as [|x items IH]; intros Hstep s Hs.
  - by exists s.
  - destruct (Hstep x s ltac:(left) Hs) as (s1 & H1 & Hs1).
    destruct (IH (fun y t Hy => Hstep y t ltac:(by right)) s1 Hs1) as (s' & H' & Hs').
    exists s'. split; [|done]. cbn [forEach]. unfold bind. by rewrite H1.
Qed.

Lemma form_key_document (w s : world) (f : form) :
  document s = document w -> form_key s f = form_key w f.
Proof. intros H. unfold form_key, shadowed. by rewrite H. Qed.

(** Registering a form for which nothing is stored changes the registry
    only. *)
Lemma registerForm_first (w s : world) (node : nat) :
  first_visit w -> untouched w s ->
  node ∈ page (document w) ->
  (forall f, nodes (document w) !! node = Some f -> is_freeform f = true) ->
  exists s', registerForm node s = Done tt s' /\ untouched w s'.
Proof.
  intros Hfirst (Hdoc & Hsto & Hopt) Hpage Hfree.
  destruct (proj2 Hfirst node Hpage) as (f & Hnode & Hf).
  destruct (Hf (Hfree f Hnode)) as ([k Hk] & _ & Hnone).
  unfold registerForm, mbind, run_bind, bind, get_state, modify.
  rewrite Hdoc, Hnode, (form_key_document w s f Hdoc), Hk, Hopt.
  destruct (autoRestore (options w)) eqn:Hauto.
  - unfold restoreFormState, getItem, try_catch, mbind, run_bind, bind, get_state,
      mret, run_ret, ret.
    cbn [forms set_forms]. rewrite lookup_insert_eq. cbn [storageKey].
    change (getStorage (set_forms _ s)) with (getStorage s).
    rewrite Hsto, (form_key_registered w f k Hk), (Hnone eq_refl).
    eexists. split; [reflexivity|]. by repeat split.
  - eexists. split; [reflexivity|]. by repeat split.
Qed.

Lemma discoverForms_first (w : world) :
  first_visit w ->
  forall s, untouched w s -> exists s', discoverForms s = Done tt s' /\ untouched w s'.
Proof.
  intros Hfirst. unfold discoverForms.
  apply (forEach_runs (untouched w)). intros selector s Hsel Hs.
  unfold mbind at 1, run_bind at 1, bind at 1.
  rewrite (document_method_keeps "querySelectorAll" s)
    by (apply (document_keeps_document _ w s); [apply Hs | apply Hfirst]).
  unfold mbind, run_bind, bind, get_state.
  apply (forEach_runs (untouched w)); [|done].
  intros node t Hnode Ht. apply list_elem_of_filter in Hnode as [Hm Hpage].
  destruct Hs as (Hdoc & _). rewrite Hdoc in Hm, Hpage.
  apply (registerForm_first w t node Hfirst Ht Hpage).
  intros f Hf. rewrite Hf in Hm. by apply (is_freeform_selector selector).
Qed.

(** The listeners are attached when no control of a registered form stands
    for a method that [attachFormListeners] calls on the form. *)
Lemma attachFormListeners_listenable (w : world) :
  (forall id fd f, forms w !! id = Some fd ->
                   nodes (document w) !! element fd = Some f -> listenable f = true) ->
  attachFormListeners w = Done tt w.
Proof.
  intros Hall. unfold attachFormListeners, mbind, run_bind, bind, get_state.
  destruct (existsb _ _) eqn:E; [|reflexivity].
  apply existsb_exists in E as (f & Hin & Hf). apply list_elem_of_In in Hin.
  apply list_elem_of_omap in Hin as (fd & Hfd & Hnode).
  apply list_elem_of_fmap in Hfd as ([id fd'] & -> & Hfd).
  apply elem_of_map_to_list in Hfd.
  specialize (Hall id fd' f Hfd Hnode). unfold listenable in Hall.
  apply andb_true_iff in Hall as [H1 H2]. apply negb_true_iff in H1, H2.
  cbn [snd] in *. by rewrite H1, H2 in Hf.
Qed.


End DiscoveryFacts.

Section Lockstep.
Import JS DOM Run FreeformStateManager Shape Invariants Rerender.

Local Ltac fields :=
  cbn [with_checked with_value with_options with_notice
       el_type el_name_attr el_value el_checked el_options el_files].

Lemma akin_control (e1 e2 : DOM.element) :
  akin e1 e2 -> el_type e2 = el_type e1 /\ el_name_attr e2 = el_name_attr e1.
Proof.
  unfold akin, blank, field_state.
  destruct (el_type e1) eqn:H1, (el_type e2) eqn:H2; fields; intros H; injection H; intros;
    split; congruence.
Qed.

Lemma agree_akin (e1 e2 : DOM.element) : agree e1 e2 -> akin e1 e2.
Proof.
  unfold agree, akin, blank, field_state. intros [= Ht Hn Hv Hc Ho Hf].
  rewrite Ht. destruct (el_type e1) eqn:E; fields; congruence.
Qed.

Lemma akin_with_checked (b : bool) (e1 e2 : DOM.element) :
  akin e1 e2 -> akin (with_checked b e1) (with_checked b e2).
Proof.
  intros H. destruct (akin_control _ _ H) as [Ht Hn]. revert H.
  unfold akin, blank, field_state. cbn [with_checked el_type]. rewrite Ht.
  destruct (el_type e1) eqn:E; fields; intros H; injection H; intros; congruence.
Qed.

Lemma agree_with_checked (b : bool) (e1 e2 : DOM.element) :
  agree e1 e2 -> agree (with_checked b e1) (with_checked b e2).
Proof. unfold agree, field_state. fields. intros [= ? ? ? ? ? ?]. congruence. Qed.

Lemma akin_checked (b : bool) (e1 e2 : DOM.element) :
  el_type e1 = Checkbox \/ el_type e1 = Radio ->
  akin e1 e2 ->
  el_value e2 = el_value e1 /\ agree (with_checked b e1) (with_checked b e2).
Proof.
  intros Ht H. destruct (akin_control _ _ H) as [Ht' Hn]. revert H.
  unfold akin, blank, agree, field_state. rewrite Ht'.
  destruct Ht as [E | E]; rewrite E; fields; intros H; injection H; intros; split; congruence.
Qed.

Lemma akin_value (s : string) (e1 e2 : DOM.element) :
  match el_type e1 with
  | Textarea | ButtonElement | Input _ => True
  | _ => False
  end ->
  akin e1 e2 -> agree (with_value s e1) (with_value s e2).
Proof.
  intros Ht H. destruct (akin_control _ _ H) as [Ht' Hn]. revert H.
  unfold akin, blank, agree, field_state. rewrite Ht'.
  destruct (el_type e1) eqn:E; try done; fields; intros H; injection H; intros; congruence.
Qed.

Lemma select_by_values (p : string -> bool) (os1 os2 : list option_element) :
  select_by (fun _ => false) os2 = select_by (fun _ => false) os1 ->
  select_by p os2 = select_by p os1.
Proof.
  unfold select_by. revert os2.
  induction os1 as [|o1 os1 IH]; intros [|o2 os2]; cbn [map opt_value]; try done.
  intros [= Hv Hd H]. rewrite Hv, Hd. f_equal. by apply IH.
Qed.

Lemma select_first_values (s : string) (os1 os2 : list option_element) :
  select_by (fun _ => false) os2 = select_by (fun _ => false) os1 ->
  select_first s os2 = select_first s os1.
Proof.
  unfold select_by. revert os2.
  induction os1 as [|o1 os1 IH]; intros [|o2 os2]; cbn [map opt_value select_first]; try done.
  intros [= Hv Hd H]. rewrite Hv, Hd. destruct (String.eqb (opt_value o1) s).
  - f_equal. exact H.
  - f_equal. by apply IH.
Qed.

Lemma akin_options (e1 e2 : DOM.element) :
  el_type e1 = SelectOne \/ el_type e1 = SelectMultiple ->
  akin e1 e2 ->
  select_by (fun _ => false) (el_options e2) = select_by (fun _ => false) (el_options e1) /\
  forall os, agree (with_options os e1) (with_options os e2).
Proof.
  intros Ht H. destruct (akin_control _ _ H) as [Ht' Hn]. revert H.
  unfold akin, blank, agree, field_state. rewrite Ht'.
  destruct Ht as [E | E]; rewrite E; fields; intros H; injection H; intros;
    (split; [done|intros os; congruence]).
Qed.

Lemma locked_weaken (P P' : nat -> Prop) (f1 h1 : form) :
  (forall j, P' j -> P j) -> locked P f1 h1 -> locked P' f1 h1.
Proof. intros HP [Hk Ha]. split; [done|]. intros j e1 e2 Hj. apply Ha. by apply HP. Qed.

Lemma locked_update (P : nat -> Prop) (i : nat) (g : DOM.element -> DOM.element)
    (f1 h1 f1' : form) :
  locked P f1 h1 ->
  (forall e1 e2, elements f1 !! i = Some e1 -> elements h1 !! i = Some e2 ->
                 akin e1 e2 -> el_type e1 <> FileInput -> agree (g e1) (g e2)) ->
  (forall e1 e2, elements f1 !! i = Some e1 -> elements h1 !! i = Some e2 ->
                 akin e1 e2 -> akin (g e1) (g e2)) ->
  (forall e, el_type (g e) = el_type e) ->
  update_element i g f1 = Done tt f1' ->
  exists h1', update_element i g h1 = Done tt h1' /\
              locked (fun j => P j \/ j = i) f1' h1'.
Proof.
  intros [Hk Ha] Hg Hgk Hgt Hrun. injection Hrun as <-.
  eexists. split; [reflexivity|]. split; cbn [elements].
  - apply Forall2_alter; [done|]. exact Hgk.
  - intros j e1 e2 HP H1 H2 Hnf. destruct (decide (j = i)) as [->|Hne].
    + rewrite list_lookup_alter_eq in H1, H2.
      destruct (elements f1 !! i) as [x1|] eqn:Hx1; [|cbn in H1; discriminate].
      destruct (elements h1 !! i) as [x2|] eqn:Hx2; [|cbn in H2; discriminate].
      cbn in H1, H2. injection H1 as <-. injection H2 as <-.
      pose proof (Forall2_lookup_lr _ _ _ _ _ _ Hk Hx1 Hx2) as Hkin.
      apply Hg; try done. by rewrite <- Hgt.
    + rewrite list_lookup_alter_ne in H1, H2 by done.
      destruct HP as [HP|]; [|done]. by eapply Ha.
Qed.

Lemma locked_update_same (P : nat -> Prop) (i : nat) (g : DOM.element -> DOM.element)
    (f1 h1 f1' : form) :
  locked P f1 h1 ->
  (forall e1 e2, agree e1 e2 -> agree (g e1) (g e2)) ->
  (forall e1 e2, akin e1 e2 -> akin (g e1) (g e2)) ->
  (forall e, el_type (g e) = el_type e) ->
  update_element i g f1 = Done tt f1' ->
  exists h1', update_element i g h1 = Done tt h1' /\ locked P f1' h1'.
Proof.
  intros [Hk Ha] Hg Hgk Hgt Hrun. injection Hrun as <-.
  eexists. split; [reflexivity|]. split; cbn [elements].
  - apply Forall2_alter; [done|]. intros e1 e2 _ _. apply Hgk.
  - intros j e1 e2 HP H1 H2 Hnf. destruct (decide (j = i)) as [->|Hne].
    + rewrite list_lookup_alter_eq in H1, H2.
      destruct (elements f1 !! i) as [x1|] eqn:Hx1; [|cbn in H1; discriminate].
      destruct (elements h1 !! i) as [x2|] eqn:Hx2; [|cbn in H2; discriminate].
      cbn in H1, H2. injection H1 as <-. injection H2 as <-.
      apply Hg. eapply Ha; try done. by rewrite <- Hgt.
    + rewrite list_lookup_alter_ne in H1, H2 by done. by eapply Ha.
Qed.

Lemma same_group_akin (e1 e2 o1 o2 : DOM.element) :
  akin e1 e2 -> akin o1 o2 -> same_group e2 o2 = same_group e1 o1.
Proof.
  intros [Ht Hn]%akin_control [Hto Hno]%akin_control.
  unfold same_group, has_name. by rewrite Hn, Hto, Hno.
Qed.

(** Unchecking the rest of a radio button group, in both forms. *)
Lemma uncheck_group_lock (P : nat -> Prop) (i : nat) (F H : form) (e1 e2 : DOM.element)
    (js : list nat) :
  Forall2 akin (elements F) (elements H) -> akin e1 e2 ->
  forall cf ch cf',
    locked P cf ch ->
    forEach js (fun j => match elements F !! j with
                         | Some other =>
                             if same_group e1 other && negb (Nat.eqb i j)
                             then update_element j (with_checked false)
                             else mret tt
                         | None => mret tt
                         end) cf = Done tt cf' ->
    exists ch',
      forEach js (fun j => match elements H !! j with
                           | Some other =>
                               if same_group e2 other && negb (Nat.eqb i j)
                               then update_element j (with_checked false)
                               else mret tt
                           | None => mret tt
                           end) ch = Done tt ch' /\
      locked P cf' ch'.
Proof.
  intros HFH He. induction js as [|j js IH]; intros cf ch cf' Hl Hrun.
  - injection Hrun as <-. by exists ch.
  - cbn [forEach] in *. unfold bind in *.
    pose proof (proj1 (Forall2_lookup _ _ _) HFH j) as Hj.
    destruct (elements F !! j) as [o1|] eqn:Ho1; inversion Hj as [? o2 Hko Ho2 Ho2'|]; subst.
    + rewrite (same_group_akin e1 e2 o1 o2 He Hko).
      destruct (same_group e1 o1 && negb (Nat.eqb i j)).
      * destruct (update_element j (with_checked false) cf) as [[] cf1| |] eqn:Hu; [|done..].
        destruct (locked_update_same P j (with_checked false) cf ch cf1 Hl) as (ch1 & Hu' & Hl1);
          [| |done|done|].
        { intros x1 x2. apply agree_with_checked. }
        { intros x1 x2. apply akin_with_checked. }
        rewrite Hu'. by apply (IH cf1 ch1 cf').
      * cbn in Hrun |- *. by apply (IH cf ch cf').
    + cbn in Hrun |- *. by apply (IH cf ch cf').
Qed.

Lemma uncheck_group_spares (i : nat) (F : form) (e1 : DOM.element) (js : list nat) :
  forall cf cf',
    forEach js (fun j => match elements F !! j with
                         | Some other =>
                             if same_group e1 other && negb (Nat.eqb i j)
                             then update_element j (with_checked false)
                             else mret tt
                         | None => mret tt
                         end) cf = Done tt cf' ->
    elements cf' !! i = elements cf !! i.
Proof.
  induction js as [|j js IH]; intros cf cf' Hrun.
  - by injection Hrun as <-.
  - cbn [forEach] in Hrun. unfold bind in Hrun.
    destruct (elements F !! j) as [o1|]; [|cbn in Hrun; by apply IH].
    destruct (same_group e1 o1); [|cbn in Hrun; by apply IH].
    destruct (Nat.eqb i j) eqn:Hij; [cbn in Hrun; by apply IH|].
    apply Nat.eqb_neq in Hij. cbn [andb negb] in Hrun.
    unfold update_element, modify in Hrun. rewrite (IH _ _ Hrun). cbn [elements].
    by apply list_lookup_alter_ne.
Qed.

Lemma set_radio_checked_lock (P : nat -> Prop) (i : nat) (b : bool)
    (f1 h1 f1' : form) (e1 : DOM.element) :
  locked P f1 h1 ->
  elements f1 !! i = Some e1 -> el_type e1 = Radio ->
  set_radio_checked i b f1 = Done tt f1' ->
  exists h1', set_radio_checked i b h1 = Done tt h1' /\
              locked (fun j => P j \/ j = i) f1' h1'.
Proof.
  intros Hl He1 Ht Hrun.
  destruct (Forall2_lookup_l _ _ _ _ _ (proj1 Hl) He1) as (e2 & He2 & Hk).
  unfold set_radio_checked, mbind, run_bind, bind, get_state in *.
  rewrite He1 in Hrun. rewrite He2.
  assert (Hlen : length (elements h1) = length (elements f1))
    by (symmetry; exact (Forall2_length _ _ _ (proj1 Hl))).
  rewrite Hlen.
  assert (Hlast : forall cf1 ch1, locked P cf1 ch1 ->
            elements cf1 !! i = Some e1 ->
            update_element i (with_checked b) cf1 = Done tt f1' ->
            exists h1', update_element i (with_checked b) ch1 = Done tt h1' /\
                        locked (fun j => P j \/ j = i) f1' h1').
  { intros cf1 ch1 Hl1 Hi Hu.
    apply (locked_update P i (with_checked b) cf1 ch1 f1' Hl1); [| |done|done].
    - intros x1 x2 Hx1 Hx2 Hx _. apply akin_checked; [|done].
      right. congruence.
    - intros x1 x2 _ _. apply akin_with_checked. }
  destruct b.
  - destruct (forEach _ _ f1) as [[] cf1| |] eqn:H1; [|done..].
    destruct (uncheck_group_lock P i f1 h1 e1 e2 _ (proj1 Hl) Hk f1 h1 cf1 Hl H1)
      as (ch1 & H1' & Hl1).
    rewrite H1'. apply (Hlast cf1 ch1); [done| |done].
    by rewrite (uncheck_group_spares i f1 e1 _ f1 cf1 H1).
  - cbn in Hrun |- *. by apply (Hlast f1 h1).
Qed.

Lemma akin_with_value (s : string) (e1 e2 : DOM.element) :
  akin e1 e2 -> akin (with_value s e1) (with_value s e2).
Proof.
  intros H. destruct (akin_control _ _ H) as [Ht Hn]. revert H.
  unfold akin, blank, field_state. cbn [with_value el_type]. rewrite Ht.
  destruct (el_type e1) eqn:E; fields; intros H; injection H; intros; congruence.
Qed.

Lemma akin_with_options (g : list option_element -> list option_element)
    (e1 e2 : DOM.element) :
  el_type e1 = SelectOne \/ el_type e1 = SelectMultiple ->
  (forall os, select_by (fun _ => false) (g os) = select_by (fun _ => false) os) ->
  akin e1 e2 ->
  akin (with_options (g (el_options e1)) e1) (with_options (g (el_options e2)) e2).
Proof.
  intros Hs Hg H. destruct (akin_control _ _ H) as [Ht Hn]. revert H.
  unfold akin, blank, field_state. cbn [with_options el_type]. rewrite Ht.
  destruct Hs as [E | E]; rewrite E; fields; rewrite !Hg;
    intros H; injection H; intros; congruence.
Qed.

Lemma select_by_erased (p : string -> bool) (os : list option_element) :
  select_by (fun _ => false) (select_by p os) = select_by (fun _ => false) os.
Proof. unfold select_by. rewrite map_map. reflexivity. Qed.

Lemma select_first_erased (s : string) (os : list option_element) :
  select_by (fun _ => false) (select_first s os) = select_by (fun _ => false) os.
Proof.
  induction os as [|o os IH]; [reflexivity|]. cbn [select_first].
  destruct (String.eqb (opt_value o) s).
  - unfold select_by. cbn [map opt_value]. f_equal. rewrite map_map. reflexivity.
  - unfold select_by in *. cbn [map opt_value]. f_equal. exact IH.
Qed.

(** Writing the options of a select by a rule that looks at their values
    only. *)
Lemma select_lock (P : nat -> Prop) (i : nat)
    (g : list option_element -> list option_element) (f1 h1 f1' : form) (e1 : DOM.element) :
  locked P f1 h1 ->
  elements f1 !! i = Some e1 ->
  el_type e1 = SelectOne \/ el_type e1 = SelectMultiple ->
  (forall os, select_by (fun _ => false) (g os) = select_by (fun _ => false) os) ->
  (forall os1 os2, select_by (fun _ => false) os2 = select_by (fun _ => false) os1 ->
                   g os2 = g os1) ->
  update_element i (fun e => with_options (g (el_options e)) e) f1 = Done tt f1' ->
  exists h1', update_element i (fun e => with_options (g (el_options e)) e) h1 = Done tt h1' /\
              locked (fun j => P j \/ j = i) f1' h1'.
Proof.
  intros Hl He1 Ht Hg Hgv Hrun.
  apply (locked_update P i _ f1 h1 f1' Hl); [| |done|done].
  - intros x1 x2 Hx1 Hx2 Hx _. assert (x1 = e1) as -> by congruence.
    destruct (akin_options e1 x2 Ht Hx) as [Hos Hag].
    rewrite (Hgv _ _ Hos). apply Hag.
  - intros x1 x2 Hx1 Hx2 Hx. assert (x1 = e1) as -> by congruence.
    by apply akin_with_options.
Qed.

Lemma value_lock (P : nat -> Prop) (i : nat) (s : string) (f1 h1 f1' : form)
    (e1 : DOM.element) :
  locked P f1 h1 ->
  elements f1 !! i = Some e1 ->
  match el_type e1 with
  | Textarea | ButtonElement | Input _ => True
  | _ => False
  end ->
  update_element i (with_value s) f1 = Done tt f1' ->
  exists h1', update_element i (with_value s) h1 = Done tt h1' /\
              locked (fun j => P j \/ j = i) f1' h1'.
Proof.
  intros Hl He1 Ht Hrun.
  apply (locked_update P i _ f1 h1 f1' Hl); [| |done|done].
  - intros x1 x2 Hx1 Hx2 Hx _. assert (x1 = e1) as -> by congruence.
    by apply akin_value.
  - intros x1 x2 _ _. apply akin_with_value.
Qed.

Lemma checked_lock (P : nat -> Prop) (i : nat) (b : bool) (f1 h1 f1' : form)
    (e1 : DOM.element) :
  locked P f1 h1 ->
  elements f1 !! i = Some e1 ->
  el_type e1 = Checkbox ->
  update_element i (with_checked b) f1 = Done tt f1' ->
  exists h1', update_element i (with_checked b) h1 = Done tt h1' /\
              locked (fun j => P j \/ j = i) f1' h1'.
Proof.
  intros Hl He1 Ht Hrun.
  apply (locked_update P i _ f1 h1 f1' Hl); [| |done|done].
  - intros x1 x2 Hx1 Hx2 Hx _. assert (x1 = e1) as -> by congruence.
    apply akin_checked; [by left | done].
  - intros x1 x2 _ _. apply akin_with_checked.
Qed.

Lemma assign_value_lock (P : nat -> Prop) (i : nat) (v : value) (f1 h1 f1' : form)
    (e1 e2 : DOM.element) :
  locked P f1 h1 ->
  elements f1 !! i = Some e1 -> elements h1 !! i = Some e2 ->
  match el_type e1 with
  | SelectOne | Textarea | ButtonElement | Input _ => True
  | _ => False
  end ->
  assign_value i e1 v f1 = Done tt f1' ->
  exists h1', assign_value i e2 v h1 = Done tt h1' /\
              locked (fun j => P j \/ j = i) f1' h1'.
Proof.
  intros Hl He1 He2 Ht Hrun.
  pose proof (Forall2_lookup_lr _ _ _ _ _ _ (proj1 Hl) He1 He2) as Hk.
  destruct (akin_control _ _ Hk) as [Ht2 _].
  unfold assign_value in *. rewrite Ht2.
  destruct (el_type e1) eqn:E; try done.
  - destruct (to_string v) as [s|]; [|done].
    apply (select_lock P i (select_first s) f1 h1 f1' e1 Hl He1); try done.
    + by left.
    + apply select_first_erased.
    + intros os1 os2. apply select_first_values.
  - destruct v; cbn [to_string] in *; try done;
      by apply (value_lock P i _ f1 h1 f1' e1 Hl He1); [rewrite E|].
  - destruct (to_string v) as [s|]; [|done].
    by apply (value_lock P i _ f1 h1 f1' e1 Hl He1); [rewrite E|].
  - destruct v; cbn [to_string] in *; try done;
      by apply (value_lock P i _ f1 h1 f1' e1 Hl He1); [rewrite E|].
Qed.

(** What [restore_element] writes to a control depends on the value and on
    the markup of the form only. *)
Lemma restore_element_lock (P : nat -> Prop) (v : value) (i : nat) (f1 h1 f1' : form) :
  locked P f1 h1 ->
  restore_element v i f1 = Done tt f1' ->
  exists h1', restore_element v i h1 = Done tt h1' /\
              locked (fun j => P j \/ j = i) f1' h1'.
Proof.
  intros Hl Hrun.
  unfold restore_element, mbind, run_bind, bind, get_state in *.
  destruct (elements f1 !! i) as [e1|] eqn:He1.
  2:{ assert (He2 : elements h1 !! i = None).
      { apply lookup_ge_None. apply lookup_ge_None in He1.
        by rewrite <- (Forall2_length _ _ _ (proj1 Hl)). }
      rewrite He2. injection Hrun as <-. exists h1. split; [done|]. split; [apply Hl|].
      intros j x1 x2 [HP | ->] H1 H2; [by apply (proj2 Hl j)|congruence]. }
  destruct (Forall2_lookup_l _ _ _ _ _ (proj1 Hl) He1) as (e2 & He2 & Hk). rewrite He2.
  destruct (akin_control _ _ Hk) as [Ht2 _]. rewrite Ht2.
  destruct (el_type e1) eqn:E.
  - destruct (akin_checked false e1 e2 ltac:(by left) Hk) as [-> _].
    destruct v; by apply (checked_lock P i _ f1 h1 f1' e1).
  - destruct (akin_checked false e1 e2 ltac:(by right) Hk) as [-> _].
    by apply (set_radio_checked_lock P i _ f1 h1 f1' e1).
  - injection Hrun as <-. exists h1. split; [done|]. split; [apply Hl|].
    intros j x1 x2 [HP | ->] H1 H2; [by apply (proj2 Hl j)|]. congruence.
  - destruct v; try (by apply (assign_value_lock P i _ f1 h1 f1' e1 e2); [..|rewrite E|]).
  - destruct v;
      (apply (select_lock P i (select_by _) f1 h1 f1' e1 Hl He1);
       [by right | apply select_by_erased | intros os1 os2; apply select_by_values | done]).
  - destruct v; try (by apply (assign_value_lock P i _ f1 h1 f1' e1 e2); [..|rewrite E|]).
  - destruct v; try (by apply (assign_value_lock P i _ f1 h1 f1' e1 e2); [..|rewrite E|]).
  - destruct v; try (by apply (assign_value_lock P i _ f1 h1 f1' e1 e2); [..|rewrite E|]).
Qed.

Lemma restore_loop_lock (v : value) (items : list nat) :
  forall (P : nat -> Prop) (f1 h1 f1' : form),
    locked P f1 h1 ->
    forEach items (restore_element v) f1 = Done tt f1' ->
    exists h1', forEach items (restore_element v) h1 = Done tt h1' /\
                locked (fun j => P j \/ j ∈ items) f1' h1'.
Proof.
  induction items as [|i items IH]; intros P f1 h1 f1' Hl Hrun.
  - injection Hrun as <-. exists h1. split; [done|].
    eapply locked_weaken; [|exact Hl]. intros j [HP | Hj]; [done|]. by apply elem_of_nil in Hj.
  - cbn [forEach] in *. unfold bind in *.
    destruct (restore_element v i f1) as [[] f2| |] eqn:Hi; [|done..].
    destruct (restore_element_lock P v i f1 h1 f2 Hl Hi) as (h2 & Hi' & Hl2).
    rewrite Hi'.
    destruct (IH _ f2 h2 f1' Hl2 Hrun) as (h1' & Hrun' & Hl').
    exists h1'. split; [done|].
    eapply locked_weaken; [|exact Hl']. cbn beta.
    intros j [HP | Hj]; [by left; left|].
    apply elem_of_cons in Hj as [-> | Hj]; [by left; right | by right].
Qed.

Lemma akin_layout (f1 h1 : form) :
  Forall2 akin (elements f1) (elements h1) -> layout h1 = layout f1.
Proof.
  unfold layout. induction 1 as [|e1 e2 l1 l2 [Ht Hn]%akin_control _ IH]; [reflexivity|].
  cbn [map]. by rewrite Ht, Hn, IH.
Qed.

Lemma has_name_layout (k : string) (e e' : DOM.element) :
  el_type e' = el_type e -> el_name_attr e' = el_name_attr e -> has_name k e' = has_name k e.
Proof. unfold has_name. by intros _ ->. Qed.

Lemma restoreField_lock (P : nat -> Prop) (k : string) (v : value) (f1 h1 f1' : form) :
  locked P f1 h1 ->
  restoreField k v f1 = Done tt f1' ->
  exists h1', restoreField k v h1 = Done tt h1' /\
              locked (fun j => P j \/ j ∈ query_all (has_name k) f1) f1' h1'.
Proof.
  intros Hl Hrun. unfold restoreField, mbind, run_bind, bind, get_state in *.
  rewrite (overridden_layout "querySelectorAll" f1 h1 (akin_layout _ _ (proj1 Hl))).
  destruct (overridden "querySelectorAll" f1); [done|].
  destruct (selector_safe k); [|done].
  rewrite (query_all_layout (has_name k) f1 h1 (has_name_layout k) (akin_layout _ _ (proj1 Hl))).
  by apply (restore_loop_lock v _ P f1 h1 f1').
Qed.

Lemma restoreField_layout (k : string) (v : value) (f f' : form) :
  restoreField k v f = Done tt f' -> layout f' = layout f.
Proof.
  intros Hrun. destruct same_control_writes as (R & T & N & C & V & O & Nt).
  pose proof (kept_restoreField same_control (fun _ => True) R T N C V O Nt k v f I) as Hk.
  unfold kept in Hk. rewrite Hrun in Hk. by apply same_control_layout.
Qed.

Lemma force_unchecked_layout (name : value) (f f' : form) :
  force_unchecked name f = Done tt f' -> layout f' = layout f.
Proof.
  intros Hrun. destruct same_control_writes as (R & T & N & C & V & O & Nt).
  pose proof (kept_force_unchecked same_control (fun _ => True) R T C name f
                ltac:(done)) as Hk.
  unfold kept in Hk. rewrite Hrun in Hk. by apply same_control_layout.
Qed.

Lemma fields_lock (f0 : form) (entries : props) :
  forall (P : nat -> Prop) (f1 h1 f1' : form),
    layout f1 = layout f0 ->
    locked P f1 h1 ->
    forEach entries
      (fun entry => if String.prefix "_" entry.1 then mret tt
                    else restoreField entry.1 entry.2) f1 = Done tt f1' ->
    exists h1',
      forEach entries
        (fun entry => if String.prefix "_" entry.1 then mret tt
                      else restoreField entry.1 entry.2) h1 = Done tt h1' /\
      locked (fun j => P j \/ named_by entries f0 j) f1' h1' /\
      layout f1' = layout f0.
Proof.
  induction entries as [|[k v] entries IH]; intros P f1 h1 f1' Hlay Hl Hrun.
  - injection Hrun as <-. exists h1. split; [done|]. split; [|done].
    eapply locked_weaken; [|exact Hl].
    intros j [HP | (k & v & Hin & _)]; [done|]. by apply elem_of_nil in Hin.
  - cbn [forEach fst snd] in *. unfold bind in *.
    destruct (String.prefix "_" k) eqn:Hp.
    + cbn in Hrun |- *.
      destruct (IH P f1 h1 f1' Hlay Hl Hrun) as (h1' & Hrun' & Hl' & Hlay').
      exists h1'. split; [done|]. split; [|done].
      eapply locked_weaken; [|exact Hl']. cbn beta.
      intros j [HP | (k' & v' & Hin & Hp' & Hj)]; [by left|]. right.
      apply elem_of_cons in Hin as [[= -> ->] | Hin]; [congruence|].
      by exists k', v'.
    + destruct (restoreField k v f1) as [[] f2| |] eqn:Hk; [|done..].
      destruct (restoreField_lock P k v f1 h1 f2 Hl Hk) as (h2 & Hk' & Hl2).
      rewrite Hk'.
      assert (Hlay2 : layout f2 = layout f0)
        by (by rewrite (restoreField_layout k v f1 f2 Hk)).
      destruct (IH _ f2 h2 f1' Hlay2 Hl2 Hrun) as (h1' & Hrun' & Hl' & Hlay').
      exists h1'. split; [done|]. split; [|done].
      eapply locked_weaken; [|exact Hl']. cbn beta.
      intros j [HP | (k' & v' & Hin & Hp' & Hj)]; [by left; left|].
      apply elem_of_cons in Hin as [[= -> ->] | Hin].
      * left. right.
        by rewrite (query_all_layout (has_name k) f0 f1 (has_name_layout k) Hlay).
      * right. by exists k', v'.
Qed.

Lemma force_unchecked_lock (P : nat -> Prop) (name : value) (f1 h1 f1' : form) :
  locked P f1 h1 ->
  force_unchecked name f1 = Done tt f1' ->
  exists h1', force_unchecked name h1 = Done tt h1' /\
              locked (fun j => P j \/ exists n, to_string name = Some n /\
                                               query (is_checkbox_named n) f1 = Some j)
                     f1' h1'.
Proof.
  intros Hl Hrun. unfold force_unchecked, mbind, run_bind, bind, get_state in *.
  destruct (to_string name) as [n|]; [|done].
  rewrite (overridden_layout "querySelector" f1 h1 (akin_layout _ _ (proj1 Hl))).
  destruct (overridden "querySelector" f1); [done|].
  destruct (selector_safe n); [|done].
  change (fun e => bool_decide (el_type e = Checkbox) && has_name n e)
    with (is_checkbox_named n) in *.
  unfold query in *.
  rewrite (query_all_layout (is_checkbox_named n) f1 h1 (is_checkbox_named_layout n)
             (akin_layout _ _ (proj1 Hl))).
  destruct (head (query_all (is_checkbox_named n) f1)) as [i|] eqn:Hq.
  - pose proof Hq as Hq'.
    apply head_Some_elem_of, elem_of_query_all in Hq' as (e1 & He1 & Hp).
    apply andb_true_iff in Hp as [Ht%bool_decide_eq_true _].
    destruct (checked_lock P i false f1 h1 f1' e1 Hl He1 Ht Hrun) as (h1' & Hrun' & Hl').
    exists h1'. split; [done|].
    eapply locked_weaken; [|exact Hl']. cbn beta.
    intros j [HP | (n' & [= <-] & Hj)]; [by left|]. right. congruence.
  - injection Hrun as <-. exists h1. split; [done|].
    eapply locked_weaken; [|exact Hl]. cbn beta.
    intros j [HP | (n' & [= <-] & Hj)]; [done|congruence].
Qed.

Lemma unchecked_lock (f0 : form) (names : list value) :
  forall (P : nat -> Prop) (f1 h1 f1' : form),
    layout f1 = layout f0 ->
    locked P f1 h1 ->
    forEach names force_unchecked f1 = Done tt f1' ->
    exists h1',
      forEach names force_unchecked h1 = Done tt h1' /\
      locked (fun j => P j \/ unchecked_by names f0 j) f1' h1'.
Proof.
  induction names as [|name names IH]; intros P f1 h1 f1' Hlay Hl Hrun.
  - injection Hrun as <-. exists h1. split; [done|].
    eapply locked_weaken; [|exact Hl].
    intros j [HP | (name & n & Hin & _)]; [done|]. by apply elem_of_nil in Hin.
  - cbn [forEach] in *. unfold bind in *.
    destruct (force_unchecked name f1) as [[] f2| |] eqn:Hk; [|done..].
    destruct (force_unchecked_lock P name f1 h1 f2 Hl Hk) as (h2 & Hk' & Hl2).
    rewrite Hk'.
    assert (Hlay2 : layout f2 = layout f0)
      by (by rewrite (force_unchecked_layout name f1 f2 Hk)).
    destruct (IH _ f2 h2 f1' Hlay2 Hl2 Hrun) as (h1' & Hrun' & Hl').
    exists h1'. split; [done|].
    eapply locked_weaken; [|exact Hl']. cbn beta.
    intros j [HP | (name' & n & Hin & Hn & Hj)]; [by left; left|].
    apply elem_of_cons in Hin as [-> | Hin].
    + left. right. exists n. split; [done|].
      unfold query in *.
      by rewrite (query_all_layout (is_checkbox_named n) f0 f1
                    (is_checkbox_named_layout n) Hlay).
    + right. by exists name', n.
Qed.

(** Writes that leave the fields alone keep two forms in step. *)
Lemma locked_same_fields (P : nat -> Prop) (f1 h1 f2 h2 : form) :
  locked P f1 h1 ->
  Forall2 same_fields (elements f1) (elements f2) ->
  Forall2 same_fields (elements h1) (elements h2) ->
  locked P f2 h2.
Proof.
  intros [Hk Ha] Hf Hh. split.
  - apply Forall2_same_length_lookup. split.
    + rewrite <- (Forall2_length _ _ _ Hf), <- (Forall2_length _ _ _ Hh).
      by apply Forall2_length in Hk.
    + intros j x2 y2 Hx2 Hy2.
      destruct (Forall2_lookup_r _ _ _ _ _ Hf Hx2) as (x1 & Hx1 & Hfx).
      destruct (Forall2_lookup_r _ _ _ _ _ Hh Hy2) as (y1 & Hy1 & Hfy).
      pose proof (Forall2_lookup_lr _ _ _ _ _ _ Hk Hx1 Hy1) as Hxy.
      unfold same_fields in *. unfold akin in *.
      rewrite (agree_akin x1 x2 Hfx), (agree_akin y1 y2 Hfy). exact Hxy.
  - intros j x2 y2 HP Hx2 Hy2 Hnf.
    destruct (Forall2_lookup_r _ _ _ _ _ Hf Hx2) as (x1 & Hx1 & Hfx).
    destruct (Forall2_lookup_r _ _ _ _ _ Hh Hy2) as (y1 & Hy1 & Hfy).
    unfold same_fields, agree in *.
    rewrite Hfx, Hfy. apply (Ha j x1 y1 HP Hx1 Hy1).
    injection Hfx as Ht _ _ _ _ _. congruence.
Qed.

Lemma restoreCustomElements_fields (custom : value) (f f' : form) :
  restoreCustomElements custom f = Done tt f' ->
  Forall2 same_fields (elements f) (elements f').
Proof.
  intros Hrun. destruct same_fields_writes as (R & T & N & C & V & O & Nt).
  pose proof (kept_restoreCustomElements same_fields (fun _ => False)
                R T N C V O Nt custom f) as Hk.
  unfold kept in Hk. by rewrite Hrun in Hk.
Qed.

(** Whether an entry of [fileInfos] can be shown does not depend on the
    form. *)
Lemma file_line_pure (file : value) (f f' h : form) (x : string * string) :
  file_line file f = Done x f' -> file_line file h = Done x h.
Proof.
  unfold file_line. cbv zeta.
  destruct file; try done;
    repeat match goal with
           | |- context [match to_string ?a with _ => _ end] => destruct (to_string a)
           | |- context [match formatFileSize_of ?a with _ => _ end] =>
               destruct (formatFileSize_of a)
           end; try done; by intros [= <- <-].
Qed.

Lemma file_lines_pure (fileInfos : list value) :
  forall (f f' h : form) (ls : notice),
    file_lines fileInfos f = Done ls f' -> file_lines fileInfos h = Done ls h.
Proof.
  induction fileInfos as [|file rest IH]; intros f f' h ls Hrun.
  - by injection Hrun as <- <-.
  - cbn [file_lines] in *.
    apply bind_Done_inv in Hrun as (l & f1 & Hl & Hrun).
    apply bind_Done_inv in Hrun as (ls' & f2 & Hls & Hrun).
    injection Hrun as <- <-.
    unfold mbind, run_bind, bind.
    by rewrite (file_line_pure file f f1 h l Hl), (IH f1 f2 h ls' Hls).
Qed.

Lemma restore_custom_layout (entry : string * value) (f f' : form) :
  restore_custom entry f = Done tt f' -> layout f' = layout f.
Proof.
  intros Hrun. destruct same_control_writes as (R & T & N & C & V & O & Nt).
  pose proof (kept_restore_custom same_control R T Nt entry f) as Hk.
  unfold kept in Hk. rewrite Hrun in Hk. by apply same_control_layout.
Qed.

Lemma get_state_bind {S A} (k : S -> M S A) (s : S) : (get_state ≫= k) s = k s s.
Proof. reflexivity. Qed.

Lemma bind_run {S A B} (m : M S A) (k : A -> M S B) (s s1 : S) (a : A) :
  m s = Done a s1 -> (m ≫= k) s = k a s1.
Proof. intros H. unfold mbind, run_bind, bind. by rewrite H. Qed.

Lemma mret_run {S A} (a : A) (s : S) : (mret a : M S A) s = Done a s.
Proof. reflexivity. Qed.

(** Whether [restore_custom] runs to its end depends on the entry and on
    the types and names of the controls only. *)
Lemma restore_custom_done (entry : string * value) (f f' h : form) :
  restore_custom entry f = Done tt f' ->
  layout h = layout f ->
  exists h', restore_custom entry h = Done tt h'.
Proof.
  destruct entry as [key v]. intros Hrun Hlay. unfold restore_custom in *.
  apply bind_Done_inv in Hrun as ([] & f1 & H1 & H2).
  assert (Hlay1 : layout f1 = layout f).
  { destruct (ends_with "_open" key); [|by injection H1 as <-]. cbv zeta in H1.
    rewrite get_state_bind in H1.
    destruct (overridden "querySelector" f); [done|].
    destruct (selector_safe _); [|done].
    destruct (query _ f) as [i|]; [|by injection H1 as <-].
    destruct (elements f !! i ≫= el_widget) as [w|]; [|by injection H1 as <-].
    destruct (truthy v); by injection H1 as <-. }
  assert (exists h1, (if ends_with "_open" key
                      then let selectName := remove_first "_open" key in
                           f0 ← get_state;
                           if overridden "querySelector" f0 then throw
                           else if selector_safe selectName
                           then match query (fun e => is_input e && has_name selectName e
                                               && match el_widget e with
                                                  | Some w =>
                                                      bool_decide (w_class <$> widgets f0 !! w
                                                                   = Some SelectMultipleWidget)
                                                  | None => false
                                                  end) f0 with
                                | Some i =>
                                    match elements f0 !! i ≫= el_widget with
                                    | Some w =>
                                        if truthy v
                                        then update_widget w (fun wd => mkWidget (w_class wd) true)
                                        else mret tt
                                    | None => mret tt
                                    end
                                | None => mret tt
                                end
                           else not_modelled
                      else mret tt) h = Done tt h1 /\ layout h1 = layout h)
    as (h1 & H1' & Hlayh1).
  { destruct (ends_with "_open" key); [|by exists h]. cbv zeta in *.
    rewrite get_state_bind in *.
    rewrite (overridden_layout "querySelector" f h Hlay).
    destruct (overridden "querySelector" f); [done|].
    destruct (selector_safe _); [|done].
    destruct (query _ h) as [i|]; [|by exists h].
    destruct (elements h !! i ≫= el_widget) as [w|]; [|by exists h].
    destruct (truthy v); [|by exists h]. by eexists. }
  rewrite (bind_run _ _ _ _ _ H1'). clear H1 H1'.
  destruct (ends_with "_files" key); [|by exists h1]. cbv zeta in *.
  rewrite get_state_bind in *.
  rewrite (overridden_layout "querySelector" f1 h1) by congruence.
  destruct (overridden "querySelector" f1); [done|].
  destruct (selector_safe (remove_first "_files" key)); [|done].
  assert (Hq : query (fun e => bool_decide (el_type e = FileInput)
                               && has_name (remove_first "_files" key) e) h1
               = query (fun e => bool_decide (el_type e = FileInput)
                                 && has_name (remove_first "_files" key) e) f1).
  { unfold query. f_equal. apply query_all_layout; [|congruence].
    intros e e' Ht Hn. unfold has_name. by rewrite Ht, Hn. }
  rewrite Hq. destruct (query _ f1) as [i|]; [|by exists h1].
  destruct v; try (by exists h1).
  unfold displayFileInfo in *.
  apply bind_Done_inv in H2 as ([] & f2 & Hu & H2).
  apply bind_Done_inv in H2 as (ls & f3 & Hls & H2).
  erewrite bind_run by reflexivity.
  erewrite bind_run by exact (file_lines_pure _ _ _ _ _ Hls).
  by eexists.
Qed.

Lemma restoreCustomElements_done (custom : value) (f f' h : form) :
  restoreCustomElements custom f = Done tt f' ->
  layout h = layout f ->
  exists h', restoreCustomElements custom h = Done tt h'.
Proof.
  destruct custom as [| | | | | | | |ps]; try (by intros _ _; exists h); try done.
  cbn [restoreCustomElements]. revert f h.
  induction ps as [|entry entries IH]; intros f h Hrun Hlay; [by exists h|].
  cbn [forEach] in *. unfold bind in *.
  destruct (restore_custom entry f) as [[] f1| |] eqn:H1; [|done..].
  destruct (restore_custom_done entry f f1 h H1 Hlay) as (h1 & H1').
  rewrite H1'. apply (IH f1 h1 Hrun).
  by rewrite (restore_custom_layout entry h h1 H1'), (restore_custom_layout entry f f1 H1).
Qed.

(** What [applyFormState] writes to the controls it writes depends on the
    state object and on the markup of the form only: run on two forms with
    the same markup, it runs to its end on both or on none, and leaves the
    controls it writes, file inputs apart, holding the same in both. *)
Lemma applyFormState_lock (entries : props) (f1 h1 f1' : form) :
  Forall2 akin (elements f1) (elements h1) ->
  applyFormState (VObj entries) f1 = Done tt f1' ->
  exists h1', applyFormState (VObj entries) h1 = Done tt h1' /\
              locked (written entries f1) f1' h1'.
Proof.
  intros Hk Hrun. unfold applyFormState in *.
  apply bind_Done_inv in Hrun as ([] & f2 & H1 & Hrun).
  apply bind_Done_inv in Hrun as ([] & f3 & H2 & H3).
  assert (Hl0 : locked (fun _ => False) f1 h1) by (split; [done|by intros j e1 e2 []]).
  destruct (fields_lock f1 entries _ f1 h1 f2 eq_refl Hl0 H1) as (h2 & H1' & Hl2 & Hlay2).
  assert (exists h3, (if truthy (JS.get "_custom" entries)
                      then restoreCustomElements (JS.get "_custom" entries)
                      else mret tt) h2 = Done tt h3 /\
                     locked (fun j => False \/ named_by entries f1 j) f3 h3 /\
                     layout f3 = layout f1) as (h3 & H2' & Hl3 & Hlay3).
  { destruct (truthy (JS.get "_custom" entries)).
    - destruct (restoreCustomElements_done _ f2 f3 h2 H2 (akin_layout _ _ (proj1 Hl2)))
        as (h3 & H2').
      exists h3. split; [done|].
      pose proof (restoreCustomElements_fields _ _ _ H2) as Hf.
      pose proof (restoreCustomElements_fields _ _ _ H2') as Hh.
      split; [by apply (locked_same_fields _ f2 h2)|].
      by rewrite (same_fields_layout _ _ Hf).
    - injection H2 as <-. by exists h2. }
  unfold mbind, run_bind, bind. rewrite H1', H2'.
  destruct (truthy (JS.get "_unchecked" entries)) eqn:Htr.
  - destruct (JS.get "_unchecked" entries) eqn:Hu; try done.
    match type of H3 with
    | forEach ?names _ _ = _ =>
        destruct (unchecked_lock f1 names _ f3 h3 f1' Hlay3 Hl3 H3) as (h1' & H3' & Hl')
    end.
    exists h1'. split; [done|].
    eapply locked_weaken; [|exact Hl']. cbn beta. unfold written.
    intros j [Hn | (names' & Hu' & Hj)]; [by left; right|].
    rewrite Hu in Hu'. injection Hu' as <-. by right.
  - injection H3 as <-. exists h3. split; [done|].
    eapply locked_weaken; [|exact Hl3]. cbn beta. unfold written.
    intros j [Hn | (names' & Hu & Hj)]; [by right|].
    rewrite Hu in Htr. discriminate.
Qed.

End Lockstep.

(** ** Which controls [applyFormState] writes

    As in the section on what [applyFormState] leaves alone, with the type
    of a control taken into account: a file input is never written. *)
Section Frame.
Import JS DOM Run FreeformStateManager Invariants Rerender.

Variable Q : DOM.element -> DOM.element -> Prop.
Variable touch : control_type -> option string -> Prop.
Hypothesis Q_refl : forall e, Q e e.
Hypothesis Q_trans : forall a b c, Q a b -> Q b c -> Q a c.
Hypothesis Q_control : forall e e', Q e e' -> same_control e e'.
Hypothesis Q_checked :
  forall e b, el_type e = Checkbox \/ el_type e = Radio ->
              touch (el_type e) (el_name_attr e) -> Q e (with_checked b e).
Hypothesis Q_value :
  forall e s, match el_type e with
              | Textarea | ButtonElement | Input _ => True
              | _ => False
              end ->
              touch (el_type e) (el_name_attr e) -> Q e (with_value s e).
Hypothesis Q_options :
  forall e os, el_type e = SelectOne \/ el_type e = SelectMultiple ->
               select_by (fun _ => false) os = select_by (fun _ => false) (el_options e) ->
               touch (el_type e) (el_name_attr e) -> Q e (with_options os e).
Hypothesis Q_notice : forall e n, Q e (with_notice n e).

Local Abbreviation kept := (Invariants.kept Q).

Lemma framed_forEach {A} (items : list A) (g : A -> M form unit) (f : form) :
  (forall x f', x ∈ items -> Forall2 Q (elements f) (elements f') -> kept (g x) f') ->
  kept (forEach items g) f.
Proof.
  revert f. induction items as [|x rest IH]; intros f Hstep; [by apply kept_ret|].
  cbn [forEach]. apply (kept_bind Q Q_trans (g x) (fun _ => forEach rest g)).
  - apply Hstep; [by left | by apply Forall2_Q_refl].
  - intros [] f1 Hx. apply IH. intros y f2 Hy Hf2. apply Hstep; [by right|].
    eapply Forall2_trans; [exact Q_trans| |exact Hf2].
    pose proof (Hstep x f ltac:(by left) (Forall2_Q_refl Q Q_refl _)) as Hk.
    unfold Invariants.kept in Hk. by rewrite Hx in Hk.
Qed.

Lemma framed_related (f f' : form) (i : nat) (e' : DOM.element) :
  Forall2 Q (elements f) (elements f') ->
  elements f' !! i = Some e' ->
  exists e, elements f !! i = Some e /\
            el_type e' = el_type e /\ el_name_attr e' = el_name_attr e.
Proof.
  intros HQ He'. destruct (Forall2_lookup_r _ _ _ _ _ HQ He') as (e & He & Hq).
  exists e. split; [exact He | by apply Q_control].
Qed.

Lemma framed_uncheck_group (i : nat) (e : DOM.element) (f : form) :
  touch Radio (el_name_attr e) ->
  kept (forEach (seq 0 (length (elements f)))
          (fun j => match elements f !! j with
                    | Some other =>
                        if same_group e other && negb (i =? j)%nat
                        then update_element j (with_checked false)
                        else mret tt
                    | None => mret tt
                    end)) f.
Proof.
  intros Htouch. apply framed_forEach. intros j f' _ Hf'.
  destruct (elements f !! j) as [other|] eqn:Hother; [|by apply kept_ret].
  destruct (same_group e other && negb (i =? j)%nat) eqn:Hgroup; [|by apply kept_ret].
  apply (kept_update_element Q Q_refl). intros e' He'.
  destruct (framed_related f f' j e' Hf' He') as (o & Ho & Htype & Hname).
  assert (o = other) by congruence. subst o.
  apply andb_true_iff in Hgroup as [Hgroup _].
  pose proof (same_group_name e other Hgroup) as Hsame.
  unfold same_group in Hgroup. apply andb_true_iff in Hgroup as [Hr _].
  apply bool_decide_eq_true in Hr.
  apply Q_checked; [right; congruence|]. by rewrite Htype, Hname, Hsame, Hr.
Qed.

Lemma framed_set_radio_checked (i : nat) (b : bool) (f : form) :
  (forall e, elements f !! i = Some e ->
             el_type e = Radio /\ touch Radio (el_name_attr e)) ->
  kept (set_radio_checked i b) f.
Proof.
  intros Htouch. unfold set_radio_checked. apply (kept_get_state Q Q_refl Q_trans).
  destruct (elements f !! i) as [e|] eqn:He; [|by apply kept_ret].
  destruct (Htouch e eq_refl) as [Hr Ht].
  assert (Hloop : kept (if b then forEach (seq 0 (length (elements f)))
          (fun j => match elements f !! j with
                    | Some other =>
                        if same_group e other && negb (i =? j)%nat
                        then update_element j (with_checked false)
                        else mret tt
                    | None => mret tt
                    end) else mret tt) f).
  { destruct b; [by apply framed_uncheck_group | by apply kept_ret]. }
  apply (kept_bind Q Q_trans); [exact Hloop|].
  intros [] f' Hf'. apply (kept_update_element Q Q_refl). intros e' He'.
  unfold Invariants.kept in Hloop. rewrite Hf' in Hloop.
  destruct (framed_related f f' i e' Hloop He') as (o & Ho & Htype & Hname).
  assert (o = e) by congruence. subst o.
  apply Q_checked; [right; congruence|]. by rewrite Htype, Hname, Hr.
Qed.

Lemma framed_assign_value (i : nat) (e : DOM.element) (v : value) (f : form) :
  elements f !! i = Some e ->
  match el_type e with
  | SelectOne | Textarea | ButtonElement | Input _ => True
  | _ => False
  end ->
  touch (el_type e) (el_name_attr e) ->
  kept (assign_value i e v) f.
Proof.
  intros He Ht Htouch. unfold assign_value.
  destruct (el_type e) eqn:E; try done; destruct v; cbn [to_string];
    first [ apply kept_not_modelled
          | apply (kept_update_element Q Q_refl); intros e' He';
            assert (e' = e) as -> by congruence;
            first [ apply Q_value; [by rewrite E | by rewrite E]
                  | apply Q_options;
                    [left; exact E | apply select_first_erased | by rewrite E] ] ].
Qed.

Lemma framed_restore_element (v : value) (i : nat) (f : form) :
  (forall e, elements f !! i = Some e -> el_type e <> FileInput ->
             touch (el_type e) (el_name_attr e)) ->
  kept (restore_element v i) f.
Proof.
  intros Htouch. unfold restore_element. apply (kept_get_state Q Q_refl Q_trans).
  destruct (elements f !! i) as [e|] eqn:He; [|by apply kept_ret].
  destruct (el_type e) eqn:E; try (by apply kept_ret).
  all: assert (Ht : touch (el_type e) (el_name_attr e))
         by (apply Htouch; [done | congruence]).
  - destruct v; apply (kept_update_element Q Q_refl); intros e' He';
      assert (e' = e) as -> by congruence; (apply Q_checked; [by left | done]).
  - apply framed_set_radio_checked. intros e' He'. assert (e' = e) as -> by congruence.
    split; [done|]. by rewrite <- E.
  - destruct v; (apply framed_assign_value; [done | by rewrite E | done]).
  - destruct v; apply (kept_update_element Q Q_refl); intros e' He';
      assert (e' = e) as -> by congruence;
      (apply Q_options; [by right | apply select_by_erased | done]).
  - destruct v; (apply framed_assign_value; [done | by rewrite E | done]).
  - destruct v; (apply framed_assign_value; [done | by rewrite E | done]).
  - destruct v; (apply framed_assign_value; [done | by rewrite E | done]).
Qed.

Lemma framed_restoreField (key : string) (v : value) (f : form) :
  (forall t, t <> FileInput -> touch t (Some key)) ->
  kept (restoreField key v) f.
Proof.
  intros Htouch. unfold restoreField.
  apply (kept_get_state Q Q_refl Q_trans).
  destruct (overridden "querySelectorAll" f); [by apply kept_throw|].
  destruct (selector_safe key); [|by apply kept_not_modelled].
  apply framed_forEach. intros i f' Hi Hf'.
  apply framed_restore_element. intros e' He' Hnf.
  apply elem_of_query_all in Hi as (e & He & Hp).
  destruct (framed_related f f' i e' Hf' He') as (o & Ho & Htype & Hname).
  assert (o = e) by congruence. subst o. rewrite Hname.
  unfold has_name in Hp. apply bool_decide_eq_true in Hp. rewrite Hp. by apply Htouch.
Qed.

Lemma framed_force_unchecked (name : value) (f : form) :
  (forall s, to_string name = Some s -> touch Checkbox (Some s)) ->
  kept (force_unchecked name) f.
Proof.
  intros Htouch. unfold force_unchecked.
  destruct (to_string name) as [s|]; [|by apply kept_not_modelled].
  apply (kept_get_state Q Q_refl Q_trans).
  destruct (overridden "querySelector" f); [by apply kept_throw|].
  destruct (selector_safe s); [|by apply kept_not_modelled].
  destruct (query _ f) as [i|] eqn:Hq; [|by apply kept_ret].
  apply (kept_update_element Q Q_refl). intros e He.
  apply elem_of_query in Hq as (e0 & He0 & Hp).
  assert (e0 = e) by congruence. subst e0.
  apply andb_true_iff in Hp as [Ht Hp]. unfold has_name in Hp.
  apply bool_decide_eq_true in Hp. apply bool_decide_eq_true in Ht.
  apply Q_checked; [by left|]. rewrite Hp, Ht. by apply Htouch.
Qed.

Lemma framed_restoreCustomElements (custom : value) (f : form) :
  kept (restoreCustomElements custom) f.
Proof.
  apply (kept_restoreCustomElements Q (fun _ => False)); try done.
  intros e e' H. by apply Q_control.
Qed.

Lemma framed_fields (entries : props) (f : form) :
  (forall key v t, (key, v) ∈ entries -> String.prefix "_" key = false ->
                   t <> FileInput -> touch t (Some key)) ->
  kept (forEach entries
          (fun entry => if String.prefix "_" entry.1 then mret tt
                        else restoreField entry.1 entry.2)) f.
Proof.
  intros Hkeys. apply framed_forEach. intros [key v] f' Hin _. cbn [fst snd].
  destruct (String.prefix "_" key) eqn:Hp; [by apply kept_ret|].
  apply framed_restoreField. intros t Ht. by eapply Hkeys.
Qed.

Lemma framed_applyFormState (entries : props) (f : form) :
  (forall key v t, (key, v) ∈ entries -> String.prefix "_" key = false ->
                   t <> FileInput -> touch t (Some key)) ->
  (forall names name s, JS.get "_unchecked" entries = VArr names ->
                        name ∈ names -> to_string name = Some s ->
                        touch Checkbox (Some s)) ->
  kept (applyFormState (VObj entries)) f.
Proof.
  intros Hkeys Hnames. unfold applyFormState.
  apply (kept_bind Q Q_trans); [|intros [] f1 _; apply (kept_bind Q Q_trans)].
  - by apply framed_fields.
  - destruct (truthy _); [|by apply kept_ret]. apply framed_restoreCustomElements.
  - intros [] f2 _.
    destruct (truthy _); [|by apply kept_ret].
    destruct (JS.get "_unchecked" entries) eqn:Hu;
      try (by apply kept_throw); try (by apply kept_not_modelled).
    apply framed_forEach. intros name f' Hin _.
    apply framed_force_unchecked. intros s Hs. by eapply Hnames.
Qed.

End Frame.

Section SnapshotKeys.
Import JS DOM Run FreeformStateManager Shape Invariants Capture.

Variable opts : Options.

Lemma set_keys (key : string) (v : value) (s : props) : grows_by key s (JS.set key v s).
Proof.
  intros k. rewrite get_own_set. destruct (String.eqb key k) eqn:E.
  - apply String.eqb_eq in E as ->. split; [by left | by eexists].
  - apply String.eqb_neq in E. split; [by right | by intros [->|]].
Qed.

Lemma collect_entry_keys (key : string) (v : value) (s s' : props) :
  collect_entry opts (key, v) s = Done tt s' ->
  (excluded opts key = true /\ s' = s) \/ (excluded opts key = false /\ grows_by key s s').
Proof.
  unfold collect_entry. destruct (excluded opts key); [intros [= <-]; by left|].
  destruct (String.eqb key "__proto__"); [done|].
  unfold mbind, run_bind, bind, get_state, put_state.
  destruct (truthy (JS.get key s)); [destruct (JS.get key s)|];
    intros [= <-]; right; (split; [done | apply set_keys]).
Qed.

Lemma track_unchecked_keys (cb : DOM.element) (s s' : props) :
  track_unchecked opts cb s = Done tt s' -> s' = s \/ grows_by "_unchecked" s s'.
Proof.
  destruct (excluded opts (DOM.name cb)) eqn:Hex.
  { unfold track_unchecked. rewrite Hex. intros [= <-]. by left. }
  destruct (el_checked cb) eqn:Hc.
  { unfold track_unchecked. rewrite Hex, Hc. intros [= <-]. by left. }
  rewrite (track_unchecked_unfold opts cb s Hex Hc). cbv zeta.
  destruct (JS.get "_unchecked" _) eqn:Hget; try done.
  intros [= <-]. right. intros k.
  rewrite (set_keys "_unchecked" _ _ k).
  destruct (truthy (JS.get "_unchecked" s)); [done|].
  rewrite (set_keys "_unchecked" _ _ k). tauto.
Qed.

Lemma record_radio_keys (r : DOM.element) (s s' : props) :
  record_radio opts r s = Done tt s' -> s' = s \/ grows_by (DOM.name r) s s'.
Proof.
  unfold record_radio. destruct (excluded opts _); [intros [= <-]; by left|].
  destruct (String.eqb _ "__proto__"); [intros [= <-]; by left|].
  intros [= <-]. right. apply set_keys.
Qed.

Lemma extractFormState_keys (f : form) (st : props) :
  extractFormState opts f = Returns st ->
  origin opts f st /\
  (forall k v, (k, v) ∈ FormData_entries f -> excluded opts k = false ->
               is_Some (get_own k st)).
Proof.
  unfold extractFormState.
  destruct (extractFormState_passes opts f []) as [[] st0| |] eqn:Hrun; [|done..].
  intros [= <-]. unfold extractFormState_passes in Hrun.
  apply bind_Done_inv in Hrun as ([] & st1 & H1 & Hrun).
  apply guard_Done_inv in Hrun as [_ Hrun].
  apply bind_Done_inv in Hrun as ([] & st2 & H2 & Hrun).
  apply bind_Done_inv in Hrun as ([] & st3 & H3 & Hrun).
  injection Hrun as <-.
  split.
  - assert (Ho1 : origin opts f st1).
    { eapply (forEach_Done (origin opts f)); [| |exact H1].
      - intros [key v] s s' Hin Hs Hstep k Hk.
        destruct (collect_entry_keys key v s s' Hstep) as [[_ ->] | [_ Hg]]; [by apply Hs|].
        apply Hg in Hk as [-> | Hk]; [|by apply Hs]. right. right. left. by exists v.
      - intros k [x Hx]. discriminate. }
    assert (Ho2 : origin opts f st2).
    { eapply (forEach_Done (origin opts f)); [|exact Ho1|exact H2].
      intros cb s s' Hin Hs Hstep k Hk.
      destruct (track_unchecked_keys cb s s' Hstep) as [-> | Hg]; [by apply Hs|].
      apply Hg in Hk as [-> | Hk]; [by left | by apply Hs]. }
    assert (Ho3 : origin opts f st3).
    { eapply (forEach_Done (origin opts f)); [|exact Ho2|exact H3].
      intros r s s' Hin Hs Hstep k Hk.
      destruct (record_radio_keys r s s' Hstep) as [-> | Hg]; [by apply Hs|].
      apply Hg in Hk as [-> | Hk]; [|by apply Hs].
      apply list_elem_of_filter in Hin as [[Ht Hc] Hin].
      right. right. right. by exists r. }
    intros k Hk. apply (set_keys "_custom" _ _ k) in Hk as [-> | Hk]; [by right; left|].
    by apply Ho3.
  - intros k v Hin Hex.
    assert (Hk1 : is_Some (get_own k st1)).
    { destruct (forEach_visits (fun _ => True)
                  (fun (x : string * value) s =>
                     excluded opts x.1 = false -> is_Some (get_own x.1 s))
                  (FormData_entries f) (collect_entry opts)) with (s := @nil (string * value))
                  (s' := st1) as [_ Hall]; [| |done|exact H1|by apply (Hall (k, v))].
      - intros [key x] s s' _ _ Hstep. split; [done|]. cbn [fst]. intros Hx.
        destruct (collect_entry_keys key x s s' Hstep) as [[? _] | [_ Hg]]; [congruence|].
        apply Hg. by left.
      - intros [key x] [key' y] s s' _ _ HP Hstep Hx. cbn [fst] in *.
        destruct (collect_entry_keys key' y s s' Hstep) as [[_ ->] | [_ Hg]]; [by apply HP|].
        apply Hg. right. by apply HP. }
    assert (Hk2 : is_Some (get_own k st2)).
    { eapply (forEach_Done (fun s => is_Some (get_own k s))); [|exact Hk1|exact H2].
      intros cb s s' _ Hs Hstep.
      destruct (track_unchecked_keys cb s s' Hstep) as [-> | Hg]; [done|].
      apply Hg. by right. }
    assert (Hk3 : is_Some (get_own k st3)).
    { eapply (forEach_Done (fun s => is_Some (get_own k s))); [|exact Hk2|exact H3].
      intros r s s' _ Hs Hstep.
      destruct (record_radio_keys r s s' Hstep) as [-> | Hg]; [done|].
      apply Hg. by right. }
    apply (set_keys "_custom"). by right.
Qed.

End SnapshotKeys.

Section CaptureReady.
Import JS JSON DOM Run FreeformStateManager Payload Stored Shape Invariants Rerender Capture.

Variable opts : Options.
Variable f : form.
Hypothesis Hready : roundtrip_ready f = true.

Lemma ready_no_unchecked : no_control_named "_unchecked" f = true.
Proof.
  unfold no_control_named. apply forallb_forall. intros e He%list_elem_of_In.
  apply negb_true_iff, String.eqb_neq. unfold DOM.name.
  destruct (el_name_attr e) as [n|] eqn:Hn; [|done].
  cbn. by destruct (plain_name_facts n (ready_plain f Hready e n He Hn)) as (_ & _ & _ & ?).
Qed.

(** A name belongs to one control, or to radio buttons only. *)
Lemma ready_unique (i j : nat) (ei ej : DOM.element) (n : string) :
  elements f !! i = Some ei -> elements f !! j = Some ej ->
  el_name_attr ei = Some n -> el_name_attr ej = Some n ->
  j = i \/ (el_type ei = Radio /\ el_type ej = Radio /\
            (el_checked ej = true -> el_checked ei = false)).
Proof.
  intros Hi Hj Hni Hnj. destruct (decide (j = i)) as [|Hne]; [by left|]. right.
  destruct (ready_same_name f Hready j i ej ei n Hne Hj Hi Hnj Hni) as (? & ? & _ & ?).
  done.
Qed.

Lemma entry_in (e : DOM.element) (n : string) (v : value) :
  e ∈ elements f -> (n, v) ∈ entries_of e -> (n, v) ∈ FormData_entries f.
Proof.
  intros He Hin. unfold FormData_entries. apply list_elem_of_In, in_concat.
  exists (entries_of e). split; apply list_elem_of_In; [|done].
  apply list_elem_of_fmap. by exists e.
Qed.

Lemma entry_source (k : string) (v : value) :
  (k, v) ∈ FormData_entries f ->
  exists j c, elements f !! j = Some c /\ el_name_attr c = Some k /\ entries_of c <> [].
Proof.
  unfold FormData_entries. intros Hin%list_elem_of_In.
  apply in_concat in Hin as (es & Hes%list_elem_of_In & Hin%list_elem_of_In).
  apply list_elem_of_fmap in Hes as (c & -> & Hc).
  apply list_elem_of_lookup in Hc as (j & Hj). exists j, c. split; [done|].
  split; [|by intros E; rewrite E in Hin; apply elem_of_nil in Hin].
  destruct (entry_control (mkForm EmptyString EmptyString false [] [c] []) k v) as (c' & Hc' & Hn).
  { unfold FormData_entries. cbn. by rewrite app_nil_r. }
  cbn in Hc'. by apply list_elem_of_singleton in Hc' as ->.
Qed.

(** The entries of a control with a name, button or not. *)
Lemma entries_of_empty (e : DOM.element) (n : string) :
  el_name_attr e = Some n ->
  entries_of e <> [] ->
  is_button e = false /\
  match el_type e with
  | Checkbox | Radio => el_checked e = true
  | SelectOne | SelectMultiple => submitted_values e <> []
  | _ => True
  end.
Proof.
  unfold entries_of, submitted_values. intros ->.
  destruct (String.eqb n EmptyString); [done|].
  destruct (is_button e); [done|]. intros H. split; [done|].
  destruct (el_type e); try done.
  - by destruct (el_checked e).
  - by destruct (el_checked e).
  - intros E. rewrite <- (map_map opt_value (fun x => (n, VStr x))) in H.
    by rewrite E in H.
  - intros E. rewrite <- (map_map opt_value (fun x => (n, VStr x))) in H.
    by rewrite E in H.
Qed.

Lemma entries_of_full (e : DOM.element) (n : string) :
  e ∈ elements f ->
  el_name_attr e = Some n ->
  is_button e = false ->
  match el_type e with
  | Checkbox | Radio => el_checked e = true
  | SelectOne | SelectMultiple => submitted_values e <> []
  | _ => True
  end ->
  exists v, (n, v) ∈ entries_of e.
Proof.
  intros He Hn Hb Ht.
  destruct (plain_name_facts n (ready_plain f Hready e n He Hn)) as (Hne & _).
  apply String.eqb_neq in Hne.
  unfold entries_of, submitted_values in *. rewrite Hn, Hne, Hb.
  destruct (el_type e).
  - rewrite Ht. eexists. by left.
  - rewrite Ht. eexists. by left.
  - destruct (el_files e); eexists; by left.
  - destruct (filter _ (el_options e)) as [|o os]; [done|]. eexists. by left.
  - destruct (filter _ (el_options e)) as [|o os]; [done|]. eexists. by left.
  - eexists. by left.
  - eexists. by left.
  - eexists. by left.
Qed.

Variable st : props.
Hypothesis Hst : extractFormState opts f = Returns st.

Local Abbreviation st' := (omap (fun p : string * value => pair p.1 <$> reread p.2) st).

Lemma snapshot_facts :
  snapshot_ok f st /\ get_own "_custom" st = Some (VObj (extractCustomElements f)).
Proof.
  destruct (extractFormState_ready opts f Hready) as (st0 & Hst0 & Hok & Hcustom).
  assert (st0 = st) as -> by congruence. done.
Qed.

Lemma key_reread (k : string) (v : value) :
  get_own k st = Some v -> plain v -> (k, v) ∈ st'.
Proof.
  intros Hown Hp. destruct snapshot_facts as [(Hnd & _) _].
  apply get_own_elem_of. rewrite get_own_reread by done. rewrite Hown. exact Hp.
Qed.

Lemma reread_key (k : string) (v' : value) :
  (k, v') ∈ st' -> is_Some (get_own k st).
Proof.
  intros Hin. apply list_elem_of_omap in Hin as ([k0 v] & Hin & Hv). cbn [fst snd] in Hv.
  destruct (reread v) as [v0|]; [|done]. cbn in Hv. injection Hv as -> ->.
  destruct (get_own k st) as [x|] eqn:Hown; [by eexists|].
  by destruct (proj1 (elem_of_get_own k st) Hown v).
Qed.

Lemma unchecked_reread :
  JS.get "_unchecked" st' = VUndefined \/
  exists names,
    get_own "_unchecked" st = Some (VArr names) /\
    JS.get "_unchecked" st' = VArr names /\
    Forall (fun x => exists cb, cb ∈ elements f /\ el_type cb = Checkbox /\
                                el_checked cb = false /\ x = VStr (DOM.name cb)) names.
Proof.
  destruct snapshot_facts as [(Hnd & _ & Hun) _].
  destruct Hun as [Hnone | (names & Hown & Hall)].
  - left. unfold JS.get. rewrite get_own_reread by done. by rewrite Hnone.
  - right. exists names. split; [done|]. split; [|done].
    apply get_reread_unchecked; [done..|].
    unfold plain. cbn [reread]. f_equal. f_equal.
    clear Hown. induction Hall as [|x names (cb & _ & _ & _ & ->) _ IH]; [done|].
    cbn. by rewrite IH.
Qed.

End CaptureReady.

(** The controls that a snapshot pins down, for any state [es] with the
    keys of the snapshot [st] and its list of unchecked boxes. *)
Section CaptureEntries.
Import JS JSON DOM Run FreeformStateManager Payload Stored Shape Invariants Rerender Capture.

Variable opts : Options.
Variable f : form.
Hypothesis Hready : roundtrip_ready f = true.
Variable st : props.
Hypothesis Hst : extractFormState opts f = Returns st.
Variable es : props.
Hypothesis Hes_in : forall k v, get_own k st = Some v -> plain v -> exists v', (k, v') ∈ es.
Hypothesis Hes_key : forall k v', (k, v') ∈ es -> is_Some (get_own k st).
Hypothesis Hes_unchecked : JS.get "_unchecked" es = JS.get "_unchecked" st.

Lemma captured_written_in (i : nat) (e : DOM.element) :
  elements f !! i = Some e ->
  captured opts f e = true ->
  written es f i /\ el_type e <> FileInput.
Proof.
  intros Hi Hcap. pose proof (list_elem_of_lookup_2 _ _ _ Hi) as He.
  unfold captured in Hcap. destruct (el_name_attr e) as [n|] eqn:Hn; [|done].
  apply andb_true_iff in Hcap as [Hex%negb_true_iff Hcap].
  assert (Hkey : forall j c, elements f !! j = Some c -> el_name_attr c = Some n ->
                   String.prefix "_" n = false -> el_type e <> FileInput ->
                   is_button c = false ->
                   match el_type c with
                   | Checkbox | Radio => el_checked c = true
                   | SelectOne | SelectMultiple => submitted_values c <> []
                   | _ => True
                   end ->
                   written es f i).
  { intros j c Hj Hc Hp Hnf Hb Ht. left.
    pose proof (list_elem_of_lookup_2 _ _ _ Hj) as Hcin.
    destruct (entries_of_full f Hready c n Hcin Hc Hb Ht) as (v & Hv).
    pose proof (entry_in f c n v Hcin Hv) as Hin.
    destruct (proj2 (extractFormState_keys opts f st Hst) n v Hin Hex) as [v0 Hown].
    assert (Hp0 : plain v0).
    { destruct (extractFormState_plain opts f Hready st Hst n v0 Hown) as [Hp0 | Hfile];
        [done|].
      destruct Hfile as (x & Hx & Htx & Hnx).
      apply list_elem_of_lookup in Hx as (jx & Hjx).
      destruct (ready_unique f Hready i jx e x n Hi Hjx Hn Hnx) as [-> | (_ & Hr & _)];
        [|congruence].
      congruence. }
    destruct (Hes_in n v0 Hown Hp0) as (v' & Hv').
    exists n, v'. split; [done|]. split; [done|].
    apply elem_of_query_all. exists e. split; [done|].
      unfold has_name. by apply bool_decide_eq_true. }
  destruct (el_type e) eqn:Ht; try done.
  - split; [|done]. destruct (el_checked e) eqn:Hc.
    + cbn in Hcap. apply negb_true_iff in Hcap.
      apply (Hkey i e Hi Hn Hcap); [done| |by rewrite Ht].
      unfold is_button. by rewrite Ht.
    + right.
      assert (Hname : DOM.name e = n) by (by apply name_of_attr).
      destruct (extractFormState_lists_unchecked opts f st e (ready_no_unchecked f Hready)
                  Hst He Ht Hc)
        as (names & Hown & Hin); [by rewrite Hname|].
      exists names. split; [by rewrite Hes_unchecked, (get_of_own _ _ _ Hown)|]. exists (VStr n), n. rewrite <- Hname at 1.
      split; [done|]. split; [done|].
      unfold query.
      destruct (head (query_all (is_checkbox_named n) f)) as [j|] eqn:Hq.
      * apply head_Some_elem_of, elem_of_query_all in Hq as (c & Hj & Hp).
        apply andb_true_iff in Hp as [Htc%bool_decide_eq_true Hnc%bool_decide_eq_true].
        destruct (ready_unique f Hready i j e c n Hi Hj Hn Hnc) as [-> | (Hr & _)]; [done|congruence].
      * apply head_None in Hq.
        assert (Hi' : i ∈ query_all (is_checkbox_named n) f).
        { apply elem_of_query_all. exists e. split; [done|].
          unfold is_checkbox_named, has_name.
          apply andb_true_iff. split; by apply bool_decide_eq_true. }
        rewrite Hq in Hi'. by apply elem_of_nil in Hi'.
  - split; [|done].
    apply andb_true_iff in Hcap as [Hp%negb_true_iff Hex'].
    apply existsb_exists in Hex' as (r & Hr%list_elem_of_In & Hrp).
    apply andb_true_iff in Hrp as [Hrp Hrc]. apply andb_true_iff in Hrp as [Hrt Hrn].
    apply bool_decide_eq_true in Hrt, Hrn.
    apply list_elem_of_lookup in Hr as (j & Hj).
    apply (Hkey j r Hj Hrn Hp); [done| |by rewrite Hrt].
    unfold is_button. by rewrite Hrt.
  - split; [|done].
    apply andb_true_iff in Hcap as [Hp%negb_true_iff Hsel%negb_true_iff].
    apply bool_decide_eq_false in Hsel.
    apply (Hkey i e Hi Hn Hp); [done| |by rewrite Ht].
    unfold is_button. by rewrite Ht.
  - split; [|done].
    apply andb_true_iff in Hcap as [Hp%negb_true_iff Hsel%negb_true_iff].
    apply bool_decide_eq_false in Hsel.
    apply (Hkey i e Hi Hn Hp); [done| |by rewrite Ht].
    unfold is_button. by rewrite Ht.
  - split; [|done]. apply negb_true_iff in Hcap.
    apply (Hkey i e Hi Hn Hcap); [done| |by rewrite Ht].
    unfold is_button. by rewrite Ht.
  - split; [|done].
    apply andb_true_iff in Hcap as [Hp%negb_true_iff Hb%negb_true_iff].
    apply (Hkey i e Hi Hn Hp); [done|done|by rewrite Ht].
Qed.

Lemma uncaptured_untouched_in (i : nat) (e : DOM.element) :
  elements f !! i = Some e ->
  captured opts f e = false ->
  ~ touched es (el_type e) (el_name_attr e).
Proof.
  intros Hi Hcap Htouched. pose proof (list_elem_of_lookup_2 _ _ _ Hi) as He.
  destruct (extractFormState_ok opts f st (ready_no_unchecked f Hready) Hst) as [Hkeys Hunch].
  destruct Htouched as [(Hnf & k & v' & Hin & Hp & Hn)
                       | (Ht & names & name & n & Hu & Hname & Hs & Hn)].
  - pose proof (Hes_key k v' Hin) as Hown.
    assert (Hex : excluded opts k = false).
    { destruct (Hkeys k Hown) as [? | [-> | ->]]; [done|discriminate..]. }
    assert (Hsrc : exists j c, elements f !! j = Some c /\ el_name_attr c = Some k /\
                     is_button c = false /\
                     match el_type c with
                     | Checkbox | Radio => el_checked c = true
                     | SelectOne | SelectMultiple => submitted_values c <> []
                     | _ => True
                     end).
    { destruct (proj1 (extractFormState_keys opts f st Hst) k Hown)
        as [-> | [-> | [(v & Hv) | (r & Hr & Hrt & Hrc & Hrn)]]]; [discriminate..| |].
      - destruct (entry_source f k v Hv) as (j & c & Hj & Hc & Hne).
        exists j, c. split; [done|]. split; [done|]. by apply (entries_of_empty c k).
      - apply list_elem_of_lookup in Hr as (j & Hj). exists j, r. split; [done|].
        unfold DOM.name in Hrn. destruct (el_name_attr r) as [nr|] eqn:Hnr.
        + cbn in Hrn. subst nr. split; [done|]. unfold is_button. by rewrite Hrt.
        + cbn in Hrn. subst k.
          by destruct (plain_name_facts _ (ready_plain f Hready e _ He Hn)). }
    destruct Hsrc as (j & c & Hj & Hc & Hb & Hcond).
    unfold captured in Hcap. rewrite Hn, Hex, Hp in Hcap. cbn [negb andb] in Hcap.
    destruct (ready_unique f Hready i j e c k Hi Hj Hn Hc) as [-> | (Hr & Hrc & _)].
    + assert (c = e) as -> by congruence.
      destruct (el_type e) eqn:Ht; try done.
      * rewrite Hcond in Hcap. by rewrite orb_true_r in Hcap.
      * apply not_true_iff_false in Hcap. apply Hcap, existsb_exists. exists e.
        split; [by apply list_elem_of_In|]. unfold has_name.
        rewrite Hcond, !andb_true_r. apply andb_true_iff.
        split; by apply bool_decide_eq_true.
      * by rewrite bool_decide_eq_false_2 in Hcap.
      * by rewrite bool_decide_eq_false_2 in Hcap.
      * unfold is_button in Hb. by rewrite Ht in Hb.
      * by rewrite Hb in Hcap.
    + rewrite Hr in Hcap. rewrite Hrc in Hcond.
      apply not_true_iff_false in Hcap. apply Hcap, existsb_exists. exists c.
      split; [by eapply list_elem_of_In, list_elem_of_lookup_2|]. unfold has_name.
      rewrite Hcond, !andb_true_r. apply andb_true_iff.
      split; by apply bool_decide_eq_true.
  - rewrite Hes_unchecked in Hu.
    assert (Hown : get_own "_unchecked" st = Some (VArr names)).
    { destruct (get_own "_unchecked" st) as [x|] eqn:Hx.
      - by rewrite (get_of_own _ _ _ Hx) in Hu; subst x.
      - by rewrite (get_unchecked_None st Hx) in Hu. }
    destruct (snapshot_facts opts f Hready st Hst) as [(_ & _ & Hun) _].
    destruct Hun as [Hnone | (names' & Hown' & Hall)]; [congruence|].
    assert (names' = names) as -> by congruence.
    rewrite Forall_forall in Hall.
    destruct (Hall name Hname) as (cb & Hcb & Htcb & Hccb & ->).
    cbn in Hs. injection Hs as <-.
    destruct (Hunch _ Hown) as (items & [= <-] & Hitems).
    rewrite Forall_forall in Hitems.
    destruct (Hitems _ Hname) as (s & [= <-] & Hex).
    apply list_elem_of_lookup in Hcb as (j & Hj).
    assert (Hncb : el_name_attr cb = Some (DOM.name cb)).
    { unfold DOM.name in *. destruct (el_name_attr cb) as [x|]; [done|]. cbn in Hn.
      by destruct (plain_name_facts _ (ready_plain f Hready e _ He Hn)). }
    destruct (ready_unique f Hready i j e cb _ Hi Hj Hn Hncb) as [-> | (Hr & _)]; [|congruence].
    assert (cb = e) as -> by congruence.
    unfold captured in Hcap. rewrite Hn, Hex, Ht, Hccb in Hcap. done.
Qed.

End CaptureEntries.

Section CaptureOf.
Import JS JSON DOM Run FreeformStateManager Payload Stored Shape Invariants Rerender Capture.

Variable opts : Options.
Variable f : form.
Hypothesis Hready : roundtrip_ready f = true.
Variable st : props.
Hypothesis Hst : extractFormState opts f = Returns st.

Lemma unchecked_reread_same :
  JS.get "_unchecked" (omap (fun p : string * value => pair p.1 <$> reread p.2) st)
  = JS.get "_unchecked" st.
Proof.
  destruct (unchecked_reread opts f Hready st Hst) as [Hu | (names & Hown & Hu & _)].
  - rewrite Hu. destruct (snapshot_facts opts f Hready st Hst) as [(Hnd & _ & Hun) _].
    destruct Hun as [Hnone | (names & Hown & _)].
    + unfold JS.get. by rewrite Hnone.
    + unfold JS.get in Hu. rewrite get_own_reread, Hown in Hu by done. discriminate.
  - by rewrite Hu, (get_of_own _ _ _ Hown).
Qed.

Lemma captured_written (i : nat) (e : DOM.element) :
  elements f !! i = Some e ->
  captured opts f e = true ->
  written (omap (fun p : string * value => pair p.1 <$> reread p.2) st) f i /\
  el_type e <> FileInput.
Proof.
  apply (captured_written_in opts f Hready st Hst).
  - intros k v Hown Hp. exists v. by apply (key_reread opts f Hready st Hst).
  - apply unchecked_reread_same.
Qed.

Lemma uncaptured_untouched (i : nat) (e : DOM.element) :
  elements f !! i = Some e ->
  captured opts f e = false ->
  ~ touched (omap (fun p : string * value => pair p.1 <$> reread p.2) st)
      (el_type e) (el_name_attr e).
Proof.
  apply (uncaptured_untouched_in opts f Hready st Hst).
  - apply (reread_key st).
  - apply unchecked_reread_same.
Qed.

Lemma captured_written_direct (i : nat) (e : DOM.element) :
  elements f !! i = Some e ->
  captured opts f e = true ->
  written st f i /\ el_type e <> FileInput.
Proof.
  apply (captured_written_in opts f Hready st Hst).
  - intros k v Hown _. exists v. by apply get_own_elem_of.
  - reflexivity.
Qed.

Lemma uncaptured_untouched_direct (i : nat) (e : DOM.element) :
  elements f !! i = Some e ->
  captured opts f e = false ->
  ~ touched st (el_type e) (el_name_attr e).
Proof.
  apply (uncaptured_untouched_in opts f Hready st Hst).
  - intros k v' Hin. destruct (get_own k st) as [x|] eqn:Hown; [by eexists|].
    by destruct (proj1 (elem_of_get_own k st) Hown v').
  - reflexivity.
Qed.

End CaptureOf.


Section Transfer.
Import JS JSON DOM Run FreeformStateManager Payload Stored Shape Invariants Rerender Capture.

Lemma held_unless_writes (touch : control_type -> option string -> Prop) :
  (forall e, held_unless touch e e) /\
  (forall a b c, held_unless touch a b -> held_unless touch b c -> held_unless touch a c) /\
  (forall e e', held_unless touch e e' -> same_control e e') /\
  (forall e b, el_type e = Checkbox \/ el_type e = Radio ->
               touch (el_type e) (el_name_attr e) -> held_unless touch e (with_checked b e)) /\
  (forall e s, match el_type e with
               | Textarea | ButtonElement | Input _ => True
               | _ => False
               end ->
               touch (el_type e) (el_name_attr e) -> held_unless touch e (with_value s e)) /\
  (forall e os, el_type e = SelectOne \/ el_type e = SelectMultiple ->
                select_by (fun _ => false) os = select_by (fun _ => false) (el_options e) ->
                touch (el_type e) (el_name_attr e) ->
                held_unless touch e (with_options os e)) /\
  (forall e nt, held_unless touch e (with_notice nt e)).
Proof.
  unfold held_unless, same_control. split; [done|].
  split.
  { intros a b c [[Ht1 Hn1] H1] [[Ht2 Hn2] H2]. split; [split; congruence|].
    intros Hno. rewrite H2, H1; [done..|]. by rewrite Ht1, Hn1. }
  split; [by intros e e' [? _]|].
  repeat split; done.
Qed.

(** No write of [applyFormState] changes the markup of a control. *)
Lemma akin_writes :
  (forall e, akin e e) /\
  (forall a b c, akin a b -> akin b c -> akin a c) /\
  (forall e e', akin e e' -> same_control e e') /\
  (forall e b, el_type e = Checkbox \/ el_type e = Radio ->
               True -> akin e (with_checked b e)) /\
  (forall e s, match el_type e with
               | Textarea | ButtonElement | Input _ => True
               | _ => False
               end ->
               True -> akin e (with_value s e)) /\
  (forall e os, el_type e = SelectOne \/ el_type e = SelectMultiple ->
                select_by (fun _ => false) os = select_by (fun _ => false) (el_options e) ->
                True -> akin e (with_options os e)) /\
  (forall e nt, akin e (with_notice nt e)).
Proof.
  split; [done|].
  split; [unfold akin; intros a b c H1 H2; congruence|].
  split; [intros e e' H; by apply akin_control|].
  unfold akin, blank, field_state.
  split; [intros e b [E | E] _; cbn [with_checked el_type]; by rewrite E|].
  split; [intros e s Ht _; cbn [with_value el_type]; by destruct (el_type e)|].
  split.
  { intros e os [E | E] Hos _; cbn [with_options el_type el_options]; rewrite E;
      cbn [with_options el_type el_name_attr el_value el_checked el_options el_files];
      by rewrite Hos. }
  intros e nt. cbn [with_notice el_type]. by destruct (el_type e).
Qed.

Lemma applyFormState_markup (entries : props) (f : form) :
  kept akin (applyFormState (VObj entries)) f.
Proof.
  destruct akin_writes as (R & T & N & C & V & O & Nt).
  by apply (framed_applyFormState akin (fun _ _ => True) R T N C V O Nt).
Qed.

(** Every control that the state does not name keeps what it holds, also
    when [applyFormState] throws. *)
Lemma applyFormState_frame (entries : props) (f : form) :
  kept (held_unless (touched entries)) (applyFormState (VObj entries)) f.
Proof.
  destruct (held_unless_writes (touched entries)) as (R & T & N & C & V & O & Nt).
  apply (framed_applyFormState _ (touched entries) R T N C V O Nt).
  - intros key v t Hin Hp Ht. left. split; [done|]. by exists key, v.
  - intros names name s Hu Hin Hs. right. split; [done|]. by exists names, name, s.
Qed.

Lemma rerendered_akin (f g : form) :
  rerendered f g -> Forall2 akin (elements f) (elements g).
Proof.
  unfold rerendered, akin. generalize (elements f) as l1, (elements g) as l2.
  induction l1 as [|x l1 IH]; intros [|y l2]; cbn [map]; try done.
  intros [= Hxy H]. constructor; [done | by apply IH].
Qed.

(** Decoding a state [es] that leaves [f] as it is onto the same form
    rendered again: the controls it writes get what they hold in [f]. *)
Lemma entries_transfer (opts : Options) (f g f2 : form) (es : props) :
  (forall i e, elements f !! i = Some e -> captured opts f e = true ->
               written es f i /\ el_type e <> FileInput) ->
  (forall i e, elements f !! i = Some e -> captured opts f e = false ->
               ~ touched es (el_type e) (el_name_attr e)) ->
  applyFormState (VObj es) f = Done tt f2 ->
  map field_state (elements f2) = map field_state (elements f) ->
  rerendered f g ->
  exists g' : form,
    applyFormState (VObj es) g = Done tt g' /\
    forall i e_f e_g,
      elements f !! i = Some e_f -> elements g !! i = Some e_g ->
      exists e', elements g' !! i = Some e' /\
                 field_state e' = field_state (if captured opts f e_f then e_f else e_g).
Proof.
  intros Hwritten Huntouched Happly Hsame Hre.
  pose proof (rerendered_akin f g Hre) as Hakin.
  destruct (applyFormState_lock es f g f2 Hakin Happly) as (g' & Hg & Hl).
  exists g'. split; [exact Hg|].
  intros i e_f e_g Hf Hgi.
  pose proof (applyFormState_frame es g) as Hframe.
  unfold kept in Hframe.
  rewrite Hg in Hframe.
  destruct (Forall2_lookup_l _ _ _ _ _ Hframe Hgi) as (e' & He' & [Hctl Hheld]).
  exists e'. split; [done|].
  destruct (akin_control _ _ (Forall2_lookup_lr _ _ _ _ _ _ Hakin Hf Hgi)) as [Ht Hn].
  destruct (captured opts f e_f) eqn:Hcap.
  - destruct (Hwritten i e_f Hf Hcap) as [Hw Hnf].
    assert (Hf2 : exists x, elements f2 !! i = Some x /\ field_state x = field_state e_f).
    { assert (Hx : map field_state (elements f2) !! i = Some (field_state e_f)).
      { rewrite Hsame. by rewrite list_lookup_fmap, Hf. }
      rewrite list_lookup_fmap in Hx.
      destruct (elements f2 !! i) as [x|]; [|done]. cbn in Hx. exists x.
      split; [done | congruence]. }
    destruct Hf2 as (x & Hx & Hfx).
    rewrite <- Hfx. apply (proj2 Hl i x e' Hw Hx He').
    injection Hfx as -> _ _ _ _ _. done.
  - apply Hheld. rewrite Ht, Hn. by apply (Huntouched i e_f).
Qed.

(** Decoding what JSON rereads of the snapshot of a ready form onto the
    same form rendered again. *)
Lemma snapshot_transfers (opts : Options) (f g : form) :
  roundtrip_ready f = true ->
  rerendered f g ->
  exists (st st' : props) (g' : form),
    extractFormState opts f = Returns st /\
    reread (VObj st) = Some (VObj st') /\
    applyFormState (VObj st') g = Done tt g' /\
    forall i e_f e_g,
      elements f !! i = Some e_f -> elements g !! i = Some e_g ->
      exists e', elements g' !! i = Some e' /\
                 field_state e' = field_state (if captured opts f e_f then e_f else e_g).
Proof.
  intros Hready Hre.
  destruct (applyFormState_reread opts f Hready)
    as (st & st' & f2 & Hst & Hst' & Happly & Hsame).
  cbn [reread] in Hst'. injection Hst' as <-.
  destruct (entries_transfer opts f g f2
              (omap (fun p : string * value => pair p.1 <$> reread p.2) st)
              (captured_written opts f Hready st Hst)
              (uncaptured_untouched opts f Hready st Hst) Happly Hsame Hre)
    as (g' & Hg & Hfields).
  by exists st, (omap (fun p : string * value => pair p.1 <$> reread p.2) st), g'.
Qed.

End Transfer.

Section RoundTripClaim.
Import JS JSON DOM Run FreeformStateManager Payload Stored Shape Invariants Rerender Capture.




End RoundTripClaim.


Section Survives.
Import JS JSON DOM Run FreeformStateManager Payload Stored Shape Invariants Rerender Capture.



End Survives.

Section Again.
Import JS JSON DOM Run FreeformStateManager Shape Invariants Rerender Capture.

Lemma restoreField_unwritten (k : string) (v : value) (f f' : form) (j : nat)
    (e : DOM.element) :
  restoreField k v f = Done tt f' ->
  elements f !! j = Some e ->
  el_name_attr e <> Some k \/ el_type e = FileInput ->
  exists e', elements f' !! j = Some e' /\ field_state e' = field_state e.
Proof.
  intros Hrun Hj Hno.
  set (touch := fun (t : control_type) (a : option string) => t <> FileInput /\ a = Some k).
  destruct (held_unless_writes touch) as (R & T & N & C & V & O & Nt).
  pose proof (framed_restoreField (held_unless touch) touch R T N C V O k v f) as Hk.
  unfold kept in Hk. rewrite Hrun in Hk.
  destruct (Forall2_lookup_l _ _ _ _ _ (Hk ltac:(by intros t Ht)) Hj) as (e' & He' & [_ Hheld]).
  exists e'. split; [done|]. apply Hheld. intros [Hnf Hn]. by destruct Hno.
Qed.

Lemma force_unchecked_unwritten (name : value) (f f' : form) (j : nat) :
  force_unchecked name f = Done tt f' ->
  (forall n, to_string name = Some n -> query (is_checkbox_named n) f <> Some j) ->
  elements f' !! j = elements f !! j.
Proof.
  intros Hrun Hno. unfold force_unchecked in Hrun.
  destruct (to_string name) as [n|]; [|done].
  rewrite get_state_bind in Hrun.
  destruct (overridden "querySelector" f); [done|].
  destruct (selector_safe n); [|done].
  change (fun e => bool_decide (el_type e = Checkbox) && has_name n e)
    with (is_checkbox_named n) in Hrun.
  destruct (query (is_checkbox_named n) f) as [i|] eqn:Hq; [|by injection Hrun as <-].
  injection Hrun as <-. cbn [elements]. apply list_lookup_alter_ne.
  intros ->. by apply (Hno n).
Qed.

(** A control that the state does not single out keeps what it holds. *)
Lemma applyFormState_unwritten (entries : props) (f f' : form) (j : nat) (e : DOM.element) :
  applyFormState (VObj entries) f = Done tt f' ->
  elements f !! j = Some e ->
  ~ written entries f j \/ el_type e = FileInput ->
  exists e', elements f' !! j = Some e' /\ field_state e' = field_state e.
Proof.
  intros Hrun Hj Hno. unfold applyFormState in Hrun.
  apply bind_Done_inv in Hrun as ([] & f2 & H1 & Hrun).
  apply bind_Done_inv in Hrun as ([] & f3 & H2 & H3).
  set (I := fun h : form => layout h = layout f /\
                            exists e', elements h !! j = Some e' /\
                                       field_state e' = field_state e).
  assert (H0 : I f) by (split; [done | by exists e]).
  assert (HI2 : I f2).
  { eapply (forEach_Done I); [|exact H0|exact H1].
    intros [k v] h h' Hin [Hlay (e1 & He1 & Hf1)] Hstep. cbn [fst snd] in Hstep.
    destruct (String.prefix "_" k) eqn:Hp.
    { injection Hstep as <-. split; [done | by exists e1]. }
    split; [by rewrite (restoreField_layout k v h h' Hstep)|].
    destruct (restoreField_unwritten k v h h' j e1 Hstep He1) as (e2 & He2 & Hf2).
    - injection Hf1 as Ht Hn _ _ _ _. rewrite Ht, Hn.
      destruct Hno as [Hno | Hfile]; [|by right]. left. intros Hk. apply Hno.
      left. exists k, v. split; [done|]. split; [done|].
      apply elem_of_query_all. exists e. split; [done|].
      unfold has_name. by apply bool_decide_eq_true.
    - exists e2. split; [done | congruence]. }
  assert (HI3 : I f3).
  { destruct (truthy (JS.get "_custom" entries)); [|by injection H2 as <-].
    destruct HI2 as [Hlay (e2 & He2 & Hf2)].
    pose proof (restoreCustomElements_fields _ _ _ H2) as Hsame.
    split; [by rewrite (same_fields_layout _ _ Hsame)|].
    destruct (Forall2_lookup_l _ _ _ _ _ Hsame He2) as (e3 & He3 & Hf3).
    exists e3. split; [done|]. unfold same_fields in Hf3. congruence. }
  destruct (truthy (JS.get "_unchecked" entries)) eqn:Htr;
    [|injection H3 as <-; exact (proj2 HI3)].
  destruct (JS.get "_unchecked" entries) eqn:Hu; try done.
  apply proj2 with (A := layout f' = layout f). change (I f').
  eapply (forEach_Done I); [|exact HI3|exact H3].
  intros name h h' Hin HI Hstep.
  destruct HI as [Hlay (e1 & He1 & Hf1)].
  split; [by rewrite (force_unchecked_layout name h h' Hstep)|].
  exists e1. split; [|done].
  rewrite (force_unchecked_unwritten name h h' j Hstep); [done|].
  intros n Hn Hq.
  assert (Hq' : query (is_checkbox_named n) f = Some j).
  { unfold query in *.
    by rewrite (query_all_layout (is_checkbox_named n) h f (is_checkbox_named_layout n))
      by done. }
  destruct Hno as [Hno | Hfile].
  - apply Hno. right. eexists. split; [done|]. by exists name, n.
  - apply elem_of_query in Hq' as (e0 & He0 & Hp).
    apply andb_true_iff in Hp as [Ht%bool_decide_eq_true _]. congruence.
Qed.

Lemma named_by_dec (entries : props) (f : form) (j : nat) :
  named_by entries f j \/ ~ named_by entries f j.
Proof.
  induction entries as [|[k v] entries IH].
  { right. intros (k & v & Hin & _). by apply elem_of_nil in Hin. }
  destruct IH as [(k' & v' & Hin & H) | IH].
  { left. exists k', v'. split; [by right | done]. }
  destruct (String.prefix "_" k) eqn:Hp.
  - right. intros (k' & v' & Hin & Hp' & Hj).
    apply elem_of_cons in Hin as [[= -> ->] | Hin]; [congruence|].
    apply IH. by exists k', v'.
  - destruct (decide (j ∈ query_all (has_name k) f)) as [Hj | Hj].
    + left. exists k, v. split; [by left | done].
    + right. intros (k' & v' & Hin & Hp' & Hj').
      apply elem_of_cons in Hin as [[= -> ->] | Hin]; [done|].
      apply IH. by exists k', v'.
Qed.

Lemma unchecked_by_dec (names : list value) (f : form) (j : nat) :
  unchecked_by names f j \/ ~ unchecked_by names f j.
Proof.
  induction names as [|name names IH].
  { right. intros (name & n & Hin & _). by apply elem_of_nil in Hin. }
  destruct IH as [(name' & n & Hin & H) | IH].
  { left. exists name', n. split; [by right | done]. }
  destruct (to_string name) as [n|] eqn:Hn.
  - destruct (decide (query (is_checkbox_named n) f = Some j)) as [Hj | Hj].
    + left. exists name, n. split; [by left | done].
    + right. intros (name' & n' & Hin & Hn' & Hj').
      apply elem_of_cons in Hin as [-> | Hin]; [congruence|].
      apply IH. by exists name', n'.
  - right. intros (name' & n' & Hin & Hn' & Hj').
    apply elem_of_cons in Hin as [-> | Hin]; [congruence|].
    apply IH. by exists name', n'.
Qed.

Lemma written_dec (entries : props) (f : form) (j : nat) :
  written entries f j \/ ~ written entries f j.
Proof.
  unfold written. destruct (named_by_dec entries f j) as [H | H]; [by left; left|].
  destruct (JS.get "_unchecked" entries) eqn:Hu;
    try (right; intros [? | (names & [=] & _)]; done).
  match goal with
  | _ : JS.get _ _ = VArr ?names |- _ =>
      destruct (unchecked_by_dec names f j) as [Hn | Hn];
      [left; right; by exists names
      |right; intros [? | (names' & [= <-] & ?)]; done]
  end.
Qed.

Lemma written_layout (entries : props) (f h : form) (j : nat) :
  layout h = layout f -> written entries h j -> written entries f j.
Proof.
  intros Hlay [(k & v & Hin & Hp & Hj) | (names & Hu & name & n & Hin & Hn & Hq)].
  - left. exists k, v. split; [done|]. split; [done|].
    by rewrite <- (query_all_layout (has_name k) f h (has_name_layout k) Hlay).
  - right. exists names. split; [done|]. exists name, n. split; [done|]. split; [done|].
    unfold query in *.
    by rewrite <- (query_all_layout (is_checkbox_named n) f h
                    (is_checkbox_named_layout n) Hlay).
Qed.

(** X16.  Restoring twice is restoring once: when [applyFormState] has run to
    its end on a form, running it again with the same state on the result
    runs to its end too and leaves every control with the value,
    checkedness, options and files it already has. *)
Theorem applyFormState_idempotent (state : value) (f f1 : form) :
  applyFormState state f = Done tt f1 ->
  exists f2, applyFormState state f1 = Done tt f2 /\
             map field_state (elements f2) = map field_state (elements f1).
Proof.
  intros Hrun.
  destruct state as [| | | | | | | |entries];
    try discriminate; try (injection Hrun as <-; by exists f).
  pose proof (applyFormState_markup entries f) as Hm. unfold kept in Hm. rewrite Hrun in Hm.
  destruct (applyFormState_lock entries f f1 f1 Hm Hrun) as (f2 & Hrun2 & [Hk Hl]).
  exists f2. split; [done|].
  apply list_eq. intros j. rewrite !list_lookup_fmap.
  destruct (elements f1 !! j) as [e1|] eqn:He1.
  - destruct (Forall2_lookup_l _ _ _ _ _ Hk He1) as (e2 & He2 & _). rewrite He2. cbn.
    f_equal.
    destruct (written_dec entries f j) as [Hw | Hw];
      [destruct (decide (el_type e1 = FileInput)) as [Hfile | Hfile]|].
    + destruct (applyFormState_unwritten entries f1 f2 j e1 Hrun2 He1 ltac:(by right))
        as (e2' & He2' & Hf). congruence.
    + by apply (Hl j e1 e2).
    + destruct (applyFormState_unwritten entries f1 f2 j e1 Hrun2 He1) as (e2' & He2' & Hf);
        [|congruence].
      left. intros Hw1. apply Hw. apply (written_layout entries f f1 j); [|done].
      by apply akin_layout.
  - assert (He2 : elements f2 !! j = None).
    { apply lookup_ge_None. apply lookup_ge_None in He1.
      by rewrite <- (Forall2_length _ _ _ Hk). }
    by rewrite He2.
Qed.

End Again.

Section Notice.
Import JS JSON DOM Run FreeformStateManager Payload Stored Shape Invariants Rerender Capture
       Widgets.

Lemma ends_with_append (suffix a : string) : ends_with suffix (a +:+ suffix) = true.
Proof.
  unfold ends_with. rewrite length_append.
  apply andb_true_iff. split; [apply Nat.leb_le; lia|].
  replace (String.length a + String.length suffix - String.length suffix)%nat
    with (String.length a) by lia.
  apply String.eqb_eq.
  induction a as [|c a IH]; [rewrite append_nil; apply substring_all|].
  rewrite append_cons. exact IH.
Qed.

Lemma file_lines_infos (files : list FileRef) (h : form) :
  file_lines (map file_info files) h = Done (notice_of files) h.
Proof.
  induction files as [|x files IH]; [reflexivity|].
  cbn [map file_lines notice_of].
  erewrite bind_run by reflexivity.
  erewrite bind_run by exact IH. reflexivity.
Qed.

Lemma foldl_visits {A B} (g : B -> A -> B) (I P : B -> Prop) (x0 : A) (l : list A) :
  x0 ∈ l ->
  (forall x b, x ∈ l -> I b -> I (g b x)) ->
  (forall b, I b -> P (g b x0)) ->
  (forall x b, x ∈ l -> I b -> P b -> P (g b x)) ->
  forall b, I b -> I (foldl g b l) /\ P (foldl g b l).
Proof.
  intros Hin HI Hx0 HP.
  assert (Hgen : forall rest, (forall x, x ∈ rest -> x ∈ l) ->
            forall b, I b -> (x0 ∈ rest \/ P b) -> I (foldl g b rest) /\ P (foldl g b rest)).
  { induction rest as [|y rest IH]; intros Hsub b Hb Hor.
    - split; [done|]. destruct Hor as [H | H]; [by apply elem_of_nil in H | done].
    - cbn [foldl]. apply IH.
      + intros x Hx. apply Hsub. by right.
      + apply HI; [apply Hsub; by left | done].
      + destruct Hor as [[-> | H]%elem_of_cons | H].
        * right. by apply Hx0.
        * by left.
        * right. apply HP; [apply Hsub; by left | done..]. }
  intros b Hb. apply Hgen; [done | done | by left].
Qed.

Lemma query_unique (p : DOM.element -> bool) (f : form) (i : nat) :
  i ∈ query_all p f -> (forall j, j ∈ query_all p f -> j = i) -> query p f = Some i.
Proof.
  intros Hi Hall. unfold query.
  destruct (head (query_all p f)) as [j|] eqn:Hq.
  - f_equal. apply Hall. by apply head_Some_elem_of.
  - apply head_None in Hq. rewrite Hq in Hi. by apply elem_of_nil in Hi.
Qed.

Lemma restore_custom_parts (k : string) (v : value) (h h' : form) :
  restore_custom (k, v) h = Done tt h' ->
  exists h1, elements h1 = elements h /\ files_part k v h1 = Done tt h'.
Proof.
  unfold restore_custom. intros Hrun.
  apply bind_Done_inv in Hrun as ([] & h1 & H1 & H2).
  exists h1. split; [|exact H2].
  destruct (ends_with "_open" k); [|by injection H1 as <-]. cbv zeta in H1.
  rewrite get_state_bind in H1.
  destruct (overridden "querySelector" h); [done|].
  destruct (selector_safe _); [|done].
  destruct (query _ h) as [i|]; [|by injection H1 as <-].
  destruct (elements h !! i ≫= el_widget) as [w|]; [|by injection H1 as <-].
  destruct (truthy v); by injection H1 as <-.
Qed.

Lemma fold_widgets_inv (P : props -> Prop) (step : nat -> widget -> props -> props)
    (f : form) (custom : props) :
  (forall w wd c, P c -> P (step w wd c)) ->
  P custom -> P (fold_widgets step f custom).
Proof.
  intros Hstep. unfold fold_widgets.
  generalize (imap (fun i w => (i, w)) (widgets f)). intros l. revert custom.
  induction l as [|[w wd] l IH]; intros custom Hc; [done|].
  cbn [foldl]. apply IH. by apply Hstep.
Qed.

Section OneUpload.
Variable f : form.
Variable i : nat.
Variable e : DOM.element.
Variable w : nat.
Variable wd : widget.
Variable n : string.
Hypothesis Hi : elements f !! i = Some e.
Hypothesis Htype : el_type e = FileInput.
Hypothesis Hname : el_name_attr e = Some n.
Hypothesis Honly : only_file_input f i.
Hypothesis Hwidget : el_widget e = Some w.
Hypothesis Hwd : widgets f !! w = Some wd.
Hypothesis Hclass : w_class wd = FileUploaderInput.
Hypothesis Hfiles : el_files e <> [].

Local Abbreviation key := (n +:+ "_files").
Local Abbreviation infos := (VArr (map file_info (el_files e))).

Lemma found_file_input (w' : nat) (j : nat) (x : DOM.element) :
  list_find (fun e => in_widget w' e && bool_decide (el_type e = FileInput) = true)
            (elements f) = Some (j, x) ->
  x = e.
Proof.
  intros (Hj & Hp & _)%list_find_Some.
  apply andb_true_iff in Hp as [_ Ht%bool_decide_eq_true].
  assert (j = i) as -> by (by eapply Honly). congruence.
Qed.

Lemma uploader_state_ours (w' : nat) (wd' : widget) (c : props) :
  uploader_state f w' wd' c = c \/ uploader_state f w' wd' c = JS.set key infos c.
Proof.
  unfold uploader_state. destruct (bool_decide _); [|by left].
  destruct (list_find _ (elements f)) as [[j x]|] eqn:Hfind; [|by left].
  apply found_file_input in Hfind as ->.
  destruct (el_files e) as [|file files] eqn:Hf; [by left|]. right.
  by rewrite (name_of_attr e n Hname).
Qed.

Lemma uploader_state_sets (c : props) :
  uploader_state f w wd c = JS.set key infos c.
Proof.
  unfold uploader_state. rewrite bool_decide_eq_true_2 by done.
  destruct (list_find _ (elements f)) as [[j x]|] eqn:Hfind.
  - apply found_file_input in Hfind as ->.
    destruct (el_files e) as [|file files] eqn:Hf; [done|].
    by rewrite (name_of_attr e n Hname).
  - apply list_find_None in Hfind. rewrite Forall_forall in Hfind.
    destruct (Hfind e (list_elem_of_lookup_2 _ _ _ Hi)).
    apply andb_true_iff. split; [|by apply bool_decide_eq_true].
    unfold in_widget. by apply bool_decide_eq_true.
Qed.

Lemma custom_values (k : string) (v : value) :
  (k, v) ∈ extractCustomElements f -> v = VBool true \/ (k, v) = (key, infos).
Proof.
  revert k v. unfold extractCustomElements.
  apply (fold_widgets_inv
           (fun c => forall k v, (k, v) ∈ c -> v = VBool true \/ (k, v) = (key, infos))).
  { intros w' wd' c Hc k v Hin.
    destruct (uploader_state_ours w' wd' c) as [Heq | Heq]; rewrite Heq in Hin;
      [by apply Hc|].
    destruct (elem_of_set _ _ _ _ _ Hin) as [-> | Hold]; [by right | by apply Hc]. }
  apply (fold_widgets_inv (fun c => forall k v, (k, v) ∈ c -> v = VBool true \/ _)).
  { intros w' wd' c Hc k v Hin. unfold open_select_state in Hin.
    destruct (_ && _); [|by apply Hc].
    destruct (list_find _ (elements f)) as [[j x]|]; [|by apply Hc].
    destruct (negb _); [|by apply Hc].
    destruct (elem_of_set _ _ _ _ _ Hin) as [[= _ ->] | Hold]; [by left | by apply Hc]. }
  intros k v Hin. by apply elem_of_nil in Hin.
Qed.

Lemma custom_has : (key, infos) ∈ extractCustomElements f.
Proof.
  apply get_own_elem_of. unfold extractCustomElements, fold_widgets.
  apply (foldl_visits (fun acc (iw : nat * widget) => uploader_state f iw.1 iw.2 acc)
           (fun _ => True) (fun c => get_own key c = Some infos) (w, wd)); try done.
  - apply elem_of_lookup_imap. by exists w, wd.
  - intros c _. cbn [fst snd]. rewrite uploader_state_sets. apply get_own_set_eq.
  - intros [w' wd'] c _ _ Hc. cbn [fst snd].
    destruct (uploader_state_ours w' wd' c) as [-> | ->]; [done | apply get_own_set_eq].
Qed.

Lemma file_query (h : form) :
  layout h = layout f ->
  query (fun e => bool_decide (el_type e = FileInput) && has_name n e) h = Some i.
Proof.
  intros Hlay. unfold query.
  rewrite (query_all_layout _ f h);
    [|intros x x' Ht Hn; unfold has_name; by rewrite Ht, Hn|done].
  apply query_unique.
  - apply elem_of_query_all. exists e. split; [done|].
    apply andb_true_iff. split; apply bool_decide_eq_true; done.
  - intros j (x & Hx & Hp)%elem_of_query_all.
    apply andb_true_iff in Hp as [Ht%bool_decide_eq_true _]. by eapply Honly.
Qed.

Hypothesis Hkey : remove_first "_files" key = n.
Hypothesis Hsafe : selector_safe n = true.

Lemma files_part_shows (h h' : form) :
  layout h = layout f ->
  files_part key infos h = Done tt h' ->
  shows (notice_of (el_files e)) i h'.
Proof.
  intros Hlay. unfold files_part. rewrite ends_with_append. cbv zeta.
  rewrite Hkey, get_state_bind.
  destruct (overridden "querySelector" h); [done|].
  rewrite Hsafe, (file_query h Hlay).
  unfold displayFileInfo.
  erewrite bind_run by reflexivity.
  erewrite bind_run by apply file_lines_infos.
  intros [= <-].
  destruct (lookup_lt_is_Some_2 (elements h) i) as [x Hx].
  { apply lookup_lt_Some in Hi.
    apply (f_equal length) in Hlay. unfold layout in Hlay.
    rewrite !length_map in Hlay. lia. }
  eexists. split.
  - cbn [elements]. by rewrite !list_lookup_alter_eq, Hx.
  - reflexivity.
Qed.

Lemma restore_custom_shows (h h' : form) :
  layout h = layout f ->
  restore_custom (key, infos) h = Done tt h' ->
  shows (notice_of (el_files e)) i h'.
Proof.
  intros Hlay (h1 & Hel & Hrun)%restore_custom_parts.
  apply (files_part_shows h1 h'); [|done]. unfold layout. by rewrite Hel.
Qed.

Lemma restore_custom_keeps (k : string) (v : value) (h h' : form) :
  (k, v) ∈ extractCustomElements f ->
  layout h = layout f ->
  shows (notice_of (el_files e)) i h ->
  restore_custom (k, v) h = Done tt h' ->
  shows (notice_of (el_files e)) i h'.
Proof.
  intros Hin Hlay Hshows Hrun.
  destruct (custom_values k v Hin) as [-> | [= -> ->]]; [|by apply (restore_custom_shows h)].
  apply restore_custom_parts in Hrun as (h1 & Hel & Hrun).
  assert (h' = h1) as ->.
  { unfold files_part in Hrun. destruct (ends_with "_files" k); [|by injection Hrun as <-].
    cbv zeta in Hrun. rewrite get_state_bind in Hrun.
    destruct (overridden "querySelector" h1); [done|].
    destruct (selector_safe (remove_first "_files" k)); [|done].
    destruct (query _ h1); by injection Hrun as <-. }
  unfold shows. by rewrite Hel.
Qed.

(** Replaying the custom widgets of [f] on a form with the controls of [f]
    leaves the notice on the file input. *)
Lemma restoreCustomElements_shows (h h' : form) :
  layout h = layout f ->
  restoreCustomElements (VObj (extractCustomElements f)) h = Done tt h' ->
  shows (notice_of (el_files e)) i h' /\ layout h' = layout h.
Proof.
  intros Hlay Hrun. cbn [restoreCustomElements] in Hrun.
  destruct (forEach_visits (fun s => layout s = layout f)
              (fun entry s => entry = (key, infos) -> shows (notice_of (el_files e)) i s)
              (extractCustomElements f) restore_custom) with (s := h) (s' := h')
    as [Hlay' Hall]; [| |done|done|].
  - intros [k v] s s' Hin Hs Hstep. split.
    + by rewrite (restore_custom_layout _ _ _ Hstep).
    + intros [= -> ->]. by apply (restore_custom_shows s).
  - intros x [k v] s s' Hin Hs HP Hstep Hx.
    apply (restore_custom_keeps k v s s' Hin Hs); [by apply HP | done].
  - split; [|congruence]. by apply (Hall (key, infos) custom_has).
Qed.

End OneUpload.

Lemma same_notice_writes :
  (forall e, same_notice e e) /\
  (forall a b c, same_notice a b -> same_notice b c -> same_notice a c) /\
  (forall e b, True -> same_notice e (with_checked b e)).
Proof.
  unfold same_notice. split; [done|]. split; [|done].
  intros a b c [H1 H2] [H3 H4]. split; congruence.
Qed.

(** The pass over the list of unchecked boxes leaves every notice alone. *)
Lemma unchecked_pass_shows (unchecked : value) (lines : notice) (i : nat) (h h' : form) :
  (if truthy unchecked then
     match unchecked with
     | VArr names => forEach names force_unchecked
     | VStr _ | VNum _ | VBool _ | VFile _ => throw
     | _ => not_modelled
     end
   else mret tt) h = Done tt h' ->
  shows lines i h -> shows lines i h'.
Proof.
  intros Hrun (x & Hx & Hn).
  destruct (truthy unchecked); [|by injection Hrun as <-; exists x].
  destruct unchecked; try done.
  destruct same_notice_writes as (R & T & C).
  assert (Hk : kept same_notice (forEach items force_unchecked) h).
  { apply (framed_forEach same_notice R T). intros name h1 _ _.
    by apply (kept_force_unchecked same_notice (fun _ => True) R T C). }
  unfold kept in Hk. rewrite Hrun in Hk.
  destruct (Forall2_lookup_l _ _ _ _ _ Hk Hx) as (x' & Hx' & [_ Hsame]).
  exists x'. split; [done | congruence].
Qed.

(** Decoding what JSON rereads of the snapshot of a ready form with one
    upload field onto the same form rendered again. *)
Lemma snapshot_shows_files (opts : Options) (f g : form) (i : nat) (e : DOM.element)
    (w : nat) (wd : widget) (n : string) :
  roundtrip_ready f = true ->
  rerendered f g ->
  elements f !! i = Some e -> el_type e = FileInput -> el_name_attr e = Some n ->
  only_file_input f i ->
  el_widget e = Some w -> widgets f !! w = Some wd -> w_class wd = FileUploaderInput ->
  el_files e <> [] ->
  remove_first "_files" (n +:+ "_files") = n ->
  exists (st st' : props) (g' : form),
    extractFormState opts f = Returns st /\
    reread (VObj st) = Some (VObj st') /\
    applyFormState (VObj st') g = Done tt g' /\
    shows (notice_of (el_files e)) i g'.
Proof.
  intros Hready Hre Hi Ht Hn Honly Hw Hwd Hclass Hfiles Hkey.
  destruct (snapshot_transfers opts f g Hready Hre)
    as (st & st' & g' & Hst & Hst' & Hg & _).
  exists st, st', g'. split; [done|]. split; [done|]. split; [done|].
  cbn [reread] in Hst'. injection Hst' as <-.
  destruct (snapshot_facts opts f Hready st Hst) as [(Hnd & _) Hcustom].
  assert (Hc' : JS.get "_custom" (omap (fun p : string * value => pair p.1 <$> reread p.2) st)
                = VObj (extractCustomElements f)).
  { unfold JS.get. rewrite get_own_reread by done. rewrite Hcustom. cbn [mbind option_bind].
    by rewrite (plain_custom _ (extractCustomElements_entries f Hready)). }
  unfold applyFormState in Hg.
  apply bind_Done_inv in Hg as ([] & g2 & H1 & Hg).
  apply bind_Done_inv in Hg as ([] & g3 & H2 & H3).
  rewrite Hc' in H2. cbn [truthy] in H2.
  assert (Hlay : layout g2 = layout f).
  { rewrite (same_control_kept_generic _ g g2 H1). by apply akin_layout, rerendered_akin. }
  assert (Hsafe : selector_safe n = true).
  { by destruct (plain_name_facts n (ready_plain f Hready e n
                   (list_elem_of_lookup_2 _ _ _ Hi) Hn)) as (_ & ? & _). }
  destruct (restoreCustomElements_shows f i e w wd n Hi Ht Hn Honly Hw Hwd Hclass Hfiles
              Hkey Hsafe g2 g3 Hlay H2) as [Hshows _].
  exact (unchecked_pass_shows _ _ _ g3 g' H3 Hshows).
Qed.

(** Saving a form, and restoring what was saved onto a form [g] on which
    the saved snapshot can be applied. *)
Lemma save_then_restore
    (w : world) (formId : string) (fd : formData) (f : form) (st st' : props) :
  forms w !! formId = Some fd ->
  nodes (document w) !! element fd = Some f ->
  extractFormState (options w) f = Returns st ->
  reread (VObj st) = Some (VObj st') ->
  sized_files f = true ->
  - safe_integer <= now w <= safe_integer ->
  exists w1 : world,
    saveFormState formId w = Done tt w1 /\
    forall (w2 : world) (fd2 : formData) (g g' : form),
      forms w2 !! formId = Some fd2 ->
      getStorage w2 !! storageKey fd2 = getStorage w1 !! storageKey fd ->
      nodes (document w2) !! element fd2 = Some g ->
      now w2 - now w <= maxAge ->
      applyFormState (VObj st') g = Done tt g' ->
      exists w3 : world,
        restoreFormState formId w2 = Done tt w3 /\
        nodes (document w3) !! element fd2 = Some g' /\
        getStorage w3 = getStorage w2.
Proof.
  intros Hfd Hnode Hst Hst' Hsized Hnow.
  destruct (saveFormState_run w formId fd f st Hfd Hnode Hst Hsized Hnow)
    as (text & st'' & Hrun & Hst'' & Hparse).
  exists (saved formId fd text w). split; [done|].
  intros w2 fd2 g g' Hfd2 Hkey Hg Hage Happly.
  assert (st'' = VObj st') as -> by congruence.
  rewrite getStorage_saved, lookup_insert_eq in Hkey.
  pose proof (restoreFormState_parsed w2 formId fd2 text _ (now w) Hfd2 Hkey Hparse eq_refl)
    as Hrestore.
  change (JS.get "state" _) with (VObj st') in Hrestore.
  rewrite bool_decide_eq_false_2 in Hrestore by lia.
  rewrite Hrestore. unfold try_catch, on_node. rewrite Hg, Happly.
  eexists. split; [reflexivity|]. split; [|reflexivity].
  cbn [document set_document nodes]. apply lookup_insert_eq.
Qed.

(** X17.  The notice about the files chosen before survives a new rendering
    of the form.  Save a ready form whose only file input sits in a
    [.fileuploader-input] widget, holds at least one file, and has a name
    n such that removing the first [_files] from n_files gives n.  Then a
    restore within 24 hours onto the form rendered again runs to its end
    and leaves next to that file input the notice that lists, in order,
    every file chosen at the save with its name and its formatted size. *)
Theorem file_notice_survives
    (w : world) (formId : string) (fd : formData) (f : form)
    (i : nat) (e : DOM.element) (wi : nat) (wd : widget) (n : string) :
  forms w !! formId = Some fd ->
  nodes (document w) !! element fd = Some f ->
  roundtrip_ready f = true ->
  sized_files f = true ->
  - safe_integer <= now w <= safe_integer ->
  elements f !! i = Some e -> el_type e = FileInput -> el_name_attr e = Some n ->
  only_file_input f i ->
  el_widget e = Some wi -> widgets f !! wi = Some wd -> w_class wd = FileUploaderInput ->
  el_files e <> [] ->
  remove_first "_files" (n +:+ "_files") = n ->
  exists w1 : world,
    saveFormState formId w = Done tt w1 /\
    forall (w2 : world) (fd2 : formData) (g : form),
      forms w2 !! formId = Some fd2 ->
      getStorage w2 !! storageKey fd2 = getStorage w1 !! storageKey fd ->
      nodes (document w2) !! element fd2 = Some g ->
      rerendered f g ->
      now w2 - now w <= maxAge ->
      exists (w3 : world) (g' : form),
        restoreFormState formId w2 = Done tt w3 /\
        nodes (document w3) !! element fd2 = Some g' /\
        shows (notice_of (el_files e)) i g'.
Proof.
  intros Hfd Hnode Hready Hsized Hnow Hi Ht Hn Honly Hw Hwd Hclass Hfiles Hkey.
  destruct (extractFormState_ready (options w) f Hready) as (st & Hst & _).
  destruct (save_then_restore w formId fd f st _ Hfd Hnode Hst eq_refl Hsized Hnow)
    as (w1 & Hsave & Hrestore).
  exists w1. split; [done|]. intros w2 fd2 g Hfd2 Hstored Hg Hre Hage.
  destruct (snapshot_shows_files (options w) f g i e wi wd n Hready Hre Hi Ht Hn Honly
              Hw Hwd Hclass Hfiles Hkey) as (st0 & st' & g' & Hst0 & Hst' & Happly & Hshows).
  assert (st0 = st) as -> by congruence.
  cbn [reread] in Hst'. injection Hst' as <-.
  destruct (Hrestore w2 fd2 g g' Hfd2 Hstored Hg Hage Happly) as (w3 & Hr & Hnode3 & _).
  by exists w3, g'.
Qed.

End Notice.

Section OpenFacts.
Import JS DOM Run FreeformStateManager Registry Selects.

Lemma opens_refl (h : form) : opens h h.
Proof. by split. Qed.

Lemma opens_trans (a b c : form) : opens a b -> opens b c -> opens a c.
Proof.
  intros [[E1 W1] O1] [[E2 W2] O2]. split; [split; congruence|].
  intros w Hw. by apply O2, O1.
Qed.

Lemma keeps_opens_element (i : nat) (g : DOM.element -> DOM.element) :
  (forall e, el_widget (g e) = el_widget e) ->
  keeps opens (update_element i g).
Proof.
  intros Hg h. unfold update_element, modify. split; [split|done]; cbn [elements widgets].
  - apply list_eq. intros j. rewrite !list_lookup_fmap.
    destruct (decide (j = i)) as [->|Hne].
    + rewrite list_lookup_alter_eq. destruct (elements h !! i); [|done]. cbn. by rewrite Hg.
    + by rewrite list_lookup_alter_ne.
  - reflexivity.
Qed.

Lemma keeps_opens_widget (w : nat) :
  keeps opens (update_widget w (fun wd => mkWidget (w_class wd) true)).
Proof.
  intros h. unfold update_widget, modify. split; [split|]; cbn [elements widgets].
  - reflexivity.
  - apply list_eq. intros j. rewrite !list_lookup_fmap.
    destruct (decide (j = w)) as [->|Hne].
    + rewrite list_lookup_alter_eq. by destruct (widgets h !! w).
    + by rewrite list_lookup_alter_ne.
  - intros j (wd & Hwd & Ho). unfold open_at. cbn [widgets].
    destruct (decide (j = w)) as [->|Hne].
    + rewrite list_lookup_alter_eq, Hwd. by eexists.
    + rewrite list_lookup_alter_ne by done. by exists wd.
Qed.

Ltac opens_step :=
  lazymatch goal with
  | |- keeps _ (mret _) => apply (keeps_ret opens opens_refl)
  | |- keeps _ throw => apply (keeps_throw opens opens_refl)
  | |- keeps _ not_modelled => apply (keeps_not_modelled opens)
  | |- keeps _ (update_element _ _) =>
      apply keeps_opens_element;
      let y := fresh "y" in intros y; try reflexivity; destruct (el_notice y); reflexivity
  | |- keeps _ (update_widget _ _) => apply keeps_opens_widget
  | |- keeps _ (get_state ≫= _) => apply (keeps_get_state opens); intros ?
  | |- keeps _ (forEach _ _) =>
      apply (keeps_forEach opens opens_refl opens_trans); intros ?
  | |- keeps _ (_ ≫= _) => apply (keeps_bind opens opens_trans); [|intros ?]
  | |- keeps _ (match ?x with _ => _ end) => destruct x
  end.

Lemma opens_set_radio_checked (i : nat) (b : bool) : keeps opens (set_radio_checked i b).
Proof. unfold set_radio_checked. repeat opens_step. Qed.

Lemma opens_assign_value (i : nat) (e : DOM.element) (v : value) :
  keeps opens (assign_value i e v).
Proof. unfold assign_value. repeat opens_step. Qed.

Lemma opens_restore_element (v : value) (i : nat) : keeps opens (restore_element v i).
Proof.
  unfold restore_element.
  repeat first [apply opens_set_radio_checked | apply opens_assign_value | opens_step].
Qed.

Lemma opens_restoreField (name : string) (v : value) : keeps opens (restoreField name v).
Proof. unfold restoreField. repeat first [apply opens_restore_element | opens_step]. Qed.

Lemma opens_file_line (file : value) : keeps opens (file_line file).
Proof. unfold file_line. repeat opens_step. Qed.

Lemma opens_file_lines (fileInfos : list value) : keeps opens (file_lines fileInfos).
Proof.
  induction fileInfos as [|file rest IH]; cbn [file_lines]; [opens_step|].
  apply (keeps_bind opens opens_trans); [apply opens_file_line|intros l].
  apply (keeps_bind opens opens_trans); [apply IH|intros ls]. opens_step.
Qed.

Lemma opens_displayFileInfo (i : nat) (fileInfos : list value) :
  keeps opens (displayFileInfo i fileInfos).
Proof.
  unfold displayFileInfo. repeat first [apply opens_file_lines | opens_step].
Qed.

Lemma opens_restore_custom (entry : string * value) : keeps opens (restore_custom entry).
Proof.
  unfold restore_custom. destruct entry as [key v].
  repeat first [apply opens_displayFileInfo | opens_step].
Qed.

Lemma opens_force_unchecked (name : value) : keeps opens (force_unchecked name).
Proof. unfold force_unchecked. repeat opens_step. Qed.

Lemma opens_files_part (key : string) (v : value) : keeps opens (Widgets.files_part key v).
Proof.
  unfold Widgets.files_part. repeat first [apply opens_displayFileInfo | opens_step].
Qed.

Lemma opens_fields (entries : props) :
  keeps opens (forEach entries
                 (fun entry => if String.prefix "_" entry.1 then mret tt
                               else restoreField entry.1 entry.2)).
Proof. repeat first [apply opens_restoreField | opens_step]. Qed.

Lemma opens_unchecked (unchecked : value) :
  keeps opens (if truthy unchecked then
                 match unchecked with
                 | VArr names => forEach names force_unchecked
                 | VStr _ | VNum _ | VBool _ | VFile _ => throw
                 | _ => not_modelled
                 end
               else mret tt).
Proof. repeat first [apply opens_force_unchecked | opens_step]. Qed.

Lemma same_widgets_trans (a b c : form) :
  same_widgets a b -> same_widgets b c -> same_widgets a c.
Proof. intros [E1 W1] [E2 W2]. split; congruence. Qed.

End OpenFacts.

Section OneSelect.
Import JS JSON DOM Run FreeformStateManager Payload Stored Shape Invariants Rerender Capture
       Registry Widgets Selects.

Variable f : form.
Variable ws : nat.
Variable wd : widget.
Variable ih : nat.
Variable eh : DOM.element.
Variable n : string.
Hypothesis Hready : roundtrip_ready f = true.
Hypothesis Hwd : widgets f !! ws = Some wd.
Hypothesis Hclass : w_class wd = SelectMultipleWidget.
Hypothesis Hopen : w_open wd = true.
Hypothesis Hfind :
  list_find (fun e => in_widget ws e && bool_decide (el_type e = Input "hidden") = true)
            (elements f) = Some (ih, eh).
Hypothesis Hname : el_name_attr eh = Some n.
Hypothesis Hkey : remove_first "_open" (n +:+ "_open") = n.

Local Abbreviation key := (n +:+ "_open").

Lemma hidden_input :
  elements f !! ih = Some eh /\ el_widget eh = Some ws /\ el_type eh = Input "hidden".
Proof.
  apply list_find_Some in Hfind as (Hi & Hp & _).
  apply andb_true_iff in Hp as [Hw%bool_decide_eq_true Ht%bool_decide_eq_true]. done.
Qed.

Lemma hidden_name : n <> EmptyString /\ selector_safe n = true.
Proof.
  destruct hidden_input as (Hi & _).
  by destruct (plain_name_facts n (ready_plain f Hready eh n
                 (list_elem_of_lookup_2 _ _ _ Hi) Hname)) as (? & ? & _).
Qed.

Lemma open_select_state_sets (c : props) :
  open_select_state f ws wd c = JS.set key (VBool true) c.
Proof.
  unfold open_select_state. rewrite Hclass, Hopen, bool_decide_eq_true_2 by done.
  cbn [andb]. rewrite Hfind, (name_of_attr eh n Hname).
  destruct hidden_name as [Hne _]. apply String.eqb_neq in Hne. by rewrite Hne.
Qed.

Lemma custom_truthy :
  exists v, (key, v) ∈ extractCustomElements f /\ truthy v = true.
Proof.
  assert (H : exists v, get_own key (extractCustomElements f) = Some v /\ truthy v = true).
  { unfold extractCustomElements.
    apply (fold_widgets_inv (fun c => exists v, get_own key c = Some v /\ truthy v = true)).
    { intros w' wd' c (v & Hv & Ht). unfold uploader_state.
      destruct (bool_decide (w_class wd' = FileUploaderInput)); [|by exists v].
      destruct (list_find (fun e => in_widget w' e && bool_decide (el_type e = FileInput)
                                    = true) (elements f)) as [[j x]|]; [|by exists v].
      destruct (el_files x) as [|file files]; [by exists v|].
      rewrite get_own_set.
      destruct (String.eqb _ key); [eexists; split; reflexivity | by exists v]. }
    unfold fold_widgets.
    apply (foldl_visits (fun acc (iw : nat * widget) => open_select_state f iw.1 iw.2 acc)
             (fun _ => True) (fun c => exists v, get_own key c = Some v /\ truthy v = true)
             (ws, wd)); try done.
    - apply elem_of_lookup_imap. by exists ws, wd.
    - intros c _. cbn [fst snd]. rewrite open_select_state_sets, get_own_set_eq.
      eexists; split; reflexivity.
    - intros [w' wd'] c _ _ (v & Hv & Ht). cbn [fst snd]. unfold open_select_state.
      destruct (bool_decide (w_class wd' = SelectMultipleWidget) && w_open wd');
        [|by exists v].
      destruct (list_find (fun e => in_widget w' e
                                    && bool_decide (el_type e = Input "hidden") = true)
                          (elements f)) as [[j x]|]; [|by exists v].
      destruct (negb (String.eqb (DOM.name x) EmptyString)); [|by exists v].
      rewrite get_own_set.
      destruct (String.eqb _ key); [eexists; split; reflexivity | by exists v]. }
  destruct H as (v & Hv & Ht). exists v. split; [by apply get_own_elem_of | done].
Qed.

(** The select input that the key names is found in every form that has
    the controls and the widgets of [f]. *)
Lemma select_query (h : form) :
  layout h = layout f -> same_widgets f h ->
  query (fun e => is_input e && has_name n e
                  && match el_widget e with
                     | Some w => bool_decide (w_class <$> widgets h !! w
                                              = Some SelectMultipleWidget)
                     | None => false
                     end) h = Some ih /\
  elements h !! ih ≫= el_widget = Some ws.
Proof.
  intros Hlay [Hel Hcl]. destruct hidden_input as (Hi & Hw & Ht).
  destruct (layout_lookup f h ih eh Hlay Hi) as (x & Hx & Htx & Hnx).
  assert (Hwx : el_widget x = Some ws).
  { assert (H : map el_widget (elements h) !! ih = Some (Some ws))
      by (by rewrite Hel, list_lookup_fmap, Hi; cbn; rewrite Hw).
    rewrite list_lookup_fmap, Hx in H. cbn in H. congruence. }
  assert (Hcx : w_class <$> widgets h !! ws = Some SelectMultipleWidget).
  { rewrite <- list_lookup_fmap.
    change (map w_class (widgets h) !! ws = Some SelectMultipleWidget).
    by rewrite Hcl, list_lookup_fmap, Hwd; cbn; rewrite Hclass. }
  split; [|by rewrite Hx; cbn].
  apply query_unique.
  - apply elem_of_query_all. exists x. split; [done|].
    unfold is_input, has_name. rewrite Htx, Ht, Hnx, Hwx, Hname.
    by rewrite !bool_decide_eq_true_2.
  - intros j (y & Hy & Hp)%elem_of_query_all.
    apply andb_true_iff in Hp as [Hp _]. apply andb_true_iff in Hp as [_ Hny].
    apply bool_decide_eq_true in Hny.
    destruct (layout_lookup h f j y (eq_sym Hlay) Hy) as (y0 & Hy0 & _ & Hny0).
    destruct (ready_unique f Hready ih j eh y0 n Hi Hy0 Hname ltac:(congruence))
      as [-> | (Hr & _)]; [done|congruence].
Qed.

Lemma restore_custom_opens (v : value) (h h' : form) :
  layout h = layout f -> same_widgets f h ->
  truthy v = true ->
  restore_custom (key, v) h = Done tt h' ->
  open_at ws h'.
Proof.
  intros Hlay Hsame Htruthy Hrun. unfold restore_custom in Hrun.
  apply bind_Done_inv in Hrun as ([] & h1 & H1 & H2).
  change (files_part key v h1 = Done tt h') in H2.
  rewrite ends_with_append in H1. cbv zeta in H1.
  destruct hidden_name as [_ Hsafe].
  destruct (select_query h Hlay Hsame) as [Hq Hw].
  rewrite Hkey, get_state_bind in H1.
  destruct (overridden "querySelector" h); [done|].
  rewrite Hsafe, Hq, Hw, Htruthy in H1.
  injection H1 as <-.
  pose proof (opens_files_part key v
                (mkForm (form_id h) (form_name h) (form_data_freeform h) (form_classes h)
                        (elements h)
                        (alter (fun wd => mkWidget (w_class wd) true) ws (widgets h))))
    as Hk.
  rewrite H2 in Hk. apply (proj2 Hk). unfold open_at. cbn [widgets].
  rewrite list_lookup_alter_eq.
  assert (Hws : is_Some (widgets h !! ws)).
  { destruct Hsame as [_ Hcl].
    assert (H : is_Some (map w_class (widgets h) !! ws))
      by (rewrite Hcl, list_lookup_fmap, Hwd; by eexists).
    rewrite list_lookup_fmap in H. by destruct (widgets h !! ws); [eexists|destruct H]. }
  destruct Hws as [x Hx]. rewrite Hx. by eexists.
Qed.

(** Replaying the custom widgets of [f] on a form with the controls and
    the widgets of [f] opens the select. *)
Lemma restoreCustomElements_opens (h h' : form) :
  layout h = layout f -> same_widgets f h ->
  restoreCustomElements (VObj (extractCustomElements f)) h = Done tt h' ->
  open_at ws h' /\ opens h h'.
Proof.
  intros Hlay Hsame Hrun. cbn [restoreCustomElements] in Hrun.
  destruct custom_truthy as (v & Hin & Htruthy).
  destruct (forEach_visits (fun s => layout s = layout f /\ opens h s)
              (fun entry s => entry.1 = key -> truthy entry.2 = true -> open_at ws s)
              (extractCustomElements f) restore_custom) with (s := h) (s' := h')
    as [[Hlay' Ho] Hall]; [| |split; [done | apply opens_refl]|done|].
  - intros [k x] s s' _ [Hs Hos] Hstep.
    pose proof (opens_restore_custom (k, x) s) as Hk. rewrite Hstep in Hk.
    split; [split|].
    + by rewrite (restore_custom_layout _ _ _ Hstep).
    + by apply (opens_trans h s s').
    + cbn [fst snd]. intros -> Ht.
      apply (restore_custom_opens x s s'); try done.
      by apply (same_widgets_trans f h s); [|apply Hos].
  - intros x [k y] s s' _ _ HP Hstep Hx Ht.
    pose proof (opens_restore_custom (k, y) s) as Hk. rewrite Hstep in Hk.
    apply (proj2 Hk). by apply HP.
  - split; [|done]. by apply (Hall (key, v) Hin).
Qed.

End OneSelect.

Section SelectSurvives.
Import JS JSON DOM Run FreeformStateManager Payload Stored Shape Invariants Rerender Capture
       Registry Widgets Selects.

(** Decoding what JSON rereads of the snapshot of a ready form with an
    open select onto the same form rendered again. *)
Lemma snapshot_opens (opts : Options) (f g : form) (ws : nat) (wd : widget)
    (ih : nat) (eh : DOM.element) (n : string) :
  roundtrip_ready f = true ->
  rerendered f g -> same_widgets f g ->
  widgets f !! ws = Some wd -> w_class wd = SelectMultipleWidget -> w_open wd = true ->
  list_find (fun e => in_widget ws e && bool_decide (el_type e = Input "hidden") = true)
            (elements f) = Some (ih, eh) ->
  el_name_attr eh = Some n ->
  remove_first "_open" (n +:+ "_open") = n ->
  exists (st st' : props) (g' : form),
    extractFormState opts f = Returns st /\
    reread (VObj st) = Some (VObj st') /\
    applyFormState (VObj st') g = Done tt g' /\
    open_at ws g'.
Proof.
  intros Hready Hre Hsame Hwd Hclass Hopen Hfind Hname Hkey.
  destruct (snapshot_transfers opts f g Hready Hre)
    as (st & st' & g' & Hst & Hst' & Hg & _).
  exists st, st', g'. split; [done|]. split; [done|]. split; [done|].
  cbn [reread] in Hst'. injection Hst' as <-.
  destruct (snapshot_facts opts f Hready st Hst) as [(Hnd & _) Hcustom].
  assert (Hc' : JS.get "_custom" (omap (fun p : string * value => pair p.1 <$> reread p.2) st)
                = VObj (extractCustomElements f)).
  { unfold JS.get. rewrite get_own_reread by done. rewrite Hcustom. cbn [mbind option_bind].
    by rewrite (plain_custom _ (extractCustomElements_entries f Hready)). }
  unfold applyFormState in Hg.
  apply bind_Done_inv in Hg as ([] & g2 & H1 & Hg).
  apply bind_Done_inv in Hg as ([] & g3 & H2 & H3).
  rewrite Hc' in H2. cbn [truthy] in H2.
  assert (Hlay : layout g2 = layout f).
  { rewrite (same_control_kept_generic _ g g2 H1). by apply akin_layout, rerendered_akin. }
  pose proof (opens_fields (omap (fun p : string * value => pair p.1 <$> reread p.2) st) g)
    as Ho1.
  rewrite H1 in Ho1.
  destruct (restoreCustomElements_opens f ws wd ih eh n Hready Hwd Hclass Hopen Hfind Hname
              Hkey g2 g3 Hlay) as [Hopen3 _]; [|done|].
  { by apply (same_widgets_trans f g g2); [|apply Ho1]. }
  pose proof (opens_unchecked
                (JS.get "_unchecked"
                   (omap (fun p : string * value => pair p.1 <$> reread p.2) st)) g3) as Ho3.
  rewrite H3 in Ho3. by apply (proj2 Ho3).
Qed.

(** X18.  An open multi-select survives a new rendering of the form.  Save a
    ready form in which a [.selectMultiple] widget is open and the first
    hidden input inside it has a name n such that removing the first
    [_open] from n_open gives n.  Then a restore within 24 hours onto the
    form rendered again, with the same widgets around the same controls,
    open or closed, runs to its end and leaves that widget open. *)
Theorem open_select_survives
    (w : world) (formId : string) (fd : formData) (f : form)
    (ws : nat) (wd : widget) (ih : nat) (eh : DOM.element) (n : string) :
  forms w !! formId = Some fd ->
  nodes (document w) !! element fd = Some f ->
  roundtrip_ready f = true ->
  sized_files f = true ->
  - safe_integer <= now w <= safe_integer ->
  widgets f !! ws = Some wd -> w_class wd = SelectMultipleWidget -> w_open wd = true ->
  list_find (fun e => in_widget ws e && bool_decide (el_type e = Input "hidden") = true)
            (elements f) = Some (ih, eh) ->
  el_name_attr eh = Some n ->
  remove_first "_open" (n +:+ "_open") = n ->
  exists w1 : world,
    saveFormState formId w = Done tt w1 /\
    forall (w2 : world) (fd2 : formData) (g : form),
      forms w2 !! formId = Some fd2 ->
      getStorage w2 !! storageKey fd2 = getStorage w1 !! storageKey fd ->
      nodes (document w2) !! element fd2 = Some g ->
      rerendered f g -> same_widgets f g ->
      now w2 - now w <= maxAge ->
      exists (w3 : world) (g' : form),
        restoreFormState formId w2 = Done tt w3 /\
        nodes (document w3) !! element fd2 = Some g' /\
        open_at ws g'.
Proof.
  intros Hfd Hnode Hready Hsized Hnow Hwd Hclass Hopen Hfind Hname Hkey.
  destruct (extractFormState_ready (options w) f Hready) as (st & Hst & _).
  destruct (save_then_restore w formId fd f st _ Hfd Hnode Hst eq_refl Hsized Hnow)
    as (w1 & Hsave & Hrestore).
  exists w1. split; [done|]. intros w2 fd2 g Hfd2 Hstored Hg Hre Hsame Hage.
  destruct (snapshot_opens (options w) f g ws wd ih eh n Hready Hre Hsame Hwd Hclass Hopen
              Hfind Hname Hkey) as (st0 & st' & g' & Hst0 & Hst' & Happly & Hopen').
  assert (st0 = st) as -> by congruence.
  cbn [reread] in Hst'. injection Hst' as <-.
  destruct (Hrestore w2 fd2 g g' Hfd2 Hstored Hg Hage Happly) as (w3 & Hr & Hnode3 & _).
  by exists w3, g'.
Qed.

End SelectSurvives.

Section StoredNames.
Import JS JSON DOM Run FreeformStateManager Payload Stored Shape Invariants Rerender Capture
       Widgets.

Lemma append_cancel (a b s : string) : a +:+ s = b +:+ s -> a = b.
Proof.
  revert b. induction a as [|c a IH]; intros [|d b] H.
  - reflexivity.
  - apply (f_equal String.length) in H. rewrite append_nil, append_cons in H.
    cbn [String.length] in H. rewrite length_append in H. lia.
  - apply (f_equal String.length) in H. rewrite append_nil, append_cons in H.
    cbn [String.length] in H. rewrite length_append in H. lia.
  - rewrite !append_cons in H. injection H as -> H. f_equal. by apply IH.
Qed.

(** X19.  Exclusion does not reach the custom widgets.  For a ready form
    with an upload widget whose first file input holds files, every
    snapshot records under [_custom], with the key n_files, the name, size
    and type of each chosen file, whatever [excludeFields] holds: also
    when the name n of the file input is excluded. *)
Theorem excluded_upload_is_recorded
    (opts : Options) (f : form) (w : nat) (wd : widget) (i : nat) (e : DOM.element)
    (n : string) :
  roundtrip_ready f = true ->
  widgets f !! w = Some wd -> w_class wd = FileUploaderInput ->
  list_find (fun e => in_widget w e && bool_decide (el_type e = FileInput) = true)
            (elements f) = Some (i, e) ->
  el_name_attr e = Some n ->
  el_files e <> [] ->
  exists (st custom : props),
    extractFormState opts f = Returns st /\
    get_own "_custom" st = Some (VObj custom) /\
    get_own (n +:+ "_files") custom = Some (VArr (map file_info (el_files e))).
Proof.
  intros Hready Hwd Hclass Hfind Hname Hfiles.
  destruct (extractFormState_ready opts f Hready) as (st & Hst & _ & Hcustom).
  exists st, (extractCustomElements f). split; [done|]. split; [done|].
  pose proof Hfind as (Hi & Hp & _)%list_find_Some.
  apply andb_true_iff in Hp as [Hw%bool_decide_eq_true Ht%bool_decide_eq_true].
  destruct (plain_name_facts n (ready_plain f Hready e n
              (list_elem_of_lookup_2 _ _ _ Hi) Hname)) as (Hne & _).
  unfold extractCustomElements, fold_widgets.
  apply (foldl_visits (fun acc (iw : nat * widget) => uploader_state f iw.1 iw.2 acc)
           (fun _ => True)
           (fun c => get_own (n +:+ "_files") c = Some (VArr (map file_info (el_files e))))
           (w, wd)); try done.
  - apply elem_of_lookup_imap. by exists w, wd.
  - intros c _. cbn [fst snd]. unfold uploader_state.
    rewrite bool_decide_eq_true_2, Hfind by done.
    destruct (el_files e) as [|file files] eqn:Hf; [done|].
    rewrite (name_of_attr e n Hname). apply get_own_set_eq.
  - intros [w' wd'] c _ _ Hc. cbn [fst snd]. unfold uploader_state.
    destruct (bool_decide (w_class wd' = FileUploaderInput)); [|done].
    destruct (list_find (fun e => in_widget w' e && bool_decide (el_type e = FileInput)
                                  = true) (elements f)) as [[j x]|] eqn:Hx; [|done].
    destruct (el_files x) as [|file files] eqn:Hf; [done|].
    rewrite get_own_set.
    destruct (String.eqb (DOM.name x +:+ "_files") (n +:+ "_files")) eqn:E; [|done].
    apply String.eqb_eq, append_cancel in E.
    apply list_find_Some in Hx as (Hj & _ & _).
    assert (Hnx : el_name_attr x = Some n).
    { unfold DOM.name in E. destruct (el_name_attr x) as [nx|]; cbn in E; congruence. }
    destruct (ready_unique f Hready i j e x n Hi Hj Hname Hnx) as [-> | (Hr & _)];
      [|congruence].
    assert (x = e) as -> by congruence. by rewrite Hf.
Qed.

End StoredNames.

Section KeySet.
Import JS DOM Run FreeformStateManager Shape Invariants Capture Keys.

Variable opts : Options.

Lemma track_unchecked_grows (cb : DOM.element) (s s' : props) :
  track_unchecked opts cb s = Done tt s' ->
  s' = s \/
  (excluded opts (DOM.name cb) = false /\ el_checked cb = false /\
   grows_by "_unchecked" s s').
Proof.
  destruct (excluded opts (DOM.name cb)) eqn:Hex.
  { unfold track_unchecked. rewrite Hex. intros [= <-]. by left. }
  destruct (el_checked cb) eqn:Hc.
  { unfold track_unchecked. rewrite Hex, Hc. intros [= <-]. by left. }
  intros H. destruct (track_unchecked_keys opts cb s s' H) as [-> | Hg]; [by left|].
  by right.
Qed.

Lemma record_radio_grows (r : DOM.element) (s s' : props) :
  record_radio opts r s = Done tt s' ->
  s' = s \/
  (excluded opts (DOM.name r) = false /\ DOM.name r <> "__proto__" /\
   grows_by (DOM.name r) s s').
Proof.
  unfold record_radio. destruct (excluded opts _); [intros [= <-]; by left|].
  destruct (String.eqb _ "__proto__") eqn:E; [intros [= <-]; by left|].
  apply String.eqb_neq in E.
  intros [= <-]. right. split; [done|]. split; [done|]. apply set_keys.
Qed.

(** X20.  What a snapshot holds.  When [extractFormState] returns, the
    snapshot has a key k exactly when k is [_custom]; or k is [_unchecked]
    and some checkbox of the form is unchecked and not excluded; or k is
    not excluded and is the name of a FormData entry of the form, or the
    name of a checked radio button (the empty string, for one without a
    name attribute). *)
Theorem snapshot_keys (f : form) (st : props) (k : string) :
  extractFormState opts f = Returns st ->
  is_Some (get_own k st) <-> stored_key opts f k.
Proof.
  unfold extractFormState.
  destruct (extractFormState_passes opts f []) as [[] st0| |] eqn:Hrun; [|done..].
  intros [= <-]. pose proof Hrun as Hpasses. unfold extractFormState_passes in Hrun.
  apply bind_Done_inv in Hrun as ([] & st1 & H1 & Hrun).
  apply guard_Done_inv in Hrun as [_ Hrun].
  apply bind_Done_inv in Hrun as ([] & st2 & H2 & Hrun).
  apply bind_Done_inv in Hrun as ([] & st3 & H3 & Hrun).
  injection Hrun as <-.
  assert (Hlater : forall s, is_Some (get_own k s) ->
            forall s', forEach (filter (fun e => el_type e = Radio /\ el_checked e = true)
                                       (elements f)) (record_radio opts) s = Done tt s' ->
            is_Some (get_own k s')).
  { intros s Hs s' Hs'.
    eapply (forEach_Done (fun s => is_Some (get_own k s))); [|exact Hs|exact Hs'].
    intros r t t' _ Ht Hstep.
    destruct (record_radio_keys opts r t t' Hstep) as [-> | Hg]; [done|].
    apply Hg. by right. }
  split.
  - intros Hk. apply (set_keys "_custom" _ _ k) in Hk as [-> | Hk]; [by left|].
    clear Hlater. revert k Hk.
    assert (Ho1 : forall k, is_Some (get_own k st1) -> stored_key opts f k).
    { eapply (forEach_Done (fun s => forall k, is_Some (get_own k s) -> stored_key opts f k));
        [| |exact H1].
      - intros [key v] s s' Hin Hs Hstep k Hk.
        destruct (collect_entry_keys opts key v s s' Hstep) as [[_ ->] | [Hex Hg]];
          [by apply Hs|].
        apply Hg in Hk as [-> | Hk]; [|by apply Hs].
        right. right. split; [done|]. left. by exists v.
      - intros k [x Hx]. discriminate. }
    assert (Ho2 : forall k, is_Some (get_own k st2) -> stored_key opts f k).
    { eapply (forEach_Done (fun s => forall k, is_Some (get_own k s) -> stored_key opts f k));
        [|exact Ho1|exact H2].
      intros cb s s' Hin Hs Hstep k Hk.
      destruct (track_unchecked_grows cb s s' Hstep) as [-> | (Hex & Hc & Hg)];
        [by apply Hs|].
      apply Hg in Hk as [-> | Hk]; [|by apply Hs].
      apply list_elem_of_filter in Hin as [Ht Hin].
      right. left. split; [done|]. by exists cb. }
    eapply (forEach_Done (fun s => forall k, is_Some (get_own k s) -> stored_key opts f k));
      [|exact Ho2|exact H3].
    intros r s s' Hin Hs Hstep k Hk.
    destruct (record_radio_grows r s s' Hstep) as [-> | (Hex & Hp & Hg)]; [by apply Hs|].
    apply Hg in Hk as [-> | Hk]; [|by apply Hs].
    apply list_elem_of_filter in Hin as [[Ht Hc] Hin].
    right. right. split; [done|]. right. split; [by exists r | done].
  - intros [-> | [[-> (cb & Hin & Ht & Hc & Hex)] | [Hex [[v Hv] | [(r & Hin & Ht & Hc & Hn) Hp]]]]].
    + apply (set_keys "_custom"). by left.
    + apply (set_keys "_custom"). right. apply (Hlater st2); [|done].
      destruct (forEach_visits (fun _ => True)
                  (fun (x : DOM.element) s =>
                     excluded opts (DOM.name x) = false -> el_checked x = false ->
                     is_Some (get_own "_unchecked" s))
                  (filter (fun e => el_type e = Checkbox) (elements f))
                  (track_unchecked opts)) with (s := st1) (s' := st2)
        as [_ Hall]; [| |done|exact H2|].
      * intros x s s' _ _ Hstep. split; [done|]. intros Hx Hxc.
        revert Hstep. rewrite (track_unchecked_unfold opts x s Hx Hxc). cbv zeta.
        destruct (JS.get "_unchecked" _); try done.
        intros [= <-]. rewrite get_own_set. by rewrite String.eqb_refl.
      * intros x y s s' _ _ HP Hstep Hx Hxc.
        destruct (track_unchecked_keys opts y s s' Hstep) as [-> | Hg]; [by apply HP|].
        apply Hg. by left.
      * apply (Hall cb); [|done..]. by apply list_elem_of_filter.
    + by apply (proj2 (extractFormState_keys opts f _
                         ltac:(unfold extractFormState; by rewrite Hpasses)) k v).
    + apply (set_keys "_custom"). right. subst k.
      destruct (forEach_visits (fun _ => True)
                  (fun (x : DOM.element) s =>
                     excluded opts (DOM.name x) = false -> DOM.name x <> "__proto__" ->
                     is_Some (get_own (DOM.name x) s))
                  (filter (fun e => el_type e = Radio /\ el_checked e = true) (elements f))
                  (record_radio opts)) with (s := st2) (s' := st3)
        as [_ Hall]; [| |done|exact H3|].
      * intros x s s' _ _ Hstep. split; [done|]. intros Hx Hxp.
        revert Hstep. unfold record_radio. rewrite Hx.
        apply String.eqb_neq in Hxp. rewrite Hxp.
        intros [= <-]. rewrite get_own_set. by rewrite String.eqb_refl.
      * intros x y s s' _ _ HP Hstep Hx Hxp.
        destruct (record_radio_keys opts y s s' Hstep) as [-> | Hg]; [by apply HP|].
        apply Hg. right. by apply HP.
      * apply (Hall r); [|done..]. by apply list_elem_of_filter.
Qed.

End KeySet.

Section Arrival.
Import JS JSON DOM Run FreeformStateManager Payload Stored Shape Invariants Rerender Capture
       Registry Transition.

Lemma akin_blank (l1 l2 : list DOM.element) :
  Forall2 akin l1 l2 -> map blank l2 = map blank l1.
Proof. induction 1 as [|x y l1 l2 Hxy _ IH]; cbn [map]; [done|]. by rewrite Hxy, IH. Qed.

Variables (opts : Options) (f g : form) (formId key text url : string) (node : nat)
          (t0 : Z) (st st' : props) (w2 : world).
Hypothesis Hready : roundtrip_ready f = true.
Hypothesis Hst : extractFormState opts f = Returns st.
Hypothesis Hst' : reread (VObj st) = Some (VObj st').
Hypothesis Hparse : JSON.parse text = JSON.Value (envelope (VObj st') t0 url).
Hypothesis Hauto : autoRestore (options w2) = true.
Hypothesis Hprefix : storagePrefix (options w2) +:+ formId = key.
Hypothesis Hkeyg : form_key w2 g = Some formId.
Hypothesis Hrerendered : rerendered f g.
Hypothesis Hage : now w2 - t0 <= maxAge.
Hypothesis Hformname : form_name g <> "querySelectorAll".
Hypothesis Hothers : "querySelectorAll" ∉ other_names (document w2).
Hypothesis Hotherids : "querySelectorAll" ∉ other_ids (document w2).

(** The key of a form depends on its attributes, on the names of its
    controls and on the ids on the page. *)
Lemma form_key_carried (w' : world) (h : form) :
  other_ids (document w') = other_ids (document w2) ->
  rerendered f h -> form_attrs h = form_attrs g ->
  form_key w' h = Some formId.
Proof.
  intros Hids Hreh Hattr. rewrite <- Hkeyg.
  assert (Hnames : forall n, overridden n h = overridden n g).
  { intros n. apply overridden_layout.
    rewrite (akin_layout f h (rerendered_akin f h Hreh)).
    symmetry. apply (akin_layout f g (rerendered_akin f g Hrerendered)). }
  unfold form_key, shadowed. rewrite Hids, !Hnames.
  unfold form_attrs in Hattr. injection Hattr as -> -> _ _. reflexivity.
Qed.

(** While the page is discovered no element stands for
    [document.querySelectorAll]. *)
Lemma arriving_document (b : bool) (w' : world) :
  arriving opts f g formId key text node w2 b w' ->
  Discovery.document_keeps "querySelectorAll" w'.
Proof.
  intros (_ & _ & Hpage & Hids & Hnames & _ & _ & h & Hh & (_ & Hattr & _) & _).
  split; [|by rewrite Hnames, Hids].
  unfold attached. rewrite Hpage. cbn [omap list_omap]. rewrite Hh. cbn [existsb].
  unfold form_attrs in Hattr. injection Hattr as _ -> _ _.
  rewrite orb_false_r. by apply String.eqb_neq.
Qed.

Lemma registerForm_arrives (b : bool) (w' : world) :
  arriving opts f g formId key text node w2 b w' ->
  exists w'', registerForm node w' = Done tt w'' /\
              arriving opts f g formId key text node w2 true w''.
Proof.
  intros (Hopt & Hnow & Hpage & Hids & Hnames & Hstore & Hforms & h & Hh
          & (Hreh & Hattr & Hunc) & Hres).
  destruct (snapshot_transfers opts f h Hready Hreh)
    as (st1 & st1' & g' & Hst1 & Hst1' & Happly & Hfields).
  assert (st1 = st) as -> by congruence.
  assert (st1' = st') as -> by congruence.
  unfold registerForm. rewrite get_state_bind, Hh.
  rewrite (form_key_carried w' h Hids Hreh Hattr), Hopt, Hprefix, Hauto.
  erewrite bind_run by reflexivity.
  set (w1 := set_forms (<[formId := mkFormData node key None]> (forms w')) w').
  assert (Hfd : forms w1 !! formId = Some (mkFormData node key None))
    by apply lookup_insert_eq.
  unfold envelope in Hparse.
  rewrite (restoreFormState_parsed w1 formId (mkFormData node key None) text _ t0
             Hfd Hstore Hparse eq_refl).
  change (JS.get "state" _) with (VObj st').
  rewrite bool_decide_eq_false_2 by (change (now w1) with (now w'); lia).
  unfold try_catch, on_node. cbn [element].
  change (nodes (document w1)) with (nodes (document w')).
  rewrite Hh, Happly.
  eexists. split; [reflexivity|].
  split; [exact Hopt|]. split; [exact Hnow|]. split; [exact Hpage|].
  split; [exact Hids|]. split; [exact Hnames|]. split; [exact Hstore|]. split.
  { cbn [set_document forms]. subst w1. cbn [set_forms forms]. rewrite Hforms.
    destruct b; [apply insert_singleton_eq | apply insert_empty]. }
  exists g'. split; [apply lookup_insert_eq|].
  pose proof (applyFormState_markup st' h) as Hmark. unfold kept in Hmark.
  rewrite Happly in Hmark.
  pose proof (keeps_applyFormState (VObj st') h) as Hkeep. rewrite Happly in Hkeep.
  assert (Honto : restored_onto opts f g g').
  { intros i e_f e_g Hf Hg.
    destruct (Forall2_lookup_l _ _ _ _ _ (rerendered_akin f h Hreh) Hf) as (e_h & Hhi & _).
    destruct (Hfields i e_f e_h Hf Hhi) as (e' & He' & Hfs).
    exists e'. split; [done|]. rewrite Hfs.
    destruct (captured opts f e_f) eqn:Hcap; [done|].
    destruct (Hunc i e_f e_g Hf Hg Hcap) as (x & Hx & Hxg). congruence. }
  split; [|done].
  split; [|split].
  - unfold rerendered. rewrite (akin_blank _ _ Hmark). exact Hreh.
  - unfold same_form in Hkeep. congruence.
  - intros i e_f e_g Hf Hg Hcap. destruct (Honto i e_f e_g Hf Hg) as (e' & He' & Hfs).
    exists e'. split; [done|]. by rewrite Hcap in Hfs.
Qed.

Lemma selector_arrives (selector : form -> bool) (b : bool) (w' : world) :
  selector ∈ selectors ->
  arriving opts f g formId key text node w2 b w' ->
  exists w'',
    (document_method "querySelectorAll";;
     w ← get_state;
     forEach (filter (fun node => from_option selector false (nodes (document w) !! node)
                                  = true) (page (document w)))
             registerForm) w' = Done tt w'' /\
    arriving opts f g formId key text node w2 (b || selector g) w''.
Proof.
  intros Hsel Harr.
  rewrite (bind_run _ _ _ _ _ (document_method_keeps _ _ (arriving_document b w' Harr))).
  rewrite get_state_bind.
  pose proof Harr as (_ & _ & Hpage & _ & _ & _ & _ & h & Hh & (_ & Hattr & _) & _).
  rewrite Hpage, filter_cons, filter_nil, Hh. cbn [from_option].
  rewrite (selector_attrs selector g h Hsel Hattr).
  destruct (selector g); destruct (decide _) as [Hy|Hn]; try done.
  - destruct (registerForm_arrives b w' Harr) as (w'' & Hreg & Harr').
    exists w''. split; [|rewrite orb_true_r; exact Harr'].
    cbn [forEach]. unfold bind. rewrite Hreg. reflexivity.
  - exists w'. split; [done|]. by rewrite orb_false_r.
Qed.

Lemma discover_arrives (some : list (form -> bool)) :
  (forall selector, selector ∈ some -> selector ∈ selectors) ->
  forall (b : bool) (w' : world),
    arriving opts f g formId key text node w2 b w' ->
    exists w'',
      forEach some (fun selector =>
        document_method "querySelectorAll";;
        w ← get_state;
        forEach (filter (fun node => from_option selector false
                                       (nodes (document w) !! node) = true)
                        (page (document w)))
                registerForm) w' = Done tt w'' /\
      arriving opts f g formId key text node w2
               (b || existsb (fun selector => selector g) some) w''.
Proof.
  induction some as [|selector rest IH]; intros Hin b w' Harr.
  - exists w'. split; [done|]. by rewrite orb_false_r.
  - destruct (selector_arrives selector b w' (Hin _ (list_elem_of_here _ _)) Harr)
      as (w1 & H1 & Harr1).
    destruct (IH (fun s Hs => Hin s (list_elem_of_further _ _ _ Hs)) _ w1 Harr1)
      as (w'' & H2 & Harr2).
    exists w''. split.
    + cbn [forEach]. unfold bind. rewrite H1. exact H2.
    + cbn [existsb]. by rewrite orb_assoc.
Qed.

End Arrival.

Section PageTransition.
Import JS JSON DOM Run FreeformStateManager Payload Stored Shape Invariants Rerender Capture
       Registry Transition.


End PageTransition.

(** ** The theorems at work on concrete pages *)
Section Witnesses.
Import JS JSON DOM Run FreeformStateManager Payload Stored Timers Burst Frames
  Registry Discovery.

Lemma saveFormState_stores_witness :
  exists (text : string) (st' : value) (w' : world),
    saveFormState "contact" Examples.upload_page = Done tt w' /\
    getStorage w' = <[Examples.contact_key := text]> (getStorage Examples.upload_page) /\
    document w' = document Examples.upload_page /\
    reread (VObj [("email", VStr "a@b.com");
                  ("cv", VFile (mkFileRef "cv.pdf" 1536 "application/pdf"));
                  ("_custom",
                   VObj [("cv_files",
                          VArr [file_info (mkFileRef "cv.pdf" 1536 "application/pdf")])])])
    = Some st' /\
    JSON.parse text
    = JSON.Value (envelope st' 5000 "https://example.org/contact").
Proof.
  apply (saveFormState_stores Examples.upload_page "contact"
           (mkFormData 0 Examples.contact_key None) Examples.upload_form);
    [reflexivity..|split; discriminate].
Defined.

Lemma restore_after_save_witness :
  exists (st' : value) (w' : world),
    saveFormState "contact" Examples.upload_page = Done tt w' /\
    reread (VObj [("email", VStr "a@b.com");
                  ("cv", VFile (mkFileRef "cv.pdf" 1536 "application/pdf"));
                  ("_custom",
                   VObj [("cv_files",
                          VArr [file_info (mkFileRef "cv.pdf" 1536 "application/pdf")])])])
    = Some st' /\
    forall t : Z,
      (t - 5000 <= maxAge ->
         restoreFormState "contact" (set_now t w')
         = try_catch (on_node 0 (applyFormState st')) (set_now t w')) /\
      (t - 5000 > maxAge ->
         exists w'', restoreFormState "contact" (set_now t w') = Done tt w'' /\
                     document w'' = document Examples.upload_page /\
                     getStorage w'' !! Examples.contact_key = None).
Proof.
  apply (restore_after_save Examples.upload_page "contact"
           (mkFormData 0 Examples.contact_key None) Examples.upload_form);
    [reflexivity..|split; discriminate].
Defined.

Lemma save_restore_roundtrip_witness :
  exists w1 : world,
    saveFormState "contact" Examples.upload_page = Done tt w1 /\
    forall t : Z, t - 5000 <= maxAge ->
      exists (w2 : world) (f' : form),
        restoreFormState "contact" (set_now t w1) = Done tt w2 /\
        nodes (document w2) !! 0%nat = Some f' /\
        map field_state (elements f') = map field_state (elements Examples.upload_form).
Proof.
  apply (save_restore_roundtrip Examples.upload_page "contact"
           (mkFormData 0 Examples.contact_key None) Examples.upload_form);
    [reflexivity..|split; discriminate].
Defined.

Lemma pending_page_ok : scheduler_ok Examples.pending_page.
Proof.
  split; [apply NoDup_singleton|]. split; [repeat constructor|]. split.
  - intros [|c] i; [|by destruct c]. intros [= <-]. constructor.
  - intros t c ->%list_elem_of_singleton. destruct c as [|c].
    + split; [done|]. intros _. by eexists.
    + split; [by intros (fid & [=])|]. by destruct c.
Qed.

Lemma executedFunction_coalesces_witness :
  exists w',
    executedFunction (mkDebounced 0 "contact" 500) Examples.pending_page = Done tt w' /\
    pending_of 0 w' = [mkTimer 1 1000500 (Later 0 "contact")] /\
    others_of 0 w' = others_of 0 Examples.pending_page /\
    getStorage w' = getStorage Examples.pending_page /\
    scheduler_ok w'.
Proof.
  apply (executedFunction_coalesces (mkDebounced 0 "contact" 500) Examples.pending_page).
  - exact pending_page_ok.
  - constructor.
Defined.

Lemma debounced_burst_witness :
  exists (w1 : world) (i : nat),
    burst (mkDebounced 0 "contact" 500) [1000000; 1000100; 1000200] Examples.debounced_page
    = Done tt w1 /\
    timers (scheduler w1) = [mkTimer i 1000700 (Later 0 "contact")] /\
    getStorage w1 = getStorage Examples.debounced_page /\
    setItem_log w1 = setItem_log Examples.debounced_page /\
    advance 1002000 w1
    = (try_catch (saveFormState "contact");;
       modify (fun w' => set_now (Z.max (now w') 1002000) w'))
        (at_delayed_call (mkDebounced 0 "contact" 500) 1000200 w1).
Proof.
  apply (debounced_burst (mkDebounced 0 "contact" 500) Examples.debounced_page
           1000000 [1000100; 1000200] 1002000).
  - reflexivity.
  - constructor.
  - discriminate.
  - reflexivity.
  - discriminate.
Defined.

Lemma saveAll_stops_at_throw_witness :
  saveAll ["survey"; "contact"] Examples.two_forms_page = Raised Examples.two_forms_page.
Proof.
  apply (saveAll_stops_at_throw Examples.two_forms_page Examples.two_forms_page
           [] ["contact"] "survey" (mkFormData 0 "freeform_state_survey" None)
           Examples.reserved_name_form); reflexivity.
Defined.

Lemma clear_all_witness :
  exists w',
    clear ["contact"] VUndefined (Examples.saved_page default_options) = Done tt w' /\
    (forall id fd, forms (Examples.saved_page default_options) !! id = Some fd ->
                   getStorage w' !! storageKey fd = None) /\
    (forall key,
       (forall id fd, forms (Examples.saved_page default_options) !! id = Some fd ->
                      storageKey fd <> key) ->
       getStorage w' !! key = getStorage (Examples.saved_page default_options) !! key) /\
    document w' = document (Examples.saved_page default_options) /\
    forms w' = forms (Examples.saved_page default_options) /\
    scheduler w' = scheduler (Examples.saved_page default_options).
Proof.
  apply (clear_all ["contact"] VUndefined (Examples.saved_page default_options)).
  - reflexivity.
  - intros id. split.
    + intros ->%list_elem_of_singleton. by eexists.
    + intros [fd Hfd]. destruct (decide (id = "contact")) as [->|Hne]; [by left|].
      cbn in Hfd. by rewrite lookup_singleton_ne in Hfd.
Defined.

Lemma restoreFormState_no_timestamp_witness :
  restoreFormState "contact" Examples.undated_page
  = try_catch (on_node 0 (applyFormState (VObj [("email", VStr "zz")])))
              Examples.undated_page.
Proof.
  apply (restoreFormState_no_timestamp Examples.undated_page "contact"
           (mkFormData 0 Examples.contact_key None)
           (default EmptyString
              (JSON.stringify (VObj [("state", VObj [("email", VStr "zz")])])))
           [("state", VObj [("email", VStr "zz")])]); reflexivity.
Defined.

Lemma extractFormState_returns_witness :
  exists st, extractFormState default_options Examples.newsletter_form = Returns st.
Proof.
  apply (extractFormState_returns default_options Examples.newsletter_form); reflexivity.
Defined.

Lemma formatFileSize_bytes_witness : FileSize.formatFileSize 512 = "512 Bytes".
Proof. apply (formatFileSize_bytes 512). lia. Defined.




Lemma applyFormState_idempotent_witness :
  exists f2,
    applyFormState
      (VObj [("email", VStr "a@b.com"); ("newsletter", VArr [VStr "x"; VStr "y"]);
             ("plan", VStr "pro"); ("_unchecked", VArr [VStr "subscribe"]);
             ("_custom", VObj [])])
      Examples.newsletter_form = Done tt f2 /\
    map field_state (elements f2) = map field_state (elements Examples.newsletter_form).
Proof.
  apply (applyFormState_idempotent
           (VObj [("email", VStr "a@b.com"); ("newsletter", VArr [VStr "x"; VStr "y"]);
                  ("plan", VStr "pro"); ("_unchecked", VArr [VStr "subscribe"]);
                  ("_custom", VObj [])])
           Examples.blank_newsletter_form Examples.newsletter_form).
  reflexivity.
Defined.

Lemma file_notice_survives_witness :
  exists w1 : world,
    saveFormState "contact" Examples.upload_page = Done tt w1 /\
    forall (w2 : world) (fd2 : formData) (g : form),
      forms w2 !! "contact" = Some fd2 ->
      getStorage w2 !! storageKey fd2 = getStorage w1 !! Examples.contact_key ->
      nodes (document w2) !! element fd2 = Some g ->
      Rerender.rerendered Examples.upload_form g ->
      now w2 - 5000 <= maxAge ->
      exists (w3 : world) (g' : form),
        restoreFormState "contact" w2 = Done tt w3 /\
        nodes (document w3) !! element fd2 = Some g' /\
        Widgets.shows
          (Widgets.notice_of (el_files WidgetExamples.cv_input)) 1 g'.
Proof.
  apply (file_notice_survives Examples.upload_page "contact"
           (mkFormData 0 Examples.contact_key None) Examples.upload_form
           1%nat WidgetExamples.cv_input 0%nat (mkWidget FileUploaderInput false) "cv");
    try reflexivity.
  - split; discriminate.
  - intros [|[|j]] x Hj Hx; [|reflexivity|discriminate].
    cbn in Hj. injection Hj as <-. discriminate.
  - discriminate.
Defined.

Lemma open_select_survives_witness :
  exists w1 : world,
    saveFormState "contact"
      (Examples.page_with default_options 5000 WidgetExamples.tags_form None) = Done tt w1 /\
    forall (w2 : world) (fd2 : formData) (g : form),
      forms w2 !! "contact" = Some fd2 ->
      getStorage w2 !! storageKey fd2 = getStorage w1 !! Examples.contact_key ->
      nodes (document w2) !! element fd2 = Some g ->
      Rerender.rerendered WidgetExamples.tags_form g ->
      Selects.same_widgets WidgetExamples.tags_form g ->
      now w2 - 5000 <= maxAge ->
      exists (w3 : world) (g' : form),
        restoreFormState "contact" w2 = Done tt w3 /\
        nodes (document w3) !! element fd2 = Some g' /\
        Selects.open_at 0 g'.
Proof.
  apply (open_select_survives
           (Examples.page_with default_options 5000 WidgetExamples.tags_form None) "contact"
           (mkFormData 0 Examples.contact_key None) WidgetExamples.tags_form
           0%nat (mkWidget SelectMultipleWidget true) 0%nat
           (mkElement (Input "hidden") (Some "tags") "a,b" false [] [] (Some 0%nat) None)
           "tags");
    try reflexivity.
  split; discriminate.
Defined.

Lemma excluded_upload_is_recorded_witness :
  exists st custom : props,
    extractFormState WidgetExamples.private_options Examples.upload_form = Returns st /\
    get_own "_custom" st = Some (VObj custom) /\
    get_own ("cv" +:+ "_files") custom
    = Some (VArr (map file_info (el_files WidgetExamples.cv_input))).
Proof.
  apply (excluded_upload_is_recorded WidgetExamples.private_options Examples.upload_form
           0%nat (mkWidget FileUploaderInput false) 1%nat WidgetExamples.cv_input "cv");
    try reflexivity.
  discriminate.
Defined.

Lemma snapshot_keys_witness :
  exists st : props,
    extractFormState default_options Examples.newsletter_form = Returns st /\
    (is_Some (get_own "_unchecked" st)
     <-> Keys.stored_key default_options Examples.newsletter_form "_unchecked").
Proof.
  eexists. split; [reflexivity|].
  apply (snapshot_keys default_options Examples.newsletter_form _ "_unchecked").
  reflexivity.
Defined.


End Witnesses.

